(** * MIFARE DESFire client core (client/src/mifare/desfirecore.c)

    A shallow embedding of the command-exchange layer, the select /
    authenticate / change-key commands and the file-settings decoder of
    [desfirecore.c], together with the properties of the specification that
    are settled against it, and of the command wrappers, the ISO 7816
    commands and the entry points that select and authenticate, with
    further properties of the code (X1, X2, ...).

    Conventions.
    - A [uint8_t] is a [Z] in [0, 256); a [uint32_t] is a [Z] with its
      wrap-around written out ([u32]); byte arrays are [list Z].
    - Out-parameters of the C functions are returned as record fields.  An
      in/out parameter is passed in with its current value.
    - The radio transport is a mock: a finite script of canned card replies
      that also logs what was transmitted.
    - A list that stands for an array is as long as the array.  [memcpy]
      extends a list where the C call writes past the end of the array; the
      function that owns the array then has no result ([None]), as the C
      program has no defined behaviour from there on.
    - Collaborators that live in other translation units (the secure-channel
      codec, the block ciphers, the CRCs, the APDU encoder) are interfaces
      ([Class]es); every general theorem holds for all their instances. *)

From Stdlib Require Import String ZArith List Bool Lia.
Import ListNotations.
Local Open Scope Z_scope.

(* ===================================================================== *)
(** * Part I.  Definitions                                                *)
(* ===================================================================== *)

(** ** Machine integers and byte buffers *)

Definition u8 (x : Z) : Z := Z.land x 0xff.
Definition u16 (x : Z) : Z := Z.land x 0xffff.
Definition u32 (x : Z) : Z := x mod 0x100000000.

Definition zlen {A : Type} (l : list A) : Z := Z.of_nat (length l).
(** The first [n] elements, and what follows them.  The count is clipped to
    the length of the list before it is converted, so that a wrapped
    [uint32_t] length does not have to be counted out in unary. *)
Definition ztake {A : Type} (n : Z) (l : list A) : list A :=
  firstn (Z.to_nat (Z.min n (zlen l))) l.
Definition zdrop {A : Type} (n : Z) (l : list A) : list A :=
  skipn (Z.to_nat (Z.min n (zlen l))) l.

(** [buf[i]]; a read outside the list yields 0 (the arrays involved are
    zero-initialised in the callers). *)
Definition zget (buf : list Z) (i : Z) : Z :=
  if i <? 0 then 0 else nth (Z.to_nat i) buf 0.

(** [&buf[pos]] restricted to [len] bytes. *)
Definition slice (buf : list Z) (pos len : Z) : list Z := ztake len (zdrop pos buf).

Definition zeros (n : Z) : list Z := repeat 0 (Z.to_nat n).

(** [memcpy(&dst[pos], src, |src|)].  The list grows where the call writes
    past the end of [dst]: a list longer than the array it stands for records
    such a write, and the owner of the array checks for it ([fits]). *)
Definition memcpy (dst : list Z) (pos : Z) (src : list Z) : list Z :=
  ztake pos (dst ++ zeros (pos - zlen dst)) ++ src ++ zdrop (pos + zlen src) dst.

(** [buf[pos] = v]. *)
Definition poke (buf : list Z) (pos : Z) (v : Z) : list Z := memcpy buf pos [v].

(** [memset(&buf[pos], v, n)]. *)
Definition memset (buf : list Z) (pos : Z) (v : Z) (n : Z) : list Z :=
  memcpy buf pos (repeat v (Z.to_nat n)).

(** [buf] stands for an array of [size] bytes and has not been written
    past its end. *)
Definition fits (size : Z) (buf : list Z) : bool := zlen buf <=? size.

(** [memmove(&buf[0], &buf[1], n)] in an array of [size] bytes, of which
    [buf] lists the bytes in use.  The call reads the [n] bytes from
    [&buf[1]] on: when they do not all lie in the array it has no defined
    result ([None]; with a length that has wrapped around the process
    dies). *)
Definition memmove_down1 (buf : list Z) (n size : Z) : option (list Z) :=
  if 1 + n <=? size then Some (memcpy buf 0 (slice buf 1 n)) else None.

Fixpoint bin_xor (d1 d2 : list Z) : list Z :=
  match d1, d2 with
  | x :: d1', y :: d2' => Z.lxor x y :: bin_xor d1' d2'
  | _, _ => d1
  end.

(** [rol(data, len)]: rotate a byte string left by one byte. *)
Definition rol (data : list Z) : list Z :=
  match data with
  | [] => []
  | x :: rest => rest ++ [x]
  end.

Definition MemLeToUint2byte (d : list Z) : Z :=
  zget d 0 + Z.shiftl (zget d 1) 8.
Definition MemLeToUint3byte (d : list Z) : Z :=
  zget d 0 + Z.shiftl (zget d 1) 8 + Z.shiftl (zget d 2) 16.
Definition MemLeToUint4byte (d : list Z) : Z :=
  zget d 0 + Z.shiftl (zget d 1) 8 + Z.shiftl (zget d 2) 16 + Z.shiftl (zget d 3) 24.

(** ** Constants of the headers (pm3_cmd.h, protocols.h, desfirecore.h) *)

Definition PM3_SUCCESS : Z := 0.
Definition PM3_EINVARG : Z := -2.
Definition PM3_ETIMEOUT : Z := -4.
Definition PM3_ESOFT : Z := -10.
Definition PM3_ECARDEXCHANGE : Z := -18.
Definition PM3_EAPDU_ENCODEFAIL : Z := -19.
Definition PM3_EAPDU_FAIL : Z := -20.

Definition MFDES_S_OPERATION_OK : Z := 0x00.
Definition MFDES_S_NO_CHANGES : Z := 0x0C.
Definition MFDES_S_SIGNATURE : Z := 0x90.
Definition MFDES_S_ADDITIONAL_FRAME : Z := 0xAF.
Definition MFDES_ADDITIONAL_FRAME : Z := 0xAF.

Definition MFDES_AUTHENTICATE : Z := 0x0A.
Definition MFDES_AUTHENTICATE_ISO : Z := 0x1A.
Definition MFDES_AUTHENTICATE_AES : Z := 0xAA.
Definition MFDES_AUTHENTICATE_EV2F : Z := 0x71.
Definition MFDES_AUTHENTICATE_EV2NF : Z := 0x77.
Definition MFDES_SELECT_APPLICATION : Z := 0x5A.
Definition MFDES_CHANGE_KEY : Z := 0xC4.
Definition MFDES_NATIVE_ISO7816_WRAP_CLA : Z := 0x90.

Definition DESFIRE_GET_ISO_STATUS (x : Z) : Z := Z.lor 0x9100 x.
Definition APDU_INCLUDE_LE_00 : Z := 0x100.
Definition DESFIRE_MAX_KEY_SIZE : Z := 24.
Definition CRYPTO_AES_BLOCK_SIZE : Z := 16.

(** [sizeof(buf)] for [uint8_t buf[255 * 5]] in the exchange functions. *)
Definition EXCHANGE_BUF_SIZE : Z := 255 * 5.

(** [sizeof(cdata)] for [uint8_t cdata[1024]] in [DesfireExchangeNative]. *)
Definition CDATA_SIZE : Z := 1024.

(** ** Enumerations *)

Inductive DesfireCryptoAlgorythm := T_DES | T_3DES | T_3K3DES | T_AES.
Inductive DesfireSecureChannel := DACNone | DACd40 | DACEV1 | DACEV2.
Inductive DesfireCommandSet := DCCNative | DCCNativeISO | DCCISO.
Inductive DesfireCommunicationMode := DCMPlain | DCMMACed | DCMEncrypted.
Inductive DesfireKDFAlgo := MFDES_KDF_ALGO_NONE | MFDES_KDF_ALGO_AN10922 | MFDES_KDF_ALGO_GALLAGHER.

Definition algo_eqb (a b : DesfireCryptoAlgorythm) : bool :=
  match a, b with
  | T_DES, T_DES | T_3DES, T_3DES | T_3K3DES, T_3K3DES | T_AES, T_AES => true
  | _, _ => false
  end.

Definition chan_eqb (a b : DesfireSecureChannel) : bool :=
  match a, b with
  | DACNone, DACNone | DACd40, DACd40 | DACEV1, DACEV1 | DACEV2, DACEV2 => true
  | _, _ => false
  end.

(** Modelled from the spec: [desfire_get_key_length] (desfire_crypto.c is
    not part of the sources); key lengths 8, 16, 24, 16 for DES, 2TDEA,
    3TDEA, AES. *)
Definition desfire_get_key_length (t : DesfireCryptoAlgorythm) : Z :=
  match t with
  | T_DES => 8
  | T_3DES => 16
  | T_3K3DES => 24
  | T_AES => 16
  end.

(** ** The session context *)

(** The fields of [DesfireContext] that desfirecore.c reads or writes. *)
Record DesfireContext := mkDesfireContext {
  keyNum : Z;
  keyType : DesfireCryptoAlgorythm;
  key : list Z;
  kdfAlgo : DesfireKDFAlgo;
  kdfInputLen : Z;
  kdfInput : list Z;
  secureChannel : DesfireSecureChannel;
  cmdSet : DesfireCommandSet;
  commMode : DesfireCommunicationMode;
  appSelected : bool;
  IV : list Z;
  sessionKeyMAC : list Z;
  sessionKeyEnc : list Z;
  TI : list Z;
  cmdCntr : Z
}.

Definition set_secureChannel (v : DesfireSecureChannel) (c : DesfireContext) : DesfireContext :=
  mkDesfireContext (keyNum c) (keyType c) (key c) (kdfAlgo c) (kdfInputLen c) (kdfInput c)
    v (cmdSet c) (commMode c) (appSelected c) (IV c) (sessionKeyMAC c) (sessionKeyEnc c)
    (TI c) (cmdCntr c).

Definition set_appSelected (v : bool) (c : DesfireContext) : DesfireContext :=
  mkDesfireContext (keyNum c) (keyType c) (key c) (kdfAlgo c) (kdfInputLen c) (kdfInput c)
    (secureChannel c) (cmdSet c) (commMode c) v (IV c) (sessionKeyMAC c) (sessionKeyEnc c)
    (TI c) (cmdCntr c).

Definition set_kdfInputLen (v : Z) (c : DesfireContext) : DesfireContext :=
  mkDesfireContext (keyNum c) (keyType c) (key c) (kdfAlgo c) v (kdfInput c)
    (secureChannel c) (cmdSet c) (commMode c) (appSelected c) (IV c) (sessionKeyMAC c)
    (sessionKeyEnc c) (TI c) (cmdCntr c).

Definition set_IV (v : list Z) (c : DesfireContext) : DesfireContext :=
  mkDesfireContext (keyNum c) (keyType c) (key c) (kdfAlgo c) (kdfInputLen c) (kdfInput c)
    (secureChannel c) (cmdSet c) (commMode c) (appSelected c) v (sessionKeyMAC c)
    (sessionKeyEnc c) (TI c) (cmdCntr c).

Definition set_sessionKeyMAC (v : list Z) (c : DesfireContext) : DesfireContext :=
  mkDesfireContext (keyNum c) (keyType c) (key c) (kdfAlgo c) (kdfInputLen c) (kdfInput c)
    (secureChannel c) (cmdSet c) (commMode c) (appSelected c) (IV c) v (sessionKeyEnc c)
    (TI c) (cmdCntr c).

Definition set_sessionKeyEnc (v : list Z) (c : DesfireContext) : DesfireContext :=
  mkDesfireContext (keyNum c) (keyType c) (key c) (kdfAlgo c) (kdfInputLen c) (kdfInput c)
    (secureChannel c) (cmdSet c) (commMode c) (appSelected c) (IV c) (sessionKeyMAC c) v
    (TI c) (cmdCntr c).

Definition set_TI (v : list Z) (c : DesfireContext) : DesfireContext :=
  mkDesfireContext (keyNum c) (keyType c) (key c) (kdfAlgo c) (kdfInputLen c) (kdfInput c)
    (secureChannel c) (cmdSet c) (commMode c) (appSelected c) (IV c) (sessionKeyMAC c)
    (sessionKeyEnc c) v (cmdCntr c).

Definition set_cmdCntr (v : Z) (c : DesfireContext) : DesfireContext :=
  mkDesfireContext (keyNum c) (keyType c) (key c) (kdfAlgo c) (kdfInputLen c) (kdfInput c)
    (secureChannel c) (cmdSet c) (commMode c) (appSelected c) (IV c) (sessionKeyMAC c)
    (sessionKeyEnc c) (TI c) v.

(** Modelled from the spec: [DesfireClearSession] (desfire_crypto.c is not
    part of the sources).  The session becomes unauthenticated, the two
    session keys are zeroed and the IV returns to its initial all-zero
    value; the long-term key, its number and the channel configuration are
    kept. *)
Definition DesfireClearSession (c : DesfireContext) : DesfireContext :=
  set_sessionKeyEnc (zeros DESFIRE_MAX_KEY_SIZE)
    (set_sessionKeyMAC (zeros DESFIRE_MAX_KEY_SIZE)
      (set_IV (zeros DESFIRE_MAX_KEY_SIZE)
        (set_secureChannel DACNone c))).

(** Modelled from the spec: [DesfireClearIV] (desfire_crypto.c); the IV
    returns to all zeroes. *)
Definition DesfireClearIV (c : DesfireContext) : DesfireContext :=
  set_IV (zeros DESFIRE_MAX_KEY_SIZE) c.

(** Modelled from the spec: [DesfireIsAuthenticated] (desfire_crypto.c);
    a session exists iff the secure-channel variant is not None. *)
Definition DesfireIsAuthenticated (c : DesfireContext) : bool :=
  negb (chan_eqb (secureChannel c) DACNone).

(** ** The transport (mock) *)

Record Reply := mkReply { r_res : Z; r_data : list Z }.

Inductive Event :=
| EvDropField
| EvSleep (ms : Z)
| EvRaw (activate_field : bool) (frame : list Z)
| EvApdu (activate_field : bool) (frame : list Z).

Record Transport := mkTransport { replies : list Reply; events : list Event }.

Definition log (e : Event) (t : Transport) : Transport :=
  mkTransport (replies t) (events t ++ [e]).

Definition DropField (t : Transport) : Transport := log EvDropField t.
Definition msleep (ms : Z) (t : Transport) : Transport := log (EvSleep ms) t.

(** Pop the next canned reply; an exhausted script is a card that does not
    answer, and an exchange that fails delivers no bytes. *)
Definition next_reply (max_result_len : Z) (t : Transport) : Transport * (Z * list Z) :=
  match replies t with
  | [] => (t, (PM3_ETIMEOUT, []))
  | r :: rs =>
    (mkTransport rs (events t),
     (r_res r, if r_res r =? PM3_SUCCESS then ztake max_result_len (r_data r) else []))
  end.

(** Modelled from the spec: the transport's raw exchange (cmdhf14a.c):
    send the frame, receive up to [max_result_len] bytes, return a
    transport-level result code. *)
Definition ExchangeRAW14a (data : list Z) (activate_field : bool) (max_result_len : Z)
  (t : Transport) : Transport * (Z * list Z) :=
  next_reply max_result_len (log (EvRaw activate_field data) t).

(** Modelled from the spec: the transport's APDU exchange (cmdhf14a.c). *)
Definition ExchangeAPDU14a (data : list Z) (activate_field : bool) (max_result_len : Z)
  (t : Transport) : Transport * (Z * list Z) :=
  next_reply max_result_len (log (EvApdu activate_field data) t).

(** The raw frames handed to the transport, oldest first. *)
Fixpoint raw_frames (evs : list Event) : list (list Z) :=
  match evs with
  | [] => []
  | EvRaw _ f :: evs' => f :: raw_frames evs'
  | _ :: evs' => raw_frames evs'
  end.

(** ** DESFIRESendRaw *)

Record RawResult := mkRawResult {
  raw_res : Z;            (* return value *)
  raw_result : list Z;    (* the [result] buffer *)
  raw_result_len : Z;     (* [*result_len] *)
  raw_respcode : Z        (* [*respcode] *)
}.

Definition is_success_status (rcode : Z) : bool :=
  (rcode =? MFDES_S_OPERATION_OK) || (rcode =? MFDES_S_SIGNATURE) ||
  (rcode =? MFDES_S_ADDITIONAL_FRAME) || (rcode =? MFDES_S_NO_CHANGES).

(** [*result_len -= 1 + 2] on a [uint32_t] that holds [received]. *)
Definition stripped_len (received : Z) : Z := u32 (received - (1 + 2)).

(** [result] points to an array of [max_result_len] bytes (the callers pass
    its size).  [None]: the [memmove] runs past that array, which it does
    when the answer has one or two bytes and the length has wrapped
    around. *)
Definition DESFIRESendRaw (activate_field : bool) (data : list Z) (max_result_len : Z)
  (t : Transport) : option (Transport * RawResult) :=
  let t := if activate_field then msleep 50 (DropField t) else t in
  let '(t, (res, result)) := ExchangeRAW14a data activate_field max_result_len t in
  let result_len := zlen result in
  if negb (res =? PM3_SUCCESS) then Some (t, mkRawResult res result result_len 0xff)
  else if result_len <? 1 then Some (t, mkRawResult PM3_SUCCESS result result_len 0xff)
  else
    let result_len := stripped_len result_len in
    let rcode := zget result 0 in
    match memmove_down1 result result_len max_result_len with
    | None => None
    | Some result =>
      if negb (is_success_status rcode)
      then Some (t, mkRawResult PM3_EAPDU_FAIL result result_len rcode)
      else Some (t, mkRawResult PM3_SUCCESS result result_len rcode)
    end.

(** ** Interfaces of the other translation units *)

(** desfirecore.h: the per-frame payload limit (a macro that is not part of
    the sources). *)
Class FrameLimit := {
  DESFIRE_TX_FRAME_MAX_LEN : Z
}.

(** iso7816/apduinfo.h: [sAPDU]; [Lc] is a [uint8_t], [data] a pointer. *)
Record sAPDU := mkAPDU {
  CLA : Z; INS : Z; P1 : Z; P2 : Z; Lc : Z; apdu_data : list Z
}.

(** iso7816/apduinfo.c: [APDUEncodeS]; [None] is a non-zero return. *)
Class ApduEncoder := {
  APDUEncodeS : sAPDU -> bool -> Z -> option (list Z)
}.

(** desfiresecurechan.c: the secure-channel codec.  Both directions may
    update the context (IV, counters); the decoder's output is what it
    stores through [dstdata] / [dstdatalen]. *)
Class SecureChannelCodec := {
  DesfireSecureChannelEncode : DesfireContext -> Z -> list Z -> DesfireContext * list Z;
  DesfireSecureChannelDecode : DesfireContext -> list Z -> Z -> DesfireContext * list Z
}.

(** ** DESFIRESendApduEx *)

Record ApduResult := mkApduResult {
  apdu_res : Z;
  apdu_result : list Z;
  apdu_result_len : Z;
  apdu_sw : Z
}.

Definition is_success_sw (isw : Z) : bool :=
  (isw =? 0x9000) ||
  (isw =? DESFIRE_GET_ISO_STATUS MFDES_S_OPERATION_OK) ||
  (isw =? DESFIRE_GET_ISO_STATUS MFDES_S_SIGNATURE) ||
  (isw =? DESFIRE_GET_ISO_STATUS MFDES_S_ADDITIONAL_FRAME) ||
  (isw =? DESFIRE_GET_ISO_STATUS MFDES_S_NO_CHANGES).

Definition DESFIRESendApduEx `{ApduEncoder} (activate_field : bool) (apdu : sAPDU) (le : Z)
  (max_result_len : Z) (t : Transport) : Transport * ApduResult :=
  let t := if activate_field then msleep 50 (DropField t) else t in
  match APDUEncodeS apdu false le with
  | None => (t, mkApduResult PM3_EAPDU_ENCODEFAIL [] 0 0)
  | Some data =>
    let '(t, (res, result)) := ExchangeAPDU14a data activate_field max_result_len t in
    let result_len := zlen result in
    if negb (res =? PM3_SUCCESS) then (t, mkApduResult res result result_len 0)
    else if result_len <? 2 then (t, mkApduResult PM3_SUCCESS result result_len 0)
    else
      let result_len := u32 (result_len - 2) in
      let isw := u16 (Z.shiftl (zget result result_len) 8 + zget result (result_len + 1)) in
      if negb (is_success_sw isw)
      then (t, mkApduResult PM3_EAPDU_FAIL result result_len isw)
      else (t, mkApduResult PM3_SUCCESS result result_len isw)
  end.

Definition DESFIRESendApdu `{ApduEncoder} (activate_field : bool) (apdu : sAPDU)
  (max_result_len : Z) (t : Transport) : Transport * ApduResult :=
  DESFIRESendApduEx activate_field apdu APDU_INCLUDE_LE_00 max_result_len t.

(** ** DesfireExchangeNative *)

Record ExchResult := mkExchResult {
  ex_res : Z;           (* return value *)
  ex_respcode : Z;      (* [*respcode] *)
  ex_resp : list Z;     (* the [resp] buffer *)
  ex_resplen : Z        (* [*resplen] *)
}.

(** How a loop of an exchange function ends: by [return res], or by leaving
    the loop with the last frame's [buf], [buflen] and status. *)
Inductive TxOutcome :=
| TxReturn (res : Z)
| TxBreak (buf : list Z) (buflen : Z) (status : Z).

(** The "tx chaining" loop of [DesfireExchangeNative].  Every iteration
    that continues has consumed one card reply, so the fuel
    [S (length (replies t))] given by the caller is never used up; [None]
    is a call of [DESFIRESendRaw] without a result. *)
Fixpoint DesfireExchangeNative_tx `{FrameLimit} (fuel : nat) (activate_field : bool)
  (cdata : list Z) (cdatalen sentdatalen : Z) (buf : list Z) (buflen rcode : Z)
  (t : Transport) : option (Transport * TxOutcome) :=
  match fuel with
  | O => None
  | S fuel' =>
    if cdatalen >=? sentdatalen then
      let len :=
        if cdatalen - sentdatalen >? DESFIRE_TX_FRAME_MAX_LEN
        then DESFIRE_TX_FRAME_MAX_LEN
        else cdatalen - sentdatalen in
      let sendindx := sentdatalen in
      let sendlen := len in
      let '(sendindx, sendlen, cdata) :=
        if sentdatalen >? 0
        then (sendindx - 1, sendlen + 1, poke cdata (sendindx - 1) MFDES_ADDITIONAL_FRAME)
        else (sendindx, sendlen, cdata) in
      match DESFIRESendRaw activate_field (slice cdata sendindx sendlen)
              EXCHANGE_BUF_SIZE t with
      | None => None
      | Some (t, r) =>
        if negb (raw_res r =? PM3_SUCCESS) then Some (t, TxReturn (raw_res r))
        else
          let buf := raw_result r in
          let buflen := raw_result_len r in
          let rcode := raw_respcode r in
          let sentdatalen := sentdatalen + len in
          if negb (rcode =? MFDES_ADDITIONAL_FRAME) || (buflen >? 0)
          then Some (t, TxBreak buf buflen rcode)
          else DesfireExchangeNative_tx fuel' activate_field cdata cdatalen sentdatalen
                 buf buflen rcode t
      end
    else Some (t, TxBreak buf buflen rcode)
  end.

(** Storing one received frame into [resp] (both exchange functions). *)
Definition store_frame (splitbysize : Z) (resp : list Z) (slot pos : Z)
  (buf : list Z) (buflen : Z) : list Z :=
  if negb (splitbysize =? 0)
  then memcpy (poke resp (slot * splitbysize) (u8 buflen)) (slot * splitbysize + 1)
         (ztake buflen buf)
  else memcpy resp pos (ztake buflen buf).

Inductive RxOutcome :=
| RxReturn (res : Z) (respcode : Z) (resp : list Z)
| RxDone (respcode : Z) (resp : list Z) (pos i : Z).

(** The rx chaining loop of [DesfireExchangeNative]. *)
Fixpoint DesfireExchangeNative_rx (fuel : nat) (splitbysize : Z) (rcode respcode : Z)
  (resp : list Z) (pos i : Z) (t : Transport) : option (Transport * RxOutcome) :=
  match fuel with
  | O => None
  | S fuel' =>
    if rcode =? MFDES_ADDITIONAL_FRAME then
      match DESFIRESendRaw false [MFDES_ADDITIONAL_FRAME] EXCHANGE_BUF_SIZE t with
      | None => None
      | Some (t, r) =>
        if negb (raw_res r =? PM3_SUCCESS) then Some (t, RxReturn (raw_res r) respcode resp)
        else
          let buf := raw_result r in
          let buflen := raw_result_len r in
          let rcode := raw_respcode r in
          let respcode := rcode in
          let resp := store_frame splitbysize resp i pos buf buflen in
          let i := if negb (splitbysize =? 0) then u32 (i + 1) else i in
          let pos := u32 (pos + buflen) in
          if negb (rcode =? MFDES_ADDITIONAL_FRAME)
          then Some (t, RxDone respcode resp pos i)
          else DesfireExchangeNative_rx fuel' splitbysize rcode respcode resp pos i t
      end
    else Some (t, RxDone respcode resp pos i)
  end.

(** [resp] is the caller's array.  [None]: the command does not fit
    [cdata], or a call of [DESFIRESendRaw] has no result. *)
Definition DesfireExchangeNative `{FrameLimit} (activate_field : bool) (cmd : Z)
  (data : list Z) (resp : list Z) (enable_chaining : bool) (splitbysize : Z)
  (t : Transport) : option (Transport * ExchResult) :=
  let resplen := 0 in
  let respcode := 0xff in
  let cdata := cmd :: data in
  let cdatalen := u32 (zlen data + 1) in
  if negb (fits CDATA_SIZE cdata) then None else
  match DesfireExchangeNative_tx (S (length (replies t))) activate_field cdata cdatalen 0
          (zeros EXCHANGE_BUF_SIZE) 0 0xff t with
  | None => None
  | Some (t, TxReturn res) => Some (t, mkExchResult res respcode resp resplen)
  | Some (t, TxBreak buf buflen rcode) =>
    let resp := store_frame splitbysize resp 0 0 buf buflen in
    let respcode := rcode in
    let pos := u32 (0 + buflen) in
    if negb enable_chaining then
      let resplen :=
        if (rcode =? MFDES_S_OPERATION_OK) || (rcode =? MFDES_ADDITIONAL_FRAME)
        then pos else resplen in
      Some (t, mkExchResult PM3_SUCCESS respcode resp resplen)
    else
      match DesfireExchangeNative_rx (S (length (replies t))) splitbysize rcode respcode
              resp pos 1 t with
      | None => None
      | Some (t, RxReturn res respcode resp) => Some (t, mkExchResult res respcode resp resplen)
      | Some (t, RxDone respcode resp pos i) =>
        Some (t, mkExchResult PM3_SUCCESS respcode resp
                   (if negb (splitbysize =? 0) then i else pos))
      end
  end.

(** ** DesfireExchangeISONative *)

Fixpoint DesfireExchangeISONative_tx `{FrameLimit} `{ApduEncoder} (fuel : nat)
  (activate_field : bool) (apdu : sAPDU) (data : list Z) (datalen sentdatalen : Z)
  (buf : list Z) (buflen sw : Z) (t : Transport) : option (Transport * TxOutcome) :=
  match fuel with
  | O => None
  | S fuel' =>
    if datalen >=? sentdatalen then
      let lc :=
        if datalen - sentdatalen >? DESFIRE_TX_FRAME_MAX_LEN
        then u8 DESFIRE_TX_FRAME_MAX_LEN
        else u8 (datalen - sentdatalen) in
      let ins := if sentdatalen >? 0 then MFDES_ADDITIONAL_FRAME else INS apdu in
      let apdu := mkAPDU (CLA apdu) ins (P1 apdu) (P2 apdu) lc (zdrop sentdatalen data) in
      let '(t, r) := DESFIRESendApdu activate_field apdu EXCHANGE_BUF_SIZE t in
      if negb (apdu_res r =? PM3_SUCCESS) then Some (t, TxReturn (apdu_res r))
      else
        let buf := apdu_result r in
        let buflen := apdu_result_len r in
        let sw := apdu_sw r in
        let sentdatalen := sentdatalen + Lc apdu in
        if negb (sw =? DESFIRE_GET_ISO_STATUS MFDES_ADDITIONAL_FRAME) || (buflen >? 0)
        then Some (t, TxBreak buf buflen sw)
        else DesfireExchangeISONative_tx fuel' activate_field apdu data datalen sentdatalen
               buf buflen sw t
    else Some (t, TxBreak buf buflen sw)
  end.

Definition iso_respcode (sw respcode : Z) : Z :=
  if Z.land sw 0xff00 =? 0x9100 then Z.land sw 0xff else respcode.

Fixpoint DesfireExchangeISONative_rx `{ApduEncoder} (fuel : nat) (splitbysize : Z)
  (sw respcode : Z) (resp : list Z) (pos i : Z) (t : Transport)
  : option (Transport * RxOutcome) :=
  match fuel with
  | O => None
  | S fuel' =>
    if sw =? DESFIRE_GET_ISO_STATUS MFDES_ADDITIONAL_FRAME then
      let apdu := mkAPDU MFDES_NATIVE_ISO7816_WRAP_CLA MFDES_ADDITIONAL_FRAME 0 0 0 [] in
      let '(t, r) := DESFIRESendApdu false apdu EXCHANGE_BUF_SIZE t in
      if negb (apdu_res r =? PM3_SUCCESS) then Some (t, RxReturn (apdu_res r) respcode resp)
      else
        let buf := apdu_result r in
        let buflen := apdu_result_len r in
        let sw := apdu_sw r in
        let respcode := iso_respcode sw respcode in
        let resp := store_frame splitbysize resp i pos buf buflen in
        let i := if negb (splitbysize =? 0) then u32 (i + 1) else i in
        let pos := u32 (pos + buflen) in
        if negb (sw =? DESFIRE_GET_ISO_STATUS MFDES_ADDITIONAL_FRAME)
        then Some (t, RxDone respcode resp pos i)
        else DesfireExchangeISONative_rx fuel' splitbysize sw respcode resp pos i t
    else Some (t, RxDone respcode resp pos i)
  end.

Definition DesfireExchangeISONative `{FrameLimit} `{ApduEncoder} (activate_field : bool)
  (cmd : Z) (data : list Z) (resp : list Z) (enable_chaining : bool) (splitbysize : Z)
  (t : Transport) : option (Transport * ExchResult) :=
  let resplen := 0 in
  let respcode := 0xff in
  let datalen := zlen data in
  let apdu := mkAPDU MFDES_NATIVE_ISO7816_WRAP_CLA cmd 0 0 (u8 datalen) data in
  match DesfireExchangeISONative_tx (S (length (replies t))) activate_field apdu data datalen 0
          (zeros EXCHANGE_BUF_SIZE) 0 0 t with
  | None => None
  | Some (t, TxReturn res) => Some (t, mkExchResult res respcode resp resplen)
  | Some (t, TxBreak buf buflen sw) =>
    let respcode := iso_respcode sw respcode in
    let resp := store_frame splitbysize resp 0 0 buf buflen in
    let pos := u32 (0 + buflen) in
    if negb enable_chaining then
      let resplen :=
        if (sw =? DESFIRE_GET_ISO_STATUS MFDES_S_OPERATION_OK) ||
           (sw =? DESFIRE_GET_ISO_STATUS MFDES_ADDITIONAL_FRAME)
        then pos else resplen in
      Some (t, mkExchResult PM3_SUCCESS respcode resp resplen)
    else
      match DesfireExchangeISONative_rx (S (length (replies t))) splitbysize sw respcode
              resp pos 1 t with
      | None => None
      | Some (t, RxReturn res respcode resp) => Some (t, mkExchResult res respcode resp resplen)
      | Some (t, RxDone respcode resp pos i) =>
        Some (t, mkExchResult PM3_SUCCESS respcode resp
                   (if negb (splitbysize =? 0) then i else pos))
      end
  end.

(** ** DesfireJoinBlockToBytes, DesfireSplitBytesToBlock *)

Fixpoint DesfireJoinBlockToBytes_loop (n : nat) (i : Z) (blockdata : list Z)
  (blockdatasize : Z) (dstdata : list Z) (dstdatalen : Z) : list Z * Z :=
  match n with
  | O => (dstdata, dstdatalen)
  | S n' =>
    let blen := zget blockdata (i * blockdatasize) in
    let dstdata :=
      memcpy dstdata dstdatalen (slice blockdata (i * blockdatasize + 1) blen) in
    DesfireJoinBlockToBytes_loop n' (i + 1) blockdata blockdatasize dstdata (dstdatalen + blen)
  end.

(** Returns [(dstdata, *dstdatalen)]. *)
Definition DesfireJoinBlockToBytes (blockdata : list Z) (blockdatacount blockdatasize : Z)
  (dstdata : list Z) : list Z * Z :=
  DesfireJoinBlockToBytes_loop (Z.to_nat blockdatacount) 0 blockdata blockdatasize dstdata 0.

Fixpoint DesfireSplitBytesToBlock_loop (n : nat) (i : Z) (blockdata : list Z)
  (blockdatacount blockdatasize : Z) (dstdata : list Z) (dstdatalen len : Z) : list Z * Z :=
  match n with
  | O => (blockdata, blockdatacount)
  | S n' =>
    let blockdata := memset blockdata (i * blockdatasize + 1) 0 (blockdatasize - 1) in
    let tlen := len + zget blockdata (i * blockdatasize) in
    let '(tlen, blockdata) :=
      if tlen >? dstdatalen
      then (dstdatalen,
            poke blockdata (i * blockdatasize)
              (if dstdatalen >=? len then u8 (dstdatalen - len) else 0))
      else (tlen, blockdata) in
    if len =? tlen then (blockdata, i)
    else
      let blockdata :=
        memcpy blockdata (i * blockdatasize + 1) (slice dstdata len (tlen - len)) in
      DesfireSplitBytesToBlock_loop n' (i + 1) blockdata blockdatacount blockdatasize
        dstdata dstdatalen tlen
  end.

(** Returns [(blockdata, *blockdatacount)]. *)
Definition DesfireSplitBytesToBlock (blockdata : list Z) (blockdatacount blockdatasize : Z)
  (dstdata : list Z) (dstdatalen : Z) : list Z * Z :=
  DesfireSplitBytesToBlock_loop (Z.to_nat blockdatacount) 0 blockdata blockdatacount
    blockdatasize dstdata dstdatalen 0.

(** ** DesfireExchangeEx *)

(** [sizeof(databuf)] for [uint8_t databuf[250 * 5]]. *)
Definition DATABUF_SIZE : Z := 250 * 5.

(** The second half of the [DCCNative] / [DCCNativeISO] case of
    [DesfireExchangeEx]: the answer [r] of the exchange function, left in
    [databuf] / [databuflen], is decoded into the caller's [resp].  [None]:
    the blocks do not fit [sdata], or are split past the end of
    [databuf]. *)
Definition DesfireExchangeEx_decode `{SecureChannelCodec} (ctx : DesfireContext)
  (resp : list Z) (splitbysize : Z) (t : Transport) (r : ExchResult)
  : option (Transport * DesfireContext * ExchResult) :=
  let res := ex_res r in
  let respcode := ex_respcode r in
  let databuf := ex_resp r in
  let databuflen := ex_resplen r in
  if negb (splitbysize =? 0) then
    let '(sdata, sdatalen) :=
      DesfireJoinBlockToBytes databuf databuflen splitbysize (zeros DATABUF_SIZE) in
    if negb (fits DATABUF_SIZE sdata) then None else
    let '(ctx, dec) := DesfireSecureChannelDecode ctx (ztake sdatalen sdata) respcode in
    let resp := memcpy resp 0 dec in
    let resplen := zlen dec in
    let '(databuf, databuflen) :=
      DesfireSplitBytesToBlock databuf databuflen splitbysize resp resplen in
    if negb (fits DATABUF_SIZE databuf) then None else
    let resp := memcpy resp 0 (ztake (databuflen * splitbysize) databuf) in
    Some (t, ctx, mkExchResult res respcode resp databuflen)
  else
    let '(ctx, dec) := DesfireSecureChannelDecode ctx (ztake databuflen databuf) respcode in
    Some (t, ctx, mkExchResult res respcode (memcpy resp 0 dec) (zlen dec)).

(** [respcode], [resp] and [resplen] are in/out: with the ISO command set
    the function returns without touching them; [resp] is the caller's
    array.  Only what the function does to the context and the card is
    modelled; its warnings and debug output are not.  [None]: the encoded
    command or the answer does not fit [databuf], or the exchange or the
    decoding has no result. *)
Definition DesfireExchangeEx `{FrameLimit} `{ApduEncoder} `{SecureChannelCodec}
  (activate_field : bool) (ctx : DesfireContext) (cmd : Z) (data : list Z)
  (respcode : Z) (resp : list Z) (resplen : Z) (enable_chaining : bool) (splitbysize : Z)
  (t : Transport) : option (Transport * DesfireContext * ExchResult) :=
  match cmdSet ctx with
  | DCCISO => Some (t, ctx, mkExchResult PM3_EAPDU_FAIL respcode resp resplen)
  | _ =>
    let '(ctx, enc) := DesfireSecureChannelEncode ctx cmd data in
    let databuf := memcpy (zeros DATABUF_SIZE) 0 enc in
    if negb (fits DATABUF_SIZE databuf) then None else
    let exchanged :=
      match cmdSet ctx with
      | DCCNative =>
        DesfireExchangeNative activate_field cmd enc databuf enable_chaining splitbysize t
      | _ =>
        DesfireExchangeISONative activate_field cmd enc databuf enable_chaining splitbysize t
      end in
    match exchanged with
    | None => None
    | Some (t, r) =>
      if negb (fits DATABUF_SIZE (ex_resp r)) then None
      else DesfireExchangeEx_decode ctx resp splitbysize t r
    end
  end.

(** ** A monad for the command functions

    The command functions thread the transport and the context and leave
    through [return code;] at many points.  [Return code] is such an early
    exit; [None] is a run without a result: a memory access outside an
    array, after which the C program has no defined behaviour (or a loop
    that outlives its fuel, which a script of finitely many replies
    excludes). *)

Inductive Outcome (A : Type) :=
| Next (a : A)
| Return (code : Z).
Arguments Next {A} a.
Arguments Return {A} code.

Definition M (A : Type) : Type :=
  Transport -> DesfireContext -> option (Transport * DesfireContext * Outcome A).

Definition ret {A : Type} (a : A) : M A := fun t c => Some (t, c, Next a).

Definition return_ {A : Type} (code : Z) : M A := fun t c => Some (t, c, Return code).

Definition bind {A B : Type} (m : M A) (k : A -> M B) : M B :=
  fun t c =>
    match m t c with
    | None => None
    | Some (t', c', Next a) => k a t' c'
    | Some (t', c', Return code) => Some (t', c', Return code)
    end.

Notation "x <- m ;; k" := (bind m (fun x => k))
  (at level 61, m at next level, right associativity).
Notation "' pat <- m ;; k" := (bind m (fun x => match x with pat => k end))
  (at level 61, pat pattern, m at next level, right associativity).
Notation "m ;; k" := (bind m (fun _ => k))
  (at level 61, right associativity).

Definition get_ctx : M DesfireContext := fun t c => Some (t, c, Next c).

Definition modify_ctx (f : DesfireContext -> DesfireContext) : M unit :=
  fun t c => Some (t, f c, Next tt).

(** A call of [DesfireExchangeEx] on the current context. *)
Definition exchange `{FrameLimit} `{ApduEncoder} `{SecureChannelCodec}
  (activate_field : bool) (cmd : Z) (data : list Z) (respcode : Z) (resp : list Z)
  (resplen : Z) (enable_chaining : bool) (splitbysize : Z) : M ExchResult :=
  fun t c =>
    match DesfireExchangeEx activate_field c cmd data respcode resp resplen
            enable_chaining splitbysize t with
    | None => None
    | Some (t', c', r) => Some (t', c', Next r)
    end.

(** A memory access that is defined only if [ok]: otherwise the run has no
    result. *)
Definition defined_if (ok : bool) : M unit :=
  fun t c => if ok then Some (t, c, Next tt) else None.

(** [buf] is a local array of [size] bytes that a callee has written
    through a pointer: when the callee wrote past its end the run has no
    result. *)
Definition local_array (size : Z) (buf : list Z) : M unit :=
  defined_if (fits size buf).

(** Running the body of an [int] function: its value is the code it
    returns. *)
Definition run_fn (body : M Z) (c : DesfireContext) (t : Transport)
  : option (Transport * DesfireContext * Z) :=
  match body t c with
  | None => None
  | Some (t', c', Next code) => Some (t', c', code)
  | Some (t', c', Return code) => Some (t', c', code)
  end.

(** ** AID helpers *)

Definition DesfireAIDByteToUint (data : list Z) : Z :=
  u32 (zget data 0 + Z.shiftl (zget data 1) 8 + Z.shiftl (zget data 2) 16).

(** Returns the three bytes written through [data]. *)
Definition DesfireAIDUintToByte (aid : Z) : list Z :=
  [Z.land aid 0xff; Z.land (Z.shiftr aid 8) 0xff; Z.land (Z.shiftr aid 16) 0xff].

(** ** Select application *)

Section Commands.
Context `{FL : FrameLimit} `{AE : ApduEncoder} `{SC : SecureChannelCodec}.

(** [aid1], [aid2]: [None] is a NULL pointer. *)
Definition DesfireSelectAID (ctx : DesfireContext) (aid1 aid2 : option (list Z))
  (t : Transport) : option (Transport * DesfireContext * Z) :=
  run_fn
    (match aid1 with
     | None => return_ PM3_EINVARG
     | Some aid1 =>
       let data := zeros 6 in
       let data := memcpy data 0 (ztake 3 aid1) in
       let data :=
         match aid2 with
         | Some a2 => memcpy data 3 (ztake 3 a2)
         | None => data
         end in
       let resp := zeros 257 in
       let resplen := 0 in
       let respcode := 0 in
       modify_ctx (set_secureChannel DACNone) ;;
       r <- exchange true MFDES_SELECT_APPLICATION
              (ztake (match aid2 with None => 3 | Some _ => 6 end) data)
              respcode resp resplen true 0 ;;
       local_array 257 (ex_resp r) ;;
       if ex_res r =? PM3_SUCCESS then
         if negb (ex_resplen r =? 0) then return_ PM3_ECARDEXCHANGE
         else if negb (ex_respcode r =? MFDES_S_OPERATION_OK) then return_ PM3_EAPDU_FAIL
         else
           modify_ctx DesfireClearSession ;;
           modify_ctx (set_appSelected
                         (negb (zget aid1 0 =? 0x00) || negb (zget aid1 1 =? 0x00) ||
                          negb (zget aid1 2 =? 0x00))) ;;
           return_ PM3_SUCCESS
       else return_ (ex_res r)
     end) ctx t.

Definition DesfireSelectAIDHex (ctx : DesfireContext) (aid1 : Z) (select_two : bool)
  (aid2 : Z) (t : Transport) : option (Transport * DesfireContext * Z) :=
  let data := zeros 6 in
  let data := memcpy data 0 (DesfireAIDUintToByte aid1) in
  let data := memcpy data 3 (DesfireAIDUintToByte aid2) in
  DesfireSelectAID ctx (Some data) (if select_two then Some (zdrop 3 data) else None) t.

Definition DesfireSelectAIDHexNoFieldOn (ctx : DesfireContext) (aid : Z) (t : Transport)
  : option (Transport * DesfireContext * Z) :=
  run_fn
    (let data := zeros 3 in
     let data := memcpy data 0 (DesfireAIDUintToByte aid) in
     let resp := zeros 257 in
     let resplen := 0 in
     let respcode := 0 in
     modify_ctx (set_secureChannel DACNone) ;;
     r <- exchange false MFDES_SELECT_APPLICATION (ztake 3 data) respcode resp resplen true 0 ;;
     local_array 257 (ex_resp r) ;;
     if ex_res r =? PM3_SUCCESS then
       if negb (ex_resplen r =? 0) then return_ PM3_ECARDEXCHANGE
       else if negb (ex_respcode r =? MFDES_S_OPERATION_OK) then return_ PM3_EAPDU_FAIL
       else
         modify_ctx DesfireClearSession ;;
         modify_ctx (set_appSelected (negb (aid =? 0x000000))) ;;
         return_ PM3_SUCCESS
     else return_ (ex_res r)) ctx t.

(** ** DesfireCommandEx and the ChangeKey command *)

Record CmdResult := mkCmdResult {
  cmd_res : Z;          (* return value *)
  cmd_resp : list Z;    (* the [resp] buffer *)
  cmd_resplen : Z       (* [*resplen] *)
}.

(** [resp] is the caller's array (the callers modelled here pass one);
    [*resplen] is set to 0 first.  The last [memcpy] reads [n] bytes of
    [xresp], which has to hold them; what is copied to [resp] are therefore
    at most [sizeof(xresp)] bytes. *)
Definition DesfireCommandEx (cmd : Z) (data : list Z) (resp : list Z) (checklength : Z)
  (splitbysize : Z) : M CmdResult :=
  let resplen := 0 in
  let respcode := 0xff in
  let xresp := zeros 257 in
  let xresplen := 0 in
  r <- exchange false cmd data respcode xresp xresplen true splitbysize ;;
  local_array 257 (ex_resp r) ;;
  if negb (ex_res r =? PM3_SUCCESS) then ret (mkCmdResult (ex_res r) resp resplen)
  else if negb (ex_respcode r =? MFDES_S_OPERATION_OK)
  then ret (mkCmdResult PM3_EAPDU_FAIL resp resplen)
  else if (checklength >=? 0) && negb (ex_resplen r =? checklength)
  then ret (mkCmdResult PM3_EAPDU_FAIL resp resplen)
  else
    let resplen := ex_resplen r in
    let n := if splitbysize =? 0 then ex_resplen r else ex_resplen r * splitbysize in
    defined_if (n <=? 257) ;;
    ret (mkCmdResult PM3_SUCCESS (memcpy resp 0 (ztake n (ex_resp r))) resplen).

Definition DesfireCommand (cmd : Z) (data : list Z) (resp : list Z) (checklength : Z)
  : M CmdResult :=
  DesfireCommandEx cmd data resp checklength 0.

Definition DesfireChangeKeyCmd (data : list Z) (resp : list Z) : M CmdResult :=
  DesfireCommand MFDES_CHANGE_KEY data resp (-1).

End Commands.

(** ** Change key *)

(** crc16.c / crc32.c: [iso14443a_crc] (CRC16, two bytes) and
    [desfire_crc32] (CRC32, four bytes) of a byte string. *)
Class Checksums := {
  iso14443a_crc : list Z -> list Z;
  desfire_crc32 : list Z -> list Z
}.

(** The checksums have their sizes. *)
Definition Checksums_sized `{Checksums} : Prop :=
  (forall d, zlen (iso14443a_crc d) = 2) /\ (forall d, zlen (desfire_crc32 d) = 4).

(** [iso14443a_crc_append(data, len)] / [desfire_crc32_append(data, len)]:
    the checksum of [data[0 .. len)] is stored at [data + len]. *)
Definition iso14443a_crc_append `{Checksums} (data : list Z) (len : Z) : list Z :=
  memcpy data len (iso14443a_crc (ztake len data)).

Definition desfire_crc32_append `{Checksums} (data : list Z) (len : Z) : list Z :=
  memcpy data len (desfire_crc32 (ztake len data)).

(** desfire_crypto.c: the key-type code of a ChangeKey key number and the
    DES key-version encoder (the latter rewrites the key buffer and keeps its
    size). *)
Class DesfireKeyOps := {
  DesfireKeyAlgoToType : DesfireCryptoAlgorythm -> Z;
  DesfireDESKeySetVersion : list Z -> DesfireCryptoAlgorythm -> Z -> list Z
}.

Definition DesfireKeyOps_sized `{DesfireKeyOps} : Prop :=
  forall k t v, zlen (DesfireDESKeySetVersion k t v) = zlen k.

Record ChangeKeyData := mkChangeKeyData {
  ck_okeybuf : list Z;     (* [okeybuf] *)
  ck_nkeybuf : list Z;     (* [nkeybuf] *)
  ck_nkeylen : Z;          (* [nkeylen] *)
  ck_pckcdata : list Z;    (* [pckcdata]; [cdata] is [&pckcdata[2]] *)
  ck_cdatalen : Z          (* [cdatalen] *)
}.

(** [DesfireChangeKey], from "DES -> 2TDEA" to the key version for DES:
    the buffers [okeybuf] and [nkeybuf], and [nkeylen]. *)
Definition DesfireChangeKey_keys `{DesfireKeyOps} (newkeytype : DesfireCryptoAlgorythm)
  (newkeyver : Z) (newkey : list Z) (oldkeytype : DesfireCryptoAlgorythm) (oldkey : list Z)
  : list Z * list Z * Z :=
  let okeybuf := zeros DESFIRE_MAX_KEY_SIZE in
  let nkeybuf := zeros DESFIRE_MAX_KEY_SIZE in
  (* DES -> 2TDEA *)
  let okeybuf := memcpy okeybuf 0 (ztake (desfire_get_key_length oldkeytype) oldkey) in
  let okeybuf :=
    if algo_eqb oldkeytype T_DES then memcpy okeybuf 8 (ztake 8 oldkey) else okeybuf in
  let nkeybuf := memcpy nkeybuf 0 (ztake (desfire_get_key_length newkeytype) newkey) in
  let nkeylen := desfire_get_key_length newkeytype in
  let '(nkeybuf, nkeylen) :=
    if algo_eqb newkeytype T_DES
    then (memcpy nkeybuf 8 (ztake 8 newkey), desfire_get_key_length T_3DES)
    else (nkeybuf, nkeylen) in
  (* set key version for DES. if newkeyver > 0xff - setting key version is disabled *)
  let nkeybuf :=
    if negb (algo_eqb newkeytype T_AES) && (newkeyver <? 0x100)
    then DesfireDESKeySetVersion nkeybuf newkeytype newkeyver
    else nkeybuf in
  (okeybuf, nkeybuf, nkeylen).

(** [DesfireChangeKey], from "xor if we change current auth key" to the
    "send command" comment: [cdata] is filled behind the two header bytes of
    [pckcdata].  [same] is [newkeynum == dctx->keyNum], [d40] is
    [dctx->secureChannel == DACd40]. *)
Definition DesfireChangeKey_cdata `{Checksums} (same d40 : bool)
  (newkeytype : DesfireCryptoAlgorythm) (newkeyver : Z) (pckcdata okeybuf nkeybuf : list Z)
  (nkeylen : Z) : list Z * Z :=
  (* xor if we change current auth key *)
  let pckcdata :=
    if same
    then memcpy pckcdata 2 (ztake nkeylen nkeybuf)
    else
      let pckcdata := memcpy pckcdata 2 (ztake nkeylen nkeybuf) in
      memcpy pckcdata 2 (bin_xor (slice pckcdata 2 nkeylen) okeybuf) in
  (* add key version for AES *)
  let cdatalen := nkeylen in
  let '(pckcdata, cdatalen) :=
    if algo_eqb newkeytype T_AES
    then (poke pckcdata (2 + cdatalen) (u8 newkeyver), cdatalen + 1)
    else (pckcdata, cdatalen) in
  (* add crc||crc_new_key *)
  if d40 then
    let pckcdata := memcpy pckcdata 2 (iso14443a_crc_append (zdrop 2 pckcdata) cdatalen) in
    let cdatalen := cdatalen + 2 in
    if negb same
    then (memcpy pckcdata (2 + cdatalen) (iso14443a_crc (ztake nkeylen nkeybuf)),
          cdatalen + 2)
    else (pckcdata, cdatalen)
  else
    (* EV1 Checksum must cover : <KeyNo> <PrevKey XOR Newkey>  [<AES NewKeyVer>] *)
    let pckcdata := desfire_crc32_append pckcdata (cdatalen + 2) in
    let cdatalen := cdatalen + 4 in
    if negb same
    then (memcpy pckcdata (2 + cdatalen) (desfire_crc32 (ztake nkeylen nkeybuf)),
          cdatalen + 4)
    else (pckcdata, cdatalen).

(** The first part of [DesfireChangeKey], up to the "send command" comment:
    the construction of [pckcdata] and [cdatalen]. *)
Definition DesfireChangeKey_data `{Checksums} `{DesfireKeyOps} (dctx : DesfireContext)
  (change_master_key : bool) (newkeynum : Z) (newkeytype : DesfireCryptoAlgorythm)
  (newkeyver : Z) (newkey : list Z) (oldkeytype : DesfireCryptoAlgorythm)
  (oldkey : list Z) : ChangeKeyData :=
  let pckcdata := zeros (DESFIRE_MAX_KEY_SIZE + 10) in
  let keynodata := Z.land newkeynum 0x3f in
  let keynodata :=
    if change_master_key
    then u8 (Z.lor keynodata (Z.shiftl (Z.land (DesfireKeyAlgoToType newkeytype) 0x03) 6))
    else keynodata in
  let pckcdata := poke pckcdata 0 MFDES_CHANGE_KEY in
  let pckcdata := poke pckcdata 1 keynodata in
  let '(okeybuf, nkeybuf, nkeylen) :=
    DesfireChangeKey_keys newkeytype newkeyver newkey oldkeytype oldkey in
  let '(pckcdata, cdatalen) :=
    DesfireChangeKey_cdata (newkeynum =? keyNum dctx) (chan_eqb (secureChannel dctx) DACd40)
      newkeytype newkeyver pckcdata okeybuf nkeybuf nkeylen in
  mkChangeKeyData okeybuf nkeybuf nkeylen pckcdata cdatalen.

(** [newkeynum] is a [uint8_t], [newkeyver] a [uint32_t]. *)
Definition DesfireChangeKey `{FrameLimit} `{ApduEncoder} `{SecureChannelCodec}
  `{Checksums} `{DesfireKeyOps} (dctx : DesfireContext)
  (change_master_key : bool) (newkeynum : Z) (newkeytype : DesfireCryptoAlgorythm)
  (newkeyver : Z) (newkey : list Z) (oldkeytype : DesfireCryptoAlgorythm)
  (oldkey : list Z) (verbose : bool) (t : Transport)
  : option (Transport * DesfireContext * Z) :=
  run_fn
    (dctx0 <- get_ctx ;;
     let d := DesfireChangeKey_data dctx0 change_master_key newkeynum newkeytype newkeyver
                newkey oldkeytype oldkey in
     (* send command *)
     let resp := zeros 257 in
     r <- DesfireChangeKeyCmd (slice (ck_pckcdata d) 1 (ck_cdatalen d)) resp ;;
     let res := cmd_res r in
     (* check response *)
     let res := if (res =? 0) && (cmd_resplen r >? 0) then -20 else res in
     (* clear auth *)
     dctx1 <- get_ctx ;;
     (if newkeynum =? keyNum dctx1 then modify_ctx DesfireClearSession else ret tt) ;;
     return_ res) dctx t.

(** ** File settings *)

(** desfiresecurechan.c: the communication mode of a file-settings byte. *)
Class FileCommModes := {
  DesfireFileCommModeToCommMode : Z -> DesfireCommunicationMode
}.

Module FileSettings.

Record FileSettingsS := mkFileSettings {
  fileType : Z;
  fileOption : Z;
  fileCommMode : Z;
  commMode : option DesfireCommunicationMode;   (* [None]: the zeroed field *)
  additionalAccessRightsEn : bool;
  rawAccessRights : Z;
  rAccess : Z;
  wAccess : Z;
  rwAccess : Z;
  chAccess : Z;
  fileSize : Z;
  lowerLimit : Z;
  upperLimit : Z;
  value : Z;
  limitedCredit : Z;
  recordSize : Z;
  maxRecordCount : Z;
  curRecordCount : Z;
  keyType : Z;
  keyVersion : Z;
  additionalAccessRightsLength : Z;
  additionalAccessRights : list Z
}.

(** [memset(fsettings, 0, sizeof(FileSettingsS))]. *)
Definition zeroed : FileSettingsS :=
  mkFileSettings 0 0 0 None false 0 0 0 0 0 0 0 0 0 0 0 0 0 0 0 0 [].

End FileSettings.

(** Returns [(r, w, rw, ch)]. *)
Definition DesfireDecodeFileAcessMode (mode : list Z) : Z * Z * Z * Z :=
  (Z.land (Z.shiftr (zget mode 1) 4) 0x0f,
   Z.land (zget mode 1) 0x0f,
   Z.land (Z.shiftr (zget mode 0) 4) 0x0f,
   Z.land (zget mode 0) 0x0f).

(** Returns the two bytes written through [mode]. *)
Definition DesfireEncodeFileAcessMode (r w rw ch : Z) : list Z :=
  [Z.lor (Z.land ch 0x0f) (Z.land (Z.shiftl rw 4) 0xf0);
   Z.lor (Z.land w 0x0f) (Z.land (Z.shiftl r 4) 0xf0)].

Fixpoint additional_rights (n : nat) (i : Z) (data : list Z) (reclen : Z) : list Z :=
  match n with
  | O => []
  | S n' =>
    MemLeToUint2byte (zdrop (reclen + 1 + i * 2) data)
      :: additional_rights n' (i + 1) data reclen
  end.

(** [fsettings] is not NULL; the result is the structure it points to.
    [additionalAccessRights] holds the entries that the loop stores, in
    order; the array of the structure (desfirecore.h) is not among the
    sources and its size is not modelled, so nothing is stated below on
    these entries. *)
Definition DesfireFillFileSettings `{FileCommModes} (data : list Z) (datalen : Z)
  : FileSettings.FileSettingsS :=
  if datalen <? 4 then FileSettings.zeroed
  else
    let fileType := zget data 0 in
    let fileOption := zget data 1 in
    let fileCommMode := Z.land (zget data 1) 0x03 in
    let commMode := DesfireFileCommModeToCommMode fileCommMode in
    let additionalAccessRightsEn := negb (Z.land (zget data 1) 0x80 =? 0) in
    let rawAccessRights := MemLeToUint2byte (zdrop 2 data) in
    let '(r, w, rw, ch) := DesfireDecodeFileAcessMode (zdrop 2 data) in
    let base :=
      FileSettings.mkFileSettings fileType fileOption fileCommMode (Some commMode)
        additionalAccessRightsEn rawAccessRights r w rw ch in
    let '(partial, reclen) :=
      if (fileType =? 0x00) || (fileType =? 0x01) then
        (base (MemLeToUint3byte (zdrop 4 data)) 0 0 0 0 0 0 0 0 0, 4 + 3)
      else if fileType =? 0x02 then
        (base 0 (MemLeToUint4byte (zdrop 4 data)) (MemLeToUint4byte (zdrop 8 data))
           (MemLeToUint4byte (zdrop 12 data)) (zget data 16) 0 0 0 0 0, 4 + 13)
      else if (fileType =? 0x03) || (fileType =? 0x04) then
        (base 0 0 0 0 0 (MemLeToUint3byte (zdrop 4 data)) (MemLeToUint3byte (zdrop 7 data))
           (MemLeToUint3byte (zdrop 10 data)) 0 0, 4 + 9)
      else if fileType =? 0x05 then
        (base 0 0 0 0 0 0 0 0 (zget data 4) (zget data 5), 0)
      else
        (base 0 0 0 0 0 0 0 0 0 0, 0) in
    if additionalAccessRightsEn && (reclen >? 0) && (datalen >? reclen) &&
       (datalen =? reclen + zget data reclen * 2)
    then
      let len := zget data reclen in
      partial len (additional_rights (Z.to_nat len) 0 data reclen)
    else partial 0 [].

(** ** Authentication *)

(** desfire_crypto.c, aes.c, des.c: the cryptographic primitives that the
    authentication functions call.  A primitive with an [out] pointer
    returns the bytes it stores there; one that is given the IV returns the
    IV it leaves. *)
Class DesfireCrypto := {
  desfire_key : Type;                       (* [struct desfire_key] *)
  key_data : desfire_key -> list Z;         (* [key->data] *)
  Desfire_aes_key_new : list Z -> desfire_key;
  Desfire_3des_key_new_with_version : list Z -> desfire_key;
  Desfire_des_key_new : list Z -> desfire_key;
  Desfire_3k3des_key_new_with_version : list Z -> desfire_key;
  mifare_kdf_an10922 : desfire_key -> list Z -> Z -> desfire_key;
  Desfire_session_key_new : list Z -> list Z -> desfire_key -> desfire_key;
  aes_context : Type;                       (* [mbedtls_aes_context] *)
  mbedtls_aes_init : aes_context;
  mbedtls_aes_setkey_dec : aes_context -> list Z -> Z -> aes_context * Z;
  mbedtls_aes_setkey_enc : aes_context -> list Z -> Z -> aes_context * Z;
  (* context, encrypt?, length, iv, input; returns (iv, output) *)
  mbedtls_aes_crypt_cbc : aes_context -> bool -> Z -> list Z -> list Z -> list Z * list Z;
  (* input, key *)
  des_decrypt : list Z -> list Z -> list Z;
  (* input, key, keycount *)
  des3_decrypt : list Z -> list Z -> Z -> list Z;
  (* input, length, key, iv; returns (iv, output) *)
  des_decrypt_cbc : list Z -> Z -> list Z -> list Z -> list Z * list Z;
  des_encrypt_cbc : list Z -> Z -> list Z -> list Z -> list Z * list Z;
  (* input, length, key, iv, keymode; returns (iv, output) *)
  tdes_nxp_receive : list Z -> Z -> list Z -> list Z -> Z -> list Z * list Z;
  tdes_nxp_send : list Z -> Z -> list Z -> list Z -> Z -> list Z * list Z;
  (* iv, key, input, length; returns (return value, iv, output) *)
  aes_decode : list Z -> list Z -> list Z -> Z -> Z * list Z * list Z;
  aes_encode : list Z -> list Z -> list Z -> Z -> Z * list Z * list Z;
  (* key, rndA, rndB, enckey; returns the session key *)
  DesfireGenSessionKeyEV2 : list Z -> list Z -> list Z -> bool -> list Z
}.

Definition bytes_eqb (a b : list Z) : bool :=
  if list_eq_dec Z.eq_dec a b then true else false.

(** [if (cond) return code;] *)
Definition return_if (cond : bool) (code : Z) : M unit :=
  if cond then return_ code else ret tt.

(** The reader's fixed challenge. *)
Definition RndA_init : list Z :=
  [0x01; 0x02; 0x03; 0x04; 0x05; 0x06; 0x07; 0x08;
   0x09; 0x10; 0x11; 0x12; 0x13; 0x14; 0x15; 0x16].

Section Authentication.
Context `{FL : FrameLimit} `{AE : ApduEncoder} `{SC : SecureChannelCodec}
  `{CR : DesfireCrypto}.

Definition DesfireAuthenticateEV1 (dctx : DesfireContext)
  (secureChannel : DesfireSecureChannel) (verbose : bool) (t : Transport)
  : option (Transport * DesfireContext * Z) :=
  run_fn
    (modify_ctx DesfireClearSession ;;
     return_if (chan_eqb secureChannel DACNone) PM3_SUCCESS ;;
     let aesctx := mbedtls_aes_init in
     let keybytes := zeros 24 in
     (* Crypt constants ([iv] is the local [IV]) *)
     let iv := zeros 16 in
     let RndA := RndA_init in
     let RndB := zeros 16 in
     let encRndB := zeros 16 in
     let rotRndB := zeros 16 in
     let both := zeros (32 + 1) in
     (* Part 1 *)
     dctx <- get_ctx ;;
     let keybytes :=
       memcpy keybytes 0 (ztake (desfire_get_key_length (keyType dctx)) (key dctx)) in
     let key :=
       match keyType dctx with
       | T_AES => Desfire_aes_key_new keybytes
       | T_3DES => Desfire_3des_key_new_with_version keybytes
       | T_DES => Desfire_des_key_new keybytes
       | T_3K3DES => Desfire_3k3des_key_new_with_version keybytes
       end in
     key <- match kdfAlgo dctx with
            | MFDES_KDF_ALGO_AN10922 =>
              ret (mifare_kdf_an10922 key (kdfInput dctx) (kdfInputLen dctx))
            | MFDES_KDF_ALGO_GALLAGHER =>
              modify_ctx (set_kdfInputLen 11) ;;
              ret (mifare_kdf_an10922 key (kdfInput dctx) 11)
            | MFDES_KDF_ALGO_NONE => ret key
            end ;;
     let subcommand :=
       if chan_eqb secureChannel DACEV1
       then if algo_eqb (keyType dctx) T_AES
            then MFDES_AUTHENTICATE_AES else MFDES_AUTHENTICATE_ISO
       else MFDES_AUTHENTICATE in
     (* Let's send our auth command *)
     r <- exchange false subcommand [keyNum dctx] 0 (zeros 256) 0 false 0 ;;
     local_array 256 (ex_resp r) ;;
     let recv_data := ex_resp r in
     let recv_len := ex_resplen r in
     let respcode := ex_respcode r in
     return_if (negb (ex_res r =? PM3_SUCCESS)) 1 ;;
     return_if (recv_len =? 0) 2 ;;
     return_if (negb (respcode =? MFDES_ADDITIONAL_FRAME)) 3 ;;
     dctx <- get_ctx ;;
     let expectedlen :=
       if algo_eqb (keyType dctx) T_AES || algo_eqb (keyType dctx) T_3K3DES
       then 16 else 8 in
     return_if (negb (recv_len =? expectedlen)) 4 ;;
     (* Part 2 *)
     let rndlen := u32 recv_len in
     let encRndB := memcpy encRndB 0 (ztake rndlen recv_data) in
     (* Part 3 *)
     '(aesctx, iv, RndB) <-
       match keyType dctx with
       | T_AES =>
         let '(aesctx, rc) := mbedtls_aes_setkey_dec aesctx (key_data key) 128 in
         return_if (negb (rc =? 0)) 5 ;;
         let '(iv, out) := mbedtls_aes_crypt_cbc aesctx false rndlen iv encRndB in
         ret (aesctx, iv, memcpy RndB 0 out)
       | T_DES =>
         let RndB :=
           if chan_eqb secureChannel DACd40
           then memcpy RndB 0 (des_decrypt encRndB (key_data key)) else RndB in
         let '(iv, RndB) :=
           if chan_eqb secureChannel DACEV1
           then let '(iv, out) := des_decrypt_cbc encRndB rndlen (key_data key) iv in
                (iv, memcpy RndB 0 out)
           else (iv, RndB) in
         ret (aesctx, iv, RndB)
       | T_3DES =>
         let '(iv, out) := tdes_nxp_receive encRndB rndlen (key_data key) iv 2 in
         ret (aesctx, iv, memcpy RndB 0 out)
       | T_3K3DES =>
         let '(iv, out) := tdes_nxp_receive encRndB rndlen (key_data key) iv 3 in
         ret (aesctx, iv, memcpy RndB 0 out)
       end ;;
     (* - Rotate RndB by 8 bits *)
     let rotRndB := memcpy rotRndB 0 (ztake rndlen RndB) in
     let rotRndB := memcpy rotRndB 0 (rol (ztake rndlen rotRndB)) in
     let encRndA := zeros 16 in
     (* - Encrypt our response *)
     '(aesctx, iv, both, encRndA, encRndB, rotRndB) <-
       (if chan_eqb secureChannel DACd40 then
          match keyType dctx with
          | T_DES =>
            let encRndA := memcpy encRndA 0 (des_decrypt RndA (key_data key)) in
            let both := memcpy both 0 (ztake rndlen encRndA) in
            let rotRndB := memcpy rotRndB 0 (bin_xor (ztake rndlen rotRndB) encRndA) in
            let encRndB := memcpy encRndB 0 (des_decrypt rotRndB (key_data key)) in
            let both := memcpy both rndlen (ztake rndlen encRndB) in
            ret (aesctx, iv, both, encRndA, encRndB, rotRndB)
          | T_3DES =>
            let encRndA := memcpy encRndA 0 (des3_decrypt RndA (key_data key) 2) in
            let both := memcpy both 0 (ztake rndlen encRndA) in
            let rotRndB := memcpy rotRndB 0 (bin_xor (ztake rndlen rotRndB) encRndA) in
            let encRndB := memcpy encRndB 0 (des3_decrypt rotRndB (key_data key) 2) in
            let both := memcpy both rndlen (ztake rndlen encRndB) in
            ret (aesctx, iv, both, encRndA, encRndB, rotRndB)
          | _ => ret (aesctx, iv, both, encRndA, encRndB, rotRndB)
          end
        else if chan_eqb secureChannel DACEV1 && negb (algo_eqb (keyType dctx) T_AES) then
          match keyType dctx with
          | T_DES =>
            let tmp := zeros 16 in
            let tmp := memcpy tmp 0 (ztake rndlen RndA) in
            let tmp := memcpy tmp rndlen (ztake rndlen rotRndB) in
            let '(iv, out) := des_encrypt_cbc tmp 16 (key_data key) iv in
            ret (aesctx, iv, memcpy both 0 out, encRndA, encRndB, rotRndB)
          | T_3DES =>
            let tmp := zeros 16 in
            let tmp := memcpy tmp 0 (ztake rndlen RndA) in
            let tmp := memcpy tmp rndlen (ztake rndlen rotRndB) in
            let '(iv, out) := tdes_nxp_send tmp 16 (key_data key) iv 2 in
            ret (aesctx, iv, memcpy both 0 out, encRndA, encRndB, rotRndB)
          | T_3K3DES =>
            let tmp := zeros 32 in
            let tmp := memcpy tmp 0 (ztake rndlen RndA) in
            let tmp := memcpy tmp rndlen (ztake rndlen rotRndB) in
            let '(iv, out) := tdes_nxp_send tmp 32 (key_data key) iv 3 in
            ret (aesctx, iv, memcpy both 0 out, encRndA, encRndB, rotRndB)
          | T_AES => ret (aesctx, iv, both, encRndA, encRndB, rotRndB)
          end
        else if chan_eqb secureChannel DACEV1 && algo_eqb (keyType dctx) T_AES then
          let tmp := zeros 32 in
          let tmp := memcpy tmp 0 (ztake rndlen RndA) in
          let tmp := memcpy tmp rndlen (ztake rndlen rotRndB) in
          if algo_eqb (keyType dctx) T_AES then
            let '(aesctx, rc) := mbedtls_aes_setkey_enc aesctx (key_data key) 128 in
            return_if (negb (rc =? 0)) 6 ;;
            let '(iv, out) := mbedtls_aes_crypt_cbc aesctx true 32 iv tmp in
            ret (aesctx, iv, memcpy both 0 out, encRndA, encRndB, rotRndB)
          else ret (aesctx, iv, both, encRndA, encRndB, rotRndB)
        else ret (aesctx, iv, both, encRndA, encRndB, rotRndB)) ;;
     let bothlen :=
       if algo_eqb (keyType dctx) T_AES || algo_eqb (keyType dctx) T_3K3DES
       then 32 else 16 in
     r <- exchange false MFDES_ADDITIONAL_FRAME (ztake bothlen both) respcode recv_data
            recv_len false 0 ;;
     local_array 256 (ex_resp r) ;;
     let recv_data := ex_resp r in
     let recv_len := ex_resplen r in
     let respcode := ex_respcode r in
     return_if (negb (ex_res r =? PM3_SUCCESS)) 7 ;;
     return_if (recv_len =? 0) 8 ;;
     return_if (negb (respcode =? MFDES_S_OPERATION_OK)) 9 ;;
     (* Part 4 *)
     let encRndA := memcpy encRndA 0 (ztake rndlen recv_data) in
     let sesskey := Desfire_session_key_new RndA RndB key in
     modify_ctx (fun c =>
       set_sessionKeyEnc
         (memcpy (sessionKeyEnc c) 0
            (ztake (desfire_get_key_length (keyType c)) (key_data sesskey))) c) ;;
     dctx <- get_ctx ;;
     '(aesctx, iv, encRndA) <-
       match keyType dctx with
       | T_DES =>
         let encRndA :=
           if chan_eqb secureChannel DACd40
           then memcpy encRndA 0 (des_decrypt encRndA (key_data key)) else encRndA in
         let '(iv, encRndA) :=
           if chan_eqb secureChannel DACEV1
           then let '(iv, out) := des_decrypt_cbc encRndA rndlen (key_data key) iv in
                (iv, memcpy encRndA 0 out)
           else (iv, encRndA) in
         ret (aesctx, iv, encRndA)
       | T_3DES =>
         if chan_eqb secureChannel DACd40
         then ret (aesctx, iv, memcpy encRndA 0 (des3_decrypt encRndA (key_data key) 2))
         else
           let '(iv, out) := tdes_nxp_receive encRndA rndlen (key_data key) iv 2 in
           ret (aesctx, iv, memcpy encRndA 0 out)
       | T_3K3DES =>
         let '(iv, out) := tdes_nxp_receive encRndA rndlen (key_data key) iv 3 in
         ret (aesctx, iv, memcpy encRndA 0 out)
       | T_AES =>
         let '(aesctx, rc) := mbedtls_aes_setkey_dec aesctx (key_data key) 128 in
         return_if (negb (rc =? 0)) 10 ;;
         let '(iv, out) := mbedtls_aes_crypt_cbc aesctx false rndlen iv encRndA in
         ret (aesctx, iv, memcpy encRndA 0 out)
       end ;;
     let RndA := memcpy RndA 0 (rol (ztake rndlen RndA)) in
     return_if (negb (bytes_eqb (ztake rndlen RndA) (ztake rndlen encRndA))) 11 ;;
     (* If the 3Des key first 8 bytes = 2nd 8 Bytes then we are really using Singe Des *)
     (if algo_eqb (keyType dctx) T_3DES
      then if bytes_eqb (slice (key_data key) 0 8) (slice (key_data key) 8 8)
           then modify_ctx (fun c =>
                  set_sessionKeyEnc
                    (memcpy (sessionKeyEnc c) 8 (slice (sessionKeyEnc c) 0 8)) c)
           else ret tt
      else ret tt) ;;
     (* cmac_generate_subkeys(&sesskey, MCD_RECEIVE) only changes the local [sesskey] *)
     modify_ctx (fun c => set_IV (memset (IV c) 0 0 DESFIRE_MAX_KEY_SIZE) c) ;;
     modify_ctx (set_secureChannel secureChannel) ;;
     modify_ctx (fun c =>
       set_sessionKeyMAC
         (memcpy (sessionKeyMAC c) 0
            (ztake (desfire_get_key_length (keyType c)) (sessionKeyEnc c))) c) ;;
     return_ PM3_SUCCESS) dctx t.

Definition DesfireAuthenticateEV2 (dctx : DesfireContext)
  (secureChannel : DesfireSecureChannel) (firstauth : bool) (verbose : bool)
  (t : Transport) : option (Transport * DesfireContext * Z) :=
  run_fn
    ((* Crypt constants ([iv] is the local [IV]) *)
     let iv := zeros 16 in
     let RndA := RndA_init in
     let RndB := zeros CRYPTO_AES_BLOCK_SIZE in
     let encRndB := zeros CRYPTO_AES_BLOCK_SIZE in
     let rotRndB := zeros CRYPTO_AES_BLOCK_SIZE in
     let both := zeros (CRYPTO_AES_BLOCK_SIZE * 2 + 1) in
     let subcommand := if firstauth then MFDES_AUTHENTICATE_EV2F else MFDES_AUTHENTICATE_EV2NF in
     (* [key] points to [dctx->key]: it is read from the context at each use *)
     dctx <- get_ctx ;;
     (* Let's send our auth command *)
     let cdata := [keyNum dctx; 0x00] in
     r <- exchange false subcommand (ztake (if firstauth then 2 else 1) cdata) 0 (zeros 256) 0
            false 0 ;;
     local_array 256 (ex_resp r) ;;
     let recv_data := ex_resp r in
     let recv_len := ex_resplen r in
     let respcode := ex_respcode r in
     return_if (negb (ex_res r =? PM3_SUCCESS)) 1 ;;
     return_if (recv_len =? 0) 2 ;;
     return_if (negb (respcode =? MFDES_ADDITIONAL_FRAME)) 3 ;;
     return_if (negb (recv_len =? CRYPTO_AES_BLOCK_SIZE)) 4 ;;
     (* Part 2 *)
     let encRndB := memcpy encRndB 0 (ztake 16 recv_data) in
     (* Part 3 *)
     dctx <- get_ctx ;;
     let '(rc, iv, out) := aes_decode iv (key dctx) encRndB CRYPTO_AES_BLOCK_SIZE in
     let RndB := memcpy RndB 0 out in
     return_if (negb (rc =? 0)) 5 ;;
     (* - Rotate RndB by 8 bits *)
     let rotRndB := memcpy rotRndB 0 (ztake CRYPTO_AES_BLOCK_SIZE RndB) in
     let rotRndB := memcpy rotRndB 0 (rol (ztake CRYPTO_AES_BLOCK_SIZE rotRndB)) in
     let encRndA := zeros 16 in
     (* - Encrypt our response *)
     let tmp := zeros 32 in
     let tmp := memcpy tmp 0 (ztake CRYPTO_AES_BLOCK_SIZE RndA) in
     let tmp := memcpy tmp CRYPTO_AES_BLOCK_SIZE (ztake CRYPTO_AES_BLOCK_SIZE rotRndB) in
     let '(rc, iv, out) := aes_encode iv (key dctx) tmp (CRYPTO_AES_BLOCK_SIZE * 2) in
     let both := memcpy both 0 out in
     return_if (negb (rc =? 0)) 6 ;;
     r <- exchange false MFDES_ADDITIONAL_FRAME (ztake (CRYPTO_AES_BLOCK_SIZE * 2) both)
            respcode recv_data recv_len false 0 ;;
     local_array 256 (ex_resp r) ;;
     let recv_data := ex_resp r in
     let recv_len := ex_resplen r in
     let respcode := ex_respcode r in
     return_if (negb (ex_res r =? PM3_SUCCESS)) 7 ;;
     return_if (recv_len =? 0) 8 ;;
     return_if (negb (respcode =? MFDES_S_OPERATION_OK)) 9 ;;
     (* Part 4 *)
     let encRndA := memcpy encRndA 0 (ztake CRYPTO_AES_BLOCK_SIZE recv_data) in
     let data := zeros 32 in
     dctx <- get_ctx ;;
     let '(rc, iv, out) := aes_decode iv (key dctx) recv_data recv_len in
     let data := memcpy data 0 out in
     return_if (negb (rc =? 0)) 10 ;;
     let RndA := memcpy RndA 0 (rol (ztake CRYPTO_AES_BLOCK_SIZE RndA)) in
     let recRndA := if firstauth then zdrop 4 data else data in
     return_if (negb (bytes_eqb (ztake CRYPTO_AES_BLOCK_SIZE RndA)
                        (ztake CRYPTO_AES_BLOCK_SIZE recRndA))) 11 ;;
     (if firstauth
      then modify_ctx (set_cmdCntr 0) ;;
           modify_ctx (fun c => set_TI (memcpy (TI c) 0 (ztake 4 data)) c)
      else ret tt) ;;
     modify_ctx DesfireClearIV ;;
     modify_ctx (fun c =>
       set_sessionKeyEnc
         (memcpy (sessionKeyEnc c) 0 (DesfireGenSessionKeyEV2 (key c) RndA RndB true)) c) ;;
     modify_ctx (fun c =>
       set_sessionKeyMAC
         (memcpy (sessionKeyMAC c) 0 (DesfireGenSessionKeyEV2 (key c) RndA RndB false)) c) ;;
     modify_ctx (set_secureChannel secureChannel) ;;
     return_ PM3_SUCCESS) dctx t.

End Authentication.

(** ** A mock card reader

    Concrete instances of the interfaces, for runs on concrete inputs. *)

Module Mock.

(** Modelled from the spec: the frame limit [DESFIRE_TX_FRAME_MAX_LEN]
    (desfirecore.h), "typical 56 bytes of payload". *)
Definition frame_limit : FrameLimit := {| DESFIRE_TX_FRAME_MAX_LEN := 56 |}.

(** Modelled from the spec: the ISO 7816 wrapping of a native frame,
    [CLA INS P1 P2 Lc data Le=0x00]. *)
Definition apdu_encoder : ApduEncoder :=
  {| APDUEncodeS := fun apdu _ _ =>
       Some ([CLA apdu; INS apdu; P1 apdu; P2 apdu; Lc apdu]
               ++ ztake (Lc apdu) (apdu_data apdu) ++ [0x00]) |}.

(** Modelled from the spec: the secure-channel codec in Plain mode, where
    the payload passes through unchanged in both directions; the context is
    not touched. *)
Definition plain_codec : SecureChannelCodec :=
  {| DesfireSecureChannelEncode := fun ctx _ data => (ctx, data);
     DesfireSecureChannelDecode := fun ctx src _ => (ctx, src) |}.

(** One bit of a reflected CRC. *)
Definition crc_bit (poly crc : Z) : Z :=
  if Z.testbit crc 0 then Z.lxor (Z.shiftr crc 1) poly else Z.shiftr crc 1.

Definition crc_byte (poly crc b : Z) : Z :=
  let crc := Z.lxor crc b in
  crc_bit poly (crc_bit poly (crc_bit poly (crc_bit poly
    (crc_bit poly (crc_bit poly (crc_bit poly (crc_bit poly crc))))))).

(** CRC_A of ISO/IEC 14443-3 (initial value 0x6363), low byte first. *)
Definition crc16_a (d : list Z) : list Z :=
  let crc := fold_left (crc_byte 0x8408) d 0x6363 in
  [Z.land crc 0xff; Z.land (Z.shiftr crc 8) 0xff].

(** The DESFire CRC32: initial value 0xFFFFFFFF, no final inversion,
    little-endian. *)
Definition crc32_desfire (d : list Z) : list Z :=
  let crc := fold_left (crc_byte 0xEDB88320) d 0xFFFFFFFF in
  [Z.land crc 0xff; Z.land (Z.shiftr crc 8) 0xff;
   Z.land (Z.shiftr crc 16) 0xff; Z.land (Z.shiftr crc 24) 0xff].

Definition checksums : Checksums :=
  {| iso14443a_crc := crc16_a; desfire_crc32 := crc32_desfire |}.

(** The version of a DES key sits in the low bits of its first eight bytes. *)
Fixpoint set_version_bits (k : list Z) (n : nat) (mask version : Z) : list Z :=
  match n, k with
  | S n', b :: k' =>
    Z.lor (Z.land b 0xFE) (if Z.land version mask =? 0 then 0 else 1)
      :: set_version_bits k' n' (Z.shiftr mask 1) version
  | _, _ => map (fun b => Z.land b 0xFE) k
  end.

Definition key_ops : DesfireKeyOps :=
  {| DesfireKeyAlgoToType := fun t =>
       match t with T_DES | T_3DES => 0x00 | T_3K3DES => 0x01 | T_AES => 0x02 end;
     DesfireDESKeySetVersion := fun k t v =>
       match t with T_AES => k | _ => set_version_bits k 8 0x80 v end |}.

Definition file_comm_modes : FileCommModes :=
  {| DesfireFileCommModeToCommMode := fun m =>
       if m =? 0x01 then DCMMACed else if m =? 0x03 then DCMEncrypted else DCMPlain |}.

(** A null cipher: every block operation is the identity and leaves the IV
    alone.  The session key is laid out as the spec gives it:
    [RndA[0..4] || RndB[0..4] || RndA[0..4] || RndB[0..4]] for DES, the
    second half taken from bytes 4..8 for 2TDEA, and
    [RndA[0..4] || RndB[0..4] || RndA[12..16] || RndB[12..16]] for 3TDEA and
    AES. *)
Definition session_key (rndA rndB : list Z) (k : DesfireCryptoAlgorythm * list Z)
  : DesfireCryptoAlgorythm * list Z :=
  (fst k,
   match fst k with
   | T_DES => slice rndA 0 4 ++ slice rndB 0 4 ++ slice rndA 0 4 ++ slice rndB 0 4
   | T_3DES => slice rndA 0 4 ++ slice rndB 0 4 ++ slice rndA 4 4 ++ slice rndB 4 4
   | _ => slice rndA 0 4 ++ slice rndB 0 4 ++ slice rndA 12 4 ++ slice rndB 12 4
   end).

Definition null_cipher : DesfireCrypto :=
  {| desfire_key := (DesfireCryptoAlgorythm * list Z)%type;
     key_data := snd;
     Desfire_aes_key_new := fun kb => (T_AES, kb);
     Desfire_3des_key_new_with_version := fun kb => (T_3DES, kb);
     Desfire_des_key_new := fun kb => (T_DES, kb);
     Desfire_3k3des_key_new_with_version := fun kb => (T_3K3DES, kb);
     mifare_kdf_an10922 := fun k _ _ => k;
     Desfire_session_key_new := session_key;
     aes_context := unit;
     mbedtls_aes_init := tt;
     mbedtls_aes_setkey_dec := fun a _ _ => (a, 0);
     mbedtls_aes_setkey_enc := fun a _ _ => (a, 0);
     mbedtls_aes_crypt_cbc := fun _ _ len iv input => (iv, ztake len input);
     des_decrypt := fun input _ => ztake 8 input;
     des3_decrypt := fun input _ _ => ztake 8 input;
     des_decrypt_cbc := fun input len _ iv => (iv, ztake len input);
     des_encrypt_cbc := fun input len _ iv => (iv, ztake len input);
     tdes_nxp_receive := fun input len _ iv _ => (iv, ztake len input);
     tdes_nxp_send := fun input len _ iv _ => (iv, ztake len input);
     aes_decode := fun iv _ input len => (0, iv, ztake len input);
     aes_encode := fun iv _ input len => (0, iv, ztake len input);
     DesfireGenSessionKeyEV2 := fun _ rndA rndB enckey =>
       (if enckey then [0xA5; 0x5A] else [0x5A; 0xA5]) ++ ztake 14 (bin_xor rndA rndB) |}.

(** A context as a caller sets it up before any authentication. *)
Definition fresh_context (kn : Z) (kt : DesfireCryptoAlgorythm) (k : list Z)
  (cs : DesfireCommandSet) : DesfireContext :=
  mkDesfireContext kn kt k MFDES_KDF_ALGO_NONE 0 [] DACNone cs DCMPlain false
    (zeros DESFIRE_MAX_KEY_SIZE) (zeros DESFIRE_MAX_KEY_SIZE) (zeros DESFIRE_MAX_KEY_SIZE)
    (zeros 4) 0.

(** A context in the middle of an authenticated session on key [kn]. *)
Definition authenticated_context (kn : Z) (kt : DesfireCryptoAlgorythm) (k : list Z)
  (chan : DesfireSecureChannel) : DesfireContext :=
  mkDesfireContext kn kt k MFDES_KDF_ALGO_NONE 0 [] chan DCCNative DCMPlain true
    (zeros DESFIRE_MAX_KEY_SIZE)
    (memcpy (zeros DESFIRE_MAX_KEY_SIZE) 0 (repeat 0x5A 16))
    (memcpy (zeros DESFIRE_MAX_KEY_SIZE) 0 (repeat 0xE7 16))
    [0x41; 0x42; 0x43; 0x44] 7.

(** A card answer that the transport delivers: status, data, and the two
    trailing CRC bytes of the raw frame. *)
Definition card_says (status : Z) (data : list Z) : Reply :=
  mkReply PM3_SUCCESS (status :: data ++ [0xC1; 0xC2]).

End Mock.

(** ** Predicates of the statements *)

(** The first byte of a frame. *)
Definition starts_with (b : Z) (frame : list Z) : Prop := hd_error frame = Some b.

(** The transport after a call of [DESFIRESendRaw] that took the first
    reply of the script and left [rs]. *)
Definition raw_sent (activate : bool) (data : list Z) (rs : list Reply) (t : Transport)
  : Transport :=
  mkTransport rs
    (events (if activate then msleep 50 (DropField t) else t) ++ [EvRaw activate data]).

(** A property of the context that the secure-channel codec keeps, in both
    directions and whatever it is given. *)
Definition codec_preserves `{SecureChannelCodec} (P : DesfireContext -> Prop) : Prop :=
  (forall c cmd d, P c -> P (fst (DesfireSecureChannelEncode c cmd d))) /\
  (forall c src rc, P c -> P (fst (DesfireSecureChannelDecode c src rc))).

(** The session is unauthenticated and both session keys are wiped. *)
Definition session_cleared (c : DesfireContext) : Prop :=
  secureChannel c = DACNone /\
  sessionKeyEnc c = zeros DESFIRE_MAX_KEY_SIZE /\
  sessionKeyMAC c = zeros DESFIRE_MAX_KEY_SIZE.

(** The context after a successful select: the session is cleared, and
    [appSelected] tells whether the PICC level was selected. *)
Definition selected_by (is_picc_level : Prop) (ctx' : DesfireContext) : Prop :=
  session_cleared ctx' /\
  (appSelected ctx' = false <-> is_picc_level) /\
  (appSelected ctx' = true <-> ~ is_picc_level).

(** [ends m Q t c]: whenever the computation [m], started on transport [t]
    and context [c], comes to an end, the transport, the context and the
    outcome it ends with satisfy [Q]. *)
Definition ends {A : Type} (m : M A)
  (Q : Transport -> DesfireContext -> Outcome A -> Prop)
  (t : Transport) (c : DesfireContext) : Prop :=
  forall t' c' o, m t c = Some (t', c', o) -> Q t' c' o.

(** The code that the body of an [int] function ends with. *)
Definition code_of (o : Outcome Z) : Z :=
  match o with Next code => code | Return code => code end.

(* ===================================================================== *)
(** * Part I, continued.  The rest of the command layer                   *)
(* ===================================================================== *)

(** A card answer as the transport delivers it to [DESFIRESendRaw]: status
    byte, data, and the two CRC bytes of the frame. *)
Definition card_frame (status : Z) (d crc : list Z) : Reply :=
  mkReply PM3_SUCCESS (status :: d ++ crc).

(** ** More helpers of commonutil.c *)

Definition Uint4byteToMemLe (value : Z) : list Z :=
  [Z.land value 0xff; Z.land (Z.shiftr value 8) 0xff; Z.land (Z.shiftr value 16) 0xff;
   Z.land (Z.shiftr value 24) 0xff].

(** ** More constants of the headers (protocols.h) *)

Definition MFDES_GET_FREE_MEMORY : Z := 0x6E.
Definition MFDES_CHANGE_CONFIGURATION : Z := 0x5C.
Definition MFDES_GET_VALUE : Z := 0x6C.
Definition MFDES_CREATE_STD_DATA_FILE : Z := 0xCD.
Definition MFDES_CREATE_BACKUP_DATA_FILE : Z := 0xCB.
Definition MFDES_CREATE_VALUE_FILE : Z := 0xCC.
Definition MFDES_CREATE_LINEAR_RECORD_FILE : Z := 0xC1.
Definition MFDES_CREATE_CYCLIC_RECORD_FILE : Z := 0xC0.
Definition MFDES_CREATE_TRANS_MAC_FILE : Z := 0xCE.

(** protocols.h is not part of the sources: the instruction bytes of the
    ISO 7816 commands are parameters of the model. *)
Class Iso7816Instructions := {
  ISO7816_SELECT_FILE : Z;
  ISO7816_GET_CHALLENGE : Z;
  ISO7816_EXTERNAL_AUTHENTICATION : Z;
  ISO7816_INTERNAL_AUTHENTICATION : Z
}.

(** desfirecore.h: [DesfireISOSelectControl], the P1 of ISO SELECT. *)
Inductive DesfireISOSelectControl :=
  ISSMFDFEF | ISSChildDF | ISSEFByFileID | ISSParentDF | ISSDFName.

Definition ISOSelectControl_code (cntr : DesfireISOSelectControl) : Z :=
  match cntr with
  | ISSMFDFEF => 0x00
  | ISSChildDF => 0x01
  | ISSEFByFileID => 0x02
  | ISSParentDF => 0x03
  | ISSDFName => 0x04
  end.

Definition cmdset_eqb (a b : DesfireCommandSet) : bool :=
  match a, b with
  | DCCNative, DCCNative | DCCNativeISO, DCCNativeISO | DCCISO, DCCISO => true
  | _, _ => false
  end.

Definition set_cmdSet (v : DesfireCommandSet) (c : DesfireContext) : DesfireContext :=
  mkDesfireContext (keyNum c) (keyType c) (key c) (kdfAlgo c) (kdfInputLen c) (kdfInput c)
    (secureChannel c) v (commMode c) (appSelected c) (IV c) (sessionKeyMAC c)
    (sessionKeyEnc c) (TI c) (cmdCntr c).

(** ** Key tables *)

Definition DesfireKeyToISOKey (keytype : DesfireCryptoAlgorythm) : Z :=
  match keytype with
  | T_DES => 0x02
  | T_3DES => 0x02
  | T_3K3DES => 0x04
  | T_AES => 0x09
  end.

Definition DesfireGetRndLenForKey (keytype : DesfireCryptoAlgorythm) : Z :=
  match keytype with
  | T_DES => 0x08
  | T_3DES => 0x08
  | T_3K3DES => 0x10
  | T_AES => 0x10
  end.

(** ** The table of file types *)

(** desfirecore.h: [DesfireCreateFileCommandsS]. *)
Record DesfireCreateFileCommandsS := mkFileCommand {
  fc_id : Z;
  fc_text : string;
  fc_cmd : Z;
  fc_len : Z;
  fc_createlen : Z;
  fc_mayHaveISOfid : bool
}.

Definition DesfireFileCommands : list DesfireCreateFileCommandsS :=
  [ mkFileCommand 0x00 "Standard data" MFDES_CREATE_STD_DATA_FILE 6 6 true;
    mkFileCommand 0x01 "Backup data" MFDES_CREATE_BACKUP_DATA_FILE 6 6 true;
    mkFileCommand 0x02 "Value" MFDES_CREATE_VALUE_FILE 16 16 false;
    mkFileCommand 0x03 "Linear Record" MFDES_CREATE_LINEAR_RECORD_FILE 12 9 true;
    mkFileCommand 0x04 "Cyclic Record" MFDES_CREATE_CYCLIC_RECORD_FILE 12 9 true;
    mkFileCommand 0x05 "Transaction MAC" MFDES_CREATE_TRANS_MAC_FILE 5 21 false ].

(** [None] is the NULL pointer. *)
Definition GetDesfireFileCmdRec (type : Z) : option DesfireCreateFileCommandsS :=
  find (fun rec => fc_id rec =? type) DesfireFileCommands.

(** ** The application list *)

(** An entry of [AppListS] (desfirecore.h) as far as [AppListSearchAID]
    reads it: the AID. *)
Record DesfireAppS := mkApp {
  appNum : Z
}.

Fixpoint AppListSearchAID_loop (n : nat) (i : Z) (appNum_ : Z) (AppList : list DesfireAppS)
  : Z :=
  match n with
  | O => -1
  | S n' =>
    if appNum (nth (Z.to_nat i) AppList (mkApp 0)) =? appNum_ then i
    else AppListSearchAID_loop n' (i + 1) appNum_ AppList
  end.

Definition AppListSearchAID (appNum_ : Z) (AppList : list DesfireAppS) (appcount : Z) : Z :=
  AppListSearchAID_loop (Z.to_nat appcount) 0 appNum_ AppList.

(** ** Messages *)

Definition DesfireAuthErrorToStr (error : Z) : string :=
  if error =? 1 then "Sending auth command failed"
  else if error =? 2 then "Authentication failed. No data received"
  else if error =? 3 then "Authentication failed. Invalid key number."
  else if error =? 4 then "Authentication failed. Length of answer doesn't match algo length"
  else if error =? 5 then "mbedtls_aes_setkey_dec failed"
  else if error =? 6 then "mbedtls_aes_setkey_enc failed"
  else if error =? 7 then "Sending auth command failed"
  else if error =? 8 then "Authentication failed. Card timeout."
  else if error =? 9 then "Authentication failed."
  else if error =? 10 then "mbedtls_aes_setkey_dec failed"
  else if error =? 11 then "Authentication failed. Cannot verify Session Key."
  else if error =? 100 then "Can't find auth method for provided channel parameters."
  else if error =? 200 then "Can't select application."
  else if error =? 201 then "Authentication retured no error but channel not authenticated."
  else if error =? 301 then "ISO Get challenge error."
  else if error =? 302 then "ISO Get challenge returned wrong length."
  else if error =? 303 then "Crypto encode piccrnd1 error."
  else if error =? 304 then "External authenticate error."
  else if error =? 305 then "Internal authenticate error."
  else if error =? 306 then "Internal authenticate returned wrong length."
  else if error =? 307 then "Crypto decode piccrnd2 error."
  else if error =? 308 then "Random numbers dont match. Authentication failed."
  else "".

(** ** Calls *)

(** A call of a function that is given the context and the transport. *)
Definition call {A : Type}
  (f : DesfireContext -> Transport -> option (Transport * DesfireContext * A)) : M A :=
  fun t c =>
    match f c t with
    | None => None
    | Some (t', c', a) => Some (t', c', Next a)
    end.

(** A call of an [int] function whose body leaves through [return code;]:
    the code is the value of the call. *)
Definition fn (body : M Z) : M Z :=
  fun t c =>
    match body t c with
    | None => None
    | Some (t', c', o) => Some (t', c', Next (code_of o))
    end.

(** A call of [DESFIRESendApduEx]. *)
Definition send_apdu `{ApduEncoder} (activate_field : bool) (apdu : sAPDU) (le : Z)
  (max_result_len : Z) : M ApduResult :=
  fun t c =>
    let '(t', r) := DESFIRESendApduEx activate_field apdu le max_result_len t in
    Some (t', c, Next r).

(** ** The command wrappers *)

Section MoreCommands.
Context `{FL : FrameLimit} `{AE : ApduEncoder} `{SC : SecureChannelCodec}.

(** [resp] and [resplen] are NULL: what [DesfireCommandEx] would store
    through them is dropped. *)
Definition DesfireCommandTxData (cmd : Z) (data : list Z) : M Z :=
  r <- DesfireCommand cmd data [] 0 ;;
  ret (cmd_res r).

Definition DesfireCommandRxData (cmd : Z) (resp : list Z) (checklength : Z) : M CmdResult :=
  DesfireCommand cmd [] resp checklength.

(** Returns [(res, *freemem)]. *)
Definition DesfireGetFreeMem : M (Z * Z) :=
  let freemem := 0 in
  let resp := zeros 257 in
  r <- DesfireCommandRxData MFDES_GET_FREE_MEMORY resp 3 ;;
  let freemem :=
    if cmd_res r =? PM3_SUCCESS then DesfireAIDByteToUint (cmd_resp r) else freemem in
  ret (cmd_res r, freemem).

Definition DesfireSetConfigurationCmd (data : list Z) (resp : list Z) : M CmdResult :=
  DesfireCommand MFDES_CHANGE_CONFIGURATION data resp (-1).

Definition DesfireCreateFile (ftype : Z) (fdata : list Z) (fdatalen : Z) (checklen : bool)
  : M Z :=
  match GetDesfireFileCmdRec ftype with
  | None => ret (-100)
  | Some rcmd =>
    if checklen && negb (fdatalen =? fc_createlen rcmd + 1) &&
       negb (fdatalen =? fc_createlen rcmd + 1 + (if fc_mayHaveISOfid rcmd then 2 else 0))
    then ret (-110)
    else DesfireCommandTxData (fc_cmd rcmd) (ztake fdatalen fdata)
  end.

(** [value] is not NULL; returns [(res, *value)]. *)
Definition DesfireValueFileOperations (fid : Z) (operation : Z) (value : Z) : M (Z * Z) :=
  let data := zeros 10 in
  let data := poke data 0 fid in
  let datalen := if operation =? MFDES_GET_VALUE then 1 else 5 in
  let data := memcpy data 1 (Uint4byteToMemLe value) in
  let resp := zeros 250 in
  r <- DesfireCommand operation (ztake datalen data) resp (-1) ;;
  local_array 250 (cmd_resp r) ;;
  let value :=
    if cmd_resplen r =? 4 then MemLeToUint4byte (cmd_resp r) else value in
  ret (cmd_res r, value).

End MoreCommands.

(** ** Set configuration *)

Record SetConfigurationData := mkSetConfigurationData {
  sc_cdata : list Z;      (* [cdata]; [data] is [&cdata[1]] *)
  sc_datalen : Z          (* [datalen] *)
}.

(** [DesfireSetConfiguration] up to the "send command" comment. *)
Definition DesfireSetConfiguration_data `{Checksums} (dctx : DesfireContext) (paramid : Z)
  (param : list Z) (paramlen : Z) : SetConfigurationData :=
  let cdata := zeros 200 in
  let cdata := poke cdata 0 MFDES_CHANGE_CONFIGURATION in
  let cdata := poke cdata 1 paramid in
  let cdata := memcpy cdata 2 (ztake paramlen param) in
  let datalen := 1 + paramlen in
  (* add crc *)
  let '(cdata, datalen) :=
    if chan_eqb (secureChannel dctx) DACd40
    then (memcpy cdata 2 (iso14443a_crc_append (zdrop 2 cdata) (datalen - 1)), datalen + 2)
    else (desfire_crc32_append cdata (datalen + 1), datalen + 4) in
  (* dynamic length *)
  let '(cdata, datalen) :=
    if paramid =? 0x02
    then (poke cdata (1 + datalen) 0x80, datalen + 1)
    else (cdata, datalen) in
  mkSetConfigurationData cdata datalen.

Definition DesfireSetConfiguration `{FrameLimit} `{ApduEncoder} `{SecureChannelCodec}
  `{Checksums} (paramid : Z) (param : list Z) (paramlen : Z) : M Z :=
  dctx <- get_ctx ;;
  let d := DesfireSetConfiguration_data dctx paramid param paramlen in
  (* send command *)
  let resp := zeros 257 in
  r <- DesfireSetConfigurationCmd (slice (sc_cdata d) 1 (sc_datalen d)) resp ;;
  let res := cmd_res r in
  (* check response *)
  let res := if (res =? 0) && (cmd_resplen r >? 0) then -20 else res in
  ret res.

(** ** ISO 7816 commands *)

Record IsoResult := mkIsoResult {
  iso_res : Z;          (* return value *)
  iso_resp : list Z;    (* the [resp] buffer *)
  iso_resplen : Z;      (* [*resplen] *)
  iso_sw : Z            (* [*sw] *)
}.

Section IsoCommands.
Context `{AE : ApduEncoder} `{I7 : Iso7816Instructions}.

(** The transport stores what it receives, up to 255 bytes, through
    [resp], the caller's array; [*resplen] is written only when the exchange
    succeeds.  [ctx] is not used. *)
Definition DesfireExchangeISO (activate_field : bool) (apdu : sAPDU) (le : Z)
  (resp : list Z) (resplen : Z) : M IsoResult :=
  r <- send_apdu activate_field apdu le 255 ;;
  let resp := memcpy resp 0 (apdu_result r) in
  let resplen := if apdu_res r =? PM3_SUCCESS then apdu_result_len r else resplen in
  ret (mkIsoResult (apdu_res r) resp resplen (apdu_sw r)).

(** [out] is [None] when [resp] and [resplen] are NULL, and else the
    buffer and [*resplen] (the callers pass both or none); returns the
    return value and [out] as the call leaves them.  [datalen] is a
    [uint8_t]. *)
Definition DesfireISOSelect (cntr : DesfireISOSelectControl) (data : list Z) (datalen : Z)
  (out : option (list Z * Z)) : M (Z * option (list Z * Z)) :=
  let xresp := zeros 250 in
  let xresplen := 0 in
  r <- DesfireExchangeISO true
         (mkAPDU 0x00 ISO7816_SELECT_FILE (ISOSelectControl_code cntr)
            (match out with None => 0x0C | Some _ => 0x00 end) datalen data)
         APDU_INCLUDE_LE_00 xresp xresplen ;;
  local_array 250 (iso_resp r) ;;
  if (iso_res r =? PM3_SUCCESS) && negb (iso_sw r =? 0x9000) then ret (PM3_ESOFT, out)
  else
    let out :=
      match out with
      | Some (resp, _) =>
        Some (memcpy resp 0 (ztake (iso_resplen r) (iso_resp r)), iso_resplen r)
      | None => None
      end in
    modify_ctx DesfireClearSession ;;
    modify_ctx (set_appSelected
      (negb ((match cntr with ISSMFDFEF => true | _ => false end) && (datalen =? 0) ||
             (match cntr with ISSEFByFileID => true | _ => false end) && (datalen =? 2) &&
             (zget data 0 =? 0) && (zget data 1 =? 0)))) ;;
    ret (iso_res r, out).

(** Returns [(res, resp, *resplen)]. *)
Definition DesfireISOGetChallenge (keytype : DesfireCryptoAlgorythm) (resp : list Z)
  (resplen : Z) : M (Z * list Z * Z) :=
  r <- DesfireExchangeISO false (mkAPDU 0x00 ISO7816_GET_CHALLENGE 0x00 0x00 0x00 [])
         (DesfireGetRndLenForKey keytype) resp resplen ;;
  if (iso_res r =? PM3_SUCCESS) && negb (iso_sw r =? 0x9000)
  then ret (PM3_ESOFT, iso_resp r, iso_resplen r)
  else ret (iso_res r, iso_resp r, iso_resplen r).

Definition DesfireISOExternalAuth (app_level : bool) (keynum : Z)
  (keytype : DesfireCryptoAlgorythm) (data : list Z) : M Z :=
  let p1 := DesfireKeyToISOKey keytype in
  let p2 := u8 (Z.lor (if app_level then 0x80 else 0x00) keynum) in
  let resp := zeros 250 in
  let resplen := 0 in
  r <- DesfireExchangeISO false
         (mkAPDU 0x00 ISO7816_EXTERNAL_AUTHENTICATION p1 p2
            (u8 (DesfireGetRndLenForKey keytype * 2)) data) 0 resp resplen ;;
  local_array 250 (iso_resp r) ;;
  if (iso_res r =? PM3_SUCCESS) && negb (iso_sw r =? 0x9000) then ret PM3_ESOFT
  else ret (iso_res r).

(** Returns [(res, resp, *resplen)]. *)
Definition DesfireISOInternalAuth (app_level : bool) (keynum : Z)
  (keytype : DesfireCryptoAlgorythm) (data : list Z) (resp : list Z) (resplen : Z)
  : M (Z * list Z * Z) :=
  let keylen := DesfireGetRndLenForKey keytype in
  let p1 := DesfireKeyToISOKey keytype in
  let p2 := u8 (Z.lor (if app_level then 0x80 else 0x00) keynum) in
  r <- DesfireExchangeISO false
         (mkAPDU 0x00 ISO7816_INTERNAL_AUTHENTICATION p1 p2 keylen data) (keylen * 2)
         resp resplen ;;
  if (iso_res r =? PM3_SUCCESS) && negb (iso_sw r =? 0x9000)
  then ret (PM3_ESOFT, iso_resp r, iso_resplen r)
  else ret (iso_res r, iso_resp r, iso_resplen r).

End IsoCommands.

(** ** ISO authentication and the entry points *)

(** desfire_crypto.c: the context-level cipher and the EV1 session key.
    [DesfireCryptoEncDec ctx use_session_key src srclen encode] returns the
    context it leaves and the bytes it stores through [dstdata];
    [DesfireGenSessionKeyEV1 rnda rndb keytype] returns the key it stores
    through its last argument. *)
Class DesfireContextCrypto := {
  DesfireCryptoEncDec :
    DesfireContext -> bool -> list Z -> Z -> bool -> DesfireContext * list Z;
  DesfireGenSessionKeyEV1 : list Z -> list Z -> DesfireCryptoAlgorythm -> list Z
}.

(** A call of [DesfireCryptoEncDec] on the current context. *)
Definition crypto_encdec `{DesfireContextCrypto} (use_session_key : bool) (src : list Z)
  (srclen : Z) (encode : bool) : M (list Z) :=
  fun t c =>
    let '(c', out) := DesfireCryptoEncDec c use_session_key src srclen encode in
    Some (t, c', Next out).

(** The second host challenge of [DesfireAuthenticateISO]. *)
Definition hostrnd2_init : list Z :=
  [0x16; 0x15; 0x14; 0x13; 0x12; 0x11; 0x10; 0x09;
   0x08; 0x07; 0x06; 0x05; 0x04; 0x03; 0x02; 0x01].

Section Entry.
Context `{FL : FrameLimit} `{AE : ApduEncoder} `{I7 : Iso7816Instructions}
  `{SC : SecureChannelCodec} `{CR : DesfireCrypto} `{CC : DesfireContextCrypto}.

(** [hostrnd] has the bytes of [RndA]; [piccrnd] is not initialised in the
    source and is taken as zeroes (it is read only after the card's
    challenge has been stored in it). *)
Definition DesfireAuthenticateISO (secureChannel : DesfireSecureChannel) (verbose : bool)
  : M Z :=
  fn
    (dctx <- get_ctx ;;
     let rndlen := DesfireGetRndLenForKey (keyType dctx) in
     let hostrnd := RndA_init in
     let hostrnd2 := hostrnd2_init in
     let piccrnd := zeros 64 in
     let xlen := 0 in
     '(res, piccrnd, xlen) <- DesfireISOGetChallenge (keyType dctx) piccrnd xlen ;;
     local_array 64 piccrnd ;;
     return_if (negb (res =? PM3_SUCCESS)) 301 ;;
     return_if (negb (xlen =? rndlen)) 302 ;;
     let both := zeros 32 in
     let both := memcpy both 0 (ztake rndlen hostrnd) in
     let both := memcpy both rndlen (ztake rndlen piccrnd) in
     (* encode *)
     modify_ctx DesfireClearIV ;;
     out <- crypto_encdec false both (rndlen * 2) true ;;
     let both := memcpy both 0 out in
     (* external authenticate *)
     dctx <- get_ctx ;;
     res <- DesfireISOExternalAuth (appSelected dctx) (keyNum dctx) (keyType dctx) both ;;
     return_if (negb (res =? PM3_SUCCESS)) 304 ;;
     (* internal authenticate *)
     let rnddata := zeros 64 in
     let xlen := 0 in
     dctx <- get_ctx ;;
     '(res, rnddata, xlen) <-
       DesfireISOInternalAuth (appSelected dctx) (keyNum dctx) (keyType dctx) hostrnd2
         rnddata xlen ;;
     local_array 64 rnddata ;;
     return_if (negb (res =? PM3_SUCCESS)) 305 ;;
     return_if (negb (xlen =? rndlen * 2)) 306 ;;
     (* decode rnddata *)
     let piccrnd2 := zeros 64 in
     out <- crypto_encdec false rnddata (rndlen * 2) false ;;
     let piccrnd2 := memcpy piccrnd2 0 out in
     (* check *)
     return_if (negb (bytes_eqb (ztake rndlen hostrnd2) (slice piccrnd2 rndlen rndlen))) 308 ;;
     modify_ctx (fun c =>
       set_sessionKeyEnc
         (memcpy (sessionKeyEnc c) 0 (DesfireGenSessionKeyEV1 hostrnd piccrnd2 (keyType c)))
         c) ;;
     modify_ctx DesfireClearIV ;;
     modify_ctx (fun c =>
       set_sessionKeyMAC
         (memcpy (sessionKeyMAC c) 0
            (ztake (desfire_get_key_length (keyType c)) (sessionKeyEnc c))) c) ;;
     modify_ctx (set_secureChannel secureChannel) ;;
     return_ PM3_SUCCESS).

Definition DesfireAuthenticate (secureChannel : DesfireSecureChannel) (verbose : bool)
  : M Z :=
  dctx <- get_ctx ;;
  if cmdset_eqb (cmdSet dctx) DCCISO && negb (chan_eqb secureChannel DACEV2)
  then DesfireAuthenticateISO secureChannel verbose
  else if chan_eqb secureChannel DACd40 || chan_eqb secureChannel DACEV1
  then call (fun c t => DesfireAuthenticateEV1 c secureChannel verbose t)
  else if chan_eqb secureChannel DACEV2
  then (* non first auth if there is a working secure channel *)
    call (fun c t =>
            DesfireAuthenticateEV2 c secureChannel (negb (DesfireIsAuthenticated dctx))
              verbose t)
  else ret 100.

Definition DesfireSelectAndAuthenticateEx (secureChannel : DesfireSecureChannel) (aid : Z)
  (noauth : bool) (verbose : bool) : M Z :=
  fn
    (dctx <- get_ctx ;;
     let isosw := cmdset_eqb (cmdSet dctx) DCCISO in
     (if isosw then modify_ctx (set_cmdSet DCCNativeISO) else ret tt) ;;
     res <- call (fun c t => DesfireSelectAIDHex c aid false 0 t) ;;
     return_if (negb (res =? PM3_SUCCESS)) 200 ;;
     (if isosw then modify_ctx (set_cmdSet DCCISO) else ret tt) ;;
     if negb noauth then
       res <- DesfireAuthenticate secureChannel verbose ;;
       (if negb (res =? PM3_SUCCESS) then return_ res else ret tt) ;;
       dctx <- get_ctx ;;
       if DesfireIsAuthenticated dctx then return_ PM3_SUCCESS else return_ 201
     else return_ PM3_SUCCESS).

End Entry.

(** ** Statements on authentication and select *)

(** The codes for which [DesfireAuthErrorToStr] has a message. *)
Definition auth_code_listed (code : Z) : Prop :=
  1 <= code <= 11 \/ code = 100 \/ code = 200 \/ code = 201 \/ 301 <= code <= 308.

(** The value that [DesfireISOSelect] stores in [appSelected]. *)
Definition iso_select_app (cntr : DesfireISOSelectControl) (data : list Z) (datalen : Z)
  : bool :=
  negb ((match cntr with ISSMFDFEF => true | _ => false end) && (datalen =? 0) ||
        (match cntr with ISSEFByFileID => true | _ => false end) && (datalen =? 2) &&
        (zget data 0 =? 0) && (zget data 1 =? 0)).

(** ** Statements on block data *)

(** The data of block [i] of a buffer in the format
    [<length, data><length, data>...] with blocks of [blockdatasize] bytes. *)
Definition block_data (blockdata : list Z) (blockdatasize : Z) (i : Z) : list Z :=
  slice blockdata (i * blockdatasize + 1) (zget blockdata (i * blockdatasize)).

(** The indices [0 .. n - 1]. *)
Definition indices (n : Z) : list Z := map Z.of_nat (seq 0 (Z.to_nat n)).

(** The sum of the length bytes of [n] blocks from block [i] on. *)
Fixpoint block_lengths (n : nat) (i : Z) (blockdata : list Z) (blockdatasize : Z) : Z :=
  match n with
  | O => 0
  | S n' =>
    zget blockdata (i * blockdatasize) + block_lengths n' (i + 1) blockdata blockdatasize
  end.

(** ** More of the mock card reader *)

Module MockIso.

(** The instruction bytes of ISO/IEC 7816-4: SELECT, GET CHALLENGE,
    EXTERNAL AUTHENTICATE, INTERNAL AUTHENTICATE. *)
Definition iso7816 : Iso7816Instructions :=
  {| ISO7816_SELECT_FILE := 0xA4;
     ISO7816_GET_CHALLENGE := 0x84;
     ISO7816_EXTERNAL_AUTHENTICATION := 0x82;
     ISO7816_INTERNAL_AUTHENTICATION := 0x88 |}.

(** A cipher for the examples: the identity on the bytes it is given, and
    a session key made of the halves of the two challenges. *)
Definition context_crypto : DesfireContextCrypto :=
  {| DesfireCryptoEncDec := fun c _ src srclen _ => (c, ztake srclen src);
     DesfireGenSessionKeyEV1 := fun rnda rndb _ => ztake 8 rnda ++ ztake 8 rndb |}.

(** A card answer to an APDU: data and the status word. *)
Definition card_answers (data : list Z) (sw1 sw2 : Z) : Reply :=
  mkReply PM3_SUCCESS (data ++ [sw1; sw2]).

End MockIso.

(* ===================================================================== *)
(** * Part II.  Properties                                                *)
(* ===================================================================== *)

(** ** Buffers *)

Lemma zlen_nonneg {A : Type} (l : list A) : 0 <= zlen l.
Proof. unfold zlen. lia. Qed.

Lemma zlen_cons {A : Type} (x : A) (l : list A) : zlen (x :: l) = zlen l + 1.
Proof. unfold zlen. simpl length. lia. Qed.

Lemma zlen_app {A : Type} (l1 l2 : list A) : zlen (l1 ++ l2) = zlen l1 + zlen l2.
Proof. unfold zlen. rewrite length_app. lia. Qed.

Lemma ztake_firstn {A : Type} (n : Z) (l : list A) : ztake n l = firstn (Z.to_nat n) l.
Proof.
  unfold ztake, zlen.
  destruct (Z.le_ge_cases n (Z.of_nat (length l))) as [Hle | Hge].
  - rewrite Z.min_l by exact Hle. reflexivity.
  - rewrite Z.min_r by exact Hge. rewrite Nat2Z.id.
    rewrite !firstn_all2; [reflexivity | lia | lia].
Qed.

Lemma zdrop_skipn {A : Type} (n : Z) (l : list A) : zdrop n l = skipn (Z.to_nat n) l.
Proof.
  unfold zdrop, zlen.
  destruct (Z.le_ge_cases n (Z.of_nat (length l))) as [Hle | Hge].
  - rewrite Z.min_l by exact Hle. reflexivity.
  - rewrite Z.min_r by exact Hge. rewrite Nat2Z.id.
    rewrite !skipn_all2; [reflexivity | lia | lia].
Qed.

Lemma ztake_all {A : Type} (n : Z) (l : list A) : zlen l <= n -> ztake n l = l.
Proof. rewrite ztake_firstn. unfold zlen. intros Hn. apply firstn_all2. lia. Qed.

Lemma zlen_ztake {A : Type} (n : Z) (l : list A) :
  0 <= n <= zlen l -> zlen (ztake n l) = n.
Proof. rewrite ztake_firstn. unfold zlen. intros Hn. rewrite length_firstn. lia. Qed.

Lemma ztake_app_exact {A : Type} (n : Z) (l1 l2 : list A) :
  zlen l1 = n -> ztake n (l1 ++ l2) = l1.
Proof.
  rewrite ztake_firstn. unfold zlen. intros Hn.
  replace (Z.to_nat n) with (length l1 + 0)%nat by lia.
  rewrite firstn_app_2. simpl. apply app_nil_r.
Qed.

Lemma zdrop_app_exact {A : Type} (n : Z) (l1 l2 : list A) :
  zlen l1 = n -> zdrop n (l1 ++ l2) = l2.
Proof.
  rewrite zdrop_skipn. unfold zlen. intros Hn.
  replace (Z.to_nat n) with (length l1) by lia.
  rewrite skipn_app, skipn_all, Nat.sub_diag. reflexivity.
Qed.

Lemma ztake_zdrop {A : Type} (n : Z) (l : list A) : ztake n l ++ zdrop n l = l.
Proof. rewrite ztake_firstn, zdrop_skipn. apply firstn_skipn. Qed.

Lemma zdrop_0 {A : Type} (l : list A) : zdrop 0 l = l.
Proof. rewrite zdrop_skipn. reflexivity. Qed.

Lemma zdrop_1_cons {A : Type} (x : A) (l : list A) : zdrop 1 (x :: l) = l.
Proof. rewrite zdrop_skipn. reflexivity. Qed.

Lemma slice_tail (x : Z) (rest : list Z) (n : Z) : slice (x :: rest) 1 n = ztake n rest.
Proof. unfold slice. rewrite zdrop_1_cons. reflexivity. Qed.

Lemma memcpy_at_0 (dst src : list Z) : memcpy dst 0 src = src ++ zdrop (zlen src) dst.
Proof.
  unfold memcpy. rewrite ztake_firstn. change (Z.to_nat 0) with 0%nat.
  rewrite firstn_0. reflexivity.
Qed.

Lemma u32_small (x : Z) : 0 <= x < 0x100000000 -> u32 x = x.
Proof. intros Hx. unfold u32. apply Z.mod_small. exact Hx. Qed.

Lemma u32_wrap_neg (x : Z) : - 0x100000000 <= x < 0 -> u32 x = x + 0x100000000.
Proof.
  intros Hx. unfold u32. symmetry.
  apply (Z.mod_unique_pos x 0x100000000 (-1) (x + 0x100000000)); lia.
Qed.

(** ** DESFIRESendRaw *)

Lemma is_success_status_iff (rcode : Z) :
  is_success_status rcode = true <->
  rcode = MFDES_S_OPERATION_OK \/ rcode = MFDES_S_ADDITIONAL_FRAME \/
  rcode = MFDES_S_SIGNATURE \/ rcode = MFDES_S_NO_CHANGES.
Proof.
  unfold is_success_status. rewrite !orb_true_iff, !Z.eqb_eq. tauto.
Qed.

(** The reply that a call of [DESFIRESendRaw] consumes. *)
Lemma DESFIRESendRaw_reply activate data max t r rs :
  replies t = r :: rs ->
  ExchangeRAW14a data activate max (if activate then msleep 50 (DropField t) else t) =
  (raw_sent activate data rs t,
   (r_res r, if r_res r =? PM3_SUCCESS then ztake max (r_data r) else [])).
Proof.
  intros Hr. unfold ExchangeRAW14a, next_reply, raw_sent.
  destruct activate; simpl; rewrite Hr; reflexivity.
Qed.

(** A card that does not answer, and an exchange that fails. *)
Lemma DESFIRESendRaw_timeout activate data max t :
  replies t = [] ->
  DESFIRESendRaw activate data max t =
  Some (raw_sent activate data [] t, mkRawResult PM3_ETIMEOUT [] 0 0xff).
Proof.
  intros Hr. destruct t as [rp ev]. cbn [replies] in Hr. subst rp.
  destruct activate; reflexivity.
Qed.

Lemma DESFIRESendRaw_failure activate data max t r rs :
  replies t = r :: rs ->
  r_res r <> PM3_SUCCESS ->
  DESFIRESendRaw activate data max t =
  Some (raw_sent activate data rs t, mkRawResult (r_res r) [] 0 0xff).
Proof.
  intros Hr Hres. unfold DESFIRESendRaw.
  rewrite (DESFIRESendRaw_reply activate data max t r rs Hr).
  apply Z.eqb_neq in Hres. rewrite Hres. reflexivity.
Qed.

Lemma DESFIRESendRaw_empty activate data max t r rs :
  replies t = r :: rs ->
  r_res r = PM3_SUCCESS ->
  r_data r = [] ->
  DESFIRESendRaw activate data max t =
  Some (raw_sent activate data rs t, mkRawResult PM3_SUCCESS [] 0 0xff).
Proof.
  intros Hr Hres Hd. unfold DESFIRESendRaw.
  rewrite (DESFIRESendRaw_reply activate data max t r rs Hr).
  rewrite Hres, Hd, ztake_firstn, firstn_nil. reflexivity.
Qed.

(** The outcome of [DESFIRESendRaw] on a frame of at least three bytes. *)
Lemma DESFIRESendRaw_ok activate data max t r rs st rest :
  replies t = r :: rs ->
  r_res r = PM3_SUCCESS ->
  r_data r = st :: rest ->
  2 <= zlen rest ->
  zlen (r_data r) <= max ->
  max < 0x100000000 ->
  DESFIRESendRaw activate data max t =
  Some (raw_sent activate data rs t,
        mkRawResult (if is_success_status st then PM3_SUCCESS else PM3_EAPDU_FAIL)
          (ztake (zlen rest - 2) rest ++ zdrop (zlen rest - 2) (st :: rest))
          (zlen rest - 2) st).
Proof.
  intros Hr Hres Hdata H2 Hfit Hmax.
  unfold DESFIRESendRaw.
  rewrite (DESFIRESendRaw_reply activate data max t r rs Hr).
  rewrite Hres, (ztake_all _ _ Hfit), Hdata.
  change (PM3_SUCCESS =? PM3_SUCCESS) with true. cbv iota.
  change (negb true) with false. cbv iota.
  rewrite Hdata, zlen_cons in Hfit.
  rewrite zlen_cons.
  destruct (zlen rest + 1 <? 1) eqn:E1; [apply Z.ltb_lt in E1; lia|].
  change (zget (st :: rest) 0) with st.
  unfold stripped_len. replace (zlen rest + 1 - (1 + 2)) with (zlen rest - 2) by lia.
  rewrite u32_small by lia.
  unfold memmove_down1.
  destruct (1 + (zlen rest - 2) <=? max) eqn:Em; [|apply Z.leb_gt in Em; lia].
  rewrite slice_tail, memcpy_at_0, zlen_ztake by lia.
  destruct (is_success_status st); reflexivity.
Qed.

(** [DESFIRESendRaw] on a well-formed answer [status || data || crc]. *)
Lemma DESFIRESendRaw_card_frame activate data t st d crc rs :
  replies t = card_frame st d crc :: rs ->
  zlen crc = 2 ->
  zlen d + 3 <= EXCHANGE_BUF_SIZE ->
  exists buf,
    DESFIRESendRaw activate data EXCHANGE_BUF_SIZE t =
    Some (raw_sent activate data rs t,
          mkRawResult (if is_success_status st then PM3_SUCCESS else PM3_EAPDU_FAIL)
            buf (zlen d) st) /\
    ztake (zlen d) buf = d.
Proof.
  intros Hr Hcrc Hfit.
  pose proof (zlen_nonneg d) as Hd.
  assert (Hlen : zlen (d ++ crc) - 2 = zlen d) by (rewrite zlen_app; lia).
  eexists. split.
  - rewrite (DESFIRESendRaw_ok activate data EXCHANGE_BUF_SIZE t (card_frame st d crc) rs st
               (d ++ crc) Hr eq_refl eq_refl).
    + rewrite Hlen. reflexivity.
    + rewrite zlen_app. lia.
    + unfold card_frame. cbn [r_data]. rewrite zlen_cons, zlen_app. lia.
    + vm_compute. reflexivity.
  - rewrite (ztake_app_exact (zlen d) d crc eq_refl).
    apply ztake_app_exact. reflexivity.
Qed.

(** An answer of one or two bytes: the length wraps around and the
    [memmove] runs past the array. *)
Lemma DESFIRESendRaw_short activate data max t r rs :
  replies t = r :: rs ->
  r_res r = PM3_SUCCESS ->
  1 <= zlen (r_data r) <= 2 ->
  zlen (r_data r) <= max ->
  max < 0x100000000 - 2 ->
  DESFIRESendRaw activate data max t = None.
Proof.
  intros Hr Hres Hn Hfit Hmax.
  unfold DESFIRESendRaw.
  rewrite (DESFIRESendRaw_reply activate data max t r rs Hr).
  rewrite Hres, (ztake_all _ _ Hfit).
  change (PM3_SUCCESS =? PM3_SUCCESS) with true. cbv iota.
  change (negb true) with false. cbv iota.
  destruct (zlen (r_data r) <? 1) eqn:E1; [apply Z.ltb_lt in E1; lia|].
  unfold stripped_len, memmove_down1.
  rewrite u32_wrap_neg by lia.
  destruct (1 + _ <=? max) eqn:Em; [apply Z.leb_le in Em; lia | reflexivity].
Qed.

(** C8.  A raw exchange that succeeds at the transport level with a
    non-empty answer [rcode :: rest].  When the answer has at least three
    bytes (the status byte, the data and the two CRC bytes of the frame) the
    call returns: the status byte [rcode] is stored in [respcode] whatever
    its value; the call reports success exactly for OPERATION_OK,
    ADDITIONAL_FRAME, SIGNATURE and NO_CHANGES, and PM3_EAPDU_FAIL for every
    other status; the status byte is stripped from the returned data (which
    are the bytes after it, without the two trailing bytes that the length
    computation also removes).  When the answer has one or two bytes, the
    length computation wraps around, the [memmove] runs past the result
    buffer and the call has no result. *)
Theorem DESFIRESendRaw_status (activate : bool) (data : list Z) (t : Transport)
  (r : Reply) (rs : list Reply) (rcode : Z) (rest : list Z) :
  replies t = r :: rs ->
  r_res r = PM3_SUCCESS ->
  r_data r = rcode :: rest ->
  zlen (r_data r) <= EXCHANGE_BUF_SIZE ->
  (2 <= zlen rest ->
   exists out,
     DESFIRESendRaw activate data EXCHANGE_BUF_SIZE t =
       Some (raw_sent activate data rs t, out) /\
     raw_respcode out = rcode /\
     (raw_res out = PM3_SUCCESS <->
        rcode = MFDES_S_OPERATION_OK \/ rcode = MFDES_S_ADDITIONAL_FRAME \/
        rcode = MFDES_S_SIGNATURE \/ rcode = MFDES_S_NO_CHANGES) /\
     (raw_res out <> PM3_SUCCESS -> raw_res out = PM3_EAPDU_FAIL) /\
     raw_result_len out = zlen rest - 2 /\
     ztake (raw_result_len out) (raw_result out) = ztake (zlen rest - 2) rest) /\
  (zlen rest < 2 -> DESFIRESendRaw activate data EXCHANGE_BUF_SIZE t = None).
Proof.
  intros Hr Hres Hdata Hfit. split.
  - intros H2.
    rewrite (DESFIRESendRaw_ok activate data EXCHANGE_BUF_SIZE t r rs rcode rest
               Hr Hres Hdata H2 Hfit) by (vm_compute; reflexivity).
    eexists. split; [reflexivity|].
    cbn [raw_respcode raw_res raw_result_len raw_result].
    pose proof (is_success_status_iff rcode) as Hiff.
    split; [reflexivity|]. split; [|split; [|split]].
    + destruct (is_success_status rcode).
      * split; [intros _; apply Hiff; reflexivity | reflexivity].
      * split; [discriminate | intros Hin; apply Hiff in Hin; discriminate].
    + destruct (is_success_status rcode); [intros Hne; contradiction | reflexivity].
    + reflexivity.
    + apply ztake_app_exact. apply zlen_ztake. lia.
  - intros H2. pose proof (zlen_nonneg rest) as Hn.
    apply (DESFIRESendRaw_short activate data EXCHANGE_BUF_SIZE t r rs Hr Hres).
    + rewrite Hdata, zlen_cons. lia.
    + exact Hfit.
    + vm_compute. reflexivity.
Qed.

Lemma DESFIRESendRaw_status_witness :
  let t := mkTransport [mkReply PM3_SUCCESS [0xAF; 0x11; 0x22; 0xC1; 0xC2]] [] in
  exists out,
    DESFIRESendRaw false [0x0A; 0x00] EXCHANGE_BUF_SIZE t =
      Some (raw_sent false [0x0A; 0x00] [] t, out) /\
    raw_respcode out = 0xAF /\
    raw_res out = PM3_SUCCESS /\
    raw_result_len out = 2 /\
    ztake 2 (raw_result out) = [0x11; 0x22].
Proof.
  intros t.
  destruct (DESFIRESendRaw_status false [0x0A; 0x00] t
              (mkReply PM3_SUCCESS [0xAF; 0x11; 0x22; 0xC1; 0xC2]) [] 0xAF
              [0x11; 0x22; 0xC1; 0xC2]) as [Hlong _].
  - reflexivity.
  - reflexivity.
  - reflexivity.
  - vm_compute. discriminate.
  - destruct Hlong as [out [Hrun [Hcode [Hres [_ [Hlen Hdat]]]]]].
    + vm_compute. discriminate.
    + exists out. split; [exact Hrun|]. split; [exact Hcode|].
      split; [apply Hres; right; left; reflexivity|].
      split; [exact Hlen|]. rewrite <- Hlen at 1. exact Hdat.
Defined.

(** C9 (amended).  For a card answer of [n] = 1 or 2 bytes the length that
    [DESFIRESendRaw] computes is [(n - 3) mod 2^32], that is [2^32 - 2] or
    [2^32 - 1] ([2^32] is [0x100000000]), not 0.  It is the number of bytes
    that the [memmove] is asked to move, more than the result buffer holds,
    and the call has no result.  An answer of 3 bytes (status byte and CRC),
    like an empty one, is returned with length 0, and each answer of
    [n >= 3] bytes with length [n - 3]. *)
Theorem DESFIRESendRaw_short_reply_wraps (activate : bool) (data : list Z) (max : Z)
  (t : Transport) (r : Reply) (rs : list Reply) :
  replies t = r :: rs ->
  r_res r = PM3_SUCCESS ->
  zlen (r_data r) <= max ->
  max < 0x100000000 - 2 ->
  let n := zlen (r_data r) in
  let run := DESFIRESendRaw activate data max t in
  (1 <= n <= 2 ->
     stripped_len n = 0x100000000 + n - 3 /\
     max < stripped_len n /\
     run = None) /\
  (n = 0 \/ n = 3 ->
     exists out, run = Some (raw_sent activate data rs t, out) /\ raw_result_len out = 0) /\
  (3 <= n ->
     exists out,
       run = Some (raw_sent activate data rs t, out) /\ raw_result_len out = n - 3).
Proof.
  intros Hr Hres Hfit Hmax n run.
  assert (Hlong : 3 <= n ->
            exists out,
              run = Some (raw_sent activate data rs t, out) /\ raw_result_len out = n - 3).
  { intros H3. subst n run.
    destruct (r_data r) as [|st rest] eqn:Hd; [cbn in H3; lia|].
    rewrite zlen_cons in H3.
    rewrite (DESFIRESendRaw_ok activate data max t r rs st rest Hr Hres Hd)
      by (rewrite ?Hd; lia || assumption).
    eexists. split; [reflexivity|]. cbn [raw_result_len]. rewrite zlen_cons. lia. }
  split; [|split; [|exact Hlong]].
  - intros H12. subst n run.
    assert (Hw : stripped_len (zlen (r_data r)) = 0x100000000 + zlen (r_data r) - 3).
    { unfold stripped_len. rewrite u32_wrap_neg; lia. }
    split; [exact Hw|]. split; [lia|].
    exact (DESFIRESendRaw_short activate data max t r rs Hr Hres H12 Hfit Hmax).
  - intros [H0 | H3].
    + subst n run. exists (mkRawResult PM3_SUCCESS [] 0 0xff). split; [|reflexivity].
      apply (DESFIRESendRaw_empty activate data max t r rs Hr Hres).
      destruct (r_data r); [reflexivity | rewrite zlen_cons in H0].
      pose proof (zlen_nonneg l). lia.
    + destruct Hlong as [out [Hrun Hlen]]; [lia|].
      exists out. split; [exact Hrun | lia].
Qed.

Lemma DESFIRESendRaw_short_reply_wraps_witness :
  stripped_len 2 = 4294967295 /\
  exists out,
    DESFIRESendRaw false [0x6E] EXCHANGE_BUF_SIZE
      (mkTransport [mkReply PM3_SUCCESS [0x00; 0xC1; 0xC2]] []) =
    Some (raw_sent false [0x6E] []
            (mkTransport [mkReply PM3_SUCCESS [0x00; 0xC1; 0xC2]] []), out) /\
    raw_result_len out = 0.
Proof.
  split.
  - destruct (DESFIRESendRaw_short_reply_wraps false [0x0A; 0x00] EXCHANGE_BUF_SIZE
                (mkTransport [mkReply PM3_SUCCESS [0xAF; 0x01]] [])
                (mkReply PM3_SUCCESS [0xAF; 0x01]) [] eq_refl eq_refl)
      as [Hwrap _].
    + vm_compute. discriminate.
    + vm_compute. reflexivity.
    + destruct Hwrap as [Hlen _]; [vm_compute; split; discriminate | exact Hlen].
  - destruct (DESFIRESendRaw_short_reply_wraps false [0x6E] EXCHANGE_BUF_SIZE
                (mkTransport [mkReply PM3_SUCCESS [0x00; 0xC1; 0xC2]] [])
                (mkReply PM3_SUCCESS [0x00; 0xC1; 0xC2]) [] eq_refl eq_refl)
      as [_ [Hzero _]].
    + vm_compute. discriminate.
    + vm_compute. reflexivity.
    + apply Hzero. right. reflexivity.
Defined.

(** C9, as stated, fails: an answer of three bytes is not empty and is
    returned with length 0; and for an answer of two bytes no length is
    reported, since the call has no result. *)
Lemma DESFIRESendRaw_length_zero_not_only_empty :
  option_map (fun out => raw_result_len (snd out))
    (DESFIRESendRaw false [0x6E] EXCHANGE_BUF_SIZE
       (mkTransport [mkReply PM3_SUCCESS [0x00; 0xC1; 0xC2]] [])) = Some 0 /\
  DESFIRESendRaw false [0x0A; 0x00] EXCHANGE_BUF_SIZE
    (mkTransport [mkReply PM3_SUCCESS [0xAF; 0x01]] []) = None.
Proof. split; vm_compute; reflexivity. Qed.

(** ** The transport log *)

Lemma raw_frames_app (e1 e2 : list Event) :
  raw_frames (e1 ++ e2) = raw_frames e1 ++ raw_frames e2.
Proof.
  induction e1 as [|e e1 IH]; [reflexivity|].
  destruct e; simpl; rewrite IH; reflexivity.
Qed.

Lemma raw_frames_activate (activate : bool) (t : Transport) :
  raw_frames (events (if activate then msleep 50 (DropField t) else t)) =
  raw_frames (events t).
Proof.
  destruct activate; [|reflexivity].
  unfold msleep, DropField, log. cbn [events].
  rewrite !raw_frames_app. cbn [raw_frames]. rewrite !app_nil_r. reflexivity.
Qed.

Lemma replies_activate (activate : bool) (t : Transport) :
  replies (if activate then msleep 50 (DropField t) else t) = replies t.
Proof. destruct activate; reflexivity. Qed.

(** What a call of [DESFIRESendRaw] that returns has done to the transport:
    it has handed exactly its frame to it, and it has taken a reply from
    the script if it reports success. *)
Lemma DESFIRESendRaw_some activate data max t t' r :
  DESFIRESendRaw activate data max t = Some (t', r) ->
  raw_frames (events t') = raw_frames (events t) ++ [data] /\
  (length (replies t') <= length (replies t))%nat /\
  (raw_res r = PM3_SUCCESS -> length (replies t) = S (length (replies t'))).
Proof.
  unfold DESFIRESendRaw, ExchangeRAW14a, next_reply.
  pose proof (raw_frames_activate activate t) as Ha.
  pose proof (replies_activate activate t) as Hr.
  destruct (if activate then msleep 50 (DropField t) else t) as [rp ev].
  cbn [replies events log] in *. subst rp.
  assert (Hlog : raw_frames (ev ++ [EvRaw activate data]) = raw_frames (events t) ++ [data]).
  { rewrite raw_frames_app, Ha. reflexivity. }
  destruct (replies t) as [|r0 rs]; cbn [fst snd replies events].
  - change (negb (PM3_ETIMEOUT =? PM3_SUCCESS)) with true. cbv iota.
    intros [= <- <-]. cbn [events replies raw_res length log].
    split; [exact Hlog|]. split; [lia | discriminate].
  - destruct (r_res r0 =? PM3_SUCCESS) eqn:E; cbn [negb].
    + assert (Hgoal : forall out,
                Some (mkTransport rs (ev ++ [EvRaw activate data]), out) = Some (t', r) ->
                raw_frames (events t') = raw_frames (events t) ++ [data] /\
                (length (replies t') <= length (r0 :: rs))%nat /\
                (raw_res r = PM3_SUCCESS -> length (r0 :: rs) = S (length (replies t')))).
      { intros out [= <- _]. cbn [events replies length].
        split; [exact Hlog|]. split; [lia | reflexivity]. }
      destruct (zlen _ <? 1); [apply Hgoal|].
      destruct (memmove_down1 _ _ _); [|discriminate].
      destruct (negb (is_success_status _)); apply Hgoal.
    + intros [= <- <-]. cbn [events replies raw_res length].
      split; [exact Hlog|]. split; [lia|].
      intros Hres. rewrite Hres in E. discriminate.
Qed.

(** ** Pokes and slices *)

Lemma zeros_nonpos (n : Z) : n <= 0 -> zeros n = [].
Proof. intros Hn. unfold zeros. replace (Z.to_nat n) with 0%nat by lia. reflexivity. Qed.

Lemma poke_inside (buf : list Z) (i v : Z) :
  0 <= i < zlen buf ->
  poke buf i v = ztake i buf ++ v :: zdrop (i + 1) buf.
Proof.
  intros Hi. unfold poke, memcpy.
  rewrite zeros_nonpos by lia. rewrite app_nil_r.
  change (zlen [v]) with 1. reflexivity.
Qed.

Lemma zlen_zdrop {A : Type} (n : Z) (l : list A) :
  0 <= n <= zlen l -> zlen (zdrop n l) = zlen l - n.
Proof. rewrite zdrop_skipn. unfold zlen. intros Hn. rewrite length_skipn. lia. Qed.

Lemma zlen_zeros (n : Z) : 0 <= n -> zlen (zeros n) = n.
Proof. intros Hn. unfold zlen, zeros. rewrite repeat_length. lia. Qed.

(** A copy to the front of an array reaches as far as the longer of the
    two. *)
Lemma zlen_memcpy_at_0 (dst src : list Z) :
  zlen (memcpy dst 0 src) = Z.max (zlen src) (zlen dst).
Proof.
  rewrite memcpy_at_0, zlen_app, zdrop_skipn. unfold zlen. rewrite length_skipn. lia.
Qed.

Lemma fits_memcpy_at_0 (size : Z) (dst src : list Z) :
  zlen dst <= size -> fits size (memcpy dst 0 src) = (zlen src <=? size).
Proof.
  intros Hdst. unfold fits. rewrite zlen_memcpy_at_0.
  destruct (zlen src <=? size) eqn:E.
  - apply Z.leb_le in E. apply Z.leb_le. lia.
  - apply Z.leb_gt in E. apply Z.leb_gt. lia.
Qed.

Lemma zlen_poke_inside (buf : list Z) (i v : Z) :
  0 <= i < zlen buf -> zlen (poke buf i v) = zlen buf.
Proof.
  intros Hi. rewrite poke_inside by exact Hi.
  rewrite zlen_app, zlen_cons, zlen_ztake, zlen_zdrop by lia. lia.
Qed.

Lemma slice_poke_inside (buf : list Z) (i v n : Z) :
  0 <= i < zlen buf -> 1 <= n ->
  slice (poke buf i v) i n = v :: ztake (n - 1) (zdrop (i + 1) buf).
Proof.
  intros Hi Hn. rewrite poke_inside by exact Hi. unfold slice.
  rewrite zdrop_app_exact by (apply zlen_ztake; lia).
  rewrite !ztake_firstn.
  replace (Z.to_nat n) with (S (Z.to_nat (n - 1))) by lia.
  reflexivity.
Qed.

Lemma zdrop_succ_cons {A : Type} (n : Z) (x : A) (l : list A) :
  0 <= n -> zdrop (n + 1) (x :: l) = zdrop n l.
Proof.
  intros Hn. rewrite !zdrop_skipn.
  replace (Z.to_nat (n + 1)) with (S (Z.to_nat n)) by lia. reflexivity.
Qed.

Lemma ztake_succ_cons {A : Type} (n : Z) (x : A) (l : list A) :
  1 <= n -> ztake n (x :: l) = x :: ztake (n - 1) l.
Proof.
  intros Hn. rewrite !ztake_firstn.
  replace (Z.to_nat n) with (S (Z.to_nat (n - 1))) by lia. reflexivity.
Qed.

(** ** DesfireExchangeNative: frames on the wire *)

Section NativeFrames.
Context `{FL : FrameLimit}.

Lemma starts_with_slice_poke (buf : list Z) (i v n : Z) :
  0 <= i < zlen buf -> 1 <= n -> starts_with v (slice (poke buf i v) i n).
Proof. intros Hi Hn. rewrite slice_poke_inside by assumption. reflexivity. Qed.

(** After the first frame, every frame of the tx loop starts with 0xAF. *)
Lemma DesfireExchangeNative_tx_continuation fuel activate cdata cdatalen sent buf buflen rcode
  t t' o :
  0 <= DESFIRE_TX_FRAME_MAX_LEN ->
  1 <= sent <= cdatalen ->
  zlen cdata = cdatalen ->
  DesfireExchangeNative_tx fuel activate cdata cdatalen sent buf buflen rcode t = Some (t', o) ->
  exists fs,
    raw_frames (events t') = raw_frames (events t) ++ fs /\
    Forall (starts_with MFDES_ADDITIONAL_FRAME) fs.
Proof.
  intros Hmax. revert cdata sent buf buflen rcode t.
  induction fuel as [|fuel IH]; intros cdata sent buf buflen rcode t Hsent Hlen; [discriminate|].
  cbn [DesfireExchangeNative_tx].
  destruct (cdatalen >=? sent) eqn:Ege.
  2:{ intros [= <- _]. exists []. rewrite app_nil_r. split; [reflexivity | constructor]. }
  destruct (sent >? 0) eqn:Egt; [|rewrite Z.gtb_ltb in Egt; apply Z.ltb_ge in Egt; lia].
  cbv beta iota.
  set (len := if cdatalen - sent >? DESFIRE_TX_FRAME_MAX_LEN
              then DESFIRE_TX_FRAME_MAX_LEN else cdatalen - sent).
  assert (Hlenb : 0 <= len <= cdatalen - sent).
  { subst len. destruct (cdatalen - sent >? DESFIRE_TX_FRAME_MAX_LEN) eqn:E; [|lia].
    apply Z.gtb_lt in E. lia. }
  set (frame := slice (poke cdata (sent - 1) MFDES_ADDITIONAL_FRAME) (sent - 1) (len + 1)).
  assert (Hframe : starts_with MFDES_ADDITIONAL_FRAME frame).
  { apply starts_with_slice_poke; lia. }
  destruct (DESFIRESendRaw activate frame EXCHANGE_BUF_SIZE t) as [[t1 r]|] eqn:E;
    [|discriminate].
  apply DESFIRESendRaw_some in E. destruct E as [Hlog _].
  destruct (negb (raw_res r =? PM3_SUCCESS)).
  { intros [= <- _]. exists [frame]. split; [exact Hlog | repeat constructor; exact Hframe]. }
  destruct (_ || _).
  { intros [= <- _]. exists [frame]. split; [exact Hlog | repeat constructor; exact Hframe]. }
  intros Hrec. apply IH in Hrec.
  - destruct Hrec as [fs [Hfs Hall]]. exists (frame :: fs). split.
    + rewrite Hfs, Hlog, <- app_assoc. reflexivity.
    + constructor; assumption.
  - lia.
  - rewrite zlen_poke_inside; lia.
Qed.

(** Every frame of the rx loop is the bare continuation byte. *)
Lemma DesfireExchangeNative_rx_frames fuel splitbysize rcode respcode resp pos i t t' o :
  DesfireExchangeNative_rx fuel splitbysize rcode respcode resp pos i t = Some (t', o) ->
  exists fs,
    raw_frames (events t') = raw_frames (events t) ++ fs /\
    Forall (starts_with MFDES_ADDITIONAL_FRAME) fs.
Proof.
  revert rcode respcode resp pos i t.
  induction fuel as [|fuel IH]; intros rcode respcode resp pos i t; [discriminate|].
  cbn [DesfireExchangeNative_rx].
  destruct (rcode =? MFDES_ADDITIONAL_FRAME).
  2:{ intros [= <- _]. exists []. rewrite app_nil_r. split; [reflexivity | constructor]. }
  destruct (DESFIRESendRaw false [MFDES_ADDITIONAL_FRAME] EXCHANGE_BUF_SIZE t)
    as [[t1 r]|] eqn:E; [|discriminate].
  apply DESFIRESendRaw_some in E. destruct E as [Hlog _].
  assert (Hone : Forall (starts_with MFDES_ADDITIONAL_FRAME) [[MFDES_ADDITIONAL_FRAME]]).
  { repeat constructor. }
  destruct (negb (raw_res r =? PM3_SUCCESS)).
  { intros [= <- _]. exists [[MFDES_ADDITIONAL_FRAME]]. split; assumption. }
  destruct (negb (raw_respcode r =? MFDES_ADDITIONAL_FRAME)).
  { intros [= <- _]. exists [[MFDES_ADDITIONAL_FRAME]]. split; assumption. }
  intros Hrec. apply IH in Hrec. destruct Hrec as [fs [Hfs Hall]].
  exists ([MFDES_ADDITIONAL_FRAME] :: fs). split.
  - rewrite Hfs, Hlog, <- app_assoc. reflexivity.
  - constructor; [reflexivity | assumption].
Qed.

(** A command that fits [cdata]. *)
Lemma fits_cdata (cmd : Z) (data : list Z) :
  zlen data < 1024 -> fits CDATA_SIZE (cmd :: data) = true.
Proof.
  intros Hdata. unfold fits, CDATA_SIZE. rewrite zlen_cons. apply Z.leb_le. lia.
Qed.

(** The frames of a whole native exchange: the first one starts with the
    command byte, every later one (tx or rx chaining) with 0xAF. *)
Lemma DesfireExchangeNative_command_bytes activate cmd data resp enable_chaining splitbysize
  t t' r :
  1 <= DESFIRE_TX_FRAME_MAX_LEN ->
  DesfireExchangeNative activate cmd data resp enable_chaining splitbysize t = Some (t', r) ->
  exists f0 fs,
    raw_frames (events t') = raw_frames (events t) ++ f0 :: fs /\
    f0 = ztake DESFIRE_TX_FRAME_MAX_LEN (cmd :: data) /\
    starts_with cmd f0 /\
    Forall (starts_with MFDES_ADDITIONAL_FRAME) fs.
Proof.
  intros Hmax. unfold DesfireExchangeNative.
  destruct (fits CDATA_SIZE (cmd :: data)) eqn:Hfit; cbn [negb]; [|discriminate].
  assert (Hdata : zlen data < 1024).
  { unfold fits, CDATA_SIZE in Hfit. rewrite zlen_cons in Hfit. apply Z.leb_le in Hfit. lia. }
  pose proof (zlen_nonneg data) as Hn.
  rewrite u32_small by lia.
  set (cdatalen := zlen data + 1).
  cbn [DesfireExchangeNative_tx].
  destruct (cdatalen >=? 0) eqn:Ege; [|rewrite Z.geb_leb in Ege; apply Z.leb_gt in Ege; lia].
  change (0 >? 0) with false. cbv beta iota.
  rewrite Z.sub_0_r, Z.add_0_l.
  set (len := if cdatalen >? DESFIRE_TX_FRAME_MAX_LEN
              then DESFIRE_TX_FRAME_MAX_LEN else cdatalen).
  assert (Hlenb : 1 <= len <= cdatalen).
  { subst len. destruct (cdatalen >? DESFIRE_TX_FRAME_MAX_LEN) eqn:E; [|lia].
    apply Z.gtb_lt in E. lia. }
  set (frame := slice (cmd :: data) 0 len).
  assert (Hframe : starts_with cmd frame).
  { subst frame. unfold slice. rewrite zdrop_0, ztake_succ_cons by lia. reflexivity. }
  assert (Hexact : frame = ztake DESFIRE_TX_FRAME_MAX_LEN (cmd :: data)).
  { subst frame len. unfold slice. rewrite zdrop_0.
    destruct (cdatalen >? DESFIRE_TX_FRAME_MAX_LEN) eqn:E; [reflexivity|].
    rewrite Z.gtb_ltb in E. apply Z.ltb_ge in E.
    rewrite !ztake_all; [reflexivity | |]; rewrite zlen_cons; subst cdatalen; lia. }
  destruct (DESFIRESendRaw activate frame EXCHANGE_BUF_SIZE t) as [[t1 r1]|] eqn:E;
    [|discriminate].
  apply DESFIRESendRaw_some in E. destruct E as [Hlog _].
  assert (Hfin : forall t2 fs1 buf buflen rcode,
    raw_frames (events t2) = raw_frames (events t) ++ frame :: fs1 ->
    Forall (starts_with MFDES_ADDITIONAL_FRAME) fs1 ->
    (if negb enable_chaining
     then Some (t2, mkExchResult PM3_SUCCESS rcode (store_frame splitbysize resp 0 0 buf buflen)
                      (if (rcode =? MFDES_S_OPERATION_OK) || (rcode =? MFDES_ADDITIONAL_FRAME)
                       then u32 (0 + buflen) else 0))
     else
       match DesfireExchangeNative_rx (S (length (replies t2))) splitbysize rcode rcode
               (store_frame splitbysize resp 0 0 buf buflen) (u32 (0 + buflen)) 1 t2 with
       | None => None
       | Some (t3, RxReturn res respcode resp1) => Some (t3, mkExchResult res respcode resp1 0)
       | Some (t3, RxDone respcode resp1 pos i) =>
         Some (t3, mkExchResult PM3_SUCCESS respcode resp1
                     (if negb (splitbysize =? 0) then i else pos))
       end) = Some (t', r) ->
    exists f0 fs,
      raw_frames (events t') = raw_frames (events t) ++ f0 :: fs /\
      f0 = ztake DESFIRE_TX_FRAME_MAX_LEN (cmd :: data) /\
      starts_with cmd f0 /\ Forall (starts_with MFDES_ADDITIONAL_FRAME) fs).
  { intros t2 fs1 buf buflen rcode Hfs1 Hall1.
    destruct (negb enable_chaining).
    - intros [= <- _]. exists frame, fs1. repeat split; assumption.
    - destruct (DesfireExchangeNative_rx _ _ _ _ _ _ _ t2) as [[t3 o]|] eqn:Erx; [|discriminate].
      apply DesfireExchangeNative_rx_frames in Erx. destruct Erx as [fs2 [Hfs2 Hall2]].
      intros Hrun.
      assert (Ht3 : t3 = t') by (destruct o; injection Hrun as <- _; reflexivity).
      subst t3. exists frame, (fs1 ++ fs2). split; [|split; [|split]].
      + rewrite Hfs2, Hfs1, <- app_assoc. reflexivity.
      + exact Hexact.
      + exact Hframe.
      + apply Forall_app. split; assumption. }
  destruct (negb (raw_res r1 =? PM3_SUCCESS)).
  { intros [= <- _]. exists frame, [].
    repeat split; [exact Hlog | exact Hexact | exact Hframe | constructor]. }
  destruct (_ || _).
  { apply (Hfin t1 []); [exact Hlog | constructor]. }
  destruct (DesfireExchangeNative_tx _ _ _ _ _ _ _ _ t1) as [[t2 o]|] eqn:Etx; [|discriminate].
  assert (Hcont : exists fs,
            raw_frames (events t2) = raw_frames (events t1) ++ fs /\
            Forall (starts_with MFDES_ADDITIONAL_FRAME) fs).
  { eapply DesfireExchangeNative_tx_continuation; [| | |exact Etx].
    - lia.
    - lia.
    - apply zlen_cons. }
  destruct Hcont as [fs1 [Hfs1 Hall1]].
  assert (Hlog2 : raw_frames (events t2) = raw_frames (events t) ++ frame :: fs1).
  { rewrite Hfs1, Hlog, <- app_assoc. reflexivity. }
  destruct o as [res | buf buflen rcode].
  { intros [= <- _]. exists frame, fs1. repeat split; assumption. }
  apply (Hfin t2 fs1); assumption.
Qed.

(** A payload that, together with the command byte, fits the frame limit is
    sent as the single frame [cmd :: data] (the card answers with a frame
    that has a final status). *)
Lemma DesfireExchangeNative_one_frame activate cmd data resp enable_chaining splitbysize
  t rs st d crc :
  zlen data + 1 <= DESFIRE_TX_FRAME_MAX_LEN ->
  zlen data < 1024 ->
  replies t = card_frame st d crc :: rs ->
  zlen crc = 2 -> zlen d + 3 <= EXCHANGE_BUF_SIZE ->
  st <> MFDES_ADDITIONAL_FRAME ->
  exists t' r,
    DesfireExchangeNative activate cmd data resp enable_chaining splitbysize t = Some (t', r) /\
    raw_frames (events t') = raw_frames (events t) ++ [cmd :: data].
Proof.
  intros Hfit Hdata Hr Hcrc Hbuf Hst.
  pose proof (zlen_nonneg data) as Hn.
  unfold DesfireExchangeNative.
  rewrite (fits_cdata cmd data Hdata). cbn [negb].
  rewrite u32_small by lia.
  cbn [DesfireExchangeNative_tx].
  destruct (zlen data + 1 >=? 0) eqn:Ege; [|rewrite Z.geb_leb in Ege; apply Z.leb_gt in Ege; lia].
  change (0 >? 0) with false. cbv beta iota.
  rewrite Z.sub_0_r, Z.add_0_l.
  destruct (zlen data + 1 >? DESFIRE_TX_FRAME_MAX_LEN) eqn:Egt; [apply Z.gtb_lt in Egt; lia|].
  assert (Hframe : slice (cmd :: data) 0 (zlen data + 1) = cmd :: data).
  { unfold slice. rewrite zdrop_0. apply ztake_all. rewrite zlen_cons. lia. }
  rewrite Hframe.
  destruct (DESFIRESendRaw_card_frame activate (cmd :: data) t st d crc rs Hr Hcrc Hbuf)
    as [buf [Hraw _]].
  pose proof (proj1 (DESFIRESendRaw_some _ _ _ _ _ _ Hraw)) as Hlog.
  rewrite Hraw. cbv beta iota. cbn [raw_res raw_result raw_result_len raw_respcode].
  destruct (is_success_status st).
  2:{ change (negb (PM3_EAPDU_FAIL =? PM3_SUCCESS)) with true. cbv iota.
      eexists _, _. split; [reflexivity | exact Hlog]. }
  change (negb (PM3_SUCCESS =? PM3_SUCCESS)) with false. cbv iota.
  destruct (st =? MFDES_ADDITIONAL_FRAME) eqn:Est; [apply Z.eqb_eq in Est; contradiction|].
  cbn [negb orb].
  destruct enable_chaining; cbn [negb].
  - cbn [DesfireExchangeNative_rx]. rewrite Est.
    eexists _, _. split; [reflexivity | exact Hlog].
  - eexists _, _. split; [reflexivity | exact Hlog].
Qed.

(** A payload of [MAX] to [2 * MAX - 1] bytes is sent as two frames: the
    command byte with the first [MAX - 1] payload bytes, then 0xAF with the
    rest (the card acknowledges the first frame with a bare ADDITIONAL_FRAME
    and answers the second with a frame that has a final status). *)
Lemma DesfireExchangeNative_two_frames activate cmd data resp enable_chaining splitbysize
  t crc1 rs st d crc :
  DESFIRE_TX_FRAME_MAX_LEN <= zlen data <= 2 * DESFIRE_TX_FRAME_MAX_LEN - 1 ->
  zlen data < 1024 ->
  replies t = card_frame MFDES_ADDITIONAL_FRAME [] crc1 :: card_frame st d crc :: rs ->
  zlen crc1 = 2 ->
  zlen crc = 2 -> zlen d + 3 <= EXCHANGE_BUF_SIZE ->
  st <> MFDES_ADDITIONAL_FRAME ->
  exists t' r,
    DesfireExchangeNative activate cmd data resp enable_chaining splitbysize t = Some (t', r) /\
    raw_frames (events t') =
    raw_frames (events t) ++
      [cmd :: ztake (DESFIRE_TX_FRAME_MAX_LEN - 1) data;
       MFDES_ADDITIONAL_FRAME :: zdrop (DESFIRE_TX_FRAME_MAX_LEN - 1) data].
Proof.
  intros Hsize Hdata Hr Hcrc1 Hcrc Hbuf Hst.
  pose proof (zlen_nonneg data) as Hn.
  set (MAX := DESFIRE_TX_FRAME_MAX_LEN) in *.
  assert (Hmax : 1 <= MAX) by lia.
  unfold DesfireExchangeNative.
  rewrite (fits_cdata cmd data Hdata). cbn [negb].
  rewrite u32_small by lia.
  rewrite Hr. cbn [length].
  (* first frame *)
  cbn [DesfireExchangeNative_tx].
  destruct (zlen data + 1 >=? 0) eqn:Ege; [|rewrite Z.geb_leb in Ege; apply Z.leb_gt in Ege; lia].
  change (0 >? 0) with false. cbv beta iota.
  rewrite Z.sub_0_r, Z.add_0_l.
  fold MAX.
  destruct (zlen data + 1 >? MAX) eqn:Egt; [|rewrite Z.gtb_ltb in Egt; apply Z.ltb_ge in Egt; lia].
  assert (Hf1 : slice (cmd :: data) 0 MAX = cmd :: ztake (MAX - 1) data).
  { unfold slice. rewrite zdrop_0. apply ztake_succ_cons. lia. }
  rewrite Hf1.
  set (f1 := cmd :: ztake (MAX - 1) data).
  destruct (DESFIRESendRaw_card_frame activate f1 t MFDES_ADDITIONAL_FRAME [] crc1
              (card_frame st d crc :: rs) Hr Hcrc1) as [buf1 [Hraw1 _]];
    [vm_compute; discriminate|].
  pose proof (proj1 (DESFIRESendRaw_some _ _ _ _ _ _ Hraw1)) as Hlog1.
  rewrite Hraw1. cbv beta iota. cbn [raw_res raw_result raw_result_len raw_respcode].
  change (is_success_status MFDES_ADDITIONAL_FRAME) with true. cbv iota.
  change (negb (PM3_SUCCESS =? PM3_SUCCESS)) with false. cbv iota.
  change (zlen (@nil Z)) with 0.
  change (negb (MFDES_ADDITIONAL_FRAME =? MFDES_ADDITIONAL_FRAME) || (0 >? 0)) with false.
  cbv iota.
  set (t1 := raw_sent activate f1 (card_frame st d crc :: rs) t) in *.
  (* second frame *)
  cbn [DesfireExchangeNative_tx].
  destruct (zlen data + 1 >=? MAX) eqn:Ege2;
    [|rewrite Z.geb_leb in Ege2; apply Z.leb_gt in Ege2; lia].
  destruct (MAX >? 0) eqn:Epos; [|rewrite Z.gtb_ltb in Epos; apply Z.ltb_ge in Epos; lia].
  cbv beta iota. fold MAX.
  destruct (zlen data + 1 - MAX >? MAX) eqn:Egt2; [apply Z.gtb_lt in Egt2; lia|].
  assert (Hf2 : slice (poke (cmd :: data) (MAX - 1) MFDES_ADDITIONAL_FRAME) (MAX - 1)
                  (zlen data + 1 - MAX + 1) =
                MFDES_ADDITIONAL_FRAME :: zdrop (MAX - 1) data).
  { rewrite slice_poke_inside by (rewrite ?zlen_cons; lia).
    replace (MAX - 1 + 1) with ((MAX - 1) + 1) by lia.
    rewrite zdrop_succ_cons by lia. f_equal.
    apply ztake_all. rewrite zlen_zdrop; lia. }
  rewrite Hf2.
  set (f2 := MFDES_ADDITIONAL_FRAME :: zdrop (MAX - 1) data).
  destruct (DESFIRESendRaw_card_frame activate f2 t1 st d crc rs eq_refl Hcrc Hbuf)
    as [buf2 [Hraw2 _]].
  pose proof (proj1 (DESFIRESendRaw_some _ _ _ _ _ _ Hraw2)) as Hlog2.
  rewrite Hraw2. cbv beta iota. cbn [raw_res raw_result raw_result_len raw_respcode].
  assert (Hlog : forall ev, raw_frames ev = raw_frames (events t1) ++ [f2] ->
                   raw_frames ev = raw_frames (events t) ++ [f1; f2]).
  { intros ev Hev. rewrite Hev, Hlog1, <- app_assoc. reflexivity. }
  destruct (is_success_status st).
  2:{ change (negb (PM3_EAPDU_FAIL =? PM3_SUCCESS)) with true. cbv iota.
      eexists _, _. split; [reflexivity | apply Hlog; exact Hlog2]. }
  change (negb (PM3_SUCCESS =? PM3_SUCCESS)) with false. cbv iota.
  destruct (st =? MFDES_ADDITIONAL_FRAME) eqn:Est; [apply Z.eqb_eq in Est; contradiction|].
  cbn [negb orb].
  destruct enable_chaining; cbn [negb].
  - cbn [DesfireExchangeNative_rx replies length raw_sent]. rewrite Est.
    eexists _, _. split; [reflexivity | apply Hlog; exact Hlog2].
  - eexists _, _. split; [reflexivity | apply Hlog; exact Hlog2].
Qed.

End NativeFrames.

(** C4.  The frames of a native exchange.  The first frame starts with the
    command byte and every later frame, of the tx chaining as of the rx
    chaining, with ADDITIONAL_FRAME (0xAF); this holds of every exchange
    that comes to an end.  The frame limit [MAX = DESFIRE_TX_FRAME_MAX_LEN] counts
    the card-facing payload [cmd :: data], the command byte and the data:
    a payload of exactly [MAX] bytes ([MAX - 1] bytes of data) is sent as the
    one frame [cmd :: data]; a payload of [MAX + 1] bytes ([MAX] bytes of
    data) is sent as two frames, the command byte with the first [MAX - 1]
    bytes of data and then 0xAF with the last.  (The card acknowledges a
    frame that has a successor with a bare ADDITIONAL_FRAME and answers the
    last frame with a status [st] other than ADDITIONAL_FRAME.) *)
Theorem DesfireExchangeNative_tx_chaining `{FL : FrameLimit}
  (activate : bool) (cmd : Z) (data resp : list Z) (enable_chaining : bool)
  (splitbysize : Z) (t : Transport) (crc1 : list Z) (rs : list Reply)
  (st : Z) (d crc : list Z) :
  1 <= DESFIRE_TX_FRAME_MAX_LEN ->
  zlen data < 1024 ->
  zlen crc1 = 2 ->
  zlen crc = 2 -> zlen d + 3 <= EXCHANGE_BUF_SIZE ->
  st <> MFDES_ADDITIONAL_FRAME ->
  let payload := cmd :: data in
  let run := DesfireExchangeNative activate cmd data resp enable_chaining splitbysize t in
  (forall t' r, run = Some (t', r) ->
     exists f0 fs,
       raw_frames (events t') = raw_frames (events t) ++ f0 :: fs /\
       starts_with cmd f0 /\
       Forall (starts_with MFDES_ADDITIONAL_FRAME) fs) /\
  (zlen payload = DESFIRE_TX_FRAME_MAX_LEN ->
   replies t = card_frame st d crc :: rs ->
   exists t' r,
     run = Some (t', r) /\
     raw_frames (events t') = raw_frames (events t) ++ [payload]) /\
  (zlen payload = DESFIRE_TX_FRAME_MAX_LEN + 1 ->
   replies t = card_frame MFDES_ADDITIONAL_FRAME [] crc1 :: card_frame st d crc :: rs ->
   exists t' r,
     run = Some (t', r) /\
     raw_frames (events t') =
     raw_frames (events t) ++
       [ztake DESFIRE_TX_FRAME_MAX_LEN payload;
        MFDES_ADDITIONAL_FRAME :: zdrop DESFIRE_TX_FRAME_MAX_LEN payload]).
Proof.
  intros Hmax Hdata Hcrc1 Hcrc Hbuf Hst payload run. subst run payload.
  split; [|split].
  - intros t' r Hrun.
    destruct (DesfireExchangeNative_command_bytes activate cmd data resp enable_chaining
                splitbysize t t' r Hmax Hrun) as [f0 [fs [Hlog [_ [Hcmd Haf]]]]].
    exists f0, fs. repeat split; assumption.
  - rewrite zlen_cons. intros Hlen Hr.
    eapply DesfireExchangeNative_one_frame; try eassumption. lia.
  - rewrite zlen_cons. intros Hlen Hr.
    rewrite ztake_succ_cons by lia.
    assert (Hdrop : zdrop DESFIRE_TX_FRAME_MAX_LEN (cmd :: data) =
                    zdrop (DESFIRE_TX_FRAME_MAX_LEN - 1) data).
    { rewrite <- (zdrop_succ_cons (DESFIRE_TX_FRAME_MAX_LEN - 1) cmd data) by lia.
      f_equal. lia. }
    rewrite Hdrop.
    eapply DesfireExchangeNative_two_frames; try eassumption. lia.
Qed.

Lemma DesfireExchangeNative_tx_chaining_witness :
  exists t' r,
    @DesfireExchangeNative Mock.frame_limit false 0x3D (repeat 0x11 56) (zeros 16) true 0
      (mkTransport [Mock.card_says 0xAF []; Mock.card_says 0x00 []] []) = Some (t', r) /\
    raw_frames (events t') =
    [] ++ [ztake 56 (0x3D :: repeat 0x11 56);
           0xAF :: zdrop 56 (0x3D :: repeat 0x11 56)].
Proof.
  destruct (@DesfireExchangeNative_tx_chaining Mock.frame_limit false 0x3D (repeat 0x11 56)
              (zeros 16) true 0
              (mkTransport [Mock.card_says 0xAF []; Mock.card_says 0x00 []] [])
              [0xC1; 0xC2] [] 0x00 [] [0xC1; 0xC2])
    as [_ [_ Htwo]].
  - vm_compute. discriminate.
  - vm_compute. reflexivity.
  - reflexivity.
  - reflexivity.
  - vm_compute. discriminate.
  - vm_compute. discriminate.
  - apply Htwo.
    + reflexivity.
    + reflexivity.
Defined.
(** ** File settings *)

(** C3 (amended). For a descriptor of at least 4 bytes,
    [DesfireFillFileSettings] decodes the prefix
    [fileType, option, accessRights_LE16] and, for file type 0x02 (Value),
    the body as [lowerLE32 || upperLE32 || currentLE32 || limitedCredit].
    The input [02 03 EE EE 10 00 00 00 00 00 00 00 10 00 00 00 00] therefore
    decodes to type 2 (Value), comm mode 3 (Enciphered), access 0xEEEE,
    lower = 16, upper = 0, current = 16, limitedCredit = 0. *)
Theorem DesfireFillFileSettings_value `{FM : FileCommModes} (data : list Z) (datalen : Z) :
  4 <= datalen ->
  let fs := DesfireFillFileSettings data datalen in
  let example := [0x02; 0x03; 0xEE; 0xEE; 0x10; 0x00; 0x00; 0x00; 0x00; 0x00; 0x00; 0x00;
                  0x10; 0x00; 0x00; 0x00; 0x00] in
  let ex := DesfireFillFileSettings example 17 in
  (FileSettings.fileType fs = zget data 0 /\
   FileSettings.fileOption fs = zget data 1 /\
   FileSettings.fileCommMode fs = Z.land (zget data 1) 0x03 /\
   FileSettings.commMode fs =
     Some (DesfireFileCommModeToCommMode (Z.land (zget data 1) 0x03)) /\
   FileSettings.rawAccessRights fs = zget data 2 + Z.shiftl (zget data 3) 8) /\
  (zget data 0 = 0x02 ->
   FileSettings.lowerLimit fs =
     zget data 4 + Z.shiftl (zget data 5) 8 + Z.shiftl (zget data 6) 16
       + Z.shiftl (zget data 7) 24 /\
   FileSettings.upperLimit fs =
     zget data 8 + Z.shiftl (zget data 9) 8 + Z.shiftl (zget data 10) 16
       + Z.shiftl (zget data 11) 24 /\
   FileSettings.value fs =
     zget data 12 + Z.shiftl (zget data 13) 8 + Z.shiftl (zget data 14) 16
       + Z.shiftl (zget data 15) 24 /\
   FileSettings.limitedCredit fs = zget data 16) /\
  (FileSettings.fileType ex = 0x02 /\
   FileSettings.fileCommMode ex = 0x03 /\
   FileSettings.commMode ex = Some (DesfireFileCommModeToCommMode 0x03) /\
   FileSettings.rawAccessRights ex = 0xEEEE /\
   FileSettings.lowerLimit ex = 16 /\
   FileSettings.upperLimit ex = 0 /\
   FileSettings.value ex = 16 /\
   FileSettings.limitedCredit ex = 0).
Proof.
  intros Hlen fs example ex.
  assert (Hshift : forall n i, 0 <= n -> 0 <= i -> zget (zdrop n data) i = zget data (n + i)).
  { intros n i Hn Hi. unfold zget.
    destruct (i <? 0) eqn:Ei; [apply Z.ltb_lt in Ei; lia|].
    destruct (n + i <? 0) eqn:Eni; [apply Z.ltb_lt in Eni; lia|].
    rewrite zdrop_skipn, nth_skipn. f_equal. lia. }
  split; [|split].
  - subst fs. unfold DesfireFillFileSettings.
    destruct (datalen <? 4) eqn:E4; [apply Z.ltb_lt in E4; lia|].
    unfold DesfireDecodeFileAcessMode. cbv beta iota.
    assert (Hraw : MemLeToUint2byte (zdrop 2 data) = zget data 2 + Z.shiftl (zget data 3) 8).
    { unfold MemLeToUint2byte. rewrite !Hshift by lia. reflexivity. }
    rewrite Hraw.
    repeat match goal with
           | |- context [if ?b then _ else _] => destruct b
           end; cbn; repeat split; reflexivity.
  - intros Htype. subst fs. unfold DesfireFillFileSettings.
    destruct (datalen <? 4) eqn:E4; [apply Z.ltb_lt in E4; lia|].
    unfold DesfireDecodeFileAcessMode. cbv beta iota.
    rewrite Htype.
    change ((2 =? 0) || (2 =? 1)) with false. change (2 =? 2) with true. cbv iota.
    assert (H4 : forall n, 0 <= n ->
              MemLeToUint4byte (zdrop n data) =
              zget data n + Z.shiftl (zget data (n + 1)) 8 + Z.shiftl (zget data (n + 2)) 16
                + Z.shiftl (zget data (n + 3)) 24).
    { intros n Hn. unfold MemLeToUint4byte. rewrite !Hshift by lia.
      rewrite Z.add_0_r. reflexivity. }
    rewrite !H4 by lia.
    destruct (_ && _); cbn; repeat split; reflexivity.
  - subst ex example. unfold DesfireFillFileSettings. cbn. repeat split; reflexivity.
Qed.

Lemma DesfireFillFileSettings_value_witness :
  FileSettings.lowerLimit
    (@DesfireFillFileSettings Mock.file_comm_modes
       [0x02; 0x03; 0xEE; 0xEE; 0x10; 0x00; 0x00; 0x00; 0x00; 0x00; 0x00; 0x00;
        0x10; 0x00; 0x00; 0x00; 0x00] 17) = 16.
Proof.
  destruct (@DesfireFillFileSettings_value Mock.file_comm_modes
              [0x02; 0x03; 0xEE; 0xEE; 0x10; 0x00; 0x00; 0x00; 0x00; 0x00; 0x00; 0x00;
               0x10; 0x00; 0x00; 0x00; 0x00] 17) as [_ [_ Hex]].
  - vm_compute. discriminate.
  - apply Hex.
Defined.

(** C3, as stated, fails on its example: the decoded lower limit is 16 and
    the upper limit 0, not 0 and 16. *)
Lemma DesfireFillFileSettings_example_limits :
  let fs := @DesfireFillFileSettings Mock.file_comm_modes
              [0x02; 0x03; 0xEE; 0xEE; 0x10; 0x00; 0x00; 0x00; 0x00; 0x00; 0x00; 0x00;
               0x10; 0x00; 0x00; 0x00; 0x00] 17 in
  FileSettings.lowerLimit fs <> 0 /\ FileSettings.upperLimit fs <> 16.
Proof. vm_compute. split; discriminate. Qed.

(** ** Writing into buffers *)

Lemma zdrop_all {A : Type} (n : Z) (l : list A) : zlen l <= n -> zdrop n l = [].
Proof. rewrite zdrop_skipn. unfold zlen. intros Hn. apply skipn_all2. lia. Qed.

Lemma zdrop_app_plus {A : Type} (n : Z) (p r : list A) :
  0 <= n -> zdrop (zlen p + n) (p ++ r) = zdrop n r.
Proof.
  intros Hn. rewrite !zdrop_skipn. unfold zlen.
  replace (Z.to_nat (Z.of_nat (length p) + n)) with (length p + Z.to_nat n)%nat by lia.
  rewrite skipn_app.
  rewrite skipn_all2 by lia.
  replace (length p + Z.to_nat n - length p)%nat with (Z.to_nat n) by lia.
  reflexivity.
Qed.

(** Writing right behind a known prefix. *)
Lemma memcpy_behind (p r src : list Z) :
  memcpy (p ++ r) (zlen p) src = p ++ src ++ zdrop (zlen src) r.
Proof.
  unfold memcpy. rewrite <- app_assoc.
  rewrite ztake_app_exact by reflexivity.
  rewrite zdrop_app_plus by apply zlen_nonneg. reflexivity.
Qed.

Lemma memcpy_behind_at (p r src : list Z) (pos : Z) :
  pos = zlen p -> memcpy (p ++ r) pos src = p ++ src ++ zdrop (zlen src) r.
Proof. intros ->. apply memcpy_behind. Qed.

Lemma poke_behind (p r : list Z) (v : Z) :
  poke (p ++ r) (zlen p) v = p ++ v :: zdrop 1 r.
Proof. unfold poke. rewrite memcpy_behind. reflexivity. Qed.

(** Overwriting what follows a known prefix with as many bytes. *)
Lemma memcpy_over (p old r src : list Z) :
  zlen src = zlen old -> memcpy (p ++ old ++ r) (zlen p) src = p ++ src ++ r.
Proof.
  intros Hlen. rewrite memcpy_behind. rewrite zdrop_app_exact by (symmetry; exact Hlen).
  reflexivity.
Qed.

Lemma slice_behind (p x r : list Z) : slice (p ++ x ++ r) (zlen p) (zlen x) = x.
Proof.
  unfold slice. rewrite zdrop_app_exact by reflexivity.
  apply ztake_app_exact. reflexivity.
Qed.

Lemma zlen_zdrop_max {A : Type} (n : Z) (l : list A) :
  0 <= n -> zlen (zdrop n l) = Z.max 0 (zlen l - n).
Proof. rewrite zdrop_skipn. unfold zlen. intros Hn. rewrite length_skipn. lia. Qed.

Lemma zlen_ztake_min {A : Type} (n : Z) (l : list A) :
  0 <= n -> zlen (ztake n l) = Z.min n (zlen l).
Proof. rewrite ztake_firstn. unfold zlen. intros Hn. rewrite length_firstn. lia. Qed.

Lemma zlen_memcpy (dst src : list Z) (pos : Z) :
  0 <= pos -> zlen (memcpy dst pos src) = Z.max (zlen dst) (pos + zlen src).
Proof.
  intros Hpos. unfold memcpy.
  pose proof (zlen_nonneg dst) as Hd. pose proof (zlen_nonneg src) as Hs.
  rewrite !zlen_app, zlen_ztake_min, zlen_zdrop_max, zlen_app by lia.
  destruct (Z.le_gt_cases pos (zlen dst)) as [Hle | Hgt].
  - rewrite zeros_nonpos by lia. change (zlen (@nil Z)) with 0. lia.
  - rewrite zlen_zeros by lia. lia.
Qed.

Lemma zlen_bin_xor (a b : list Z) : zlen (bin_xor a b) = zlen a.
Proof.
  unfold zlen. f_equal. revert b.
  induction a as [|x a IH]; intros b; [destruct b; reflexivity|].
  destruct b as [|y b]; [reflexivity|]. simpl. rewrite IH. reflexivity.
Qed.

Lemma skipn_repeat_sub {A : Type} (x : A) (k n : nat) :
  skipn k (repeat x n) = repeat x (n - k).
Proof.
  revert n. induction k as [|k IH]; intros n.
  - rewrite Nat.sub_0_r. reflexivity.
  - destruct n as [|n]; [reflexivity|]. simpl. apply IH.
Qed.

Lemma zdrop_zeros (n k : Z) : 0 <= k <= n -> zdrop k (zeros n) = zeros (n - k).
Proof.
  intros Hk. rewrite zdrop_skipn. unfold zeros. rewrite skipn_repeat_sub.
  f_equal. lia.
Qed.

Lemma zeros_split (a b : Z) : 0 <= a -> 0 <= b -> zeros (a + b) = zeros a ++ zeros b.
Proof.
  intros Ha Hb. unfold zeros. rewrite <- repeat_app. f_equal. lia.
Qed.

(** ** Change key: the cryptogram plaintext *)

Section ChangeKeyData.
Context `{FL : FrameLimit} `{AE : ApduEncoder} `{SC : SecureChannelCodec}
  `{CS : Checksums} `{KO : DesfireKeyOps}.
Hypothesis crc_sized : Checksums_sized.
Hypothesis setversion_sized : DesfireKeyOps_sized.

Lemma key_length_bounds (t : DesfireCryptoAlgorythm) :
  8 <= desfire_get_key_length t <= 24.
Proof. destruct t; cbn; lia. Qed.

Lemma DesfireChangeKey_keys_sizes newkeytype newkeyver newkey oldkeytype oldkey :
  let '(okeybuf, nkeybuf, nkeylen) :=
    DesfireChangeKey_keys newkeytype newkeyver newkey oldkeytype oldkey in
  zlen nkeybuf = 24 /\
  nkeylen = (if algo_eqb newkeytype T_DES then 16 else desfire_get_key_length newkeytype).
Proof.
  unfold DesfireChangeKey_keys.
  pose proof (key_length_bounds newkeytype) as Hk.
  pose proof (zlen_nonneg newkey) as Hn.
  assert (H0 : zlen (memcpy (zeros DESFIRE_MAX_KEY_SIZE) 0
                       (ztake (desfire_get_key_length newkeytype) newkey)) = 24).
  { rewrite zlen_memcpy by lia. rewrite zlen_zeros by (unfold DESFIRE_MAX_KEY_SIZE; lia).
    rewrite zlen_ztake_min by lia. unfold DESFIRE_MAX_KEY_SIZE. lia. }
  assert (H8 : zlen (memcpy (memcpy (zeros DESFIRE_MAX_KEY_SIZE) 0
                       (ztake (desfire_get_key_length newkeytype) newkey)) 8
                       (ztake 8 newkey)) = 24).
  { rewrite zlen_memcpy by lia. rewrite H0. rewrite zlen_ztake_min by lia. lia. }
  cbv zeta.
  destruct (algo_eqb newkeytype T_DES); cbv beta iota;
    destruct (negb (algo_eqb newkeytype T_AES) && (newkeyver <? 256));
    try rewrite setversion_sized; (split; [assumption | reflexivity]).
Qed.

(** A key of the right length fills its buffer as it is, a DES key twice. *)
Lemma key_buffer (t : DesfireCryptoAlgorythm) (k : list Z) :
  zlen k = desfire_get_key_length t ->
  (if algo_eqb t T_DES
   then memcpy (memcpy (zeros DESFIRE_MAX_KEY_SIZE) 0 (ztake (desfire_get_key_length t) k))
          8 (ztake 8 k)
   else memcpy (zeros DESFIRE_MAX_KEY_SIZE) 0 (ztake (desfire_get_key_length t) k)) =
  (if algo_eqb t T_DES then k ++ k else k)
    ++ zeros (if algo_eqb t T_DES then 8 else 24 - zlen k).
Proof.
  intros Hlen. pose proof (key_length_bounds t) as Hb.
  rewrite (ztake_all (desfire_get_key_length t) k) by lia.
  rewrite memcpy_at_0, zdrop_zeros by (unfold DESFIRE_MAX_KEY_SIZE; lia).
  destruct (algo_eqb t T_DES) eqn:Edes; [|reflexivity].
  assert (H8 : zlen k = 8) by (destruct t; try discriminate; exact Hlen).
  rewrite (ztake_all 8 k) by lia.
  rewrite (memcpy_behind_at k _ k 8) by (symmetry; exact H8).
  rewrite H8, zdrop_zeros by (unfold DESFIRE_MAX_KEY_SIZE; lia).
  rewrite <- app_assoc. reflexivity.
Qed.

Lemma DesfireChangeKey_keys_values newkeytype newkeyver newkey oldkeytype oldkey :
  let '(okeybuf, nkeybuf, nkeylen) :=
    DesfireChangeKey_keys newkeytype newkeyver newkey oldkeytype oldkey in
  (zlen newkey = desfire_get_key_length newkeytype ->
   newkeytype = T_AES \/ 0x100 <= newkeyver ->
   ztake nkeylen nkeybuf = if algo_eqb newkeytype T_DES then newkey ++ newkey else newkey) /\
  (zlen oldkey = desfire_get_key_length oldkeytype ->
   okeybuf =
   (if algo_eqb oldkeytype T_DES then oldkey ++ oldkey else oldkey)
     ++ zeros (if algo_eqb oldkeytype T_DES then 8 else 24 - zlen oldkey)).
Proof.
  unfold DesfireChangeKey_keys. cbv zeta.
  pose proof (key_buffer newkeytype newkey) as Hnew.
  pose proof (key_buffer oldkeytype oldkey) as Hold.
  destruct (algo_eqb newkeytype T_DES) eqn:Edes; cbv beta iota.
  - split; [|exact Hold].
    intros Hlen Hver. specialize (Hnew Hlen).
    assert (Hoff : negb (algo_eqb newkeytype T_AES) && (newkeyver <? 256) = false).
    { destruct Hver as [-> | Hver]; [reflexivity|].
      destruct (newkeyver <? 256) eqn:E; [apply Z.ltb_lt in E; lia|].
      apply andb_false_r. }
    rewrite Hoff, Hnew.
    apply ztake_app_exact. rewrite zlen_app, Hlen.
    destruct newkeytype; try discriminate. reflexivity.
  - split; [|exact Hold].
    intros Hlen Hver. specialize (Hnew Hlen).
    assert (Hoff : negb (algo_eqb newkeytype T_AES) && (newkeyver <? 256) = false).
    { destruct Hver as [-> | Hver]; [reflexivity|].
      destruct (newkeyver <? 256) eqn:E; [apply Z.ltb_lt in E; lia|].
      apply andb_false_r. }
    rewrite Hoff, Hnew.
    apply ztake_app_exact. exact Hlen.
Qed.

(** The two header bytes of [pckcdata]. *)
Lemma ChangeKey_header (keyno : Z) :
  poke (poke (zeros (DESFIRE_MAX_KEY_SIZE + 10)) 0 MFDES_CHANGE_KEY) 1 keyno =
  [MFDES_CHANGE_KEY; keyno] ++ zeros 32.
Proof. reflexivity. Qed.

(** The key material: the new key, or the new key xored with the old one. *)
Lemma ChangeKey_key_material (P R nkey okeybuf : list Z) (same : bool) :
  zlen P = 2 ->
  (if same
   then memcpy (P ++ R) 2 nkey
   else memcpy (memcpy (P ++ R) 2 nkey) 2
          (bin_xor (slice (memcpy (P ++ R) 2 nkey) 2 (zlen nkey)) okeybuf)) =
  P ++ (if same then nkey else bin_xor nkey okeybuf) ++ zdrop (zlen nkey) R.
Proof.
  intros HP. rewrite (memcpy_behind_at P R nkey 2) by (symmetry; exact HP).
  destruct same; [reflexivity|].
  replace (slice (P ++ nkey ++ zdrop (zlen nkey) R) 2 (zlen nkey)) with nkey
    by (rewrite <- HP, slice_behind; reflexivity).
  rewrite (memcpy_behind_at P _ _ 2) by (symmetry; exact HP).
  rewrite zdrop_app_exact by (symmetry; apply zlen_bin_xor). reflexivity.
Qed.

(** The version byte of an AES key. *)
Lemma ChangeKey_version_byte (P K R : list Z) (aes : bool) (ver : Z) :
  zlen P = 2 ->
  (if aes then (poke (P ++ K ++ R) (2 + zlen K) ver, zlen K + 1) else (P ++ K ++ R, zlen K)) =
  (P ++ (K ++ if aes then [ver] else []) ++ (if aes then zdrop 1 R else R),
   zlen (K ++ if aes then [ver] else [])).
Proof.
  intros HP. destruct aes.
  - replace (2 + zlen K) with (zlen (P ++ K)) by (rewrite zlen_app; lia).
    rewrite (app_assoc P K R), poke_behind, zlen_app, <- !app_assoc. reflexivity.
  - rewrite app_nil_r. reflexivity.
Qed.

(** The checksums under D40: CRC16 of the plaintext alone, then CRC16 of the
    new key. *)
Lemma ChangeKey_crc_d40 (P body R nkey : list Z) (same : bool) :
  zlen P = 2 ->
  exists tail,
    (let pckcdata := memcpy (P ++ body ++ R) 2
                       (iso14443a_crc_append (zdrop 2 (P ++ body ++ R)) (zlen body)) in
     let cdatalen := zlen body + 2 in
     if negb same
     then (memcpy pckcdata (2 + cdatalen) (iso14443a_crc nkey), cdatalen + 2)
     else (pckcdata, cdatalen)) =
    (P ++ (body ++ iso14443a_crc body ++ if same then [] else iso14443a_crc nkey) ++ tail,
     zlen (body ++ iso14443a_crc body ++ if same then [] else iso14443a_crc nkey)).
Proof.
  intros HP. destruct crc_sized as [H16 _].
  assert (Hview : zdrop 2 (P ++ body ++ R) = body ++ R)
    by (apply zdrop_app_exact; exact HP).
  assert (Happ : iso14443a_crc_append (body ++ R) (zlen body) =
                 body ++ iso14443a_crc body ++ zdrop 2 R).
  { unfold iso14443a_crc_append. rewrite memcpy_behind.
    rewrite ztake_app_exact by reflexivity. rewrite H16. reflexivity. }
  assert (Hback : memcpy (P ++ body ++ R) 2 (body ++ iso14443a_crc body ++ zdrop 2 R) =
                  P ++ body ++ iso14443a_crc body ++ zdrop 2 R).
  { rewrite (memcpy_behind_at P _ _ 2) by (symmetry; exact HP).
    rewrite (zdrop_all (zlen (body ++ iso14443a_crc body ++ zdrop 2 R)) (body ++ R));
      [rewrite app_nil_r; reflexivity|].
    pose proof (zlen_nonneg R).
    rewrite !zlen_app, H16, zlen_zdrop_max by lia. lia. }
  cbv zeta. rewrite Hview, Happ, Hback.
  destruct same; cbn [negb].
  - exists (zdrop 2 R). rewrite !app_nil_r, !zlen_app, H16, <- !app_assoc.
    split; reflexivity || f_equal.
  - exists (zdrop 2 (zdrop 2 R)).
    replace (2 + (zlen body + 2)) with (zlen (P ++ body ++ iso14443a_crc body))
      by (rewrite !zlen_app, H16; lia).
    rewrite (app_assoc body), (app_assoc P), memcpy_behind, H16.
    rewrite !zlen_app, !H16, <- !app_assoc. f_equal. lia.
Qed.

(** The checksums otherwise: CRC32 of [cmd || keyNo || plaintext], then CRC32
    of the new key. *)
Lemma ChangeKey_crc_ev1 (P body R nkey : list Z) (same : bool) :
  zlen P = 2 ->
  exists tail,
    (let pckcdata := desfire_crc32_append (P ++ body ++ R) (zlen body + 2) in
     let cdatalen := zlen body + 4 in
     if negb same
     then (memcpy pckcdata (2 + cdatalen) (desfire_crc32 nkey), cdatalen + 4)
     else (pckcdata, cdatalen)) =
    (P ++ (body ++ desfire_crc32 (P ++ body) ++ if same then [] else desfire_crc32 nkey)
       ++ tail,
     zlen (body ++ desfire_crc32 (P ++ body) ++ if same then [] else desfire_crc32 nkey)).
Proof.
  intros HP. destruct crc_sized as [_ H32].
  assert (Happ : desfire_crc32_append (P ++ body ++ R) (zlen body + 2) =
                 P ++ body ++ desfire_crc32 (P ++ body) ++ zdrop 4 R).
  { unfold desfire_crc32_append.
    replace (zlen body + 2) with (zlen (P ++ body)) by (rewrite zlen_app; lia).
    rewrite (app_assoc P body R), memcpy_behind.
    rewrite ztake_app_exact by reflexivity. rewrite H32, <- !app_assoc. reflexivity. }
  cbv zeta. rewrite Happ.
  destruct same; cbn [negb].
  - exists (zdrop 4 R). rewrite !app_nil_r, !zlen_app, H32, <- !app_assoc.
    split; reflexivity || f_equal.
  - exists (zdrop 4 (zdrop 4 R)).
    replace (2 + (zlen body + 4)) with (zlen (P ++ body ++ desfire_crc32 (P ++ body)))
      by (rewrite !zlen_app, H32; lia).
    rewrite (app_assoc body), (app_assoc P), memcpy_behind, H32.
    rewrite !zlen_app, !H32, <- !app_assoc. f_equal. lia.
Qed.

(** The front of a list that is followed by more. *)
Lemma ztake_app_front {A : Type} (n : Z) (l1 l2 : list A) :
  n <= zlen l1 -> ztake n (l1 ++ l2) = ztake n l1.
Proof.
  intros Hn. rewrite !ztake_firstn, firstn_app.
  replace (Z.to_nat n - length l1)%nat with 0%nat by (unfold zlen in Hn; lia).
  rewrite firstn_0. apply app_nil_r.
Qed.

(** C2 (amended). The command data that [DesfireChangeKey] assembles in
    [cdata], [cdatalen] bytes behind the command byte and the key number
    byte: the new key (when [newkeynum] is the authenticated key number) or
    the new key xored with the old key (otherwise), then the key version
    byte iff the new key type is AES, then a checksum, and, when a different
    key is changed, a second checksum over the new key alone.  Under D40 the
    checksum is the CRC16 of the plaintext alone; otherwise it is the CRC32
    of [cmd || keyNoByte || plaintext].  [nkey] is the new key as the
    function prepared it (a DES key doubled to 16 bytes, the version bits
    set when [newkeyver < 0x100]).  The call then runs the ChangeKey command
    on the [cdatalen] bytes from the key number byte on: the key number
    byte and the assembled data but for their last byte. *)
Theorem DesfireChangeKey_plaintext (dctx : DesfireContext) (change_master_key : bool)
  (newkeynum : Z) (newkeytype : DesfireCryptoAlgorythm) (newkeyver : Z) (newkey : list Z)
  (oldkeytype : DesfireCryptoAlgorythm) (oldkey : list Z) (verbose : bool) (t : Transport) :
  let d := DesfireChangeKey_data dctx change_master_key newkeynum newkeytype newkeyver
             newkey oldkeytype oldkey in
  let same := newkeynum =? keyNum dctx in
  let aes := algo_eqb newkeytype T_AES in
  let d40 := chan_eqb (secureChannel dctx) DACd40 in
  let nkey := ztake (ck_nkeylen d) (ck_nkeybuf d) in
  let keyNoByte :=
    if change_master_key
    then u8 (Z.lor (Z.land newkeynum 0x3f)
               (Z.shiftl (Z.land (DesfireKeyAlgoToType newkeytype) 0x03) 6))
    else Z.land newkeynum 0x3f in
  let plaintext :=
    (if same then nkey else bin_xor nkey (ck_okeybuf d))
      ++ (if aes then [u8 newkeyver] else []) in
  let crc :=
    if d40 then iso14443a_crc plaintext
    else desfire_crc32 ([MFDES_CHANGE_KEY; keyNoByte] ++ plaintext) in
  let crc_new_key :=
    if same then [] else if d40 then iso14443a_crc nkey else desfire_crc32 nkey in
  let assembled := plaintext ++ crc ++ crc_new_key in
  slice (ck_pckcdata d) 0 2 = [MFDES_CHANGE_KEY; keyNoByte] /\
  ck_cdatalen d = zlen assembled /\
  slice (ck_pckcdata d) 2 (ck_cdatalen d) = assembled /\
  DesfireChangeKey dctx change_master_key newkeynum newkeytype newkeyver newkey oldkeytype
    oldkey verbose t =
  run_fn
    (r <- DesfireChangeKeyCmd (keyNoByte :: ztake (ck_cdatalen d - 1) assembled)
            (zeros 257) ;;
     let res := if (cmd_res r =? 0) && (cmd_resplen r >? 0) then -20 else cmd_res r in
     dctx1 <- get_ctx ;;
     (if newkeynum =? keyNum dctx1 then modify_ctx DesfireClearSession else ret tt) ;;
     return_ res) dctx t /\
  (zlen newkey = desfire_get_key_length newkeytype ->
   newkeytype = T_AES \/ 0x100 <= newkeyver ->
   nkey = if algo_eqb newkeytype T_DES then newkey ++ newkey else newkey) /\
  (zlen oldkey = desfire_get_key_length oldkeytype ->
   ck_okeybuf d =
   (if algo_eqb oldkeytype T_DES then oldkey ++ oldkey else oldkey)
     ++ zeros (if algo_eqb oldkeytype T_DES then 8 else 24 - zlen oldkey)).
Proof.
  intros d same aes d40 nkey keyNoByte plaintext crc crc_new_key assembled.
  pose proof (DesfireChangeKey_keys_sizes newkeytype newkeyver newkey oldkeytype oldkey)
    as Hsizes.
  unfold DesfireChangeKey, run_fn. unfold bind at 1. unfold get_ctx at 1. cbv beta iota zeta.
  fold d.
  subst assembled plaintext crc crc_new_key nkey d. unfold DesfireChangeKey_data.
  fold keyNoByte. rewrite ChangeKey_header. cbv zeta.
  destruct (DesfireChangeKey_keys newkeytype newkeyver newkey oldkeytype oldkey)
    as [[okeybuf nkeybuf] nkeylen] eqn:Ekeys.
  destruct Hsizes as [Hbuf Hnkeylen].
  fold same d40.
  destruct (DesfireChangeKey_cdata same d40 newkeytype newkeyver
              ([MFDES_CHANGE_KEY; keyNoByte] ++ zeros 32) okeybuf nkeybuf nkeylen)
    as [pckcdata cdatalen] eqn:Ecdata.
  cbn [ck_nkeybuf ck_nkeylen ck_okeybuf ck_pckcdata ck_cdatalen].
  set (nk := ztake nkeylen nkeybuf) in *.
  assert (Hnk : zlen nk = nkeylen).
  { subst nk. pose proof (key_length_bounds newkeytype).
    apply zlen_ztake. rewrite Hbuf, Hnkeylen. destruct (algo_eqb newkeytype T_DES); lia. }
  set (P := [MFDES_CHANGE_KEY; keyNoByte]) in *.
  assert (HP : zlen P = 2) by reflexivity.
  set (body := (if same then nk else bin_xor nk okeybuf) ++ (if aes then [u8 newkeyver] else [])).
  set (built := body ++ (if d40 then iso14443a_crc body else desfire_crc32 (P ++ body))
                  ++ (if same then []
                      else if d40 then iso14443a_crc nk else desfire_crc32 nk)).
  assert (Hlayout : exists tail, pckcdata = P ++ built ++ tail /\ cdatalen = zlen built).
  { unfold DesfireChangeKey_cdata in Ecdata. fold nk aes in Ecdata.
    cbv zeta in Ecdata. rewrite <- Hnk in Ecdata.
    rewrite (ChangeKey_key_material P (zeros 32) nk okeybuf same HP) in Ecdata.
    set (K := if same then nk else bin_xor nk okeybuf) in *.
    assert (HK : zlen K = zlen nk)
      by (subst K; destruct same; [|rewrite zlen_bin_xor]; reflexivity).
    set (R0 := zdrop (zlen nk) (zeros 32)) in Ecdata.
    rewrite <- HK in Ecdata.
    rewrite (ChangeKey_version_byte P K R0 aes (u8 newkeyver) HP) in Ecdata.
    fold body in Ecdata.
    set (R := if aes then zdrop 1 R0 else R0) in *.
    subst built.
    destruct d40.
    - destruct (ChangeKey_crc_d40 P body R nk same HP) as [tail Htail].
      cbv zeta in Htail. rewrite Htail in Ecdata. injection Ecdata as <- <-.
      exists tail. destruct same; split; reflexivity.
    - destruct (ChangeKey_crc_ev1 P body R nk same HP) as [tail Htail].
      cbv zeta in Htail. rewrite Htail in Ecdata. injection Ecdata as <- <-.
      exists tail. destruct same; split; reflexivity. }
  destruct Hlayout as [tail [Hpck Hlen]].
  assert (Hpos : 2 <= zlen built).
  { subst built. destruct crc_sized as [H16 H32].
    pose proof (zlen_nonneg body).
    pose proof (zlen_nonneg (if same then []
                             else if d40 then iso14443a_crc nk else desfire_crc32 nk)).
    rewrite !zlen_app. destruct d40; rewrite ?H16, ?H32; lia. }
  assert (Hsent : slice pckcdata 1 cdatalen = keyNoByte :: ztake (cdatalen - 1) built).
  { rewrite Hpck, Hlen. subst P. cbn [app]. unfold slice. rewrite zdrop_1_cons.
    rewrite ztake_succ_cons by lia. f_equal. apply ztake_app_front. lia. }
  split; [|split; [|split; [|split; [|split]]]].
  - rewrite Hpck. unfold slice. rewrite zdrop_0. apply ztake_app_exact. exact HP.
  - exact Hlen.
  - rewrite Hpck, Hlen. rewrite <- HP. apply slice_behind.
  - rewrite Hsent. reflexivity.
  - pose proof (DesfireChangeKey_keys_values newkeytype newkeyver newkey oldkeytype oldkey)
      as Hv.
    rewrite Ekeys in Hv. apply Hv.
  - pose proof (DesfireChangeKey_keys_values newkeytype newkeyver newkey oldkeytype oldkey)
      as Hv.
    rewrite Ekeys in Hv. apply Hv.
Qed.

End ChangeKeyData.

Lemma Mock_checksums_sized : @Checksums_sized Mock.checksums.
Proof. split; intros d; reflexivity. Qed.

Lemma Mock_set_version_bits_len (k : list Z) (n : nat) (mask version : Z) :
  zlen (Mock.set_version_bits k n mask version) = zlen k.
Proof.
  unfold zlen. f_equal. revert n mask.
  induction k as [|b k IH]; intros n mask; destruct n; simpl;
    rewrite ?length_map, ?IH; reflexivity.
Qed.

Lemma Mock_key_ops_sized : @DesfireKeyOps_sized Mock.key_ops.
Proof.
  intros k t v. unfold Mock.key_ops, DesfireDESKeySetVersion.
  destruct t; try apply Mock_set_version_bits_len. reflexivity.
Qed.

Lemma DesfireChangeKey_plaintext_witness :
  let newkey := [0x10; 0x11; 0x12; 0x13; 0x14; 0x15; 0x16; 0x17;
                 0x18; 0x19; 0x1A; 0x1B; 0x1C; 0x1D; 0x1E; 0x1F] in
  let oldkey := zeros 16 in
  let dctx := set_secureChannel DACEV1 (Mock.fresh_context 0 T_AES (zeros 16) DCCNative) in
  let d := @DesfireChangeKey_data Mock.checksums Mock.key_ops dctx false 1 T_AES 0x02
             newkey T_AES oldkey in
  ck_cdatalen d = 25 /\
  slice (ck_pckcdata d) 2 (ck_cdatalen d) =
  (newkey ++ [0x02])
    ++ Mock.crc32_desfire ([MFDES_CHANGE_KEY; 0x01] ++ newkey ++ [0x02])
    ++ Mock.crc32_desfire newkey.
Proof.
  intros newkey oldkey dctx d.
  pose proof (@DesfireChangeKey_plaintext Mock.frame_limit Mock.apdu_encoder
                Mock.plain_codec Mock.checksums Mock.key_ops
                Mock_checksums_sized Mock_key_ops_sized dctx false 1 T_AES 0x02
                newkey T_AES oldkey false (mkTransport [] [])) as H.
  cbv zeta in H. destruct H as [_ [Hlen [H _]]].
  split; [exact Hlen | exact H].
Defined.

(** C2, as stated, fails under D40: the CRC16 that follows the plaintext is
    computed over the plaintext alone, not over [cmd || keyNoByte ||
    plaintext]. *)
Lemma DesfireChangeKey_d40_checksum_over_plaintext_only :
  let newkey := [0x10; 0x11; 0x12; 0x13; 0x14; 0x15; 0x16; 0x17;
                 0x18; 0x19; 0x1A; 0x1B; 0x1C; 0x1D; 0x1E; 0x1F] in
  let dctx := set_secureChannel DACd40 (Mock.fresh_context 0 T_3DES (zeros 16) DCCNative) in
  let d := @DesfireChangeKey_data Mock.checksums Mock.key_ops dctx false 0 T_3DES 0x100
             newkey T_3DES (zeros 16) in
  let plaintext := slice (ck_pckcdata d) 2 16 in
  let checksum := slice (ck_pckcdata d) 18 2 in
  plaintext = newkey /\
  ck_cdatalen d = 18 /\
  checksum = Mock.crc16_a plaintext /\
  checksum <> Mock.crc16_a ([MFDES_CHANGE_KEY; zget (ck_pckcdata d) 1] ++ plaintext).
Proof. vm_compute. repeat split; discriminate. Qed.

(** ** DesfireExchangeISONative and DesfireExchangeEx: the script shrinks, raw
    frames are only added *)

Lemma DESFIRESendApduEx_consumes `{AE : ApduEncoder} activate apdu le max t :
  apdu_res (snd (DESFIRESendApduEx activate apdu le max t)) = PM3_SUCCESS ->
  length (replies t) = S (length (replies (fst (DESFIRESendApduEx activate apdu le max t)))).
Proof.
  unfold DESFIRESendApduEx, ExchangeAPDU14a, next_reply.
  pose proof (replies_activate activate t) as Hr.
  destruct (if activate then msleep 50 (DropField t) else t) as [rp ev].
  cbn [replies events log] in *. subst rp.
  destruct (APDUEncodeS apdu false le) as [data|]; [|cbn; discriminate].
  destruct (replies t) as [|r rs]; cbn [fst snd replies events].
  - change (negb (PM3_ETIMEOUT =? PM3_SUCCESS)) with true. cbv iota.
    cbn [snd apdu_res]. discriminate.
  - destruct (r_res r =? PM3_SUCCESS) eqn:E; cbn [negb].
    + intros _. destruct (zlen _ <? 2); [reflexivity|].
      destruct (negb (is_success_sw _)); reflexivity.
    + cbn [snd apdu_res]. intros Hres. rewrite Hres in E. discriminate.
Qed.

Lemma DESFIRESendApduEx_frames `{AE : ApduEncoder} activate apdu le max t :
  raw_frames (events (fst (DESFIRESendApduEx activate apdu le max t))) = raw_frames (events t).
Proof.
  unfold DESFIRESendApduEx, ExchangeAPDU14a, next_reply.
  pose proof (raw_frames_activate activate t) as Ha.
  destruct (if activate then msleep 50 (DropField t) else t) as [rp ev].
  cbn [replies events log] in *.
  destruct (APDUEncodeS apdu false le) as [data|]; [|exact Ha].
  assert (Hlog : raw_frames (ev ++ [EvApdu activate data]) = raw_frames (events t)).
  { rewrite raw_frames_app, Ha. cbn [raw_frames]. apply app_nil_r. }
  destruct rp as [|r rs]; cbn [fst snd replies events].
  - change (negb (PM3_ETIMEOUT =? PM3_SUCCESS)) with true. cbv iota. exact Hlog.
  - destruct (negb (r_res r =? PM3_SUCCESS)); [exact Hlog|].
    destruct (zlen _ <? 2); [exact Hlog|].
    destruct (negb (is_success_sw _)); exact Hlog.
Qed.

(** From [E : DESFIRESendApdu a p m t = (t', r)] and
    [Er : (apdu_res r =? PM3_SUCCESS) = true]. *)
Ltac apdu_consumed E Er :=
  match type of E with
  | DESFIRESendApdu ?a ?p ?m ?t = (?t', ?r) =>
    let Hc := fresh "Hc" in
    pose proof (DESFIRESendApduEx_consumes a p APDU_INCLUDE_LE_00 m t) as Hc;
    change (DESFIRESendApduEx a p APDU_INCLUDE_LE_00 m t) with (DESFIRESendApdu a p m t) in Hc;
    rewrite E in Hc; cbn [fst snd] in Hc;
    specialize (Hc (proj1 (Z.eqb_eq _ _) Er))
  end.

Ltac apdu_logged E :=
  match type of E with
  | DESFIRESendApdu ?a ?p ?m ?t = (?t', ?r) =>
    let Hl := fresh "Hl" in
    pose proof (DESFIRESendApduEx_frames a p APDU_INCLUDE_LE_00 m t) as Hl;
    change (DESFIRESendApduEx a p APDU_INCLUDE_LE_00 m t) with (DESFIRESendApdu a p m t) in Hl;
    rewrite E in Hl; cbn [fst] in Hl
  end.

Section IsoNativeRuns.
Context `{FL : FrameLimit} `{AE : ApduEncoder}.

Lemma DesfireExchangeISONative_tx_run fuel activate apdu data datalen sent buf buflen sw t :
  (length (replies t) < fuel)%nat ->
  exists t' o,
    DesfireExchangeISONative_tx fuel activate apdu data datalen sent buf buflen sw t
      = Some (t', o) /\
    (length (replies t') <= length (replies t))%nat /\
    raw_frames (events t') = raw_frames (events t).
Proof.
  revert apdu sent buf buflen sw t.
  induction fuel as [|fuel IH]; intros apdu sent buf buflen sw t Hfuel; [lia|].
  cbn [DesfireExchangeISONative_tx].
  destruct (datalen >=? sent); [|eexists _, _; repeat split; reflexivity || lia].
  cbv zeta.
  destruct (DESFIRESendApdu _ _ _ t) as [t1 r] eqn:E.
  apdu_logged E.
  destruct (apdu_res r =? PM3_SUCCESS) eqn:Er; cbn [negb].
  - apdu_consumed E Er.
    destruct (_ || _).
    + eexists _, _. repeat split; [lia | exact Hl].
    + match goal with
      | |- context [DesfireExchangeISONative_tx fuel _ ?ap _ _ ?s ?b ?bl ?w t1] =>
        destruct (IH ap s b bl w t1) as [t' [o [Hrun [Hle Hfr]]]]; [lia|]
      end.
      rewrite Hrun. eexists _, _. repeat split; [lia | rewrite Hfr; exact Hl].
  - assert (Hle : (length (replies t1) <= length (replies t))%nat).
    { pose proof (f_equal fst E) as Ef. cbn [fst] in Ef. rewrite <- Ef.
      unfold DESFIRESendApdu, DESFIRESendApduEx, ExchangeAPDU14a, next_reply.
      pose proof (replies_activate activate t) as Hr.
      destruct (if activate then msleep 50 (DropField t) else t) as [rp ev].
      cbn [replies events log] in *. subst rp.
      destruct (APDUEncodeS _ false _); [|cbn; lia].
      destruct (replies t) as [|r0 rs]; cbn [fst snd replies events].
      - change (negb (PM3_ETIMEOUT =? PM3_SUCCESS)) with true. cbv iota. cbn. lia.
      - destruct (negb (r_res r0 =? PM3_SUCCESS)); [cbn; lia|].
        destruct (zlen _ <? 2); [cbn; lia|].
        destruct (negb (is_success_sw _)); cbn; lia. }
    eexists _, _. repeat split; [exact Hle | exact Hl].
Qed.

Lemma DesfireExchangeISONative_rx_run fuel splitbysize sw respcode resp pos i t :
  (length (replies t) < fuel)%nat ->
  exists t' o,
    DesfireExchangeISONative_rx fuel splitbysize sw respcode resp pos i t = Some (t', o) /\
    raw_frames (events t') = raw_frames (events t).
Proof.
  revert sw respcode resp pos i t.
  induction fuel as [|fuel IH]; intros sw respcode resp pos i t Hfuel; [lia|].
  cbn [DesfireExchangeISONative_rx].
  destruct (sw =? DESFIRE_GET_ISO_STATUS MFDES_ADDITIONAL_FRAME);
    [|eexists _, _; split; reflexivity].
  cbv zeta.
  destruct (DESFIRESendApdu _ _ _ t) as [t1 r] eqn:E.
  apdu_logged E.
  destruct (apdu_res r =? PM3_SUCCESS) eqn:Er; cbn [negb].
  - apdu_consumed E Er.
    destruct (negb (apdu_sw r =? _)).
    + eexists _, _. split; [reflexivity | exact Hl].
    + match goal with
      | |- context [DesfireExchangeISONative_rx fuel _ ?w ?rc ?rp ?ps ?ix t1] =>
        destruct (IH w rc rp ps ix t1) as [t' [o [Hrun Hfr]]]; [lia|]
      end.
      rewrite Hrun. eexists _, _. split; [reflexivity | rewrite Hfr; exact Hl].
  - eexists _, _. split; [reflexivity | exact Hl].
Qed.

(** [DesfireExchangeISONative] returns for every finite script and sends no
    raw frame. *)
Lemma DesfireExchangeISONative_run activate cmd data resp enable_chaining splitbysize t :
  exists t' r,
    DesfireExchangeISONative activate cmd data resp enable_chaining splitbysize t
      = Some (t', r) /\
    raw_frames (events t') = raw_frames (events t).
Proof.
  unfold DesfireExchangeISONative. cbv zeta.
  destruct (DesfireExchangeISONative_tx_run (S (length (replies t))) activate
              (mkAPDU MFDES_NATIVE_ISO7816_WRAP_CLA cmd 0 0 (u8 (zlen data)) data)
              data (zlen data) 0 (zeros EXCHANGE_BUF_SIZE) 0 0 t)
    as [t1 [o [Htx [Hle Hfr]]]]; [lia|].
  rewrite Htx.
  destruct o as [res | buf buflen sw]; [eexists _, _; split; [reflexivity | exact Hfr]|].
  destruct enable_chaining; cbn [negb]; [|eexists _, _; split; [reflexivity | exact Hfr]].
  destruct (DesfireExchangeISONative_rx_run (S (length (replies t1))) splitbysize sw
              (iso_respcode sw 255) (store_frame splitbysize resp 0 0 buf buflen)
              (u32 (0 + buflen)) 1 t1)
    as [t2 [o2 [Hrx Hfr2]]]; [lia|].
  rewrite Hrx.
  destruct o2; eexists _, _; (split; [reflexivity | rewrite Hfr2; exact Hfr]).
Qed.

End IsoNativeRuns.

(** ** DesfireExchangeEx *)

Section ExchangeEx.
Context `{FL : FrameLimit} `{AE : ApduEncoder} `{SC : SecureChannelCodec}.

Lemma DesfireExchangeEx_decode_some ctx resp split t r t' ctx' r' :
  DesfireExchangeEx_decode ctx resp split t r = Some (t', ctx', r') ->
  t' = t /\
  ex_res r' = ex_res r /\
  ex_respcode r' = ex_respcode r /\
  exists src, ctx' = fst (DesfireSecureChannelDecode ctx src (ex_respcode r)).
Proof.
  unfold DesfireExchangeEx_decode. cbv zeta.
  destruct (negb (split =? 0)).
  - destruct (DesfireJoinBlockToBytes _ _ _ _) as [sdata sdatalen].
    destruct (negb (fits DATABUF_SIZE sdata)); [discriminate|].
    pose (src := ztake sdatalen sdata). fold src.
    destruct (DesfireSecureChannelDecode ctx src (ex_respcode r)) as [ctx0 dec] eqn:Edec.
    destruct (DesfireSplitBytesToBlock _ _ _ _ _) as [databuf databuflen].
    destruct (negb (fits DATABUF_SIZE databuf)); [discriminate|].
    intros [= <- <- <-]. repeat split. exists src. rewrite Edec. reflexivity.
  - pose (src := ztake (ex_resplen r) (ex_resp r)). fold src.
    destruct (DesfireSecureChannelDecode ctx src (ex_respcode r)) as [ctx0 dec] eqn:Edec.
    intros [= <- <- <-]. repeat split. exists src. rewrite Edec. reflexivity.
Qed.

(** Without block splitting the answer is decoded as a whole. *)
Lemma DesfireExchangeEx_decode_whole ctx resp t r :
  DesfireExchangeEx_decode ctx resp 0 t r =
  Some (t, fst (DesfireSecureChannelDecode ctx (ztake (ex_resplen r) (ex_resp r))
                  (ex_respcode r)),
        mkExchResult (ex_res r) (ex_respcode r)
          (memcpy resp 0
             (snd (DesfireSecureChannelDecode ctx (ztake (ex_resplen r) (ex_resp r))
                     (ex_respcode r))))
          (zlen (snd (DesfireSecureChannelDecode ctx (ztake (ex_resplen r) (ex_resp r))
                        (ex_respcode r))))).
Proof.
  unfold DesfireExchangeEx_decode. cbv zeta. change (negb (0 =? 0)) with false. cbv iota.
  destruct (DesfireSecureChannelDecode _ _ _) as [ctx0 dec]. reflexivity.
Qed.

(** The two ways through [DesfireExchangeEx]. *)
Lemma DesfireExchangeEx_cases activate ctx cmd data respcode resp resplen chaining split
  t t' ctx' r :
  DesfireExchangeEx activate ctx cmd data respcode resp resplen chaining split t
    = Some (t', ctx', r) ->
  (cmdSet ctx = DCCISO /\ t' = t /\ ctx' = ctx /\
   r = mkExchResult PM3_EAPDU_FAIL respcode resp resplen) \/
  (cmdSet ctx <> DCCISO /\
   exists r0,
     (if match cmdSet (fst (DesfireSecureChannelEncode ctx cmd data)) with
         | DCCNative => true | _ => false end
      then DesfireExchangeNative activate cmd (snd (DesfireSecureChannelEncode ctx cmd data))
             (memcpy (zeros DATABUF_SIZE) 0 (snd (DesfireSecureChannelEncode ctx cmd data)))
             chaining split t
      else DesfireExchangeISONative activate cmd
             (snd (DesfireSecureChannelEncode ctx cmd data))
             (memcpy (zeros DATABUF_SIZE) 0 (snd (DesfireSecureChannelEncode ctx cmd data)))
             chaining split t) = Some (t', r0) /\
     zlen (snd (DesfireSecureChannelEncode ctx cmd data)) <= DATABUF_SIZE /\
     fits DATABUF_SIZE (ex_resp r0) = true /\
     DesfireExchangeEx_decode (fst (DesfireSecureChannelEncode ctx cmd data)) resp split
       t' r0 = Some (t', ctx', r)).
Proof.
  unfold DesfireExchangeEx.
  assert (Hgo : forall (exchanged : option (Transport * ExchResult)) ctx1,
    match exchanged with
    | None => None
    | Some (t0, r0) =>
      if negb (fits DATABUF_SIZE (ex_resp r0)) then None
      else DesfireExchangeEx_decode ctx1 resp split t0 r0
    end = Some (t', ctx', r) ->
    exists r0, exchanged = Some (t', r0) /\
               fits DATABUF_SIZE (ex_resp r0) = true /\
               DesfireExchangeEx_decode ctx1 resp split t' r0 = Some (t', ctx', r)).
  { intros exchanged ctx1. destruct exchanged as [[t0 r0]|]; [|discriminate].
    destruct (fits DATABUF_SIZE (ex_resp r0)) eqn:Ef; cbn [negb]; [|discriminate].
    intros Hd. pose proof (DesfireExchangeEx_decode_some _ _ _ _ _ _ _ _ Hd) as [-> _].
    exists r0. split; [reflexivity | split; [exact Ef | exact Hd]]. }
  assert (Hfit : forall enc,
    negb (fits DATABUF_SIZE (memcpy (zeros DATABUF_SIZE) 0 enc)) = false ->
    zlen enc <= DATABUF_SIZE).
  { intros enc Hf. apply negb_false_iff in Hf.
    rewrite fits_memcpy_at_0 in Hf by (rewrite zlen_zeros; unfold DATABUF_SIZE; lia).
    apply Z.leb_le. exact Hf. }
  destruct (cmdSet ctx) eqn:Ecs.
  - destruct (DesfireSecureChannelEncode ctx cmd data) as [ctx1 enc]. cbv zeta.
    cbn [fst snd].
    destruct (negb (fits DATABUF_SIZE (memcpy (zeros DATABUF_SIZE) 0 enc))) eqn:Ef;
      [discriminate|].
    intros Hrun. right. split; [discriminate|].
    apply Hgo in Hrun. destruct Hrun as [r0 [Hex [Hf Hdec]]]. exists r0.
    split; [|split; [apply Hfit; exact Ef | split; [exact Hf | exact Hdec]]].
    destruct (cmdSet ctx1); exact Hex.
  - destruct (DesfireSecureChannelEncode ctx cmd data) as [ctx1 enc]. cbv zeta.
    cbn [fst snd].
    destruct (negb (fits DATABUF_SIZE (memcpy (zeros DATABUF_SIZE) 0 enc))) eqn:Ef;
      [discriminate|].
    intros Hrun. right. split; [discriminate|].
    apply Hgo in Hrun. destruct Hrun as [r0 [Hex [Hf Hdec]]]. exists r0.
    split; [|split; [apply Hfit; exact Ef | split; [exact Hf | exact Hdec]]].
    destruct (cmdSet ctx1); exact Hex.
  - intros [= <- <- <-]. left. repeat split.
Qed.

(** The context after an exchange is the context before it, passed through
    the codec. *)
Lemma DesfireExchangeEx_preserves (P : DesfireContext -> Prop)
  activate ctx cmd data respcode resp resplen chaining split t t' ctx' r :
  codec_preserves P ->
  P ctx ->
  DesfireExchangeEx activate ctx cmd data respcode resp resplen chaining split t
    = Some (t', ctx', r) ->
  P ctx'.
Proof.
  intros [Henc Hdec] HP Hrun.
  apply DesfireExchangeEx_cases in Hrun.
  destruct Hrun as [[_ [_ [-> _]]] | [_ [r0 [_ Heq]]]]; [exact HP|].
  destruct Heq as [_ [_ Heq]].
  apply DesfireExchangeEx_decode_some in Heq. destruct Heq as [_ [_ [_ [src ->]]]].
  apply Hdec, Henc, HP.
Qed.

(** The raw frames of the tx loop. *)
Lemma DesfireExchangeNative_tx_frames fuel activate cdata cdatalen sent buf buflen rcode
  t t' o :
  DesfireExchangeNative_tx fuel activate cdata cdatalen sent buf buflen rcode t
    = Some (t', o) ->
  exists fs, raw_frames (events t') = raw_frames (events t) ++ fs.
Proof.
  revert cdata sent buf buflen rcode t.
  induction fuel as [|fuel IH]; intros cdata sent buf buflen rcode t; [discriminate|].
  cbn [DesfireExchangeNative_tx].
  destruct (cdatalen >=? sent);
    [|intros [= <- _]; exists []; rewrite app_nil_r; reflexivity].
  destruct (sent >? 0); cbv beta iota zeta;
    match goal with
    | |- context [DESFIRESendRaw activate ?f EXCHANGE_BUF_SIZE t] =>
      destruct (DESFIRESendRaw activate f EXCHANGE_BUF_SIZE t) as [[t2 r2]|] eqn:Eraw;
        [apply DESFIRESendRaw_some in Eraw; destruct Eraw as [Hl _] | discriminate]
    end;
    (destruct (negb (raw_res r2 =? PM3_SUCCESS)); [intros [= <- _]; eexists; exact Hl|]);
    (destruct (_ || _); [intros [= <- _]; eexists; exact Hl|]);
    intros Hc; apply IH in Hc; destruct Hc as [fs Hfs];
    eexists; rewrite Hfs, Hl, <- app_assoc; reflexivity.
Qed.

(** The raw frames of a native exchange. *)
Lemma DesfireExchangeNative_frames_grow activate cmd data resp chaining split t t' r :
  DesfireExchangeNative activate cmd data resp chaining split t = Some (t', r) ->
  exists fs, raw_frames (events t') = raw_frames (events t) ++ fs.
Proof.
  unfold DesfireExchangeNative. cbv zeta. intros Hrun.
  destruct (negb (fits CDATA_SIZE _)); [discriminate|].
  destruct (DesfireExchangeNative_tx _ _ _ _ _ _ _ _ t) as [[t1 o]|] eqn:Etx; [|discriminate].
  pose proof (DesfireExchangeNative_tx_frames _ _ _ _ _ _ _ _ _ _ _ Etx) as Htxlog.
  destruct Htxlog as [fs1 Hfs1].
  destruct o as [res | buf buflen rcode].
  - injection Hrun as <- _. exists fs1. exact Hfs1.
  - destruct (negb chaining).
    + injection Hrun as <- _. exists fs1. exact Hfs1.
    + destruct (DesfireExchangeNative_rx _ _ _ _ _ _ _ t1) as [[t2 o2]|] eqn:Erx;
        [|discriminate].
      apply DesfireExchangeNative_rx_frames in Erx. destruct Erx as [fs2 [Hfs2 _]].
      assert (Ht2 : t2 = t') by (destruct o2; injection Hrun as <- _; reflexivity).
      subst t2. exists (fs1 ++ fs2). rewrite Hfs2, Hfs1, <- app_assoc. reflexivity.
Qed.

(** An exchange only adds raw frames to the log; with the native command
    set the first of them is the command byte followed by the encoded
    payload, cut at the frame limit. *)
Lemma DesfireExchangeEx_frames activate ctx cmd data respcode resp resplen chaining split
  t t' ctx' r :
  DesfireExchangeEx activate ctx cmd data respcode resp resplen chaining split t
    = Some (t', ctx', r) ->
  (exists fs, raw_frames (events t') = raw_frames (events t) ++ fs) /\
  (cmdSet ctx = DCCNative ->
   cmdSet (fst (DesfireSecureChannelEncode ctx cmd data)) = DCCNative ->
   1 <= DESFIRE_TX_FRAME_MAX_LEN ->
   exists fs,
     raw_frames (events t') =
     raw_frames (events t)
       ++ ztake DESFIRE_TX_FRAME_MAX_LEN
            (cmd :: snd (DesfireSecureChannelEncode ctx cmd data)) :: fs).
Proof.
  intros Hrun. apply DesfireExchangeEx_cases in Hrun.
  destruct Hrun as [[Hiso [-> _]] | [_ [r0 [Hex _]]]].
  - split; [exists []; rewrite app_nil_r; reflexivity|].
    intros Hc. rewrite Hc in Hiso. discriminate.
  - split.
    + destruct (cmdSet (fst (DesfireSecureChannelEncode ctx cmd data))).
      * eapply DesfireExchangeNative_frames_grow. exact Hex.
      * destruct (DesfireExchangeISONative_run activate cmd
                    (snd (DesfireSecureChannelEncode ctx cmd data))
                    (memcpy (zeros DATABUF_SIZE) 0
                       (snd (DesfireSecureChannelEncode ctx cmd data))) chaining split t)
          as [t1 [r1 [Hr Hfr]]].
        rewrite Hr in Hex. injection Hex as <- _.
        exists []. rewrite app_nil_r. exact Hfr.
      * destruct (DesfireExchangeISONative_run activate cmd
                    (snd (DesfireSecureChannelEncode ctx cmd data))
                    (memcpy (zeros DATABUF_SIZE) 0
                       (snd (DesfireSecureChannelEncode ctx cmd data))) chaining split t)
          as [t1 [r1 [Hr Hfr]]].
        rewrite Hr in Hex. injection Hex as <- _.
        exists []. rewrite app_nil_r. exact Hfr.
    + intros _ Hc1 Hmax. rewrite Hc1 in Hex.
      destruct (DesfireExchangeNative_command_bytes activate cmd _ _ chaining split t t' r0
                  Hmax Hex) as [f0 [fs [Hlog [Hf0 _]]]].
      exists fs. rewrite Hlog, Hf0. reflexivity.
Qed.

End ExchangeEx.

(** ** Rules for [ends] *)

Lemma ends_ret {A} (a : A) Q t c : Q t c (Next a) -> ends (ret a) Q t c.
Proof. intros HQ t' c' o [= <- <- <-]. exact HQ. Qed.

Lemma ends_return {A} code (Q : Transport -> DesfireContext -> Outcome A -> Prop) t c :
  Q t c (Return code) -> ends (return_ code) Q t c.
Proof. intros HQ t' c' o [= <- <- <-]. exact HQ. Qed.

Lemma ends_get_ctx Q t c : Q t c (Next c) -> ends get_ctx Q t c.
Proof. intros HQ t' c' o [= <- <- <-]. exact HQ. Qed.

Lemma ends_modify_ctx f Q t c : Q t (f c) (Next tt) -> ends (modify_ctx f) Q t c.
Proof. intros HQ t' c' o [= <- <- <-]. exact HQ. Qed.

Lemma ends_defined_if ok Q t c : (ok = true -> Q t c (Next tt)) -> ends (defined_if ok) Q t c.
Proof.
  intros HQ t' c' o. unfold defined_if. destruct ok; [|discriminate].
  intros [= <- <- <-]. apply HQ. reflexivity.
Qed.

Lemma ends_local_array size buf Q t c :
  (zlen buf <= size -> Q t c (Next tt)) -> ends (local_array size buf) Q t c.
Proof.
  intros HQ. apply ends_defined_if. intros Hf. apply HQ. apply Z.leb_le. exact Hf.
Qed.

Lemma ends_bind {A B} (m : M A) (k : A -> M B) Q t c :
  ends m (fun t' c' o =>
            match o with
            | Next a => ends (k a) Q t' c'
            | Return code => Q t' c' (Return code)
            end) t c ->
  ends (bind m k) Q t c.
Proof.
  intros Hm t' c' o. unfold bind.
  destruct (m t c) as [[[t1 c1] o1]|] eqn:E; [|discriminate].
  specialize (Hm t1 c1 o1 E). destruct o1 as [a|code].
  - apply Hm.
  - intros [= <- <- <-]. exact Hm.
Qed.

Lemma ends_weaken {A} (m : M A) (Q Q' : Transport -> DesfireContext -> Outcome A -> Prop)
  t c :
  ends m Q t c -> (forall t' c' o, Q t' c' o -> Q' t' c' o) -> ends m Q' t c.
Proof. intros Hm Himp t' c' o E. apply Himp, (Hm _ _ _ E). Qed.

Section EndsExchange.
Context `{FL : FrameLimit} `{AE : ApduEncoder} `{SC : SecureChannelCodec}.

Lemma ends_exchange activate cmd data respcode resp resplen chaining split Q t c :
  (forall t' c' r,
     DesfireExchangeEx activate c cmd data respcode resp resplen chaining split t
       = Some (t', c', r) ->
     Q t' c' (Next r)) ->
  ends (exchange activate cmd data respcode resp resplen chaining split) Q t c.
Proof.
  intros HQ t' c' o. unfold exchange.
  destruct (DesfireExchangeEx _ _ _ _ _ _ _ _ _ _) as [[[t1 c1] r]|] eqn:E; [|discriminate].
  intros [= <- <- <-]. apply HQ. reflexivity.
Qed.

End EndsExchange.

(** The value of an [int] function whose body has run. *)
Lemma run_fn_post body (R : Transport -> DesfireContext -> Z -> Prop) c t t' c' code :
  ends body (fun t' c' o => R t' c' (code_of o)) t c ->
  run_fn body c t = Some (t', c', code) ->
  R t' c' code.
Proof.
  intros Hends. unfold run_fn.
  destruct (body t c) as [[[t1 c1] o]|] eqn:E; [|discriminate].
  specialize (Hends _ _ _ E). destruct o; intros [= <- <- <-]; exact Hends.
Qed.

(** One step of a run: the head of the computation decides the rule. *)
Ltac run_step :=
  lazymatch goal with
  | |- ends (bind _ _) _ _ _ => apply ends_bind
  | |- ends (ret _) _ _ _ => apply ends_ret; cbv beta iota
  | |- ends (return_ _) _ _ _ => apply ends_return; cbv beta iota
  | |- ends get_ctx _ _ _ => apply ends_get_ctx; cbv beta iota
  | |- ends (modify_ctx _) _ _ _ => apply ends_modify_ctx; cbv beta iota
  | |- ends (local_array _ _) _ _ _ =>
    let Hfits := fresh "Hfits" in apply ends_local_array; intros Hfits; cbv beta iota
  | |- ends (defined_if _) _ _ _ =>
    let Hdef := fresh "Hdef" in apply ends_defined_if; intros Hdef; cbv beta iota
  | |- ends (return_if ?b _) _ _ _ => unfold return_if at 1; destruct b eqn:?
  | |- ends (if ?b then _ else _) _ _ _ => destruct b eqn:?
  | |- ends (match ?x with _ => _ end) _ _ _ => destruct x eqn:?
  | |- ends _ _ _ _ => progress cbv zeta
  end.

(** From a run [F ... = Some (t', c', code)] of an [int] function [F] to its
    body, with [R] what is to be shown of the transport, the context and the
    code at the end. *)
Ltac body_of F R :=
  let Hrun := fresh "Hrun" in
  intros Hrun; revert Hrun; unfold F; apply (run_fn_post _ R).

(** ** More properties of the helpers *)

Lemma testbit_0xff n : 0 <= n -> Z.testbit 0xff n = (n <? 8).
Proof. intros Hn. change 0xff with (Z.ones 8). apply Z.testbit_ones_nonneg; lia. Qed.

Lemma testbit_0x0f n : 0 <= n -> Z.testbit 0x0f n = (n <? 4).
Proof. intros Hn. change 0x0f with (Z.ones 4). apply Z.testbit_ones_nonneg; lia. Qed.

Lemma testbit_0xf0 n : 0 <= n -> Z.testbit 0xf0 n = (4 <=? n) && (n <? 8).
Proof.
  intros Hn. change 0xf0 with (Z.shiftl (Z.ones 4) 4).
  rewrite Z.shiftl_spec by lia.
  destruct (4 <=? n) eqn:E.
  - apply Z.leb_le in E. rewrite Z.testbit_ones_nonneg by lia.
    destruct (n - 4 <? 4) eqn:E1, (n <? 8) eqn:E2; try reflexivity; lia.
  - apply Z.leb_gt in E. rewrite Z.testbit_neg_r by lia. reflexivity.
Qed.

Lemma byte_high_bits x n : 0 <= x < 256 -> 8 <= n -> Z.testbit x n = false.
Proof.
  intros Hx Hn. destruct (Z.eq_dec x 0) as [->|Hx0]; [apply Z.testbit_0_l|].
  apply Z.bits_above_log2; [lia|].
  assert (Z.log2 x < 8) by (apply Z.log2_lt_pow2; lia). lia.
Qed.

Lemma land_0xff_byte x : 0 <= x < 256 -> Z.land x 0xff = x.
Proof.
  intros Hx. change 0xff with (Z.ones 8). rewrite Z.land_ones by lia.
  apply Z.mod_small. lia.
Qed.

Lemma zget_at_0 x l : zget (x :: l) 0 = x.
Proof. reflexivity. Qed.
Lemma zget_at_1 x y l : zget (x :: y :: l) 1 = y.
Proof. reflexivity. Qed.
Lemma zget_at_2 x y z l : zget (x :: y :: z :: l) 2 = z.
Proof. reflexivity. Qed.

(** X1.  [DesfireAIDUintToByte] stores the low 24 bits of an AID, least
    significant byte first: reading the three bytes back with
    [DesfireAIDByteToUint] gives the AID modulo 2^24, and three bytes read
    as an AID and written back are the same three bytes. *)
Theorem DesfireAID_roundtrip :
  (forall aid, 0 <= aid ->
     DesfireAIDByteToUint (DesfireAIDUintToByte aid) = aid mod 0x1000000) /\
  (forall a b c, 0 <= a < 256 -> 0 <= b < 256 -> 0 <= c < 256 ->
     DesfireAIDUintToByte (DesfireAIDByteToUint [a; b; c]) = [a; b; c]).
Proof.
  split.
  - intros aid Haid. unfold DesfireAIDByteToUint, DesfireAIDUintToByte.
    rewrite zget_at_0, zget_at_1, zget_at_2.
    change 0xff with (Z.ones 8). rewrite !Z.land_ones by lia.
    rewrite !Z.shiftr_div_pow2, !Z.shiftl_mul_pow2 by lia.
    change (2 ^ 8) with 256. change (2 ^ 16) with 65536.
    unfold u32.
    pose proof (Z.mod_pos_bound aid 256 ltac:(lia)).
    pose proof (Z.mod_pos_bound (aid / 256) 256 ltac:(lia)).
    pose proof (Z.mod_pos_bound (aid / 65536) 256 ltac:(lia)).
    rewrite Z.mod_small by lia.
    Z.to_euclidean_division_equations. lia.
  - intros a b c Ha Hb Hc. unfold DesfireAIDByteToUint, DesfireAIDUintToByte.
    rewrite zget_at_0, zget_at_1, zget_at_2.
    rewrite !Z.shiftl_mul_pow2 by lia.
    change (2 ^ 8) with 256. change (2 ^ 16) with 65536.
    unfold u32. rewrite Z.mod_small by lia.
    change 0xff with (Z.ones 8). rewrite !Z.land_ones by lia.
    rewrite !Z.shiftr_div_pow2 by lia.
    change (2 ^ 8) with 256. change (2 ^ 16) with 65536.
    f_equal; [|f_equal; [|f_equal]]; Z.to_euclidean_division_equations; lia.
Qed.

(** The low nibble of a packed byte, and its high nibble. *)
Lemma nibble_low lo hi :
  Z.land (Z.lor (Z.land lo 0x0f) (Z.land (Z.shiftl hi 4) 0xf0)) 0x0f = Z.land lo 0x0f.
Proof.
  apply Z.bits_inj'. intros n Hn.
  rewrite !Z.land_spec, Z.lor_spec, !Z.land_spec, testbit_0x0f, testbit_0xf0 by lia.
  destruct (n <? 4) eqn:E; [|rewrite !andb_false_r; reflexivity].
  apply Z.ltb_lt in E.
  replace (4 <=? n) with false by (symmetry; apply Z.leb_gt; lia).
  cbn [andb]. rewrite !andb_false_r, orb_false_r, !andb_true_r. reflexivity.
Qed.

Lemma nibble_high lo hi :
  Z.land (Z.shiftr (Z.lor (Z.land lo 0x0f) (Z.land (Z.shiftl hi 4) 0xf0)) 4) 0x0f
  = Z.land hi 0x0f.
Proof.
  apply Z.bits_inj'. intros n Hn.
  rewrite !Z.land_spec, Z.shiftr_spec, Z.lor_spec, !Z.land_spec by lia.
  rewrite Z.shiftl_spec by lia.
  rewrite !testbit_0x0f, testbit_0xf0 by lia.
  replace (n + 4 - 4) with n by lia.
  destruct (n <? 4) eqn:E; [|rewrite !andb_false_r; reflexivity].
  apply Z.ltb_lt in E.
  replace (n + 4 <? 4) with false by (symmetry; apply Z.ltb_ge; lia).
  replace (4 <=? n + 4) with true by (symmetry; apply Z.leb_le; lia).
  replace (n + 4 <? 8) with true by (symmetry; apply Z.ltb_lt; lia).
  rewrite !andb_false_r, !andb_true_r. reflexivity.
Qed.

Lemma nibbles_repack b :
  0 <= b < 256 ->
  Z.lor (Z.land (Z.land b 0x0f) 0x0f)
        (Z.land (Z.shiftl (Z.land (Z.shiftr b 4) 0x0f) 4) 0xf0) = b.
Proof.
  intros Hb. apply Z.bits_inj'. intros n Hn.
  rewrite Z.lor_spec, !Z.land_spec, testbit_0x0f, testbit_0xf0 by lia.
  destruct (n <? 4) eqn:E4.
  - apply Z.ltb_lt in E4.
    replace (4 <=? n) with false by (symmetry; apply Z.leb_gt; lia).
    cbn [andb]. rewrite !andb_false_r, orb_false_r, !andb_true_r. reflexivity.
  - apply Z.ltb_ge in E4. rewrite !andb_false_r. cbn [orb].
    replace (4 <=? n) with true by (symmetry; apply Z.leb_le; lia).
    destruct (n <? 8) eqn:E8.
    + apply Z.ltb_lt in E8. rewrite Z.shiftl_spec, Z.land_spec, Z.shiftr_spec by lia.
      rewrite testbit_0x0f by lia.
      replace (n - 4 + 4) with n by lia.
      replace (n - 4 <? 4) with true by (symmetry; apply Z.ltb_lt; lia).
      rewrite !andb_true_r. reflexivity.
    + apply Z.ltb_ge in E8. rewrite andb_false_r.
      symmetry. apply byte_high_bits; lia.
Qed.

(** X2.  [DesfireDecodeFileAcessMode] undoes [DesfireEncodeFileAcessMode] up
    to the four bits that a right occupies: decoding the two bytes encoded
    from [r], [w], [rw], [ch] gives each of them modulo 16; and encoding
    what was decoded from two bytes gives the two bytes back. *)
Theorem DesfireFileAcessMode_roundtrip :
  (forall r w rw ch,
     DesfireDecodeFileAcessMode (DesfireEncodeFileAcessMode r w rw ch) =
     (Z.land r 0x0f, Z.land w 0x0f, Z.land rw 0x0f, Z.land ch 0x0f)) /\
  (forall m0 m1, 0 <= m0 < 256 -> 0 <= m1 < 256 ->
     let '(r, w, rw, ch) := DesfireDecodeFileAcessMode [m0; m1] in
     DesfireEncodeFileAcessMode r w rw ch = [m0; m1]).
Proof.
  split.
  - intros r w rw ch. unfold DesfireDecodeFileAcessMode, DesfireEncodeFileAcessMode.
    assert (H1 : forall a b : Z, zget [a; b] 1 = b) by reflexivity.
    assert (H0 : forall a b : Z, zget [a; b] 0 = a) by reflexivity.
    rewrite !H1, !H0, !nibble_low, !nibble_high. reflexivity.
  - intros m0 m1 Hm0 Hm1. unfold DesfireDecodeFileAcessMode, DesfireEncodeFileAcessMode.
    assert (H1 : forall a b : Z, zget [a; b] 1 = b) by reflexivity.
    assert (H0 : forall a b : Z, zget [a; b] 0 = a) by reflexivity.
    rewrite !H1, !H0, !nibbles_repack by assumption. reflexivity.
Qed.

(** ** Answers of the card *)

Section NativeAnswers.
Context `{FL : FrameLimit}.

(** The first and only frame of a short command. *)
Lemma DesfireExchangeNative_tx_single activate cmd data t st d crc rs fuel :
  zlen data + 1 <= DESFIRE_TX_FRAME_MAX_LEN ->
  replies t = card_frame st d crc :: rs ->
  zlen crc = 2 ->
  zlen d + 3 <= EXCHANGE_BUF_SIZE ->
  (st <> MFDES_ADDITIONAL_FRAME \/ d <> []) ->
  exists buf,
    DesfireExchangeNative_tx (S fuel) activate (cmd :: data) (zlen data + 1) 0
      (zeros EXCHANGE_BUF_SIZE) 0 0xff t =
    Some (mkTransport rs
            (events (if activate then msleep 50 (DropField t) else t)
               ++ [EvRaw activate (cmd :: data)]),
          if is_success_status st then TxBreak buf (zlen d) st else TxReturn PM3_EAPDU_FAIL) /\
    ztake (zlen d) buf = d.
Proof.
  intros Hfit Hr Hcrc Hbuf Hlast.
  pose proof (zlen_nonneg data) as Hn. pose proof (zlen_nonneg d) as Hd.
  cbn [DesfireExchangeNative_tx].
  destruct (zlen data + 1 >=? 0) eqn:Ege;
    [|rewrite Z.geb_leb in Ege; apply Z.leb_gt in Ege; lia].
  change (0 >? 0) with false. cbv beta iota.
  rewrite Z.sub_0_r, Z.add_0_l.
  destruct (zlen data + 1 >? DESFIRE_TX_FRAME_MAX_LEN) eqn:Egt; [apply Z.gtb_lt in Egt; lia|].
  assert (Hframe : slice (cmd :: data) 0 (zlen data + 1) = cmd :: data).
  { unfold slice. rewrite zdrop_0. apply ztake_all. rewrite zlen_cons. lia. }
  rewrite Hframe.
  destruct (DESFIRESendRaw_card_frame activate (cmd :: data) t st d crc rs Hr Hcrc Hbuf)
    as [buf [Hraw Hdata]].
  exists buf. split; [|exact Hdata].
  rewrite Hraw. unfold raw_sent. cbv beta iota.
  cbn [raw_res raw_result raw_result_len raw_respcode].
  destruct (is_success_status st).
  2:{ reflexivity. }
  change (negb (PM3_SUCCESS =? PM3_SUCCESS)) with false. cbv iota.
  destruct Hlast as [Hst | Hne].
  - destruct (st =? MFDES_ADDITIONAL_FRAME) eqn:Est; [apply Z.eqb_eq in Est; contradiction|].
    reflexivity.
  - assert (Hpos : (zlen d >? 0) = true).
    { apply Z.gtb_lt. destruct d; [contradiction|]. rewrite zlen_cons.
      pose proof (zlen_nonneg d). lia. }
    rewrite Hpos, orb_true_r. reflexivity.
Qed.

(** The rx loop on a chain of answers: every ADDITIONAL_FRAME answer is
    answered with a bare 0xAF frame, and the data of the answers are stored
    one behind the other. *)
Lemma DesfireExchangeNative_rx_chain (frames : list (list Z * list Z)) :
  forall fuel respcode acc tail i t st dk crck rs,
    replies t =
      map (fun f => card_frame MFDES_ADDITIONAL_FRAME (fst f) (snd f)) frames
        ++ card_frame st dk crck :: rs ->
    Forall (fun f => zlen (snd f) = 2 /\ zlen (fst f) + 3 <= EXCHANGE_BUF_SIZE) frames ->
    zlen crck = 2 ->
    zlen dk + 3 <= EXCHANGE_BUF_SIZE ->
    is_success_status st = true ->
    st <> MFDES_ADDITIONAL_FRAME ->
    zlen (concat (map fst frames)) + zlen dk <= zlen tail ->
    zlen (acc ++ tail) < 0x100000000 ->
    (length frames < fuel)%nat ->
    exists tail',
      DesfireExchangeNative_rx fuel 0 MFDES_ADDITIONAL_FRAME respcode (acc ++ tail)
        (zlen acc) i t =
      Some (mkTransport rs
              (events t ++ repeat (EvRaw false [MFDES_ADDITIONAL_FRAME])
                             (S (length frames))),
            RxDone st (acc ++ concat (map fst frames) ++ dk ++ tail')
              (zlen acc + zlen (concat (map fst frames)) + zlen dk) i) /\
      zlen (acc ++ concat (map fst frames) ++ dk ++ tail') = zlen (acc ++ tail).
Proof.
  induction frames as [|[d crc] frames IH];
    intros fuel respcode acc tail i t st dk crck rs Hr Hall Hcrck Hdk Hst Hne Hfit Hsize Hfuel.
  - destruct fuel as [|fuel]; [inversion Hfuel|].
    cbn [map app concat] in *. change (zlen (@nil Z)) with 0 in *.
    pose proof (zlen_nonneg dk) as Hdk0. pose proof (zlen_nonneg acc) as Hacc0.
    cbn [DesfireExchangeNative_rx].
    change (MFDES_ADDITIONAL_FRAME =? MFDES_ADDITIONAL_FRAME) with true. cbv iota.
    destruct (DESFIRESendRaw_card_frame false [MFDES_ADDITIONAL_FRAME] t st dk crck rs
                Hr Hcrck Hdk) as [buf [Hraw Hdata]].
    rewrite Hraw, Hst. unfold raw_sent. cbv beta iota.
    cbn [raw_res raw_result raw_result_len raw_respcode].
    change (negb (PM3_SUCCESS =? PM3_SUCCESS)) with false. cbv iota.
    destruct (st =? MFDES_ADDITIONAL_FRAME) eqn:Est; [apply Z.eqb_eq in Est; contradiction|].
    cbn [negb]. unfold store_frame. change (negb (0 =? 0)) with false. cbv iota.
    rewrite Hdata, memcpy_behind.
    rewrite zlen_app in Hsize.
    rewrite u32_small by lia.
    exists (zdrop (zlen dk) tail). split.
    + rewrite Z.add_0_r. reflexivity.
    + rewrite !zlen_app, zlen_zdrop by lia. lia.
  - destruct fuel as [|fuel]; [inversion Hfuel|].
    cbn [map app concat fst snd] in *.
    inversion Hall as [|? ? [Hcrc Hd] Hall']; subst.
    pose proof (zlen_nonneg d) as Hd0. pose proof (zlen_nonneg acc) as Hacc0.
    pose proof (zlen_nonneg dk) as Hdk0.
    pose proof (zlen_nonneg (concat (map fst frames))) as Hc0.
    rewrite zlen_app in Hfit.
    cbn [DesfireExchangeNative_rx].
    change (MFDES_ADDITIONAL_FRAME =? MFDES_ADDITIONAL_FRAME) with true. cbv iota.
    destruct (DESFIRESendRaw_card_frame false [MFDES_ADDITIONAL_FRAME] t
                MFDES_ADDITIONAL_FRAME d crc _ Hr Hcrc Hd) as [buf [Hraw Hdata]].
    rewrite Hraw. unfold raw_sent. cbv beta iota.
    change (is_success_status MFDES_ADDITIONAL_FRAME) with true. cbv iota.
    cbn [raw_res raw_result raw_result_len raw_respcode].
    change (negb (PM3_SUCCESS =? PM3_SUCCESS)) with false. cbv iota.
    change (negb (MFDES_ADDITIONAL_FRAME =? MFDES_ADDITIONAL_FRAME)) with false. cbv iota.
    unfold store_frame. change (negb (0 =? 0)) with false. cbv iota.
    rewrite Hdata, memcpy_behind.
    rewrite zlen_app in Hsize.
    rewrite u32_small by lia.
    replace (zlen acc + zlen d) with (zlen (acc ++ d)) by apply zlen_app.
    replace (acc ++ d ++ zdrop (zlen d) tail) with ((acc ++ d) ++ zdrop (zlen d) tail)
      by (rewrite <- app_assoc; reflexivity).
    edestruct (IH fuel MFDES_ADDITIONAL_FRAME (acc ++ d) (zdrop (zlen d) tail) i
                 (mkTransport
                    (map (fun f => card_frame MFDES_ADDITIONAL_FRAME (fst f) (snd f)) frames
                       ++ card_frame st dk crck :: rs)
                    (events t ++ [EvRaw false [MFDES_ADDITIONAL_FRAME]]))
                 st dk crck rs) as [tail' [Hrun Hlen]];
      try eassumption; try reflexivity.
    + rewrite zlen_zdrop by lia. lia.
    + rewrite !zlen_app, zlen_zdrop by lia. lia.
    + simpl in Hfuel. lia.
    + exists tail'. split.
      * rewrite Hrun. cbn [events replies]. f_equal. f_equal.
        -- f_equal. rewrite <- app_assoc. reflexivity.
        -- rewrite <- !app_assoc. rewrite !zlen_app. f_equal. lia.
      * rewrite <- !app_assoc in Hlen. rewrite <- !app_assoc.
        rewrite Hlen. rewrite !zlen_app, zlen_zdrop by lia. lia.
Qed.

(** The same chain, ended by an answer with an error status: the loop
    returns at once, before it stores the status. *)
Lemma DesfireExchangeNative_rx_chain_error (frames : list (list Z * list Z)) :
  forall fuel respcode acc tail i t st dk crck rs,
    replies t =
      map (fun f => card_frame MFDES_ADDITIONAL_FRAME (fst f) (snd f)) frames
        ++ card_frame st dk crck :: rs ->
    Forall (fun f => zlen (snd f) = 2 /\ zlen (fst f) + 3 <= EXCHANGE_BUF_SIZE) frames ->
    zlen crck = 2 ->
    zlen dk + 3 <= EXCHANGE_BUF_SIZE ->
    is_success_status st = false ->
    zlen (concat (map fst frames)) <= zlen tail ->
    zlen (acc ++ tail) < 0x100000000 ->
    (length frames < fuel)%nat ->
    exists tail',
      DesfireExchangeNative_rx fuel 0 MFDES_ADDITIONAL_FRAME respcode (acc ++ tail)
        (zlen acc) i t =
      Some (mkTransport rs
              (events t ++ repeat (EvRaw false [MFDES_ADDITIONAL_FRAME])
                             (S (length frames))),
            RxReturn PM3_EAPDU_FAIL
              (match frames with [] => respcode | _ => MFDES_ADDITIONAL_FRAME end)
              (acc ++ concat (map fst frames) ++ tail')) /\
      zlen (acc ++ concat (map fst frames) ++ tail') = zlen (acc ++ tail).
Proof.
  induction frames as [|[d crc] frames IH];
    intros fuel respcode acc tail i t st dk crck rs Hr Hall Hcrck Hdk Hst Hfit Hsize Hfuel.
  - destruct fuel as [|fuel]; [inversion Hfuel|].
    cbn [map app concat] in *.
    cbn [DesfireExchangeNative_rx].
    change (MFDES_ADDITIONAL_FRAME =? MFDES_ADDITIONAL_FRAME) with true. cbv iota.
    destruct (DESFIRESendRaw_card_frame false [MFDES_ADDITIONAL_FRAME] t st dk crck rs
                Hr Hcrck Hdk) as [buf [Hraw Hdata]].
    rewrite Hraw, Hst. unfold raw_sent. cbv beta iota.
    cbn [raw_res raw_result raw_result_len raw_respcode].
    change (negb (PM3_EAPDU_FAIL =? PM3_SUCCESS)) with true. cbv iota.
    exists tail. split; reflexivity.
  - destruct fuel as [|fuel]; [inversion Hfuel|].
    cbn [map app concat fst snd] in *.
    inversion Hall as [|? ? [Hcrc Hd] Hall']; subst.
    pose proof (zlen_nonneg d) as Hd0. pose proof (zlen_nonneg acc) as Hacc0.
    pose proof (zlen_nonneg (concat (map fst frames))) as Hc0.
    rewrite zlen_app in Hfit.
    cbn [DesfireExchangeNative_rx].
    change (MFDES_ADDITIONAL_FRAME =? MFDES_ADDITIONAL_FRAME) with true. cbv iota.
    destruct (DESFIRESendRaw_card_frame false [MFDES_ADDITIONAL_FRAME] t
                MFDES_ADDITIONAL_FRAME d crc _ Hr Hcrc Hd) as [buf [Hraw Hdata]].
    rewrite Hraw. unfold raw_sent. cbv beta iota.
    change (is_success_status MFDES_ADDITIONAL_FRAME) with true. cbv iota.
    cbn [raw_res raw_result raw_result_len raw_respcode].
    change (negb (PM3_SUCCESS =? PM3_SUCCESS)) with false. cbv iota.
    change (negb (MFDES_ADDITIONAL_FRAME =? MFDES_ADDITIONAL_FRAME)) with false. cbv iota.
    unfold store_frame. change (negb (0 =? 0)) with false. cbv iota.
    rewrite Hdata, memcpy_behind.
    rewrite zlen_app in Hsize.
    rewrite u32_small by lia.
    replace (zlen acc + zlen d) with (zlen (acc ++ d)) by apply zlen_app.
    replace (acc ++ d ++ zdrop (zlen d) tail) with ((acc ++ d) ++ zdrop (zlen d) tail)
      by (rewrite <- app_assoc; reflexivity).
    edestruct (IH fuel MFDES_ADDITIONAL_FRAME (acc ++ d) (zdrop (zlen d) tail) i
                 (mkTransport
                    (map (fun f => card_frame MFDES_ADDITIONAL_FRAME (fst f) (snd f)) frames
                       ++ card_frame st dk crck :: rs)
                    (events t ++ [EvRaw false [MFDES_ADDITIONAL_FRAME]]))
                 st dk crck rs) as [tail' [Hrun Hlen]];
      try eassumption; try reflexivity.
    + rewrite zlen_zdrop by lia. lia.
    + rewrite !zlen_app, zlen_zdrop by lia. lia.
    + simpl in Hfuel. lia.
    + exists tail'. split.
      * rewrite Hrun. cbn [events replies]. f_equal. f_equal.
        -- f_equal. rewrite <- app_assoc. reflexivity.
        -- rewrite <- !app_assoc. f_equal. destruct frames; reflexivity.
      * rewrite <- !app_assoc in Hlen. rewrite <- !app_assoc.
        rewrite Hlen. rewrite !zlen_app, zlen_zdrop by lia. lia.
Qed.

(** One answer to a command that fits one frame. *)
Lemma DesfireExchangeNative_one_answer activate cmd data resp enable_chaining
  t st d crc rs :
  zlen data + 1 <= DESFIRE_TX_FRAME_MAX_LEN ->
  zlen data < 1024 ->
  replies t = card_frame st d crc :: rs ->
  zlen crc = 2 ->
  zlen d + 3 <= EXCHANGE_BUF_SIZE ->
  (st <> MFDES_ADDITIONAL_FRAME \/ (enable_chaining = false /\ d <> [])) ->
  DesfireExchangeNative activate cmd data resp enable_chaining 0 t =
  Some (mkTransport rs
          (events (if activate then msleep 50 (DropField t) else t)
             ++ [EvRaw activate (cmd :: data)]),
        if is_success_status st
        then mkExchResult PM3_SUCCESS st (d ++ zdrop (zlen d) resp)
               (if enable_chaining || (st =? MFDES_S_OPERATION_OK)
                   || (st =? MFDES_ADDITIONAL_FRAME)
                then zlen d else 0)
        else mkExchResult PM3_EAPDU_FAIL 0xff resp 0).
Proof.
  intros Hfit Hdata Hr Hcrc Hbuf Hlast.
  pose proof (zlen_nonneg data) as Hn. pose proof (zlen_nonneg d) as Hd.
  unfold DesfireExchangeNative. rewrite u32_small by lia.
  rewrite fits_cdata by lia. cbn [negb].
  destruct (DesfireExchangeNative_tx_single activate cmd data t st d crc rs
              (length (replies t)) Hfit Hr Hcrc Hbuf) as [buf [Htx Hbufd]].
  { destruct Hlast as [Hst | [_ Hne]]; [left | right]; assumption. }
  rewrite Htx.
  destruct (is_success_status st); [|reflexivity].
  unfold store_frame. change (negb (0 =? 0)) with false. cbv iota.
  rewrite Hbufd, memcpy_at_0. rewrite Z.add_0_l.
  rewrite u32_small by (unfold EXCHANGE_BUF_SIZE in Hbuf; lia).
  destruct enable_chaining; cbn [negb orb].
  - destruct Hlast as [Hst | [Hc _]]; [|discriminate].
    cbn [replies]. cbn [DesfireExchangeNative_rx].
    destruct (st =? MFDES_ADDITIONAL_FRAME) eqn:Est; [apply Z.eqb_eq in Est; contradiction|].
    reflexivity.
  - reflexivity.
Qed.

(** X3.  A native exchange whose command fits one frame and that the card
    answers with one frame (status, data, two CRC bytes) sends exactly the
    frame [cmd || data].  For a success status (0x00, 0xAF, 0x90, 0x0C) it
    returns [PM3_SUCCESS] with that status as response code and the data at
    the front of [resp]; the length is that of the data, but 0 when
    chaining is off and the status is neither 0x00 nor 0xAF.  For any other
    status it returns [PM3_EAPDU_FAIL] with response code 0xff, and [resp]
    and the length are as they were. *)
Theorem DesfireExchangeNative_single_answer activate cmd data resp enable_chaining
  t st d crc rs :
  zlen data + 1 <= DESFIRE_TX_FRAME_MAX_LEN ->
  zlen data < 1024 ->
  replies t = card_frame st d crc :: rs ->
  zlen crc = 2 ->
  zlen d + 3 <= EXCHANGE_BUF_SIZE ->
  (st <> MFDES_ADDITIONAL_FRAME \/ (enable_chaining = false /\ d <> [])) ->
  DesfireExchangeNative activate cmd data resp enable_chaining 0 t =
  Some (mkTransport rs
          (events (if activate then msleep 50 (DropField t) else t)
             ++ [EvRaw activate (cmd :: data)]),
        if is_success_status st
        then mkExchResult PM3_SUCCESS st (d ++ zdrop (zlen d) resp)
               (if enable_chaining || (st =? MFDES_S_OPERATION_OK)
                   || (st =? MFDES_ADDITIONAL_FRAME)
                then zlen d else 0)
        else mkExchResult PM3_EAPDU_FAIL 0xff resp 0).
Proof.
  exact (DesfireExchangeNative_one_answer activate cmd data resp enable_chaining
           t st d crc rs).
Qed.

(** X4.  Receive chaining: when the card answers a command with a chain of
    frames with status 0xAF and ends it with a frame with another success
    status, a native exchange with chaining asks for each further frame
    with the single byte 0xAF, returns [PM3_SUCCESS] with the status of the
    last frame, and leaves in [resp] the data of all the frames in order,
    with their total length; [resp] keeps its size. *)
Theorem DesfireExchangeNative_rx_chaining activate cmd data resp t d0 crc0 frames
  st dk crck rs :
  zlen data + 1 <= DESFIRE_TX_FRAME_MAX_LEN ->
  zlen data < 1024 ->
  replies t =
    card_frame MFDES_ADDITIONAL_FRAME d0 crc0
      :: map (fun f => card_frame MFDES_ADDITIONAL_FRAME (fst f) (snd f)) frames
      ++ card_frame st dk crck :: rs ->
  d0 <> [] ->
  zlen crc0 = 2 -> zlen d0 + 3 <= EXCHANGE_BUF_SIZE ->
  Forall (fun f => zlen (snd f) = 2 /\ zlen (fst f) + 3 <= EXCHANGE_BUF_SIZE) frames ->
  zlen crck = 2 -> zlen dk + 3 <= EXCHANGE_BUF_SIZE ->
  is_success_status st = true ->
  st <> MFDES_ADDITIONAL_FRAME ->
  zlen d0 + zlen (concat (map fst frames)) + zlen dk <= zlen resp ->
  zlen resp < 0x100000000 ->
  exists tail',
    DesfireExchangeNative activate cmd data resp true 0 t =
    Some (mkTransport rs
            (events (if activate then msleep 50 (DropField t) else t)
               ++ EvRaw activate (cmd :: data)
               :: repeat (EvRaw false [MFDES_ADDITIONAL_FRAME]) (S (length frames))),
          mkExchResult PM3_SUCCESS st
            (d0 ++ concat (map fst frames) ++ dk ++ tail')
            (zlen d0 + zlen (concat (map fst frames)) + zlen dk)) /\
    zlen (d0 ++ concat (map fst frames) ++ dk ++ tail') = zlen resp.
Proof.
  intros Hfit Hdata Hr Hne0 Hcrc0 Hd0 Hall Hcrck Hdk Hst Hne Htotal Hsize.
  pose proof (zlen_nonneg data) as Hn. pose proof (zlen_nonneg d0) as Hd00.
  pose proof (zlen_nonneg dk) as Hdk0.
  pose proof (zlen_nonneg (concat (map fst frames))) as Hc0.
  unfold DesfireExchangeNative. rewrite u32_small by lia.
  rewrite fits_cdata by lia. cbn [negb].
  destruct (DesfireExchangeNative_tx_single activate cmd data t MFDES_ADDITIONAL_FRAME d0
              crc0 _ (length (replies t)) Hfit Hr Hcrc0 Hd0 (or_intror Hne0))
    as [buf [Htx Hbufd]].
  rewrite Htx. change (is_success_status MFDES_ADDITIONAL_FRAME) with true. cbv iota.
  unfold store_frame. change (negb (0 =? 0)) with false. cbv iota.
  rewrite Hbufd, memcpy_at_0. rewrite Z.add_0_l.
  rewrite u32_small by lia.
  cbn [negb replies].
  assert (Hresp : zlen (d0 ++ zdrop (zlen d0) resp) = zlen resp).
  { rewrite zlen_app, zlen_zdrop by lia. lia. }
  edestruct (DesfireExchangeNative_rx_chain frames
               (S (length (map (fun f => card_frame MFDES_ADDITIONAL_FRAME (fst f) (snd f))
                             frames ++ card_frame st dk crck :: rs)))
               MFDES_ADDITIONAL_FRAME d0 (zdrop (zlen d0) resp) 1
               (mkTransport
                  (map (fun f => card_frame MFDES_ADDITIONAL_FRAME (fst f) (snd f)) frames
                     ++ card_frame st dk crck :: rs)
                  (events (if activate then msleep 50 (DropField t) else t)
                     ++ [EvRaw activate (cmd :: data)]))
               st dk crck rs) as [tail' [Hrun Hlen]];
    try eassumption; try reflexivity.
  - rewrite zlen_zdrop by lia. lia.
  - rewrite Hresp. exact Hsize.
  - rewrite length_app, length_map. simpl. lia.
  - exists tail'. split.
    + rewrite Hrun. cbn [events]. rewrite <- app_assoc. reflexivity.
    + rewrite Hlen. exact Hresp.
Qed.

(** X5.  When a chain of 0xAF frames ends with a frame whose status is not a
    success status, the exchange returns [PM3_EAPDU_FAIL] with length 0 and
    with the response code 0xAF of the frame before; the data received up
    to then stay in [resp]. *)
Theorem DesfireExchangeNative_chain_error activate cmd data resp t d0 crc0 frames
  st dk crck rs :
  zlen data + 1 <= DESFIRE_TX_FRAME_MAX_LEN ->
  zlen data < 1024 ->
  replies t =
    card_frame MFDES_ADDITIONAL_FRAME d0 crc0
      :: map (fun f => card_frame MFDES_ADDITIONAL_FRAME (fst f) (snd f)) frames
      ++ card_frame st dk crck :: rs ->
  d0 <> [] ->
  zlen crc0 = 2 -> zlen d0 + 3 <= EXCHANGE_BUF_SIZE ->
  Forall (fun f => zlen (snd f) = 2 /\ zlen (fst f) + 3 <= EXCHANGE_BUF_SIZE) frames ->
  zlen crck = 2 -> zlen dk + 3 <= EXCHANGE_BUF_SIZE ->
  is_success_status st = false ->
  zlen d0 + zlen (concat (map fst frames)) <= zlen resp ->
  zlen resp < 0x100000000 ->
  exists tail',
    DesfireExchangeNative activate cmd data resp true 0 t =
    Some (mkTransport rs
            (events (if activate then msleep 50 (DropField t) else t)
               ++ EvRaw activate (cmd :: data)
               :: repeat (EvRaw false [MFDES_ADDITIONAL_FRAME]) (S (length frames))),
          mkExchResult PM3_EAPDU_FAIL MFDES_ADDITIONAL_FRAME
            (d0 ++ concat (map fst frames) ++ tail') 0) /\
    zlen (d0 ++ concat (map fst frames) ++ tail') = zlen resp.
Proof.
  intros Hfit Hdata Hr Hne0 Hcrc0 Hd0 Hall Hcrck Hdk Hst Htotal Hsize.
  pose proof (zlen_nonneg data) as Hn. pose proof (zlen_nonneg d0) as Hd00.
  pose proof (zlen_nonneg (concat (map fst frames))) as Hc0.
  unfold DesfireExchangeNative. rewrite u32_small by lia.
  rewrite fits_cdata by lia. cbn [negb].
  destruct (DesfireExchangeNative_tx_single activate cmd data t MFDES_ADDITIONAL_FRAME d0
              crc0 _ (length (replies t)) Hfit Hr Hcrc0 Hd0 (or_intror Hne0))
    as [buf [Htx Hbufd]].
  rewrite Htx. change (is_success_status MFDES_ADDITIONAL_FRAME) with true. cbv iota.
  unfold store_frame. change (negb (0 =? 0)) with false. cbv iota.
  rewrite Hbufd, memcpy_at_0. rewrite Z.add_0_l.
  rewrite u32_small by lia.
  cbn [negb replies].
  assert (Hresp : zlen (d0 ++ zdrop (zlen d0) resp) = zlen resp).
  { rewrite zlen_app, zlen_zdrop by lia. lia. }
  edestruct (DesfireExchangeNative_rx_chain_error frames
               (S (length (map (fun f => card_frame MFDES_ADDITIONAL_FRAME (fst f) (snd f))
                             frames ++ card_frame st dk crck :: rs)))
               MFDES_ADDITIONAL_FRAME d0 (zdrop (zlen d0) resp) 1
               (mkTransport
                  (map (fun f => card_frame MFDES_ADDITIONAL_FRAME (fst f) (snd f)) frames
                     ++ card_frame st dk crck :: rs)
                  (events (if activate then msleep 50 (DropField t) else t)
                     ++ [EvRaw activate (cmd :: data)]))
               st dk crck rs) as [tail' [Hrun Hlen]];
    try eassumption; try reflexivity.
  - rewrite zlen_zdrop by lia. lia.
  - rewrite Hresp. exact Hsize.
  - rewrite length_app, length_map. simpl. lia.
  - exists tail'. split.
    + rewrite Hrun. cbn [events]. rewrite <- app_assoc.
      destruct frames; reflexivity.
    + rewrite Hlen. exact Hresp.
Qed.

End NativeAnswers.

Lemma zget_app_at (p r : list Z) : zget (p ++ r) (zlen p) = zget r 0.
Proof.
  unfold zget. pose proof (zlen_nonneg p) as Hp.
  destruct (zlen p <? 0) eqn:E; [apply Z.ltb_lt in E; lia|].
  unfold zlen. rewrite Nat2Z.id. rewrite app_nth2 by lia.
  rewrite Nat.sub_diag. reflexivity.
Qed.

Lemma zget_app_at_succ (p : list Z) x y r : zget (p ++ x :: y :: r) (zlen p + 1) = y.
Proof.
  unfold zget. pose proof (zlen_nonneg p) as Hp.
  destruct (zlen p + 1 <? 0) eqn:E; [apply Z.ltb_lt in E; lia|].
  unfold zlen. replace (Z.to_nat (Z.of_nat (length p) + 1)) with (length p + 1)%nat by lia.
  rewrite app_nth2 by lia.
  replace (length p + 1 - length p)%nat with 1%nat by lia. reflexivity.
Qed.

Lemma u16_status_word sw1 sw2 :
  0 <= sw1 < 256 -> 0 <= sw2 < 256 ->
  u16 (Z.shiftl sw1 8 + sw2) = sw1 * 256 + sw2.
Proof.
  intros H1 H2. unfold u16. rewrite Z.shiftl_mul_pow2 by lia.
  change (2 ^ 8) with 256. change 0xffff with (Z.ones 16).
  rewrite Z.land_ones by lia. apply Z.mod_small.
  change (2 ^ 16) with 65536. lia.
Qed.

Lemma is_success_sw_iff isw :
  is_success_sw isw = true <->
  isw = 0x9000 \/ isw = 0x9100 \/ isw = 0x9190 \/ isw = 0x91AF \/ isw = 0x910C.
Proof.
  unfold is_success_sw. rewrite !orb_true_iff, !Z.eqb_eq.
  change (DESFIRE_GET_ISO_STATUS MFDES_S_OPERATION_OK) with 0x9100.
  change (DESFIRE_GET_ISO_STATUS MFDES_S_SIGNATURE) with 0x9190.
  change (DESFIRE_GET_ISO_STATUS MFDES_S_ADDITIONAL_FRAME) with 0x91AF.
  change (DESFIRE_GET_ISO_STATUS MFDES_S_NO_CHANGES) with 0x910C.
  tauto.
Qed.

Section ApduAnswers.
Context `{AE : ApduEncoder}.

(** The reply that a call of [DESFIRESendApduEx] consumes. *)
Lemma DESFIRESendApduEx_reply activate apdu le max t enc r rs :
  APDUEncodeS apdu false le = Some enc ->
  replies t = r :: rs ->
  DESFIRESendApduEx activate apdu le max t =
  (let t1 := mkTransport rs
               (events (if activate then msleep 50 (DropField t) else t)
                  ++ [EvApdu activate enc]) in
   let result := if r_res r =? PM3_SUCCESS then ztake max (r_data r) else [] in
   if negb (r_res r =? PM3_SUCCESS) then (t1, mkApduResult (r_res r) result (zlen result) 0)
   else if zlen result <? 2 then (t1, mkApduResult PM3_SUCCESS result (zlen result) 0)
   else
     let isw := u16 (Z.shiftl (zget result (u32 (zlen result - 2))) 8
                     + zget result (u32 (zlen result - 2) + 1)) in
     if negb (is_success_sw isw)
     then (t1, mkApduResult PM3_EAPDU_FAIL result (u32 (zlen result - 2)) isw)
     else (t1, mkApduResult PM3_SUCCESS result (u32 (zlen result - 2)) isw)).
Proof.
  intros Henc Hr. unfold DESFIRESendApduEx. rewrite Henc.
  unfold ExchangeAPDU14a, next_reply.
  pose proof (replies_activate activate t) as Ha.
  destruct (if activate then msleep 50 (DropField t) else t) as [rp ev].
  cbn [replies events log] in *. subst rp. rewrite Hr. reflexivity.
Qed.

(** X6.  [DESFIRESendApduEx] on an answer that the transport delivered: an
    answer of less than two bytes is a success with status word 0 and is
    returned whole; otherwise the last two bytes are the status word, the
    data are what precedes them, and the call returns [PM3_SUCCESS] exactly
    for the status words 0x9000, 0x9100, 0x9190, 0x91AF and 0x910C, and
    [PM3_EAPDU_FAIL] for every other one. *)
Theorem DESFIRESendApduEx_status activate apdu le max t enc r rs :
  APDUEncodeS apdu false le = Some enc ->
  replies t = r :: rs ->
  r_res r = PM3_SUCCESS ->
  zlen (r_data r) <= max ->
  max < 0x100000000 ->
  let out := snd (DESFIRESendApduEx activate apdu le max t) in
  (zlen (r_data r) < 2 ->
     apdu_res out = PM3_SUCCESS /\ apdu_sw out = 0 /\
     apdu_result_len out = zlen (r_data r) /\ apdu_result out = r_data r) /\
  (forall d sw1 sw2,
     r_data r = d ++ [sw1; sw2] -> 0 <= sw1 < 256 -> 0 <= sw2 < 256 ->
     apdu_sw out = sw1 * 256 + sw2 /\
     apdu_result_len out = zlen d /\
     ztake (apdu_result_len out) (apdu_result out) = d /\
     (apdu_res out = PM3_SUCCESS <->
        apdu_sw out = 0x9000 \/ apdu_sw out = 0x9100 \/ apdu_sw out = 0x9190 \/
        apdu_sw out = 0x91AF \/ apdu_sw out = 0x910C) /\
     (apdu_res out <> PM3_SUCCESS -> apdu_res out = PM3_EAPDU_FAIL)).
Proof.
  intros Henc Hr Hres Hfit Hmax out. subst out.
  rewrite (DESFIRESendApduEx_reply activate apdu le max t enc r rs Henc Hr).
  cbv zeta. rewrite Hres. change (PM3_SUCCESS =? PM3_SUCCESS) with true. cbv iota.
  rewrite (ztake_all _ _ Hfit). change (negb true) with false. cbv iota.
  split.
  - intros Hshort. apply Z.ltb_lt in Hshort. rewrite Hshort. repeat split.
  - intros d sw1 sw2 Hd Hsw1 Hsw2.
    pose proof (zlen_nonneg d) as Hd0.
    assert (Hlen : zlen (r_data r) = zlen d + 2) by (rewrite Hd, zlen_app; reflexivity).
    rewrite Hlen.
    destruct (zlen d + 2 <? 2) eqn:E2; [apply Z.ltb_lt in E2; lia|].
    replace (zlen d + 2 - 2) with (zlen d) by lia.
    rewrite u32_small by lia.
    rewrite Hd, zget_app_at, zget_app_at_succ.
    change (zget [sw1; sw2] 0) with sw1.
    rewrite u16_status_word by assumption.
    pose proof (is_success_sw_iff (sw1 * 256 + sw2)) as Hiff.
    destruct (is_success_sw (sw1 * 256 + sw2)) eqn:Es; cbn [negb snd apdu_res apdu_sw
      apdu_result_len apdu_result].
    + repeat split; try (apply ztake_app_exact; reflexivity).
      * intros _. apply Hiff. reflexivity.
      * intros Hne. exfalso. apply Hne. reflexivity.
    + repeat split; try (apply ztake_app_exact; reflexivity).
      * discriminate.
      * intros Hin. apply Hiff in Hin. discriminate.
Qed.

(** [DESFIRESendApduEx] on a well-formed answer [data || SW1 SW2], for any
    size of the result buffer that holds it. *)
Lemma DESFIRESendApduEx_answer activate apdu le max t enc d sw1 sw2 rs :
  APDUEncodeS apdu false le = Some enc ->
  replies t = mkReply PM3_SUCCESS (d ++ [sw1; sw2]) :: rs ->
  0 <= sw1 < 256 -> 0 <= sw2 < 256 ->
  zlen d + 2 <= max -> max < 0x100000000 ->
  DESFIRESendApduEx activate apdu le max t =
  (mkTransport rs
     (events (if activate then msleep 50 (DropField t) else t) ++ [EvApdu activate enc]),
   mkApduResult
     (if is_success_sw (sw1 * 256 + sw2) then PM3_SUCCESS else PM3_EAPDU_FAIL)
     (d ++ [sw1; sw2]) (zlen d) (sw1 * 256 + sw2)).
Proof.
  intros Henc Hr Hsw1 Hsw2 Hfit Hmax.
  pose proof (zlen_nonneg d) as Hd0.
  rewrite (DESFIRESendApduEx_reply activate apdu le max t enc _ rs Henc Hr).
  cbv zeta. cbn [r_res r_data]. change (PM3_SUCCESS =? PM3_SUCCESS) with true. cbv iota.
  assert (Hlen : zlen (d ++ [sw1; sw2]) = zlen d + 2) by (rewrite zlen_app; reflexivity).
  rewrite ztake_all by lia. rewrite Hlen.
  change (negb true) with false. cbv iota.
  destruct (zlen d + 2 <? 2) eqn:E2; [apply Z.ltb_lt in E2; lia|].
  replace (zlen d + 2 - 2) with (zlen d) by lia.
  rewrite u32_small by lia.
  rewrite zget_app_at, zget_app_at_succ.
  change (zget [sw1; sw2] 0) with sw1.
  rewrite u16_status_word by assumption.
  destruct (is_success_sw (sw1 * 256 + sw2)); reflexivity.
Qed.

Section IsoNativeAnswers.
Context `{FL : FrameLimit}.

(** The status bytes of a status word that [DESFIRESendApduEx] accepts. *)
Lemma success_sw_bytes sw1 sw2 :
  0 <= sw1 < 256 -> 0 <= sw2 < 256 ->
  is_success_sw (sw1 * 256 + sw2) = true ->
  (sw1 = 0x90 /\ sw2 = 0x00) \/
  (sw1 = 0x91 /\ (sw2 = 0x00 \/ sw2 = 0x90 \/ sw2 = 0xAF \/ sw2 = 0x0C)).
Proof.
  intros H1 H2 Hs. apply is_success_sw_iff in Hs. lia.
Qed.

(** X7.  A wrapped exchange whose command fits one APDU and that the card
    answers once sends the APDU [90 cmd 00 00 Lc data] with Le. For an
    accepted status word it returns [PM3_SUCCESS], the response code is SW2
    when SW1 is 0x91 and 0xff for 0x9000, and the data are at the front of
    [resp]; the length is that of the data, but 0 when chaining is off and
    the status word is neither 0x9100 nor 0x91AF.  For any other status
    word it returns [PM3_EAPDU_FAIL] with response code 0xff and length
    0. *)
Theorem DesfireExchangeISONative_single_answer activate cmd data resp enable_chaining
  t enc d sw1 sw2 rs :
  zlen data <= DESFIRE_TX_FRAME_MAX_LEN ->
  zlen data < 256 ->
  APDUEncodeS (mkAPDU MFDES_NATIVE_ISO7816_WRAP_CLA cmd 0 0 (zlen data) data) false
    APDU_INCLUDE_LE_00 = Some enc ->
  replies t = mkReply PM3_SUCCESS (d ++ [sw1; sw2]) :: rs ->
  0 <= sw1 < 256 -> 0 <= sw2 < 256 ->
  zlen d + 2 <= EXCHANGE_BUF_SIZE ->
  (sw1 * 256 + sw2 <> 0x91AF \/ (enable_chaining = false /\ d <> [])) ->
  DesfireExchangeISONative activate cmd data resp enable_chaining 0 t =
  Some (mkTransport rs
          (events (if activate then msleep 50 (DropField t) else t)
             ++ [EvApdu activate enc]),
        if is_success_sw (sw1 * 256 + sw2)
        then mkExchResult PM3_SUCCESS (if sw1 =? 0x91 then sw2 else 0xff)
               (d ++ zdrop (zlen d) resp)
               (if enable_chaining || (sw1 * 256 + sw2 =? 0x9100)
                   || (sw1 * 256 + sw2 =? 0x91AF)
                then zlen d else 0)
        else mkExchResult PM3_EAPDU_FAIL 0xff resp 0).
Proof.
  intros Hfit Hbyte Henc Hr Hsw1 Hsw2 Hbuf Hlast.
  pose proof (zlen_nonneg data) as Hn. pose proof (zlen_nonneg d) as Hd0.
  unfold DesfireExchangeISONative. cbv zeta.
  cbn [DesfireExchangeISONative_tx].
  destruct (zlen data >=? 0) eqn:Ege; [|rewrite Z.geb_leb in Ege; apply Z.leb_gt in Ege; lia].
  rewrite Z.sub_0_r.
  destruct (zlen data >? DESFIRE_TX_FRAME_MAX_LEN) eqn:Egt; [apply Z.gtb_lt in Egt; lia|].
  change (0 >? 0) with false. cbv iota. cbn [CLA INS P1 P2 Lc].
  assert (Hu8 : u8 (zlen data) = zlen data).
  { unfold u8. change 0xff with (Z.ones 8). rewrite Z.land_ones by lia.
    apply Z.mod_small. lia. }
  rewrite Hu8, zdrop_0.
  unfold DESFIRESendApdu.
  rewrite (DESFIRESendApduEx_answer activate _ _ EXCHANGE_BUF_SIZE t enc d sw1 sw2 rs Henc Hr
             Hsw1 Hsw2 Hbuf) by (unfold EXCHANGE_BUF_SIZE; lia).
  cbv beta iota. cbn [apdu_res apdu_result apdu_result_len apdu_sw].
  destruct (is_success_sw (sw1 * 256 + sw2)) eqn:Es.
  2:{ reflexivity. }
  change (negb (PM3_SUCCESS =? PM3_SUCCESS)) with false. cbv iota.
  assert (Hbreak : negb (sw1 * 256 + sw2 =? DESFIRE_GET_ISO_STATUS MFDES_ADDITIONAL_FRAME)
                   || (zlen d >? 0) = true).
  { destruct Hlast as [Hsw | [_ Hne]].
    - change (DESFIRE_GET_ISO_STATUS MFDES_ADDITIONAL_FRAME) with 0x91AF.
      destruct (sw1 * 256 + sw2 =? 0x91AF) eqn:E; [apply Z.eqb_eq in E; contradiction|].
      reflexivity.
    - assert (Hpos : (zlen d >? 0) = true).
      { apply Z.gtb_lt. destruct d; [contradiction|]. rewrite zlen_cons.
        pose proof (zlen_nonneg d). lia. }
      rewrite Hpos. apply orb_true_r. }
  rewrite Hbreak.
  unfold store_frame. change (negb (0 =? 0)) with false. cbv iota.
  rewrite (ztake_app_exact (zlen d) d [sw1; sw2] eq_refl).
  rewrite memcpy_at_0, Z.add_0_l.
  rewrite u32_small by (unfold EXCHANGE_BUF_SIZE in Hbuf; lia).
  change (DESFIRE_GET_ISO_STATUS MFDES_S_OPERATION_OK) with 0x9100.
  change (DESFIRE_GET_ISO_STATUS MFDES_ADDITIONAL_FRAME) with 0x91AF.
  assert (Hcode : iso_respcode (sw1 * 256 + sw2) 0xff = if sw1 =? 0x91 then sw2 else 0xff).
  { destruct (success_sw_bytes sw1 sw2 Hsw1 Hsw2 Es) as [[-> ->] | [-> [-> | [-> | [-> | ->]]]]];
      reflexivity. }
  rewrite Hcode.
  destruct enable_chaining; cbn [negb orb].
  - destruct Hlast as [Hsw | [Hc _]]; [|discriminate].
    cbn [replies DesfireExchangeISONative_rx].
    change (DESFIRE_GET_ISO_STATUS MFDES_ADDITIONAL_FRAME) with 0x91AF.
    destruct (sw1 * 256 + sw2 =? 0x91AF) eqn:E; [apply Z.eqb_eq in E; contradiction|].
    reflexivity.
  - reflexivity.
Qed.

End IsoNativeAnswers.

End ApduAnswers.

Section CommandAnswers.
Context `{FL : FrameLimit} `{AE : ApduEncoder} `{SC : SecureChannelCodec}.

(** Data copied to the front of an array that holds them. *)
Lemma fits_front (size : Z) (d buf : list Z) :
  zlen d <= size -> zlen buf <= size -> fits size (d ++ zdrop (zlen d) buf) = true.
Proof.
  intros Hd Hbuf. rewrite <- memcpy_at_0, fits_memcpy_at_0 by exact Hbuf.
  apply Z.leb_le. exact Hd.
Qed.

Lemma zlen_databuf (enc : list Z) :
  zlen enc <= DATABUF_SIZE -> zlen (memcpy (zeros DATABUF_SIZE) 0 enc) <= DATABUF_SIZE.
Proof.
  intros Henc. rewrite zlen_memcpy_at_0, zlen_zeros by (unfold DATABUF_SIZE; lia). lia.
Qed.

Lemma fits_databuf (enc : list Z) :
  zlen enc <= DATABUF_SIZE -> fits DATABUF_SIZE (memcpy (zeros DATABUF_SIZE) 0 enc) = true.
Proof. intros Henc. apply Z.leb_le, zlen_databuf, Henc. Qed.

(** A native exchange with one answer, through the codec. *)
Lemma DesfireExchangeEx_single_answer activate c cmd data respcode resp resplen
  t st d crc rs :
  cmdSet c = DCCNative ->
  cmdSet (fst (DesfireSecureChannelEncode c cmd data)) = DCCNative ->
  zlen (snd (DesfireSecureChannelEncode c cmd data)) + 1 <= DESFIRE_TX_FRAME_MAX_LEN ->
  zlen (snd (DesfireSecureChannelEncode c cmd data)) < 1024 ->
  replies t = card_frame st d crc :: rs ->
  zlen crc = 2 ->
  zlen d <= DATABUF_SIZE ->
  st <> MFDES_ADDITIONAL_FRAME ->
  let c1 := fst (DesfireSecureChannelEncode c cmd data) in
  let enc := snd (DesfireSecureChannelEncode c cmd data) in
  let seen := if is_success_status st then d else [] in
  let code := if is_success_status st then st else 0xff in
  let dec := DesfireSecureChannelDecode c1 seen code in
  DesfireExchangeEx activate c cmd data respcode resp resplen true 0 t =
  Some (mkTransport rs
          (events (if activate then msleep 50 (DropField t) else t)
             ++ [EvRaw activate (cmd :: enc)]),
        fst dec,
        mkExchResult (if is_success_status st then PM3_SUCCESS else PM3_EAPDU_FAIL)
          code (snd dec ++ zdrop (zlen (snd dec)) resp) (zlen (snd dec))).
Proof.
  intros Hnat Hnat1 Hfit Hlen Hr Hcrc Hbuf Hst c1 enc seen code dec.
  unfold DesfireExchangeEx. rewrite Hnat.
  destruct (DesfireSecureChannelEncode c cmd data) as [c1' enc'] eqn:Eenc.
  cbn [fst snd] in *. subst c1 enc. rewrite Hnat1.
  assert (Henc : zlen enc' <= DATABUF_SIZE) by (unfold DATABUF_SIZE; lia).
  rewrite (fits_databuf enc' Henc). cbn [negb].
  assert (Hbuf' : zlen d + 3 <= EXCHANGE_BUF_SIZE)
    by (unfold DATABUF_SIZE in Hbuf; unfold EXCHANGE_BUF_SIZE; lia).
  rewrite (DesfireExchangeNative_one_answer activate cmd enc'
             (memcpy (zeros DATABUF_SIZE) 0 enc') true t st d crc rs Hfit Hlen Hr Hcrc Hbuf'
             (or_introl Hst)).
  rewrite DesfireExchangeEx_decode_whole.
  subst dec seen code.
  destruct (is_success_status st); cbn [ex_res ex_respcode ex_resp ex_resplen orb].
  - rewrite (fits_front DATABUF_SIZE d _ Hbuf (zlen_databuf enc' Henc)). cbn [negb].
    rewrite (ztake_app_exact (zlen d) d _ eq_refl).
    rewrite memcpy_at_0. reflexivity.
  - rewrite (fits_databuf enc' Henc). cbn [negb].
    assert (Hz : forall l : list Z, ztake 0 l = []).
    { intros l. rewrite ztake_firstn. reflexivity. }
    rewrite Hz.
    rewrite memcpy_at_0. reflexivity.
Qed.

(** A command with one answer, through the codec and the checks of
    [DesfireCommandEx]. *)
Lemma DesfireCommandEx_one_answer c cmd data resp checklength t st d crc rs :
  let c1 := fst (DesfireSecureChannelEncode c cmd data) in
  let enc := snd (DesfireSecureChannelEncode c cmd data) in
  let seen := if is_success_status st then d else [] in
  let code := if is_success_status st then st else 0xff in
  let dec := DesfireSecureChannelDecode c1 seen code in
  cmdSet c = DCCNative ->
  cmdSet c1 = DCCNative ->
  zlen enc + 1 <= DESFIRE_TX_FRAME_MAX_LEN ->
  zlen enc < 1024 ->
  replies t = card_frame st d crc :: rs ->
  zlen crc = 2 ->
  zlen d <= DATABUF_SIZE ->
  zlen (snd dec) <= 257 ->
  st <> MFDES_ADDITIONAL_FRAME ->
  DesfireCommandEx cmd data resp checklength 0 t c =
  Some (mkTransport rs (events t ++ [EvRaw false (cmd :: enc)]),
        fst dec,
        Next (if (st =? MFDES_S_OPERATION_OK) &&
                 ((checklength <? 0) || (zlen (snd dec) =? checklength))
              then mkCmdResult PM3_SUCCESS (snd dec ++ zdrop (zlen (snd dec)) resp)
                     (zlen (snd dec))
              else mkCmdResult PM3_EAPDU_FAIL resp 0)).
Proof.
  intros c1 enc seen code dec Hnat Hnat1 Hfit Hlen Hr Hcrc Hbuf Hdec Hst.
  unfold DesfireCommandEx, bind, exchange. cbv zeta.
  rewrite (DesfireExchangeEx_single_answer false c cmd data 0xff (zeros 257) 0 t st d crc rs
             Hnat Hnat1 Hfit Hlen Hr Hcrc Hbuf Hst).
  cbv zeta. fold c1 enc seen code dec. cbv beta iota.
  cbn [ex_res ex_respcode ex_resp ex_resplen].
  unfold local_array, defined_if.
  rewrite (fits_front 257 (snd dec) (zeros 257) Hdec)
    by (rewrite zlen_zeros; lia).
  cbv beta iota.
  subst code.
  destruct (is_success_status st) eqn:Es.
  - change (negb (PM3_SUCCESS =? PM3_SUCCESS)) with false. cbv iota.
    destruct (st =? MFDES_S_OPERATION_OK) eqn:E0; cbn [negb andb]; [|reflexivity].
    change (0 =? 0) with true. cbv iota.
    rewrite (ztake_app_exact (zlen (snd dec)) (snd dec) _ eq_refl), memcpy_at_0.
    assert (Hn : (zlen (snd dec) <=? 257) = true) by (apply Z.leb_le; exact Hdec).
    destruct (checklength <? 0) eqn:Ec.
    + apply Z.ltb_lt in Ec.
      replace (checklength >=? 0) with false
        by (symmetry; rewrite Z.geb_leb; apply Z.leb_gt; lia).
      cbn [andb orb]. rewrite Hn. reflexivity.
    + apply Z.ltb_ge in Ec.
      replace (checklength >=? 0) with true
        by (symmetry; rewrite Z.geb_leb; apply Z.leb_le; lia).
      cbn [andb orb]. destruct (zlen (snd dec) =? checklength); cbn [negb];
        [rewrite Hn|]; reflexivity.
  - change (negb (PM3_EAPDU_FAIL =? PM3_SUCCESS)) with true. cbv iota.
    assert (E0 : (st =? MFDES_S_OPERATION_OK) = false).
    { destruct (st =? MFDES_S_OPERATION_OK) eqn:E; [|reflexivity].
      apply Z.eqb_eq in E. subst st. discriminate Es. }
    rewrite E0. reflexivity.
Qed.

(** X8.  [DesfireCommandEx] on a native command with one answer whose data
    fit [databuf] and whose decoded bytes fit [xresp]: the encoded command
    goes out in one frame without activating the field, the answer is
    decoded by the secure channel (an answer with an error status is
    decoded as no data with code 0xff), and the call returns [PM3_SUCCESS]
    with the decoded bytes exactly when the status is 0x00 and, for a
    non-negative [checklength], the decoded length is [checklength]; in
    every other case it returns [PM3_EAPDU_FAIL], the length 0, and leaves
    [resp] alone. *)
Theorem DesfireCommandEx_single_answer c cmd data resp checklength t st d crc rs :
  let c1 := fst (DesfireSecureChannelEncode c cmd data) in
  let enc := snd (DesfireSecureChannelEncode c cmd data) in
  let seen := if is_success_status st then d else [] in
  let code := if is_success_status st then st else 0xff in
  let dec := DesfireSecureChannelDecode c1 seen code in
  cmdSet c = DCCNative ->
  cmdSet c1 = DCCNative ->
  zlen enc + 1 <= DESFIRE_TX_FRAME_MAX_LEN ->
  zlen enc < 1024 ->
  replies t = card_frame st d crc :: rs ->
  zlen crc = 2 ->
  zlen d <= DATABUF_SIZE ->
  zlen (snd dec) <= 257 ->
  st <> MFDES_ADDITIONAL_FRAME ->
  DesfireCommandEx cmd data resp checklength 0 t c =
  Some (mkTransport rs (events t ++ [EvRaw false (cmd :: enc)]),
        fst dec,
        Next (if (st =? MFDES_S_OPERATION_OK) &&
                 ((checklength <? 0) || (zlen (snd dec) =? checklength))
              then mkCmdResult PM3_SUCCESS (snd dec ++ zdrop (zlen (snd dec)) resp)
                     (zlen (snd dec))
              else mkCmdResult PM3_EAPDU_FAIL resp 0)).
Proof.
  exact (DesfireCommandEx_one_answer c cmd data resp checklength t st d crc rs).
Qed.

End CommandAnswers.

(** ** Select application *)

Lemma session_cleared_select c b :
  session_cleared (set_appSelected b (DesfireClearSession c)).
Proof. repeat split. Qed.

Lemma aid_bytes_zero (x y z : Z) :
  negb (x =? 0) || negb (y =? 0) || negb (z =? 0) = false <-> x = 0 /\ y = 0 /\ z = 0.
Proof. rewrite !orb_false_iff, !negb_false_iff, !Z.eqb_eq. tauto. Qed.

Lemma selected_by_flag (b : bool) (picc : Prop) c :
  (b = false <-> picc) ->
  selected_by picc (set_appSelected b (DesfireClearSession c)).
Proof.
  intros Hb. split; [apply session_cleared_select|].
  cbn [appSelected set_appSelected]. split; [exact Hb|].
  rewrite <- Hb. destruct b; split; congruence.
Qed.

Section SelectApplication.
Context `{FL : FrameLimit} `{AE : ApduEncoder} `{SC : SecureChannelCodec}.

Lemma DesfireSelectAID_ends ctx a aid2 t t' ctx' code :
  DesfireSelectAID ctx (Some a) aid2 t = Some (t', ctx', code) ->
  code = PM3_SUCCESS ->
  selected_by (zget a 0 = 0 /\ zget a 1 = 0 /\ zget a 2 = 0) ctx'.
Proof.
  body_of @DesfireSelectAID (fun (_ : Transport) ctx' code => code = PM3_SUCCESS ->
    selected_by (zget a 0 = 0 /\ zget a 1 = 0 /\ zget a 2 = 0) ctx').
  cbv zeta. do 3 run_step. apply ends_exchange. intros t1 c1 r _. cbv beta iota.
  repeat run_step; cbn [code_of]; try discriminate.
  - intros _. apply selected_by_flag, aid_bytes_zero.
  - apply Z.eqb_neq in Heqb. intros Hr. contradiction.
Qed.

Lemma DesfireSelectAIDHexNoFieldOn_ends ctx aid t t' ctx' code :
  DesfireSelectAIDHexNoFieldOn ctx aid t = Some (t', ctx', code) ->
  code = PM3_SUCCESS ->
  selected_by (aid = 0x000000) ctx'.
Proof.
  body_of @DesfireSelectAIDHexNoFieldOn (fun (_ : Transport) ctx' code =>
    code = PM3_SUCCESS -> selected_by (aid = 0x000000) ctx').
  cbv zeta. do 3 run_step. apply ends_exchange. intros t1 c1 r _. cbv beta iota.
  repeat run_step; cbn [code_of]; try discriminate.
  - intros _. apply selected_by_flag. rewrite negb_false_iff. apply Z.eqb_eq.
  - apply Z.eqb_neq in Heqb. intros Hr. contradiction.
Qed.

(** The select command that the card accepts with one frame: status 0x00
    and data that decode to nothing. *)
Lemma select_accepted activate data (selected : bool) ctx t d crc rs :
  let c0 := set_secureChannel DACNone ctx in
  let c1 := fst (DesfireSecureChannelEncode c0 MFDES_SELECT_APPLICATION data) in
  let enc := snd (DesfireSecureChannelEncode c0 MFDES_SELECT_APPLICATION data) in
  let dec := DesfireSecureChannelDecode c1 d MFDES_S_OPERATION_OK in
  cmdSet ctx = DCCNative ->
  cmdSet c1 = DCCNative ->
  zlen enc + 1 <= DESFIRE_TX_FRAME_MAX_LEN ->
  zlen enc < 1024 ->
  replies t = card_frame MFDES_S_OPERATION_OK d crc :: rs ->
  zlen crc = 2 ->
  zlen d <= DATABUF_SIZE ->
  snd dec = [] ->
  run_fn
    (modify_ctx (set_secureChannel DACNone) ;;
     r <- exchange activate MFDES_SELECT_APPLICATION data 0 (zeros 257) 0 true 0 ;;
     local_array 257 (ex_resp r) ;;
     if ex_res r =? PM3_SUCCESS then
       if negb (ex_resplen r =? 0) then return_ PM3_ECARDEXCHANGE
       else if negb (ex_respcode r =? MFDES_S_OPERATION_OK) then return_ PM3_EAPDU_FAIL
       else
         modify_ctx DesfireClearSession ;;
         modify_ctx (set_appSelected selected) ;;
         return_ PM3_SUCCESS
     else return_ (ex_res r)) ctx t =
  Some (mkTransport rs
          (events (if activate then msleep 50 (DropField t) else t)
             ++ [EvRaw activate (MFDES_SELECT_APPLICATION :: enc)]),
        set_appSelected selected (DesfireClearSession (fst dec)),
        PM3_SUCCESS).
Proof.
  intros c0 c1 enc dec Hnat Hnat1 Hfit Hlen Hr Hcrc Hbuf Hdec.
  unfold run_fn, bind, modify_ctx, exchange.
  rewrite (DesfireExchangeEx_single_answer activate c0 MFDES_SELECT_APPLICATION data 0
             (zeros 257) 0 t MFDES_S_OPERATION_OK d crc rs Hnat Hnat1 Hfit Hlen Hr Hcrc Hbuf)
    by discriminate.
  cbv zeta. change (is_success_status MFDES_S_OPERATION_OK) with true. cbv iota.
  fold c0 c1 enc dec. rewrite Hdec. reflexivity.
Qed.

(** C5.  Whenever [DesfireSelectAID] or [DesfireSelectAIDHexNoFieldOn]
    returns [PM3_SUCCESS], the context it leaves is unauthenticated (secure
    channel [DACNone]) with both session keys zeroed, and [appSelected] is
    false exactly when the selected AID is 0x000000 (for
    [DesfireSelectAID]: when the three bytes of the first AID are zero) and
    true exactly when it is not.  Both do return [PM3_SUCCESS] when the card
    accepts the select command: on the native command set, for a command
    that fits one frame and an answer of one frame with status 0x00 whose
    data decode to nothing, each of them sends the frame [5A || payload]
    ([DesfireSelectAID] after activating the field, the other without) and
    returns [PM3_SUCCESS] with the session cleared and [appSelected] set
    from the AID. *)
Theorem DesfireSelectAID_clears_session ctx a aid2 aid t :
  (forall t' ctx',
     DesfireSelectAID ctx (Some a) aid2 t = Some (t', ctx', PM3_SUCCESS) ->
     selected_by (zget a 0 = 0 /\ zget a 1 = 0 /\ zget a 2 = 0) ctx') /\
  (forall t' ctx',
     DesfireSelectAIDHexNoFieldOn ctx aid t = Some (t', ctx', PM3_SUCCESS) ->
     selected_by (aid = 0x000000) ctx') /\
  (forall d crc rs,
     let data :=
       ztake (match aid2 with None => 3 | Some _ => 6 end)
         (match aid2 with
          | Some a2 => memcpy (memcpy (zeros 6) 0 (ztake 3 a)) 3 (ztake 3 a2)
          | None => memcpy (zeros 6) 0 (ztake 3 a)
          end) in
     let c0 := set_secureChannel DACNone ctx in
     let c1 := fst (DesfireSecureChannelEncode c0 MFDES_SELECT_APPLICATION data) in
     let enc := snd (DesfireSecureChannelEncode c0 MFDES_SELECT_APPLICATION data) in
     let dec := DesfireSecureChannelDecode c1 d MFDES_S_OPERATION_OK in
     cmdSet ctx = DCCNative ->
     cmdSet c1 = DCCNative ->
     zlen enc + 1 <= DESFIRE_TX_FRAME_MAX_LEN ->
     zlen enc < 1024 ->
     replies t = card_frame MFDES_S_OPERATION_OK d crc :: rs ->
     zlen crc = 2 ->
     zlen d <= DATABUF_SIZE ->
     snd dec = [] ->
     DesfireSelectAID ctx (Some a) aid2 t =
     Some (mkTransport rs
             (events (msleep 50 (DropField t))
                ++ [EvRaw true (MFDES_SELECT_APPLICATION :: enc)]),
           set_appSelected
             (negb (zget a 0 =? 0x00) || negb (zget a 1 =? 0x00) || negb (zget a 2 =? 0x00))
             (DesfireClearSession (fst dec)),
           PM3_SUCCESS)) /\
  (forall d crc rs,
     let data := DesfireAIDUintToByte aid in
     let c0 := set_secureChannel DACNone ctx in
     let c1 := fst (DesfireSecureChannelEncode c0 MFDES_SELECT_APPLICATION data) in
     let enc := snd (DesfireSecureChannelEncode c0 MFDES_SELECT_APPLICATION data) in
     let dec := DesfireSecureChannelDecode c1 d MFDES_S_OPERATION_OK in
     cmdSet ctx = DCCNative ->
     cmdSet c1 = DCCNative ->
     zlen enc + 1 <= DESFIRE_TX_FRAME_MAX_LEN ->
     zlen enc < 1024 ->
     replies t = card_frame MFDES_S_OPERATION_OK d crc :: rs ->
     zlen crc = 2 ->
     zlen d <= DATABUF_SIZE ->
     snd dec = [] ->
     DesfireSelectAIDHexNoFieldOn ctx aid t =
     Some (mkTransport rs (events t ++ [EvRaw false (MFDES_SELECT_APPLICATION :: enc)]),
           set_appSelected (negb (aid =? 0x000000)) (DesfireClearSession (fst dec)),
           PM3_SUCCESS)).
Proof.
  split; [|split; [|split]].
  - intros t' ctx' Hrun. exact (DesfireSelectAID_ends ctx a aid2 t t' ctx' _ Hrun eq_refl).
  - intros t' ctx' Hrun.
    exact (DesfireSelectAIDHexNoFieldOn_ends ctx aid t t' ctx' _ Hrun eq_refl).
  - intros d crc rs data c0 c1 enc dec Hnat Hnat1 Hfit Hlen Hr Hcrc Hbuf Hdec.
    unfold DesfireSelectAID. cbv zeta.
    assert (Hdata :
      ztake (match aid2 with None => 3 | Some _ => 6 end)
        (match aid2 with
         | Some a2 => memcpy (memcpy (zeros 6) 0 (ztake 3 a)) 3 (ztake 3 a2)
         | None => memcpy (zeros 6) 0 (ztake 3 a)
         end) = data) by reflexivity.
    rewrite Hdata.
    exact (select_accepted true data _ ctx t d crc rs Hnat Hnat1 Hfit Hlen Hr Hcrc Hbuf
             Hdec).
  - intros d crc rs data c0 c1 enc dec Hnat Hnat1 Hfit Hlen Hr Hcrc Hbuf Hdec.
    unfold DesfireSelectAIDHexNoFieldOn. cbv zeta.
    change (ztake 3 (memcpy (zeros 3) 0 (DesfireAIDUintToByte aid))) with data.
    exact (select_accepted false data _ ctx t d crc rs Hnat Hnat1 Hfit Hlen Hr Hcrc Hbuf
             Hdec).
Qed.

End SelectApplication.

(** Selecting the application 0x030201 in the middle of an EV1 session,
    with either function, and the PICC level with the second. *)
Lemma DesfireSelectAID_clears_session_witness :
  let ctx := Mock.authenticated_context 1 T_AES (repeat 0x00 16) DACEV1 in
  let t := mkTransport [Mock.card_says 0x00 []] [] in
  (exists t' ctx',
     @DesfireSelectAID Mock.frame_limit Mock.apdu_encoder Mock.plain_codec ctx
       (Some [0x01; 0x02; 0x03]) None t = Some (t', ctx', PM3_SUCCESS) /\
     raw_frames (events t') = [[0x5A; 0x01; 0x02; 0x03]] /\
     selected_by (zget [0x01; 0x02; 0x03] 0 = 0 /\ zget [0x01; 0x02; 0x03] 1 = 0 /\
                  zget [0x01; 0x02; 0x03] 2 = 0) ctx' /\
     appSelected ctx' = true) /\
  (exists t' ctx',
     @DesfireSelectAIDHexNoFieldOn Mock.frame_limit Mock.apdu_encoder Mock.plain_codec ctx
       0x030201 t = Some (t', ctx', PM3_SUCCESS) /\
     raw_frames (events t') = [[0x5A; 0x01; 0x02; 0x03]] /\
     selected_by (0x030201 = 0x000000) ctx' /\
     appSelected ctx' = true) /\
  (exists t' ctx',
     @DesfireSelectAIDHexNoFieldOn Mock.frame_limit Mock.apdu_encoder Mock.plain_codec ctx
       0x000000 t = Some (t', ctx', PM3_SUCCESS) /\
     selected_by (0x000000 = 0x000000) ctx' /\
     appSelected ctx' = false).
Proof.
  intros ctx t.
  destruct (@DesfireSelectAID_clears_session Mock.frame_limit Mock.apdu_encoder
              Mock.plain_codec ctx [0x01; 0x02; 0x03] None 0x030201 t)
    as [Hsel1 [Hsel2 [Hrun1 Hrun2]]].
  destruct (@DesfireSelectAID_clears_session Mock.frame_limit Mock.apdu_encoder
              Mock.plain_codec ctx [0x01; 0x02; 0x03] None 0x000000 t)
    as [_ [Hsel3 [_ Hrun3]]].
  specialize (Hrun1 [] [0xC1; 0xC2] []). cbv zeta in Hrun1.
  specialize (Hrun2 [] [0xC1; 0xC2] []). cbv zeta in Hrun2.
  specialize (Hrun3 [] [0xC1; 0xC2] []). cbv zeta in Hrun3.
  split; [|split].
  - eexists. eexists. split; [|split; [|split]].
    + apply Hrun1; vm_compute; try reflexivity; discriminate.
    + reflexivity.
    + eapply Hsel1. apply Hrun1; vm_compute; try reflexivity; discriminate.
    + reflexivity.
  - eexists. eexists. split; [|split; [|split]].
    + apply Hrun2; vm_compute; try reflexivity; discriminate.
    + reflexivity.
    + eapply Hsel2. apply Hrun2; vm_compute; try reflexivity; discriminate.
    + reflexivity.
  - eexists. eexists. split; [|split].
    + apply Hrun3; vm_compute; try reflexivity; discriminate.
    + eapply Hsel3. apply Hrun3; vm_compute; try reflexivity; discriminate.
    + reflexivity.
Defined.

(** ** Change key and the session *)

(** The plain codec leaves the context alone. *)
Lemma Mock_plain_codec_preserves (P : DesfireContext -> Prop) :
  @codec_preserves Mock.plain_codec P.
Proof. split; intros; assumption. Qed.

Lemma session_cleared_unauthenticated c :
  session_cleared c -> DesfireIsAuthenticated c = false.
Proof. intros [Hchan _]. unfold DesfireIsAuthenticated. rewrite Hchan. reflexivity. Qed.

Section ChangeKeySession.
Context `{FL : FrameLimit} `{AE : ApduEncoder} `{SC : SecureChannelCodec}
  `{CK : Checksums} `{KO : DesfireKeyOps}.

(** When the key that was changed is the key of the session, the session is
    cleared at the return of [DesfireChangeKey], whatever the card
    answered. *)
Lemma DesfireChangeKey_ends dctx change_master_key newkeynum newkeytype newkeyver newkey
  oldkeytype oldkey verbose t t' dctx' code :
  codec_preserves (fun c => keyNum c = keyNum dctx) ->
  DesfireChangeKey dctx change_master_key newkeynum newkeytype newkeyver newkey
    oldkeytype oldkey verbose t = Some (t', dctx', code) ->
  newkeynum = keyNum dctx -> session_cleared dctx'.
Proof.
  intros Hcodec.
  body_of @DesfireChangeKey (fun (_ : Transport) dctx' (_ : Z) =>
    newkeynum = keyNum dctx -> session_cleared dctx').
  repeat run_step.
  unfold DesfireChangeKeyCmd, DesfireCommand, DesfireCommandEx.
  repeat run_step.
  apply ends_exchange. intros t1 c1 r Hex. cbv beta iota.
  pose proof (DesfireExchangeEx_preserves _ _ _ _ _ _ _ _ _ _ _ _ _ _ Hcodec eq_refl Hex)
    as Hkey.
  cbv beta in Hkey.
  repeat run_step; cbn [code_of]; intros Hsame;
    try (repeat split; fail);
    rewrite Hkey, Hsame, Z.eqb_refl in *; discriminate.
Qed.

(** C7.  When [newkeynum] is the key number of the session context (and
    the secure-channel codec does not change that number), a
    [DesfireChangeKey] that returns [PM3_SUCCESS] leaves the session
    unauthenticated: secure channel [DACNone], both session keys zeroed. *)
Theorem DesfireChangeKey_same_key_success dctx change_master_key newkeynum newkeytype
  newkeyver newkey oldkeytype oldkey verbose t t' dctx' :
  codec_preserves (fun c => keyNum c = keyNum dctx) ->
  newkeynum = keyNum dctx ->
  DesfireChangeKey dctx change_master_key newkeynum newkeytype newkeyver newkey
    oldkeytype oldkey verbose t = Some (t', dctx', PM3_SUCCESS) ->
  session_cleared dctx' /\ DesfireIsAuthenticated dctx' = false.
Proof.
  intros Hcodec Hsame Hrun.
  pose proof (DesfireChangeKey_ends _ _ _ _ _ _ _ _ _ _ _ _ _ Hcodec Hrun Hsame) as Hclr.
  split; [|apply session_cleared_unauthenticated]; exact Hclr.
Qed.

(** C10.  When [newkeynum] is the key number of the context (and the
    secure-channel codec does not change that number), whatever code
    [DesfireChangeKey] returns - success, the error of a failed ChangeKey
    command, or -20 for an answer with unexpected data - the session is
    cleared: unauthenticated, both session keys zeroed.  All three returns
    occur: on the native command set, for a command that fits one frame and
    an answer of one frame, the call returns [PM3_SUCCESS] for status 0x00
    without data, -20 for status 0x00 with data, and [PM3_EAPDU_FAIL] for
    any other status, each time with the session cleared. *)
Theorem DesfireChangeKey_same_key_clears_always dctx change_master_key newkeynum newkeytype
  newkeyver newkey oldkeytype oldkey verbose t :
  codec_preserves (fun c => keyNum c = keyNum dctx) ->
  newkeynum = keyNum dctx ->
  (forall t' dctx' code,
     DesfireChangeKey dctx change_master_key newkeynum newkeytype newkeyver newkey
       oldkeytype oldkey verbose t = Some (t', dctx', code) ->
     session_cleared dctx' /\ DesfireIsAuthenticated dctx' = false) /\
  (forall st d crc rs,
     let cd := DesfireChangeKey_data dctx change_master_key newkeynum newkeytype newkeyver
                 newkey oldkeytype oldkey in
     let data := slice (ck_pckcdata cd) 1 (ck_cdatalen cd) in
     let c1 := fst (DesfireSecureChannelEncode dctx MFDES_CHANGE_KEY data) in
     let enc := snd (DesfireSecureChannelEncode dctx MFDES_CHANGE_KEY data) in
     let seen := if is_success_status st then d else [] in
     let code := if is_success_status st then st else 0xff in
     let dec := DesfireSecureChannelDecode c1 seen code in
     cmdSet dctx = DCCNative ->
     cmdSet c1 = DCCNative ->
     zlen enc + 1 <= DESFIRE_TX_FRAME_MAX_LEN ->
     zlen enc < 1024 ->
     replies t = card_frame st d crc :: rs ->
     zlen crc = 2 ->
     zlen d <= DATABUF_SIZE ->
     zlen (snd dec) <= 257 ->
     st <> MFDES_ADDITIONAL_FRAME ->
     DesfireChangeKey dctx change_master_key newkeynum newkeytype newkeyver newkey
       oldkeytype oldkey verbose t =
     Some (mkTransport rs (events t ++ [EvRaw false (MFDES_CHANGE_KEY :: enc)]),
           DesfireClearSession (fst dec),
           if st =? MFDES_S_OPERATION_OK
           then (if zlen (snd dec) >? 0 then -20 else PM3_SUCCESS)
           else PM3_EAPDU_FAIL)).
Proof.
  intros Hcodec Hsame. split.
  - intros t' dctx' code Hrun.
    pose proof (DesfireChangeKey_ends _ _ _ _ _ _ _ _ _ _ _ _ _ Hcodec Hrun Hsame) as Hclr.
    split; [|apply session_cleared_unauthenticated]; exact Hclr.
  - intros st d crc rs cd data c1 enc seen code dec Hnat Hnat1 Hfit Hlen Hr Hcrc Hbuf Hdec Hst.
    unfold DesfireChangeKey, run_fn. unfold bind at 1. unfold get_ctx at 1.
    cbv beta iota zeta. fold cd. fold data.
    unfold bind at 1. unfold DesfireChangeKeyCmd, DesfireCommand.
    rewrite (DesfireCommandEx_one_answer dctx MFDES_CHANGE_KEY data (zeros 257) (-1) t st d
               crc rs Hnat Hnat1 Hfit Hlen Hr Hcrc Hbuf Hdec Hst).
    cbv beta iota zeta. fold c1 enc seen code dec.
    unfold bind, get_ctx. cbv beta iota.
    assert (Hkey : keyNum (fst dec) = keyNum dctx).
    { destruct Hcodec as [Henc Hd]. subst dec c1.
      apply Hd, Henc. reflexivity. }
    rewrite Hkey, Hsame, Z.eqb_refl. cbv iota. unfold modify_ctx, return_.
    change (-1 <? 0) with true. cbn [orb]. rewrite andb_true_r.
    destruct (st =? MFDES_S_OPERATION_OK); cbn [cmd_res cmd_resplen];
      [|reflexivity].
    change (PM3_SUCCESS =? 0) with true. cbn [andb].
    destruct (zlen (snd dec) >? 0); reflexivity.
Qed.

End ChangeKeySession.

Lemma DesfireChangeKey_same_key_success_witness :
  exists t' dctx',
    @DesfireChangeKey Mock.frame_limit Mock.apdu_encoder Mock.plain_codec Mock.checksums
      Mock.key_ops (Mock.authenticated_context 1 T_AES (repeat 0x00 16) DACEV1)
      false 1 T_AES 0x10 (repeat 0x22 16) T_AES (repeat 0x00 16) false
      (mkTransport [Mock.card_says 0x00 []] []) = Some (t', dctx', PM3_SUCCESS) /\
    session_cleared dctx' /\ DesfireIsAuthenticated dctx' = false.
Proof.
  eexists. eexists. split.
  - vm_compute. reflexivity.
  - eapply (@DesfireChangeKey_same_key_success Mock.frame_limit Mock.apdu_encoder
              Mock.plain_codec Mock.checksums Mock.key_ops
              (Mock.authenticated_context 1 T_AES (repeat 0x00 16) DACEV1)
              false 1 T_AES 0x10 (repeat 0x22 16) T_AES (repeat 0x00 16) false
              (mkTransport [Mock.card_says 0x00 []] [])).
    + apply Mock_plain_codec_preserves.
    + reflexivity.
    + vm_compute. reflexivity.
Defined.

(** A ChangeKey on the session's key that the card accepts, one that it
    refuses (status 0x1E, integrity error), and one that it answers with a
    byte too many: the two last return an error, and all leave the session
    cleared. *)
Lemma DesfireChangeKey_same_key_clears_always_witness :
  let dctx := Mock.authenticated_context 1 T_AES (repeat 0x00 16) DACEV1 in
  let run (answer : Reply) :=
    @DesfireChangeKey Mock.frame_limit Mock.apdu_encoder Mock.plain_codec Mock.checksums
      Mock.key_ops dctx false 1 T_AES 0x10 (repeat 0x22 16) T_AES (repeat 0x00 16) false
      (mkTransport [answer] []) in
  (exists t' dctx',
     run (Mock.card_says 0x00 []) = Some (t', dctx', PM3_SUCCESS) /\
     session_cleared dctx' /\ DesfireIsAuthenticated dctx' = false) /\
  (exists t' dctx',
     run (Mock.card_says 0x1E []) = Some (t', dctx', PM3_EAPDU_FAIL) /\
     session_cleared dctx' /\ DesfireIsAuthenticated dctx' = false) /\
  (exists t' dctx',
     run (Mock.card_says 0x00 [0x99]) = Some (t', dctx', -20) /\
     session_cleared dctx' /\ DesfireIsAuthenticated dctx' = false).
Proof.
  intros dctx run.
  split; [|split].
  - destruct (@DesfireChangeKey_same_key_clears_always Mock.frame_limit
                Mock.apdu_encoder Mock.plain_codec Mock.checksums Mock.key_ops dctx
                false 1 T_AES 0x10 (repeat 0x22 16) T_AES (repeat 0x00 16) false
                (mkTransport [Mock.card_says 0x00 []] [])
                (Mock_plain_codec_preserves _) eq_refl) as [Hclr Hrun].
    specialize (Hrun 0x00 [] [0xC1; 0xC2] []). cbv zeta in Hrun.
    eexists. eexists. split.
    + apply Hrun; vm_compute; try reflexivity; discriminate.
    + eapply Hclr. apply Hrun; vm_compute; try reflexivity; discriminate.
  - destruct (@DesfireChangeKey_same_key_clears_always Mock.frame_limit
                Mock.apdu_encoder Mock.plain_codec Mock.checksums Mock.key_ops dctx
                false 1 T_AES 0x10 (repeat 0x22 16) T_AES (repeat 0x00 16) false
                (mkTransport [Mock.card_says 0x1E []] [])
                (Mock_plain_codec_preserves _) eq_refl) as [Hclr Hrun].
    specialize (Hrun 0x1E [] [0xC1; 0xC2] []). cbv zeta in Hrun.
    eexists. eexists. split.
    + apply Hrun; vm_compute; try reflexivity; discriminate.
    + eapply Hclr. apply Hrun; vm_compute; try reflexivity; discriminate.
  - destruct (@DesfireChangeKey_same_key_clears_always Mock.frame_limit
                Mock.apdu_encoder Mock.plain_codec Mock.checksums Mock.key_ops dctx
                false 1 T_AES 0x10 (repeat 0x22 16) T_AES (repeat 0x00 16) false
                (mkTransport [Mock.card_says 0x00 [0x99]] [])
                (Mock_plain_codec_preserves _) eq_refl) as [Hclr Hrun].
    specialize (Hrun 0x00 [0x99] [0xC1; 0xC2] []). cbv zeta in Hrun.
    eexists. eexists. split.
    + apply Hrun; vm_compute; try reflexivity; discriminate.
    + eapply Hclr. apply Hrun; vm_compute; try reflexivity; discriminate.
Defined.

(** ** Authentication *)

Lemma bytes_eqb_eq (a b : list Z) : bytes_eqb a b = true -> a = b.
Proof. unfold bytes_eqb. destruct (list_eq_dec Z.eq_dec a b); [auto | discriminate]. Qed.

(** The reader's challenge, rotated left by one byte, as the card has to
    return it. *)
Lemma rotated_challenge :
  ztake CRYPTO_AES_BLOCK_SIZE
    (memcpy RndA_init 0 (rol (ztake CRYPTO_AES_BLOCK_SIZE RndA_init))) = rol RndA_init.
Proof. reflexivity. Qed.

Lemma ztake_memcpy_front (dst src : list Z) (n : Z) :
  zlen src = n -> ztake n (memcpy dst 0 src) = src.
Proof. intros Hn. rewrite memcpy_at_0. apply ztake_app_exact. exact Hn. Qed.

Section AuthenticationSession.
Context `{FL : FrameLimit} `{AE : ApduEncoder} `{SC : SecureChannelCodec}
  `{CR : DesfireCrypto}.

(** An exchange under an invariant [P] of the codec: [P] holds of the
    context it leaves. *)
Ltac run_exchange Hcodec t1 c1 r Hc :=
  apply ends_exchange; intros t1 c1 r Hc; cbv beta iota;
  eapply DesfireExchangeEx_preserves in Hc;
  [ | exact Hcodec | first [assumption | repeat split] ].

(** A return of [DesfireAuthenticateEV1]: what is known of the context is
    what the last exchange left of the cleared session. *)
Ltac ev1_return :=
  lazymatch goal with
  | |- ends _ _ _ _ => fail
  | |- _ =>
    cbn [code_of]; let Hcode := fresh "Hcode" in intros Hcode;
    try (exfalso; apply Hcode; reflexivity);
    lazymatch goal with
    | H : session_cleared _ |- _ =>
      let Hchan := fresh in let Henc := fresh in let Hmac := fresh in
      destruct H as (Hchan & Henc & Hmac);
      cbn [secureChannel sessionKeyMAC sessionKeyEnc set_sessionKeyEnc];
      repeat split; try assumption; intros; congruence
    end
  end.

(** A failed run of [DesfireAuthenticateEV1] ends with the session that
    [DesfireClearSession] made at the entry, but for [sessionKeyEnc] once
    the session key has been stored in it (codes 10 and 11). *)
Lemma DesfireAuthenticateEV1_ends dctx chan verbose t t' dctx' code :
  codec_preserves session_cleared ->
  DesfireAuthenticateEV1 dctx chan verbose t = Some (t', dctx', code) ->
  code <> PM3_SUCCESS ->
  secureChannel dctx' = DACNone /\
  sessionKeyMAC dctx' = zeros DESFIRE_MAX_KEY_SIZE /\
  (code <> 10 -> code <> 11 -> sessionKeyEnc dctx' = zeros DESFIRE_MAX_KEY_SIZE).
Proof.
  intros Hcodec.
  body_of @DesfireAuthenticateEV1 (fun (_ : Transport) dctx' code => code <> PM3_SUCCESS ->
     secureChannel dctx' = DACNone /\
     sessionKeyMAC dctx' = zeros DESFIRE_MAX_KEY_SIZE /\
     (code <> 10 -> code <> 11 -> sessionKeyEnc dctx' = zeros DESFIRE_MAX_KEY_SIZE)).
  repeat run_step.
  all: try ev1_return.
  all: run_exchange Hcodec t1 c1 r1 Hc1.
  all: repeat run_step.
  all: try ev1_return.
  all: run_exchange Hcodec t2 c2 r2 Hc2.
  all: repeat run_step.
  all: ev1_return.
Qed.

(** The context that [DesfireAuthenticateEV2] returns with is the one an
    exchange left, [c]: unchanged if the run failed, and with the
    transaction identifier and the command counter of [c] if the
    authentication was not a first one. *)
Lemma DesfireAuthenticateEV2_context (P : DesfireContext -> Prop) dctx chan firstauth
  verbose t t' dctx' code :
  codec_preserves P ->
  P dctx ->
  DesfireAuthenticateEV2 dctx chan firstauth verbose t = Some (t', dctx', code) ->
  exists c,
    P c /\
    (code <> PM3_SUCCESS -> dctx' = c) /\
    (firstauth = false -> cmdCntr dctx' = cmdCntr c /\ TI dctx' = TI c).
Proof.
  intros Hcodec HP.
  body_of @DesfireAuthenticateEV2 (fun (_ : Transport) dctx' code =>
    exists c, P c /\ (code <> PM3_SUCCESS -> dctx' = c) /\
              (firstauth = false -> cmdCntr dctx' = cmdCntr c /\ TI dctx' = TI c)).
  repeat run_step.
  run_exchange Hcodec t1 c1 r1 Hc1.
  repeat run_step.
  1-6: (exists c1; repeat split; assumption).
  run_exchange Hcodec t2 c2 r2 Hc2.
  repeat run_step.
  1-5: (exists c2; repeat split; assumption).
  - exists c2. split; [assumption|]. split; [|discriminate].
    cbn [code_of]. intros Hcode. exfalso. apply Hcode. reflexivity.
  - exists c2. split; [assumption|]. split; [|intros _; split; reflexivity].
    cbn [code_of]. intros Hcode. exfalso. apply Hcode. reflexivity.
Qed.

(** The two exchanges of [DesfireAuthenticateEV2] and what a successful run
    reads from the answer to the second. *)
Lemma DesfireAuthenticateEV2_ends dctx chan firstauth verbose t t' dctx' code :
  DesfireAuthenticateEV2 dctx chan firstauth verbose t = Some (t', dctx', code) ->
  exists t1 c1 r1,
    DesfireExchangeEx false dctx
      (if firstauth then MFDES_AUTHENTICATE_EV2F else MFDES_AUTHENTICATE_EV2NF)
      (ztake (if firstauth then 2 else 1) [keyNum dctx; 0x00]) 0 (zeros 256) 0 false 0 t
      = Some (t1, c1, r1) /\
    (exists fs, raw_frames (events t') = raw_frames (events t1) ++ fs) /\
    (code = PM3_SUCCESS ->
     exists both c2 r2 ivs,
       DesfireExchangeEx false c1 MFDES_ADDITIONAL_FRAME both (ex_respcode r1)
         (ex_resp r1) (ex_resplen r1) false 0 t1 = Some (t', c2, r2) /\
       ztake CRYPTO_AES_BLOCK_SIZE
         (if firstauth
          then zdrop 4 (memcpy (zeros 32) 0
                          (snd (aes_decode ivs (key c2) (ex_resp r2) (ex_resplen r2))))
          else memcpy (zeros 32) 0
                 (snd (aes_decode ivs (key c2) (ex_resp r2) (ex_resplen r2))))
         = rol RndA_init /\
       (firstauth = true ->
        cmdCntr dctx' = 0 /\
        TI dctx' = memcpy (TI c2) 0
                     (ztake 4 (memcpy (zeros 32) 0
                        (snd (aes_decode ivs (key c2) (ex_resp r2) (ex_resplen r2))))))).
Proof.
  body_of @DesfireAuthenticateEV2 (fun t' dctx' code =>
    exists t1 c1 r1,
      DesfireExchangeEx false dctx
        (if firstauth then MFDES_AUTHENTICATE_EV2F else MFDES_AUTHENTICATE_EV2NF)
        (ztake (if firstauth then 2 else 1) [keyNum dctx; 0x00]) 0 (zeros 256) 0 false 0 t
        = Some (t1, c1, r1) /\
      (exists fs, raw_frames (events t') = raw_frames (events t1) ++ fs) /\
      (code = PM3_SUCCESS ->
       exists both c2 r2 ivs,
         DesfireExchangeEx false c1 MFDES_ADDITIONAL_FRAME both (ex_respcode r1)
           (ex_resp r1) (ex_resplen r1) false 0 t1 = Some (t', c2, r2) /\
         ztake CRYPTO_AES_BLOCK_SIZE
           (if firstauth
            then zdrop 4 (memcpy (zeros 32) 0
                            (snd (aes_decode ivs (key c2) (ex_resp r2) (ex_resplen r2))))
            else memcpy (zeros 32) 0
                   (snd (aes_decode ivs (key c2) (ex_resp r2) (ex_resplen r2))))
           = rol RndA_init /\
         (firstauth = true ->
          cmdCntr dctx' = 0 /\
          TI dctx' = memcpy (TI c2) 0
                       (ztake 4 (memcpy (zeros 32) 0
                          (snd (aes_decode ivs (key c2) (ex_resp r2)
                                  (ex_resplen r2)))))))).
  repeat run_step.
  apply ends_exchange. intros t1 c1 r1 Hex1. cbv beta iota.
  repeat run_step.
  1-6: (exists t1, c1, r1; split; [exact Hex1|]; split;
        [exists []; rewrite app_nil_r; reflexivity | cbn [code_of]; discriminate]).
  apply ends_exchange. intros t2 c2 r2 Hex2. cbv beta iota.
  pose proof (proj1 (DesfireExchangeEx_frames _ _ _ _ _ _ _ _ _ _ _ _ _ Hex2)) as Hfs.
  repeat run_step.
  1-5: (exists t1, c1, r1; split; [exact Hex1|]; split;
        [exact Hfs | cbn [code_of]; discriminate]).
  all: exists t1, c1, r1; (split; [exact Hex1|]); (split; [exact Hfs|]); intros _;
    eexists; exists c2, r2; eexists; (split; [exact Hex2|]);
    match goal with H : aes_decode _ _ (ex_resp _) _ = _ |- _ => rewrite H end;
    cbn [snd];
    match goal with
    | H : negb (bytes_eqb _ _) = false |- _ =>
      apply negb_false_iff, bytes_eqb_eq in H; rewrite rotated_challenge in H;
      split; [symmetry; exact H|]
    end.
  - intros _. split; reflexivity.
  - discriminate.
Qed.

(** C1 (amended).  A [DesfireAuthenticateEV1] run that fails ends
    unauthenticated (the session is cleared at the entry: secure channel
    [DACNone]) with the MAC session key zeroed, and with [sessionKeyEnc]
    zeroed when the run failed with any code but 10 and 11, the two
    returns that come after the session key has been stored.  A
    [DesfireAuthenticateEV2] run that fails, first or not, ends with the
    context that the exchanges left: every property of the context from
    before the call that the codec keeps still holds, so the function
    itself neither leaves the secure channel nor wipes a key. *)
Theorem DesfireAuthenticate_failure dctx chan firstauth verbose t :
  (codec_preserves session_cleared ->
   forall t' dctx' code,
     DesfireAuthenticateEV1 dctx chan verbose t = Some (t', dctx', code) ->
     code <> PM3_SUCCESS ->
     secureChannel dctx' = DACNone /\
     DesfireIsAuthenticated dctx' = false /\
     sessionKeyMAC dctx' = zeros DESFIRE_MAX_KEY_SIZE /\
     (code <> 10 -> code <> 11 -> sessionKeyEnc dctx' = zeros DESFIRE_MAX_KEY_SIZE)) /\
  (forall (P : DesfireContext -> Prop) t' dctx' code,
     codec_preserves P ->
     P dctx ->
     DesfireAuthenticateEV2 dctx chan firstauth verbose t = Some (t', dctx', code) ->
     code <> PM3_SUCCESS ->
     P dctx').
Proof.
  split.
  - intros Hcodec t' dctx' code Hrun Hcode.
    destruct (DesfireAuthenticateEV1_ends dctx chan verbose t t' dctx' code Hcodec Hrun
                Hcode) as [Hchan [Hmac Henc]].
    repeat split; try assumption.
    unfold DesfireIsAuthenticated. rewrite Hchan. reflexivity.
  - intros P t' dctx' code Hcodec HP Hrun Hcode.
    destruct (DesfireAuthenticateEV2_context P dctx chan firstauth verbose t t' dctx' code
                Hcodec HP Hrun) as [c [HPc [Hfail _]]].
    rewrite (Hfail Hcode). exact HPc.
Qed.

(** C6.  For every run of [DesfireAuthenticateEV2] that returns: with
    [firstauth] the first exchange is sub-command 0x71 with the payload
    [keyNo, 0x00], without it sub-command 0x77 with the payload [keyNo] (on
    the native command set this is the first frame on the wire, after the
    codec); when the run succeeds, the decrypted answer [data] to the
    second exchange holds the rotated [RndA] at offset 4 with [firstauth]
    and at offset 0 without; with [firstauth] the first four bytes of
    [data] are stored as [TI] and the command counter is 0; without
    [firstauth] the function leaves [TI] and the command counter as the
    exchanges left them. *)
Theorem DesfireAuthenticateEV2_first_and_following dctx chan firstauth verbose t t' dctx'
  code :
  DesfireAuthenticateEV2 dctx chan firstauth verbose t = Some (t', dctx', code) ->
  (exists t1 c1 r1,
     DesfireExchangeEx false dctx (if firstauth then 0x71 else 0x77)
       (if firstauth then [keyNum dctx; 0x00] else [keyNum dctx])
       0 (zeros 256) 0 false 0 t = Some (t1, c1, r1) /\
     (exists fs, raw_frames (events t') = raw_frames (events t1) ++ fs) /\
     (code = PM3_SUCCESS ->
      exists both c2 r2 ivs data,
        DesfireExchangeEx false c1 MFDES_ADDITIONAL_FRAME both (ex_respcode r1)
          (ex_resp r1) (ex_resplen r1) false 0 t1 = Some (t', c2, r2) /\
        data = memcpy (zeros 32) 0
                 (snd (aes_decode ivs (key c2) (ex_resp r2) (ex_resplen r2))) /\
        (firstauth = true ->
         ztake 16 (zdrop 4 data) = rol RndA_init /\
         ztake 4 (TI dctx') = ztake 4 data /\
         cmdCntr dctx' = 0) /\
        (firstauth = false -> ztake 16 data = rol RndA_init))) /\
  (cmdSet dctx = DCCNative ->
   cmdSet (fst (DesfireSecureChannelEncode dctx (if firstauth then 0x71 else 0x77)
                  (if firstauth then [keyNum dctx; 0x00] else [keyNum dctx])))
     = DCCNative ->
   1 <= DESFIRE_TX_FRAME_MAX_LEN ->
   exists fs,
     raw_frames (events t') =
     raw_frames (events t)
       ++ ztake DESFIRE_TX_FRAME_MAX_LEN
            ((if firstauth then 0x71 else 0x77)
               :: snd (DesfireSecureChannelEncode dctx (if firstauth then 0x71 else 0x77)
                         (if firstauth then [keyNum dctx; 0x00] else [keyNum dctx])))
       :: fs) /\
  (firstauth = false ->
   forall P : Z -> list Z -> Prop,
     codec_preserves (fun c => P (cmdCntr c) (TI c)) ->
     P (cmdCntr dctx) (TI dctx) ->
     P (cmdCntr dctx') (TI dctx')).
Proof.
  intros Hrun.
  destruct (DesfireAuthenticateEV2_ends dctx chan firstauth verbose t t' dctx' code Hrun)
    as [t1 [c1 [r1 [Hex1 [Hfs Hok]]]]].
  assert (Hargs : ztake (if firstauth then 2 else 1) [keyNum dctx; 0x00]
                  = if firstauth then [keyNum dctx; 0x00] else [keyNum dctx])
    by (destruct firstauth; reflexivity).
  rewrite Hargs in Hex1.
  change MFDES_AUTHENTICATE_EV2F with 0x71 in Hex1.
  change MFDES_AUTHENTICATE_EV2NF with 0x77 in Hex1.
  split; [|split].
  - exists t1, c1, r1. split; [exact Hex1|]. split; [exact Hfs|].
    intros Hcode. destruct (Hok Hcode) as [both [c2 [r2 [ivs [Hex2 [Hrnd Hti]]]]]].
    exists both, c2, r2, ivs. eexists. split; [exact Hex2|]. split; [reflexivity|].
    pose proof (zlen_memcpy (zeros 32)
                  (snd (aes_decode ivs (key c2) (ex_resp r2) (ex_resplen r2))) 0
                  (Z.le_refl 0)) as Hlen.
    rewrite zlen_zeros in Hlen by lia.
    split.
    + intros ->. destruct (Hti eq_refl) as [Hcnt HTI].
      split; [exact Hrnd|]. split; [|exact Hcnt].
      rewrite HTI. apply ztake_memcpy_front. apply zlen_ztake. lia.
    + intros ->. exact Hrnd.
  - intros Hnat Hnat' Hmax.
    destruct (proj2 (DesfireExchangeEx_frames _ _ _ _ _ _ _ _ _ _ _ _ _ Hex1)
                Hnat Hnat' Hmax) as [fs1 Hfirst].
    destruct Hfs as [fs Hfs]. exists (fs1 ++ fs).
    rewrite Hfs, Hfirst, <- app_assoc. reflexivity.
  - intros -> P Hcodec HP.
    destruct (DesfireAuthenticateEV2_context (fun c => P (cmdCntr c) (TI c)) dctx chan
                false verbose t t' dctx' code Hcodec HP Hrun) as [c [HPc [_ Hsame]]].
    destruct (Hsame eq_refl) as [-> ->]. exact HPc.
Qed.

End AuthenticationSession.

(** A refused authentication on the legacy/EV1 path (the card answers
    0xAE), and a first EV2 authentication that the card never answers. *)
Lemma DesfireAuthenticate_failure_witness :
  (exists t' dctx',
     @DesfireAuthenticateEV1 Mock.frame_limit Mock.apdu_encoder Mock.plain_codec
       Mock.null_cipher (Mock.authenticated_context 1 T_AES (repeat 0x00 16) DACEV1)
       DACEV1 false (mkTransport [Mock.card_says 0xAE []] []) = Some (t', dctx', 1) /\
     secureChannel dctx' = DACNone /\
     DesfireIsAuthenticated dctx' = false /\
     sessionKeyMAC dctx' = zeros DESFIRE_MAX_KEY_SIZE /\
     sessionKeyEnc dctx' = zeros DESFIRE_MAX_KEY_SIZE) /\
  (exists t' dctx',
     @DesfireAuthenticateEV2 Mock.frame_limit Mock.apdu_encoder Mock.plain_codec
       Mock.null_cipher (Mock.fresh_context 1 T_AES (repeat 0x00 16) DCCNative)
       DACEV2 true false (mkTransport [] []) = Some (t', dctx', 1) /\
     dctx' = Mock.fresh_context 1 T_AES (repeat 0x00 16) DCCNative).
Proof.
  destruct (@DesfireAuthenticate_failure Mock.frame_limit Mock.apdu_encoder
              Mock.plain_codec Mock.null_cipher
              (Mock.authenticated_context 1 T_AES (repeat 0x00 16) DACEV1)
              DACEV1 true false (mkTransport [Mock.card_says 0xAE []] []))
    as [Hev1 _].
  pose proof (Hev1 (Mock_plain_codec_preserves session_cleared)) as Hfail1.
  destruct (@DesfireAuthenticate_failure Mock.frame_limit Mock.apdu_encoder
              Mock.plain_codec Mock.null_cipher
              (Mock.fresh_context 1 T_AES (repeat 0x00 16) DCCNative)
              DACEV2 true false (mkTransport [] []))
    as [_ Hfail2].
  split.
  - eexists. eexists. split; [vm_compute; reflexivity|].
    edestruct Hfail1 as [Hchan [Hauth [Hmac Henc]]].
    + vm_compute. reflexivity.
    + discriminate.
    + split; [exact Hchan|]. split; [exact Hauth|]. split; [exact Hmac|].
      apply Henc; discriminate.
  - eexists. eexists. split; [vm_compute; reflexivity|].
    eapply (Hfail2 (fun c => c = Mock.fresh_context 1 T_AES (repeat 0x00 16) DCCNative)).
    + apply Mock_plain_codec_preserves.
    + reflexivity.
    + vm_compute. reflexivity.
    + discriminate.
Defined.

(** C1, as stated, fails on both paths.  A non-first EV2 authentication
    that gets no answer returns 1 and leaves the session as it was: secure
    channel EV2, session key in place.  An EV1 authentication whose last
    answer is not the rotated challenge returns 11 and leaves the
    provisional session key (here [RndA[0..4] || RndB[0..4] || ...]) in
    [sessionKeyEnc]. *)
Lemma DesfireAuthenticate_failure_leaves_session :
  option_map
    (fun out => (snd out, secureChannel (snd (fst out)),
                 ztake 4 (sessionKeyEnc (snd (fst out)))))
    (@DesfireAuthenticateEV2 Mock.frame_limit Mock.apdu_encoder Mock.plain_codec
       Mock.null_cipher (Mock.authenticated_context 1 T_AES (repeat 0x00 16) DACEV2)
       DACEV2 false false (mkTransport [] []))
  = Some (1, DACEV2, [0xE7; 0xE7; 0xE7; 0xE7]) /\
  option_map
    (fun out => (snd out, ztake 8 (sessionKeyEnc (snd (fst out)))))
    (@DesfireAuthenticateEV1 Mock.frame_limit Mock.apdu_encoder Mock.plain_codec
       Mock.null_cipher (Mock.fresh_context 1 T_AES (repeat 0x00 16) DCCNative)
       DACEV1 false
       (mkTransport [Mock.card_says 0xAF (repeat 0xB0 16);
                     Mock.card_says 0x00 (repeat 0x77 16)] []))
  = Some (11, [0x01; 0x02; 0x03; 0x04; 0xB0; 0xB0; 0xB0; 0xB0]).
Proof. split; vm_compute; reflexivity. Qed.

(** A first authentication that succeeds (the card sends
    [TI = A1 A2 A3 A4] before the rotated challenge), and a following one
    in the session it made. *)
Lemma DesfireAuthenticateEV2_first_and_following_witness :
  (exists t' dctx',
     @DesfireAuthenticateEV2 Mock.frame_limit Mock.apdu_encoder Mock.plain_codec
       Mock.null_cipher (Mock.authenticated_context 1 T_AES (repeat 0x00 16) DACNone)
       DACEV2 true false
       (mkTransport
          [Mock.card_says 0xAF (repeat 0xB0 16);
           Mock.card_says 0x00
             ([0xA1; 0xA2; 0xA3; 0xA4] ++ rol RndA_init ++ repeat 0x00 12)] [])
     = Some (t', dctx', PM3_SUCCESS) /\
     cmdCntr dctx' = 0 /\
     (exists fs, raw_frames (events t') = [] ++ [0x71; 0x01; 0x00] :: fs)) /\
  (exists t' dctx',
     @DesfireAuthenticateEV2 Mock.frame_limit Mock.apdu_encoder Mock.plain_codec
       Mock.null_cipher (Mock.authenticated_context 1 T_AES (repeat 0x00 16) DACEV2)
       DACEV2 false false
       (mkTransport
          [Mock.card_says 0xAF (repeat 0xB0 16);
           Mock.card_says 0x00 (rol RndA_init ++ repeat 0x00 16)] [])
     = Some (t', dctx', PM3_SUCCESS) /\
     (cmdCntr dctx' = 7 /\ TI dctx' = [0x41; 0x42; 0x43; 0x44]) /\
     (exists fs, raw_frames (events t') = [] ++ [0x77; 0x01] :: fs)).
Proof.
  split.
  - eexists. eexists. split; [vm_compute; reflexivity|].
    edestruct (@DesfireAuthenticateEV2_first_and_following Mock.frame_limit
                 Mock.apdu_encoder Mock.plain_codec Mock.null_cipher
                 (Mock.authenticated_context 1 T_AES (repeat 0x00 16) DACNone)
                 DACEV2 true false
                 (mkTransport
                    [Mock.card_says 0xAF (repeat 0xB0 16);
                     Mock.card_says 0x00
                       ([0xA1; 0xA2; 0xA3; 0xA4] ++ rol RndA_init ++ repeat 0x00 12)] []))
      as [[t1 [c1 [r1 [_ [_ Hok]]]]] [Hframe _]];
      [vm_compute; reflexivity|].
    split.
    + destruct (Hok eq_refl) as [both [c2 [r2 [ivs [data [_ [_ [Hti _]]]]]]]].
      apply (Hti eq_refl).
    + apply Hframe; [reflexivity | reflexivity | discriminate].
  - eexists. eexists. split; [vm_compute; reflexivity|].
    edestruct (@DesfireAuthenticateEV2_first_and_following Mock.frame_limit
                 Mock.apdu_encoder Mock.plain_codec Mock.null_cipher
                 (Mock.authenticated_context 1 T_AES (repeat 0x00 16) DACEV2)
                 DACEV2 false false
                 (mkTransport
                    [Mock.card_says 0xAF (repeat 0xB0 16);
                     Mock.card_says 0x00 (rol RndA_init ++ repeat 0x00 16)] []))
      as [_ [Hframe Hsame]]; [vm_compute; reflexivity|].
    split.
    + apply (Hsame eq_refl (fun n ti => n = 7 /\ ti = [0x41; 0x42; 0x43; 0x44])).
      * apply Mock_plain_codec_preserves.
      * split; reflexivity.
    + apply Hframe; [reflexivity | reflexivity | discriminate].
Defined.

(** ** File settings, application list and blocks *)

Lemma zget_zdrop (data : list Z) (n i : Z) :
  0 <= n -> 0 <= i -> zget (zdrop n data) i = zget data (n + i).
Proof.
  intros Hn Hi. unfold zget.
  destruct (i <? 0) eqn:Ei; [apply Z.ltb_lt in Ei; lia|].
  destruct (n + i <? 0) eqn:Eni; [apply Z.ltb_lt in Eni; lia|].
  rewrite zdrop_skipn, nth_skipn. f_equal. lia.
Qed.

Lemma MemLeToUint2byte_at (data : list Z) (n : Z) :
  0 <= n ->
  MemLeToUint2byte (zdrop n data) = zget data n + Z.shiftl (zget data (n + 1)) 8.
Proof.
  intros Hn. unfold MemLeToUint2byte. rewrite !zget_zdrop by lia.
  rewrite Z.add_0_r. reflexivity.
Qed.

Section FileSettingsFacts.
Context `{FM : FileCommModes}.

(** The access rights that [DesfireFillFileSettings] decodes. *)
Lemma DesfireFillFileSettings_access data datalen :
  4 <= datalen ->
  let fs := DesfireFillFileSettings data datalen in
  (FileSettings.rAccess fs, FileSettings.wAccess fs, FileSettings.rwAccess fs,
   FileSettings.chAccess fs) = DesfireDecodeFileAcessMode (zdrop 2 data) /\
  FileSettings.rawAccessRights fs = MemLeToUint2byte (zdrop 2 data).
Proof.
  intros Hlen fs. subst fs. unfold DesfireFillFileSettings.
  destruct (datalen <? 4) eqn:E4; [apply Z.ltb_lt in E4; lia|].
  cbv zeta.
  destruct (DesfireDecodeFileAcessMode (zdrop 2 data)) as [[[r w] rw] ch].
  repeat match goal with
  | |- context [if ?b then _ else _] => destruct b
  end; split; reflexivity.
Qed.

(** X9.  The access rights that [DesfireFillFileSettings] decodes from bytes
    2 and 3 of the answer: each of the four rights is a nibble, the raw
    value is [ch + 16 rw + 256 w + 4096 r], and encoding the four rights
    with [DesfireEncodeFileAcessMode] gives bytes 2 and 3 back. *)
Theorem DesfireFillFileSettings_access_rights data datalen :
  4 <= datalen ->
  0 <= zget data 2 < 256 ->
  0 <= zget data 3 < 256 ->
  let fs := DesfireFillFileSettings data datalen in
  let r := FileSettings.rAccess fs in
  let w := FileSettings.wAccess fs in
  let rw := FileSettings.rwAccess fs in
  let ch := FileSettings.chAccess fs in
  (0 <= r < 16 /\ 0 <= w < 16 /\ 0 <= rw < 16 /\ 0 <= ch < 16) /\
  FileSettings.rawAccessRights fs = ch + 16 * rw + 256 * w + 4096 * r /\
  DesfireEncodeFileAcessMode r w rw ch = [zget data 2; zget data 3].
Proof.
  intros Hlen H2 H3 fs r w rw ch.
  destruct (DesfireFillFileSettings_access data datalen Hlen) as [Hacc Hraw].
  fold fs in Hacc, Hraw. fold r w rw ch in Hacc.
  unfold DesfireDecodeFileAcessMode in Hacc.
  rewrite !zget_zdrop in Hacc by lia. cbn [Z.add Pos.add Pos.succ] in Hacc.
  change (2 + 1) with 3 in Hacc. change (2 + 0) with 2 in Hacc.
  injection Hacc as Hr Hw Hrw Hch.
  rewrite MemLeToUint2byte_at in Hraw by lia. change (2 + 1) with 3 in Hraw.
  assert (Hnib : forall x, 0 <= x < 256 ->
            Z.land x 0x0f = x mod 16 /\ Z.land (Z.shiftr x 4) 0x0f = x / 16).
  { intros x Hx. change 0x0f with (Z.ones 4). rewrite !Z.land_ones by lia.
    rewrite Z.shiftr_div_pow2 by lia. change (2 ^ 4) with 16.
    split; [reflexivity|]. apply Z.mod_small.
    Z.to_euclidean_division_equations. lia. }
  destruct (Hnib _ H2) as [Hlo2 Hhi2]. destruct (Hnib _ H3) as [Hlo3 Hhi3].
  split; [|split].
  - rewrite Hr, Hw, Hrw, Hch, Hlo2, Hhi2, Hlo3, Hhi3.
    repeat split; Z.to_euclidean_division_equations; lia.
  - rewrite Hraw, Hr, Hw, Hrw, Hch, Hlo2, Hhi2, Hlo3, Hhi3.
    rewrite Z.shiftl_mul_pow2 by lia. change (2 ^ 8) with 256.
    Z.to_euclidean_division_equations. lia.
  - rewrite Hr, Hw, Hrw, Hch. unfold DesfireEncodeFileAcessMode.
    rewrite !nibbles_repack by assumption. reflexivity.
Qed.

End FileSettingsFacts.

Lemma AppListSearchAID_loop_spec n : forall i num L,
  0 <= i ->
  let r := AppListSearchAID_loop n i num L in
  (r = -1 \/ (i <= r < i + Z.of_nat n /\
              appNum (nth (Z.to_nat r) L (mkApp 0)) = num)) /\
  (forall j, i <= j < (if r =? -1 then i + Z.of_nat n else r) ->
     appNum (nth (Z.to_nat j) L (mkApp 0)) <> num).
Proof.
  induction n as [|n IH]; intros i num L Hi r; subst r.
  - cbn [AppListSearchAID_loop]. split; [left; reflexivity|].
    change (-1 =? -1) with true. cbv iota. intros j Hj. lia.
  - cbn [AppListSearchAID_loop].
    destruct (appNum (nth (Z.to_nat i) L (mkApp 0)) =? num) eqn:E.
    + apply Z.eqb_eq in E. split.
      * right. split; [lia | exact E].
      * destruct (i =? -1) eqn:Ei; [apply Z.eqb_eq in Ei; lia|]. intros j Hj. lia.
    + apply Z.eqb_neq in E.
      destruct (IH (i + 1) num L ltac:(lia)) as [Hres Hbefore].
      split.
      * destruct Hres as [Hm | [Hrange Hfound]]; [left; exact Hm|].
        right. split; [lia | exact Hfound].
      * intros j Hj.
        destruct (Z.eq_dec j i) as [-> | Hji]; [exact E|].
        apply Hbefore.
        destruct (AppListSearchAID_loop n (i + 1) num L =? -1); lia.
Qed.

(** X11.  [AppListSearchAID] returns -1 or the index of an entry with the
    AID looked for, and no entry before the index it returns (none of the
    first [appcount], when it returns -1) has that AID: it finds the first
    match. *)
Theorem AppListSearchAID_first_match num L appcount :
  0 <= appcount <= zlen L ->
  let r := AppListSearchAID num L appcount in
  (r = -1 \/ (0 <= r < appcount /\ appNum (nth (Z.to_nat r) L (mkApp 0)) = num)) /\
  (forall j, 0 <= j < (if r =? -1 then appcount else r) ->
     appNum (nth (Z.to_nat j) L (mkApp 0)) <> num).
Proof.
  intros Hc r. subst r. unfold AppListSearchAID.
  destruct (AppListSearchAID_loop_spec (Z.to_nat appcount) 0 num L (Z.le_refl 0))
    as [Hres Hbefore].
  rewrite Z2Nat.id, Z.add_0_l in * by lia.
  split; assumption.
Qed.

Lemma zlen_slice_inside (buf : list Z) (pos len : Z) :
  0 <= pos -> 0 <= len -> pos + len <= zlen buf -> zlen (slice buf pos len) = len.
Proof.
  intros Hpos Hlen Hin. unfold slice. apply zlen_ztake.
  rewrite zlen_zdrop by lia. lia.
Qed.

Lemma DesfireJoinBlockToBytes_loop_concat n : forall i blockdata size acc tail,
  0 <= i -> 0 <= size ->
  (forall j, i <= j < i + Z.of_nat n ->
     0 <= zget blockdata (j * size) /\
     j * size + 1 + zget blockdata (j * size) <= zlen blockdata) ->
  exists tail',
    DesfireJoinBlockToBytes_loop n i blockdata size (acc ++ tail) (zlen acc) =
    (acc ++ concat (map (fun j => block_data blockdata size (i + j)) (indices (Z.of_nat n)))
       ++ tail',
     zlen acc
       + zlen (concat (map (fun j => block_data blockdata size (i + j))
                         (indices (Z.of_nat n))))).
Proof.
  induction n as [|n IH]; intros i blockdata size acc tail Hi Hsize Hblocks.
  - exists tail. cbn [DesfireJoinBlockToBytes_loop]. unfold indices.
    cbn. change (zlen (@nil Z)) with 0. rewrite Z.add_0_r. reflexivity.
  - cbn [DesfireJoinBlockToBytes_loop]. cbv zeta.
    fold (block_data blockdata size i).
    destruct (Hblocks i ltac:(lia)) as [Hlen0 Hin].
    assert (Hpiece : zlen (block_data blockdata size i) = zget blockdata (i * size)).
    { unfold block_data. apply zlen_slice_inside; nia. }
    rewrite memcpy_behind.
    rewrite <- Hpiece.
    replace (zlen acc + zlen (block_data blockdata size i))
      with (zlen (acc ++ block_data blockdata size i)) by apply zlen_app.
    replace (acc ++ block_data blockdata size i
               ++ zdrop (zlen (block_data blockdata size i)) tail)
      with ((acc ++ block_data blockdata size i)
              ++ zdrop (zlen (block_data blockdata size i)) tail)
      by (rewrite <- app_assoc; reflexivity).
    destruct (IH (i + 1) blockdata size (acc ++ block_data blockdata size i)
                (zdrop (zlen (block_data blockdata size i)) tail) ltac:(lia) Hsize)
      as [tail' Hrun].
    { intros j Hj. apply Hblocks. lia. }
    exists tail'. rewrite Hrun.
    assert (Hidx : indices (Z.of_nat (S n)) = 0 :: map (fun j => 1 + j) (indices (Z.of_nat n))).
    { unfold indices. rewrite !Nat2Z.id. cbn [seq map].
      change (Z.of_nat 0) with 0. f_equal.
      rewrite <- seq_shift, !map_map. apply map_ext. intros a. lia. }
    rewrite Hidx. cbn [map concat]. rewrite Z.add_0_r, map_map.
    assert (Hext : map (fun x => block_data blockdata size (i + (1 + x))) (indices (Z.of_nat n))
                   = map (fun j => block_data blockdata size (i + 1 + j)) (indices (Z.of_nat n))).
    { apply map_ext. intros a. f_equal. lia. }
    rewrite Hext. rewrite <- !app_assoc, !zlen_app. f_equal. lia.
Qed.

(** X12.  [DesfireJoinBlockToBytes] on blocks [<length, data>] that lie in the
    buffer: the joined bytes are the data of block 0, block 1, ... in
    order, and the length is the sum of the length bytes. *)
Theorem DesfireJoinBlockToBytes_concat blockdata count size dst :
  0 <= count -> 0 <= size ->
  (forall j, 0 <= j < count ->
     0 <= zget blockdata (j * size) /\
     j * size + 1 + zget blockdata (j * size) <= zlen blockdata) ->
  let joined := concat (map (block_data blockdata size) (indices count)) in
  snd (DesfireJoinBlockToBytes blockdata count size dst) = zlen joined /\
  ztake (zlen joined) (fst (DesfireJoinBlockToBytes blockdata count size dst)) = joined.
Proof.
  intros Hc Hsize Hblocks joined. unfold DesfireJoinBlockToBytes.
  destruct (DesfireJoinBlockToBytes_loop_concat (Z.to_nat count) 0 blockdata size [] dst
              (Z.le_refl 0) Hsize) as [tail' Hrun].
  { intros j Hj. apply Hblocks. lia. }
  cbn [app] in Hrun. change (zlen (@nil Z)) with 0 in Hrun.
  rewrite Z2Nat.id in Hrun by lia.
  assert (Hext : map (fun j => block_data blockdata size (0 + j)) (indices count)
                 = map (block_data blockdata size) (indices count)).
  { apply map_ext. intros a. reflexivity. }
  rewrite Hext in Hrun. fold joined in Hrun. rewrite Hrun. cbn [fst snd].
  split; [reflexivity|]. apply ztake_app_exact. reflexivity.
Qed.

(** ** Reading a buffer that was written into *)

Lemma zget_nth (buf : list Z) (q : Z) : 0 <= q -> zget buf q = nth (Z.to_nat q) buf 0.
Proof.
  intros Hq. unfold zget. destruct (q <? 0) eqn:E; [apply Z.ltb_lt in E; lia | reflexivity].
Qed.

Lemma memcpy_inside (buf src : list Z) (pos : Z) :
  0 <= pos -> pos + zlen src <= zlen buf ->
  memcpy buf pos src = ztake pos buf ++ src ++ zdrop (pos + zlen src) buf.
Proof.
  intros Hpos Hin. pose proof (zlen_nonneg src). unfold memcpy.
  rewrite zeros_nonpos by lia. rewrite app_nil_r. reflexivity.
Qed.

Lemma zlen_memcpy_inside (buf src : list Z) (pos : Z) :
  0 <= pos -> pos + zlen src <= zlen buf -> zlen (memcpy buf pos src) = zlen buf.
Proof.
  intros Hpos Hin. pose proof (zlen_nonneg src). rewrite zlen_memcpy by lia. lia.
Qed.

Lemma zget_memcpy_outside (buf src : list Z) (pos q : Z) :
  0 <= pos -> pos + zlen src <= zlen buf ->
  q < pos \/ pos + zlen src <= q ->
  zget (memcpy buf pos src) q = zget buf q.
Proof.
  intros Hpos Hin Hq. pose proof (zlen_nonneg src) as Hs.
  destruct (Z.lt_ge_cases q 0) as [Hneg | Hnn].
  { unfold zget. apply Z.ltb_lt in Hneg. rewrite Hneg. reflexivity. }
  rewrite (memcpy_inside buf src pos Hpos Hin), !zget_nth by lia.
  rewrite ztake_firstn, zdrop_skipn.
  assert (Hlt : (length (firstn (Z.to_nat pos) buf) = Z.to_nat pos)%nat).
  { rewrite length_firstn. unfold zlen in Hin. lia. }
  destruct Hq as [Hq | Hq].
  - rewrite app_nth1 by lia. rewrite nth_firstn.
    destruct (Z.to_nat q <? Z.to_nat pos)%nat eqn:E; [reflexivity|].
    apply Nat.ltb_ge in E. lia.
  - rewrite app_nth2 by lia. rewrite app_nth2 by (unfold zlen in *; lia).
    rewrite nth_skipn. f_equal. unfold zlen in *. lia.
Qed.

Lemma slice_memcpy_same (buf src : list Z) (pos : Z) :
  0 <= pos -> pos + zlen src <= zlen buf ->
  slice (memcpy buf pos src) pos (zlen src) = src.
Proof.
  intros Hpos Hin. pose proof (zlen_nonneg src) as Hs.
  rewrite (memcpy_inside buf src pos Hpos Hin).
  unfold slice. rewrite zdrop_app_exact by (rewrite zlen_ztake_min by lia; lia).
  apply ztake_app_exact. reflexivity.
Qed.

Lemma zget_poke_same (buf : list Z) (pos v : Z) :
  0 <= pos < zlen buf -> zget (poke buf pos v) pos = v.
Proof.
  intros Hpos. unfold poke.
  rewrite (memcpy_inside buf [v] pos) by (change (zlen [v]) with 1; lia).
  rewrite zget_nth by lia. rewrite ztake_firstn.
  assert (Hlt : (length (firstn (Z.to_nat pos) buf) = Z.to_nat pos)%nat).
  { rewrite length_firstn. unfold zlen in Hpos. lia. }
  rewrite app_nth2 by lia. rewrite Hlt, Nat.sub_diag. reflexivity.
Qed.

(** Two buffers that agree on a range have the same slice there. *)
Lemma slice_ext (a b : list Z) (p l : Z) :
  0 <= p -> 0 <= l -> p + l <= zlen a -> p + l <= zlen b ->
  (forall q, p <= q < p + l -> zget a q = zget b q) ->
  slice a p l = slice b p l.
Proof.
  intros Hp Hl Ha Hb Hext. unfold slice. rewrite !ztake_firstn, !zdrop_skipn.
  apply (nth_ext _ _ 0 0).
  - rewrite !length_firstn, !length_skipn. unfold zlen in *. lia.
  - intros k Hk. rewrite length_firstn, length_skipn in Hk.
    rewrite !nth_firstn.
    destruct (k <? Z.to_nat l)%nat eqn:E; [|reflexivity].
    apply Nat.ltb_lt in E.
    rewrite !nth_skipn.
    specialize (Hext (p + Z.of_nat k) ltac:(unfold zlen in *; lia)).
    rewrite !zget_nth in Hext by lia.
    replace (Z.to_nat (p + Z.of_nat k)) with (Z.to_nat p + k)%nat in Hext by lia.
    exact Hext.
Qed.

Lemma u8_small (x : Z) : 0 <= x < 256 -> u8 x = x.
Proof.
  intros Hx. unfold u8. change 0xff with (Z.ones 8). rewrite Z.land_ones by lia.
  apply Z.mod_small. change (2 ^ 8) with 256. lia.
Qed.

Lemma firstn_plus {A : Type} (a b : nat) : forall l : list A,
  firstn (a + b) l = firstn a l ++ firstn b (skipn a l).
Proof.
  induction a as [|a IH]; intros l; [reflexivity|].
  destruct l as [|x l]; [destruct b; reflexivity|].
  cbn [Nat.add firstn skipn app]. rewrite IH. reflexivity.
Qed.

Lemma slice_slice_app (buf : list Z) (p l m : Z) :
  0 <= p -> 0 <= l -> 0 <= m ->
  slice buf p l ++ slice buf (p + l) m = slice buf p (l + m).
Proof.
  intros Hp Hl Hm. unfold slice. rewrite !ztake_firstn, !zdrop_skipn.
  replace (Z.to_nat (p + l)) with (Z.to_nat l + Z.to_nat p)%nat by lia.
  rewrite <- skipn_skipn.
  replace (Z.to_nat (l + m)) with (Z.to_nat l + Z.to_nat m)%nat by lia.
  symmetry. apply firstn_plus.
Qed.

Lemma block_lengths_ext n : forall i a b size,
  0 <= i -> 0 <= size ->
  (forall j, i <= j < i + Z.of_nat n -> zget a (j * size) = zget b (j * size)) ->
  block_lengths n i a size = block_lengths n i b size.
Proof.
  induction n as [|n IH]; intros i a b size Hi Hsize Hext; [reflexivity|].
  cbn [block_lengths]. rewrite (Hext i) by lia. f_equal.
  apply IH; [lia | lia |]. intros j Hj. apply Hext. lia.
Qed.

Lemma block_lengths_nonneg n : forall i a size,
  (forall j, i <= j < i + Z.of_nat n -> 0 <= zget a (j * size)) ->
  0 <= block_lengths n i a size.
Proof.
  induction n as [|n IH]; intros i a size Hnn; [cbn; lia|].
  cbn [block_lengths]. pose proof (Hnn i ltac:(lia)).
  assert (0 <= block_lengths n (i + 1) a size) by (apply IH; intros j Hj; apply Hnn; lia).
  lia.
Qed.

(** ** Split and join *)

Section SplitJoin.
Variables (count size : Z) (dst : list Z) (dstlen : Z).
Hypothesis Hsize : 1 <= size.
Hypothesis Hdst : 0 <= dstlen <= zlen dst.

(** One block of the split: the buffer after the writes of an iteration of
    [DesfireSplitBytesToBlock] that stores [piece] in block [i], with or
    without a new length byte. *)
Lemma split_block_written (bd : list Z) (i : Z) (newlen : option Z) (piece : list Z) :
  0 <= i -> (i + 1) * size <= zlen bd ->
  zlen piece <= size - 1 ->
  let bd1 := memset bd (i * size + 1) 0 (size - 1) in
  let bd2 := match newlen with Some v => poke bd1 (i * size) v | None => bd1 end in
  let bd3 := memcpy bd2 (i * size + 1) piece in
  zlen bd2 = zlen bd /\ zlen bd3 = zlen bd /\
  zget bd1 (i * size) = zget bd (i * size) /\
  (forall q, q < i * size \/ (i + 1) * size <= q -> zget bd2 q = zget bd q) /\
  (forall q, q < i * size \/ (i + 1) * size <= q -> zget bd3 q = zget bd q) /\
  zget bd2 (i * size) = match newlen with Some v => v | None => zget bd (i * size) end /\
  zget bd3 (i * size) = match newlen with Some v => v | None => zget bd (i * size) end /\
  slice bd3 (i * size + 1) (zlen piece) = piece.
Proof.
  intros Hi Hin Hpiece bd1 bd2 bd3.
  pose proof (zlen_nonneg piece) as Hp0.
  assert (Hbase : 0 <= i * size) by nia.
  assert (Hend : i * size + size <= zlen bd) by nia.
  assert (Hz : zlen (repeat 0 (Z.to_nat (size - 1))) = size - 1).
  { unfold zlen. rewrite repeat_length. lia. }
  assert (H1len : zlen bd1 = zlen bd).
  { subst bd1. unfold memset. apply zlen_memcpy_inside; lia. }
  assert (H1out : forall q, q <= i * size \/ (i + 1) * size <= q -> zget bd1 q = zget bd q).
  { intros q Hq. subst bd1. unfold memset. apply zget_memcpy_outside; lia. }
  assert (H2len : zlen bd2 = zlen bd).
  { subst bd2. destruct newlen as [v|]; [|exact H1len].
    unfold poke. rewrite zlen_memcpy_inside; [exact H1len | lia |].
    change (zlen [v]) with 1. lia. }
  assert (H2out : forall q, q < i * size \/ (i + 1) * size <= q -> zget bd2 q = zget bd q).
  { intros q Hq. subst bd2. destruct newlen as [v|]; [|apply H1out; lia].
    unfold poke. rewrite zget_memcpy_outside; [apply H1out; lia | lia | |];
      change (zlen [v]) with 1; lia. }
  assert (H2at : zget bd2 (i * size) =
                 match newlen with Some v => v | None => zget bd (i * size) end).
  { subst bd2. destruct newlen as [v|]; [|apply H1out; lia].
    apply zget_poke_same. lia. }
  assert (H3len : zlen bd3 = zlen bd).
  { subst bd3. rewrite zlen_memcpy_inside; [exact H2len | lia | lia]. }
  repeat split; try assumption.
  - apply H1out. lia.
  - intros q Hq. subst bd3. rewrite zget_memcpy_outside by lia. apply H2out, Hq.
  - subst bd3. rewrite zget_memcpy_outside by lia. exact H2at.
  - subst bd3. apply slice_memcpy_same; lia.
Qed.

Lemma DesfireSplitBytesToBlock_loop_join n : forall i bd len,
  0 <= i -> i + Z.of_nat n = count ->
  count * size <= zlen bd ->
  0 <= len <= dstlen ->
  (forall j, i <= j < count ->
     0 <= zget bd (j * size) <= size - 1 /\ zget bd (j * size) < 256) ->
  exists bd' cnt' n',
    DesfireSplitBytesToBlock_loop n i bd count size dst dstlen len = (bd', cnt') /\
    i <= cnt' <= count /\
    zlen bd' = zlen bd /\
    (forall q, q < i * size -> zget bd' q = zget bd q) /\
    len <= n' <= dstlen /\
    (forall acc tail, exists tail',
       DesfireJoinBlockToBytes_loop (Z.to_nat (cnt' - i)) i bd' size (acc ++ tail) (zlen acc) =
       (acc ++ slice dst len (n' - len) ++ tail', zlen acc + (n' - len))) /\
    ((forall j, i <= j < count -> 0 < zget bd (j * size)) ->
     n' = Z.min dstlen (len + block_lengths n i bd size)).
Proof.
  induction n as [|n IH]; intros i bd len Hi Hcount Hbuf Hlen Hblocks.
  - exists bd, count, len. cbn [DesfireSplitBytesToBlock_loop block_lengths].
    replace (count - i) with 0 by lia. rewrite Z.sub_diag.
    repeat split; try lia.
    + intros acc tail. exists tail. cbn [Z.to_nat DesfireJoinBlockToBytes_loop].
      unfold slice. rewrite ztake_firstn. cbn [Z.to_nat firstn app].
      rewrite Z.add_0_r. reflexivity.
  - destruct (Hblocks i ltac:(lia)) as [[HL0 HLs] HLb].
    set (L := zget bd (i * size)) in *.
    assert (Hin : (i + 1) * size <= zlen bd) by nia.
    (* the block after the iteration that stores [L'] bytes in it *)
    assert (Hstep : forall newlen L',
              0 <= L' <= size - 1 -> len + L' <= dstlen ->
              L' = match newlen with Some v => v | None => L end ->
              L' <> 0 ->
              let bd1 := memset bd (i * size + 1) 0 (size - 1) in
              let bd2 := match newlen with Some v => poke bd1 (i * size) v | None => bd1 end in
              let bd3 := memcpy bd2 (i * size + 1) (slice dst len L') in
              exists bd' cnt' n',
                DesfireSplitBytesToBlock_loop n (i + 1) bd3 count size dst dstlen (len + L')
                  = (bd', cnt') /\
                i <= cnt' <= count /\
                zlen bd' = zlen bd /\
                (forall q, q < i * size -> zget bd' q = zget bd q) /\
                len <= n' <= dstlen /\
                (forall acc tail, exists tail',
                   DesfireJoinBlockToBytes_loop (Z.to_nat (cnt' - i)) i bd' size
                     (acc ++ tail) (zlen acc) =
                   (acc ++ slice dst len (n' - len) ++ tail', zlen acc + (n' - len))) /\
                ((forall j, i <= j < count -> 0 < zget bd (j * size)) ->
                 n' = Z.min dstlen (len + L' + block_lengths n (i + 1) bd size))).
    { intros newlen L' HL' Hfit Hnew Hnz bd1 bd2 bd3.
      assert (Hpl : zlen (slice dst len L') = L') by (apply zlen_slice_inside; lia).
      destruct (split_block_written bd i newlen (slice dst len L') Hi Hin ltac:(lia))
        as (_ & H3len & _ & _ & H3out & _ & H3at & H3slice).
      fold bd1 bd2 bd3 in H3len, H3out, H3at, H3slice.
      fold L in H3at. rewrite <- Hnew in H3at. rewrite Hpl in H3slice.
      destruct (IH (i + 1) bd3 (len + L') ltac:(lia) ltac:(lia) ltac:(lia) ltac:(lia))
        as (bd' & cnt' & n' & Hrun & Hcnt & Hlen' & Hframe & Hn' & Hjoin & Htotal).
      { intros j Hj. rewrite H3out by (right; nia). apply Hblocks. lia. }
      exists bd', cnt', n'. split; [exact Hrun|].
      split; [lia|]. split; [lia|].
      split.
      { intros q Hq. rewrite Hframe by nia. apply H3out. left. exact Hq. }
      split; [lia|].
      split.
      { intros acc tail.
        replace (Z.to_nat (cnt' - i)) with (S (Z.to_nat (cnt' - (i + 1)))) by lia.
        cbn [DesfireJoinBlockToBytes_loop]. cbv zeta.
        assert (Hb : zget bd' (i * size) = L').
        { rewrite Hframe by nia. exact H3at. }
        rewrite Hb.
        assert (Hs : slice bd' (i * size + 1) L' = slice dst len L').
        { rewrite <- H3slice. apply slice_ext; try nia.
          intros q Hq. apply Hframe. nia. }
        rewrite Hs, memcpy_behind, Hpl.
        destruct (Hjoin (acc ++ slice dst len L') (zdrop L' tail)) as [tail' Hj].
        exists tail'.
        rewrite zlen_app, Hpl in Hj. rewrite <- app_assoc in Hj. rewrite Hj.
        rewrite <- !app_assoc. f_equal; [|lia].
        f_equal. rewrite app_assoc. f_equal.
        replace (n' - len) with (L' + (n' - (len + L'))) by lia.
        apply slice_slice_app; lia. }
      intros Hpos. rewrite Htotal.
      - rewrite (block_lengths_ext n (i + 1) bd3 bd size); [lia | lia | lia |].
        intros j Hj. apply H3out. right. nia.
      - intros j Hj. rewrite H3out by (right; nia). apply Hpos. lia. }
    (* the iteration *)
    cbn [DesfireSplitBytesToBlock_loop block_lengths]. cbv zeta.
    destruct (split_block_written bd i None [] Hi Hin ltac:(change (zlen (@nil Z)) with 0; lia))
      as (_ & _ & H1at & _).
    cbv zeta in H1at. rewrite H1at. fold L.
    assert (Hrest0 : (forall j, i <= j < count -> 0 < zget bd (j * size)) ->
                     0 <= block_lengths n (i + 1) bd size).
    { intros Hpos. apply block_lengths_nonneg. intros j Hj.
      pose proof (Hpos j ltac:(lia)). lia. }
    destruct (len + L >? dstlen) eqn:Eover.
    + (* the data ends in this block *)
      apply Z.gtb_lt in Eover.
      replace (dstlen >=? len) with true by (symmetry; rewrite Z.geb_leb; apply Z.leb_le; lia).
      rewrite u8_small by lia.
      destruct (len =? dstlen) eqn:Eend.
      * apply Z.eqb_eq in Eend.
        destruct (split_block_written bd i (Some (dstlen - len)) [] Hi Hin
                    ltac:(change (zlen (@nil Z)) with 0; lia))
          as (H2len & _ & _ & H2out & _).
        cbv zeta in H2len, H2out.
        eexists. exists i, len. split; [reflexivity|].
        rewrite !Z.sub_diag. repeat split; try lia.
        -- intros q Hq. apply H2out. left. exact Hq.
        -- intros acc tail. exists tail. cbn [Z.to_nat DesfireJoinBlockToBytes_loop].
           unfold slice. rewrite ztake_firstn. cbn [Z.to_nat firstn app].
           rewrite Z.add_0_r. reflexivity.
        -- intros Hpos. specialize (Hrest0 Hpos). lia.
      * apply Z.eqb_neq in Eend.
        destruct (Hstep (Some (dstlen - len)) (dstlen - len) ltac:(lia) ltac:(lia) eq_refl
                    ltac:(lia))
          as (bd' & cnt' & n' & Hrun & Hcnt & Hlen' & Hframe & Hn' & Hjoin & Htotal).
        cbv zeta in Hrun.
        replace (len + (dstlen - len)) with dstlen in Hrun by lia.
        exists bd', cnt', n'. split; [exact Hrun|].
        repeat split; try assumption; try lia.
        intros Hpos. specialize (Hrest0 Hpos). rewrite (Htotal Hpos). lia.
    + (* the block is filled *)
      rewrite Z.gtb_ltb in Eover. apply Z.ltb_ge in Eover.
      destruct (len =? len + L) eqn:Eend.
      * apply Z.eqb_eq in Eend.
        destruct (split_block_written bd i None [] Hi Hin
                    ltac:(change (zlen (@nil Z)) with 0; lia))
          as (H2len & _ & _ & H2out & _).
        cbv zeta in H2len, H2out.
        eexists. exists i, len. split; [reflexivity|].
        rewrite !Z.sub_diag. repeat split; try lia.
        -- intros q Hq. apply H2out. left. exact Hq.
        -- intros acc tail. exists tail. cbn [Z.to_nat DesfireJoinBlockToBytes_loop].
           unfold slice. rewrite ztake_firstn. cbn [Z.to_nat firstn app].
           rewrite Z.add_0_r. reflexivity.
        -- intros Hpos. pose proof (Hpos i ltac:(lia)). fold L in H. lia.
      * apply Z.eqb_neq in Eend.
        destruct (Hstep None L ltac:(lia) ltac:(lia) eq_refl ltac:(lia))
          as (bd' & cnt' & n' & Hrun & Hcnt & Hlen' & Hframe & Hn' & Hjoin & Htotal).
        cbv zeta in Hrun.
        replace (len + L - len) with L by lia.
        exists bd', cnt', n'. split; [exact Hrun|].
        repeat split; try assumption; try lia.
        intros Hpos. rewrite (Htotal Hpos). lia.
Qed.

End SplitJoin.

(** X13.  Split and join are inverse on the bytes that fit: after
    [DesfireSplitBytesToBlock] has distributed [data] over the blocks
    (keeping their length bytes, but for the block in which the data end),
    [DesfireJoinBlockToBytes] on the blocks it left returns a prefix of
    [data]; and when no block has length 0, that prefix has
    [min datalen (sum of the block lengths)] bytes - all of [data] when the
    blocks have room for it. *)
Theorem DesfireSplitBytesToBlock_join blockdata count size data datalen out :
  1 <= size -> 0 <= count ->
  count * size <= zlen blockdata ->
  0 <= datalen <= zlen data ->
  (forall j, 0 <= j < count ->
     0 <= zget blockdata (j * size) <= size - 1 /\ zget blockdata (j * size) < 256) ->
  let split := DesfireSplitBytesToBlock blockdata count size data datalen in
  let joined := DesfireJoinBlockToBytes (fst split) (snd split) size out in
  0 <= snd split <= count /\
  0 <= snd joined <= datalen /\
  ztake (snd joined) (fst joined) = ztake (snd joined) data /\
  ((forall j, 0 <= j < count -> 0 < zget blockdata (j * size)) ->
   snd joined = Z.min datalen (block_lengths (Z.to_nat count) 0 blockdata size)).
Proof.
  intros Hsize Hcount Hbuf Hdata Hblocks split joined.
  destruct (DesfireSplitBytesToBlock_loop_join count size data datalen Hsize Hdata
              (Z.to_nat count) 0 blockdata 0 (Z.le_refl 0) ltac:(lia) Hbuf ltac:(lia) Hblocks)
    as (bd' & cnt' & n' & Hrun & Hcnt & _ & _ & Hn' & Hjoin & Htotal).
  destruct (Hjoin [] out) as [tail' Hj].
  subst joined split. unfold DesfireSplitBytesToBlock, DesfireJoinBlockToBytes.
  rewrite Hrun. cbn [fst snd].
  rewrite Z.sub_0_r in Hj. cbn [app] in Hj. change (zlen (@nil Z)) with 0 in Hj.
  rewrite Hj. cbn [fst snd].
  unfold slice. rewrite zdrop_0, Z.add_0_l, Z.sub_0_r.
  split; [lia|]. split; [lia|]. split.
  - rewrite ztake_app_exact; [reflexivity|].
    rewrite zlen_ztake_min by lia. lia.
  - intros Hpos. rewrite (Htotal Hpos). reflexivity.
Qed.

(** ** More rules for [ends] *)

Lemma ends_fn body (Q : Transport -> DesfireContext -> Outcome Z -> Prop) t c :
  ends body (fun t' c' o => Q t' c' (Next (code_of o))) t c ->
  ends (fn body) Q t c.
Proof.
  intros Hb t' c' o. unfold fn.
  destruct (body t c) as [[[t1 c1] o1]|] eqn:E; [|discriminate].
  intros [= <- <- <-]. exact (Hb _ _ _ E).
Qed.

Lemma ends_send_apdu `{ApduEncoder} activate apdu le max Q t c :
  Q (fst (DESFIRESendApduEx activate apdu le max t)) c
    (Next (snd (DESFIRESendApduEx activate apdu le max t))) ->
  ends (send_apdu activate apdu le max) Q t c.
Proof.
  intros HQ t' c' o. unfold send_apdu.
  destruct (DESFIRESendApduEx activate apdu le max t) as [t1 r].
  intros [= <- <- <-]. exact HQ.
Qed.

Lemma ends_crypto_encdec `{DesfireContextCrypto} use src srclen encode Q t c :
  Q t (fst (DesfireCryptoEncDec c use src srclen encode))
    (Next (snd (DesfireCryptoEncDec c use src srclen encode))) ->
  ends (crypto_encdec use src srclen encode) Q t c.
Proof.
  intros HQ t' c' o. unfold crypto_encdec.
  destruct (DesfireCryptoEncDec c use src srclen encode) as [c1 out].
  intros [= <- <- <-]. exact HQ.
Qed.

(** One step of a run, with the calls of this part. *)
Ltac run_step' :=
  first
    [ run_step
    | lazymatch goal with
      | |- ends (fn _) _ _ _ => apply ends_fn
      | |- ends (send_apdu _ _ _ _) _ _ _ => apply ends_send_apdu; cbv beta iota
      | |- ends (crypto_encdec _ _ _ _) _ _ _ => apply ends_crypto_encdec; cbv beta iota
      end ].

(** ** The command wrappers *)

Section CreateFile.
Context `{FL : FrameLimit} `{AE : ApduEncoder} `{SC : SecureChannelCodec}.

(** X14.  [DesfireCreateFile] sends nothing and returns -100 for a file type
    outside 0..5, and, when the length is checked, -110 for a settings
    length other than 7 or 9 (standard, backup), 17 (value), 10 or 12
    (linear, cyclic record), 22 (transaction MAC); in both cases the
    transport and the context are untouched.  Otherwise it is the create
    command of the type (0xCD, 0xCB, 0xCC, 0xC1, 0xC0, 0xCE) with the
    settings as data. *)
Theorem DesfireCreateFile_checks ftype fdata fdatalen checklen t c :
  let accepted :=
    ((ftype = 0x00 \/ ftype = 0x01) /\ (fdatalen = 7 \/ fdatalen = 9)) \/
    (ftype = 0x02 /\ fdatalen = 17) \/
    ((ftype = 0x03 \/ ftype = 0x04) /\ (fdatalen = 10 \/ fdatalen = 12)) \/
    (ftype = 0x05 /\ fdatalen = 22) in
  let command :=
    if ftype =? 0x00 then MFDES_CREATE_STD_DATA_FILE
    else if ftype =? 0x01 then MFDES_CREATE_BACKUP_DATA_FILE
    else if ftype =? 0x02 then MFDES_CREATE_VALUE_FILE
    else if ftype =? 0x03 then MFDES_CREATE_LINEAR_RECORD_FILE
    else if ftype =? 0x04 then MFDES_CREATE_CYCLIC_RECORD_FILE
    else MFDES_CREATE_TRANS_MAC_FILE in
  (~ 0 <= ftype <= 5 ->
   DesfireCreateFile ftype fdata fdatalen checklen t c = Some (t, c, Next (-100))) /\
  (0 <= ftype <= 5 -> checklen = true -> ~ accepted ->
   DesfireCreateFile ftype fdata fdatalen checklen t c = Some (t, c, Next (-110))) /\
  (0 <= ftype <= 5 -> checklen = false \/ accepted ->
   DesfireCreateFile ftype fdata fdatalen checklen t c =
   DesfireCommandTxData command (ztake fdatalen fdata) t c).
Proof.
  intros accepted command.
  assert (Hnone : ~ 0 <= ftype <= 5 -> GetDesfireFileCmdRec ftype = None).
  { intros Hout. unfold GetDesfireFileCmdRec, DesfireFileCommands.
    cbn [find fc_id].
    repeat match goal with
    | |- context [?k =? ftype] =>
      let E := fresh "E" in
      destruct (k =? ftype) eqn:E; [apply Z.eqb_eq in E; lia|]
    end. reflexivity. }
  split; [|split].
  - intros Hout. unfold DesfireCreateFile. rewrite (Hnone Hout). reflexivity.
  - intros Hin Hcheck Hrej. subst checklen. unfold DesfireCreateFile.
    assert (Hcases : ftype = 0 \/ ftype = 1 \/ ftype = 2 \/ ftype = 3 \/ ftype = 4 \/ ftype = 5)
      by lia.
    subst accepted.
    destruct Hcases as [-> | [-> | [-> | [-> | [-> | ->]]]]];
      cbn [GetDesfireFileCmdRec DesfireFileCommands find fc_id fc_createlen fc_mayHaveISOfid
           fc_cmd Z.eqb Pos.eqb andb negb];
      repeat match goal with
      | |- context [fdatalen =? ?k] =>
        let E := fresh "E" in
        destruct (fdatalen =? k) eqn:E;
          [apply Z.eqb_eq in E; exfalso; apply Hrej; cbn in E; lia|]
      end; reflexivity.
  - intros Hin Hok. unfold DesfireCreateFile.
    assert (Hcases : ftype = 0 \/ ftype = 1 \/ ftype = 2 \/ ftype = 3 \/ ftype = 4 \/ ftype = 5)
      by lia.
    subst accepted command.
    destruct Hcases as [-> | [-> | [-> | [-> | [-> | ->]]]]];
      cbn [GetDesfireFileCmdRec DesfireFileCommands find fc_id fc_createlen fc_mayHaveISOfid
           fc_cmd Z.eqb Pos.eqb andb negb];
      (destruct Hok as [-> | Hacc]; [reflexivity|]);
      destruct checklen; cbn [andb]; try reflexivity;
      repeat match goal with
      | |- context [fdatalen =? ?k] =>
        let E := fresh "E" in
        destruct (fdatalen =? k) eqn:E; cbn [negb andb]; try reflexivity;
          apply Z.eqb_neq in E; cbn in E
      end; exfalso; lia.
Qed.

End CreateFile.

Lemma shiftl_8 x : Z.shiftl x 8 = 256 * x.
Proof. rewrite Z.shiftl_mul_pow2 by lia. change (2 ^ 8) with 256. lia. Qed.
Lemma shiftl_16 x : Z.shiftl x 16 = 65536 * x.
Proof. rewrite Z.shiftl_mul_pow2 by lia. change (2 ^ 16) with 65536. lia. Qed.
Lemma shiftl_24 x : Z.shiftl x 24 = 16777216 * x.
Proof. rewrite Z.shiftl_mul_pow2 by lia. change (2 ^ 24) with 16777216. lia. Qed.

Lemma zget_app_front (p r : list Z) (i : Z) :
  0 <= i < zlen p -> zget (p ++ r) i = zget p i.
Proof.
  intros Hi. unfold zget. destruct (i <? 0); [reflexivity|].
  apply app_nth1. unfold zlen in Hi. lia.
Qed.

Section SimpleCommands.
Context `{FL : FrameLimit} `{AE : ApduEncoder} `{SC : SecureChannelCodec}.

(** X15.  [DesfireGetFreeMem] on one answer of the card whose data fit
    [databuf] and whose decoded bytes fit the 257 bytes of [xresp] and
    [resp]: it returns [PM3_SUCCESS] exactly when the status is 0x00 and
    the decoded answer has three bytes, and the free memory is then their
    little-endian 24-bit value; in every other case it returns
    [PM3_EAPDU_FAIL] and the free memory is 0. *)
Theorem DesfireGetFreeMem_answer c t st d crc rs :
  let c1 := fst (DesfireSecureChannelEncode c MFDES_GET_FREE_MEMORY []) in
  let enc := snd (DesfireSecureChannelEncode c MFDES_GET_FREE_MEMORY []) in
  let dec :=
    DesfireSecureChannelDecode c1 (if is_success_status st then d else [])
      (if is_success_status st then st else 0xff) in
  let mem := snd dec in
  cmdSet c = DCCNative ->
  cmdSet c1 = DCCNative ->
  zlen enc + 1 <= DESFIRE_TX_FRAME_MAX_LEN ->
  zlen enc < 1024 ->
  replies t = card_frame st d crc :: rs ->
  zlen crc = 2 ->
  zlen d <= DATABUF_SIZE ->
  zlen mem <= 257 ->
  st <> MFDES_ADDITIONAL_FRAME ->
  DesfireGetFreeMem t c =
  Some (mkTransport rs (events t ++ [EvRaw false (MFDES_GET_FREE_MEMORY :: enc)]),
        fst dec,
        Next (if (st =? MFDES_S_OPERATION_OK) && (zlen mem =? 3)
              then (PM3_SUCCESS,
                    (zget mem 0 + 256 * zget mem 1 + 65536 * zget mem 2) mod 0x100000000)
              else (PM3_EAPDU_FAIL, 0))).
Proof.
  intros c1 enc dec mem Hnat Hnat1 Hfit Hlen Hr Hcrc Hbuf Hdec Hst.
  unfold DesfireGetFreeMem, DesfireCommandRxData, DesfireCommand, bind. cbv zeta.
  rewrite (DesfireCommandEx_one_answer c MFDES_GET_FREE_MEMORY [] (zeros 257) 3 t st d crc rs
             Hnat Hnat1 Hfit Hlen Hr Hcrc Hbuf Hdec Hst).
  cbv zeta. fold c1 enc. fold dec. fold mem. cbv beta iota.
  change (3 <? 0) with false. cbn [orb].
  destruct ((st =? MFDES_S_OPERATION_OK) && (zlen mem =? 3)) eqn:E;
    cbn [cmd_res cmd_resp cmd_resplen]; [|reflexivity].
  apply andb_true_iff in E. destruct E as [_ E3]. apply Z.eqb_eq in E3.
  unfold ret. change (PM3_SUCCESS =? PM3_SUCCESS) with true. cbv iota.
  unfold DesfireAIDByteToUint, u32.
  rewrite !zget_app_front by lia. rewrite shiftl_8, shiftl_16. reflexivity.
Qed.

(** X16.  [DesfireValueFileOperations] sends the file number alone for
    GetValue and the file number followed by the value, four bytes least
    significant first, for every other operation.  On one answer of the
    card whose data fit [databuf] and whose decoded bytes fit the 250 bytes
    of [resp], it returns [PM3_SUCCESS] exactly when the status is 0x00,
    and [*value] is overwritten, with the little-endian value of the
    decoded answer, only when the command succeeded with an answer of four
    bytes. *)
Theorem DesfireValueFileOperations_answer c fid operation value t st d crc rs :
  let data :=
    if operation =? MFDES_GET_VALUE then [fid]
    else [fid; Z.land value 0xff; Z.land (Z.shiftr value 8) 0xff;
          Z.land (Z.shiftr value 16) 0xff; Z.land (Z.shiftr value 24) 0xff] in
  let c1 := fst (DesfireSecureChannelEncode c operation data) in
  let enc := snd (DesfireSecureChannelEncode c operation data) in
  let dec :=
    DesfireSecureChannelDecode c1 (if is_success_status st then d else [])
      (if is_success_status st then st else 0xff) in
  let v := snd dec in
  cmdSet c = DCCNative ->
  cmdSet c1 = DCCNative ->
  zlen enc + 1 <= DESFIRE_TX_FRAME_MAX_LEN ->
  zlen enc < 1024 ->
  replies t = card_frame st d crc :: rs ->
  zlen crc = 2 ->
  zlen d <= DATABUF_SIZE ->
  zlen v <= 250 ->
  st <> MFDES_ADDITIONAL_FRAME ->
  DesfireValueFileOperations fid operation value t c =
  Some (mkTransport rs (events t ++ [EvRaw false (operation :: enc)]),
        fst dec,
        Next (if st =? MFDES_S_OPERATION_OK then PM3_SUCCESS else PM3_EAPDU_FAIL,
              if (st =? MFDES_S_OPERATION_OK) && (zlen v =? 4)
              then zget v 0 + 256 * zget v 1 + 65536 * zget v 2 + 16777216 * zget v 3
              else value)).
Proof.
  intros data c1 enc dec v Hnat Hnat1 Hfit Hlen Hr Hcrc Hbuf Hdec Hst.
  unfold DesfireValueFileOperations, DesfireCommand, bind. cbv zeta.
  assert (Hdata : ztake (if operation =? MFDES_GET_VALUE then 1 else 5)
            (memcpy (poke (zeros 10) 0 fid) 1 (Uint4byteToMemLe value)) = data).
  { subst data. destruct (operation =? MFDES_GET_VALUE); reflexivity. }
  rewrite Hdata.
  assert (Hdec' : zlen (snd dec) <= 257) by (fold v; lia).
  rewrite (DesfireCommandEx_one_answer c operation data (zeros 250) (-1) t st d crc rs
             Hnat Hnat1 Hfit Hlen Hr Hcrc Hbuf Hdec' Hst).
  cbv zeta. fold c1 enc. fold dec. fold v. cbv beta iota.
  change (-1 <? 0) with true. cbn [orb]. rewrite andb_true_r.
  unfold local_array, defined_if.
  destruct (st =? MFDES_S_OPERATION_OK) eqn:E0; cbn [cmd_res cmd_resp cmd_resplen andb].
  - rewrite (fits_front 250 v (zeros 250) Hdec) by (rewrite zlen_zeros; lia).
    unfold ret. destruct (zlen v =? 4) eqn:E4; [|reflexivity].
    apply Z.eqb_eq in E4. unfold MemLeToUint4byte.
    rewrite !zget_app_front by lia. rewrite shiftl_8, shiftl_16, shiftl_24. reflexivity.
  - reflexivity.
Qed.

End SimpleCommands.

Lemma poke_after (p r : list Z) (v pos : Z) :
  pos = zlen p -> poke (p ++ r) pos v = p ++ v :: zdrop 1 r.
Proof. intros ->. apply poke_behind. Qed.

Lemma slice_after (a x r : list Z) (pos len : Z) :
  pos = zlen a -> len = zlen x -> slice (a ++ x ++ r) pos len = x.
Proof. intros -> ->. apply slice_behind. Qed.

Section SetConfigurationLayout.
Context `{FL : FrameLimit} `{AE : ApduEncoder} `{SC : SecureChannelCodec} `{CS : Checksums}.

Lemma DesfireSetConfiguration_data_layout dctx paramid param paramlen :
  Checksums_sized ->
  0 <= paramlen <= zlen param ->
  paramlen <= 193 ->
  let P := ztake paramlen param in
  let d := DesfireSetConfiguration_data dctx paramid param paramlen in
  slice (sc_cdata d) 1 (sc_datalen d) =
  paramid :: P ++
    (if chan_eqb (secureChannel dctx) DACd40 then iso14443a_crc P
     else desfire_crc32 (MFDES_CHANGE_CONFIGURATION :: paramid :: P)) ++
    (if paramid =? 0x02 then [0x80] else []).
Proof.
  intros [H16 H32] Hlen Hmax P d.
  assert (HP : zlen P = paramlen).
  { subst P. rewrite zlen_ztake_min by lia. lia. }
  set (Z0 := zeros (198 - paramlen)).
  assert (HZ0 : zlen Z0 = 198 - paramlen) by (apply zlen_zeros; lia).
  set (hd2 := [MFDES_CHANGE_CONFIGURATION; paramid]).
  assert (Hhd : zlen hd2 = 2) by reflexivity.
  assert (Hbuf : memcpy (poke (poke (zeros 200) 0 MFDES_CHANGE_CONFIGURATION) 1 paramid) 2 P =
                 hd2 ++ P ++ Z0).
  { replace (zeros 200) with ([0] ++ [0] ++ zeros 198) by reflexivity.
    unfold poke at 2. rewrite memcpy_at_0.
    change (zdrop (zlen [MFDES_CHANGE_CONFIGURATION]) ([0] ++ [0] ++ zeros 198))
      with ([0] ++ zeros 198).
    rewrite (poke_after [MFDES_CHANGE_CONFIGURATION]) by reflexivity.
    change (zdrop 1 ([0] ++ zeros 198)) with (zeros 198).
    change ([MFDES_CHANGE_CONFIGURATION] ++ paramid :: zeros 198)
      with (hd2 ++ zeros 198).
    rewrite (memcpy_behind_at _ _ _ 2) by reflexivity.
    rewrite HP, zdrop_zeros by lia. reflexivity. }
  (* the buffer and the length before the dynamic-length byte *)
  set (crc := if chan_eqb (secureChannel dctx) DACd40 then iso14443a_crc P
              else desfire_crc32 (MFDES_CHANGE_CONFIGURATION :: paramid :: P)).
  assert (Hcrc : exists tail,
    (if chan_eqb (secureChannel dctx) DACd40
     then (memcpy (hd2 ++ P ++ Z0) 2
             (iso14443a_crc_append (zdrop 2 (hd2 ++ P ++ Z0)) (1 + paramlen - 1)),
           1 + paramlen + 2)
     else (desfire_crc32_append (hd2 ++ P ++ Z0) (1 + paramlen + 1), 1 + paramlen + 4)) =
    ((hd2 ++ P ++ crc) ++ tail, 1 + paramlen + zlen crc) /\ 1 <= zlen tail).
  { subst crc. destruct (chan_eqb (secureChannel dctx) DACd40).
    - exists (zdrop 2 Z0).
      assert (Hview : zdrop 2 (hd2 ++ P ++ Z0) = P ++ Z0)
        by (apply zdrop_app_exact; exact Hhd).
      assert (Happ : iso14443a_crc_append (P ++ Z0) (1 + paramlen - 1) =
                     P ++ iso14443a_crc P ++ zdrop 2 Z0).
      { replace (1 + paramlen - 1) with (zlen P) by lia.
        unfold iso14443a_crc_append. rewrite memcpy_behind.
        rewrite ztake_app_exact by reflexivity. rewrite H16. reflexivity. }
      rewrite Hview, Happ.
      rewrite (memcpy_behind_at hd2 _ _ 2) by reflexivity.
      rewrite (zdrop_all (zlen (P ++ iso14443a_crc P ++ zdrop 2 Z0)) (P ++ Z0))
        by (rewrite !zlen_app, H16, zlen_zdrop_max by lia; lia).
      rewrite app_nil_r, H16, <- !app_assoc.
      split; [reflexivity | rewrite zlen_zdrop_max by lia; lia].
    - exists (zdrop 4 Z0).
      replace (1 + paramlen + 1) with (zlen (hd2 ++ P)) by (rewrite zlen_app; lia).
      unfold desfire_crc32_append. rewrite (app_assoc hd2 P Z0), memcpy_behind.
      rewrite ztake_app_exact by reflexivity. rewrite !H32, <- !app_assoc.
      split; [reflexivity | rewrite zlen_zdrop_max by lia; lia]. }
  destruct Hcrc as [tail [Hcrc Htail]].
  assert (Hc : zlen crc = 2 \/ zlen crc = 4).
  { subst crc. destruct (chan_eqb (secureChannel dctx) DACd40);
      [left; apply H16 | right; apply H32]. }
  subst d. unfold DesfireSetConfiguration_data. cbv zeta. fold P. rewrite Hbuf.
  change (match (if chan_eqb (secureChannel dctx) DACd40
     then (memcpy (hd2 ++ P ++ Z0) 2
             (iso14443a_crc_append (zdrop 2 (hd2 ++ P ++ Z0)) (1 + paramlen - 1)),
           1 + paramlen + 2)
     else (desfire_crc32_append (hd2 ++ P ++ Z0) (1 + paramlen + 1), 1 + paramlen + 4))
     with (cdata, datalen) => ?k end) with
    (let '(cdata, datalen) := (if chan_eqb (secureChannel dctx) DACd40
     then (memcpy (hd2 ++ P ++ Z0) 2
             (iso14443a_crc_append (zdrop 2 (hd2 ++ P ++ Z0)) (1 + paramlen - 1)),
           1 + paramlen + 2)
     else (desfire_crc32_append (hd2 ++ P ++ Z0) (1 + paramlen + 1), 1 + paramlen + 4)) in k).
  rewrite Hcrc.
  destruct (paramid =? 2); cbn [sc_cdata sc_datalen].
  - rewrite (poke_after (hd2 ++ P ++ crc))
      by (rewrite !zlen_app; lia).
    replace ((hd2 ++ P ++ crc) ++ 128 :: zdrop 1 tail)
      with ([MFDES_CHANGE_CONFIGURATION] ++ (paramid :: P ++ crc ++ [128]) ++ zdrop 1 tail)
      by (subst hd2; cbn [app]; rewrite <- !app_assoc; reflexivity).
    apply slice_after; [reflexivity|].
    rewrite zlen_cons, !zlen_app. change (zlen [128]) with 1. lia.
  - replace ((hd2 ++ P ++ crc) ++ tail)
      with ([MFDES_CHANGE_CONFIGURATION] ++ (paramid :: P ++ crc ++ []) ++ tail)
      by (subst hd2; cbn [app]; rewrite app_nil_r, <- !app_assoc; reflexivity).
    apply slice_after; [reflexivity|].
    rewrite zlen_cons, !zlen_app. change (zlen (@nil Z)) with 0. lia.
Qed.

(** X17.  The data of the ChangeConfiguration command that
    [DesfireSetConfiguration] sends: the parameter id, the parameter, a
    checksum - under D40 the CRC16 of the parameter alone, otherwise the
    CRC32 of [0x5C || id || parameter] - and, for parameter id 0x02, a
    final byte 0x80.  A command that succeeds with a non-empty answer is
    turned into the error -20. *)
Theorem DesfireSetConfiguration_layout paramid param paramlen t c :
  Checksums_sized ->
  0 <= paramlen <= zlen param ->
  paramlen <= 193 ->
  let P := ztake paramlen param in
  let data :=
    paramid :: P ++
      (if chan_eqb (secureChannel c) DACd40 then iso14443a_crc P
       else desfire_crc32 (MFDES_CHANGE_CONFIGURATION :: paramid :: P)) ++
      (if paramid =? 0x02 then [0x80] else []) in
  DesfireSetConfiguration paramid param paramlen t c =
  (r <- DesfireCommand MFDES_CHANGE_CONFIGURATION data (zeros 257) (-1) ;;
   ret (if (cmd_res r =? 0) && (cmd_resplen r >? 0) then -20 else cmd_res r)) t c.
Proof.
  intros Hs Hlen Hmax P data.
  unfold DesfireSetConfiguration, DesfireSetConfigurationCmd.
  unfold bind at 1, get_ctx. cbv zeta.
  rewrite (DesfireSetConfiguration_data_layout c paramid param paramlen Hs Hlen Hmax).
  reflexivity.
Qed.

End SetConfigurationLayout.

(** ** ISO select *)

Lemma ztake_0 {A : Type} (l : list A) : ztake 0 l = [].
Proof. rewrite ztake_firstn. reflexivity. Qed.

Section IsoSelect.
Context `{AE : ApduEncoder} `{I7 : Iso7816Instructions}.

(** X18.  [DesfireISOSelect] by status word, for an answer that fits the
    250 bytes of [xresp].  With 0x9000 it returns
    [PM3_SUCCESS], stores the data of the answer, clears the session and
    sets [appSelected].  With 0x9100, 0x9190, 0x91AF or 0x910C it returns
    [PM3_ESOFT] and touches neither the context nor the caller's buffer.
    With any other status word it returns [PM3_EAPDU_FAIL] - and clears the
    session and sets [appSelected] all the same. *)
Theorem DesfireISOSelect_status_word cntr data datalen resp resplen t c enc d sw1 sw2 rs :
  APDUEncodeS
    (mkAPDU 0x00 ISO7816_SELECT_FILE (ISOSelectControl_code cntr) 0x00 datalen data)
    false APDU_INCLUDE_LE_00 = Some enc ->
  replies t = mkReply PM3_SUCCESS (d ++ [sw1; sw2]) :: rs ->
  0 <= sw1 < 256 -> 0 <= sw2 < 256 ->
  zlen d + 2 <= 250 ->
  let sw := sw1 * 256 + sw2 in
  let t' := mkTransport rs (events t ++ [EvDropField; EvSleep 50; EvApdu true enc]) in
  let c' := set_appSelected (iso_select_app cntr data datalen) (DesfireClearSession c) in
  DesfireISOSelect cntr data datalen (Some (resp, resplen)) t c =
  Some
    (if sw =? 0x9000 then (t', c', Next (PM3_SUCCESS, Some (d ++ zdrop (zlen d) resp, zlen d)))
     else if (sw =? 0x9100) || (sw =? 0x9190) || (sw =? 0x91AF) || (sw =? 0x910C)
     then (t', c, Next (PM3_ESOFT, Some (resp, resplen)))
     else (t', c', Next (PM3_EAPDU_FAIL, Some (resp, 0)))).
Proof.
  intros Henc Hr Hsw1 Hsw2 Hfit sw t' c'.
  unfold DesfireISOSelect, DesfireExchangeISO, bind, send_apdu. cbv zeta.
  rewrite (DESFIRESendApduEx_answer true _ _ 255 t enc d sw1 sw2 rs Henc Hr Hsw1 Hsw2)
    by lia.
  fold sw. cbv beta iota. unfold ret, local_array, defined_if.
  cbn [apdu_res apdu_result apdu_result_len apdu_sw].
  assert (Hxresp : fits 250 (memcpy (zeros 250) 0 (d ++ [sw1; sw2])) = true).
  { rewrite fits_memcpy_at_0 by (rewrite zlen_zeros; lia).
    apply Z.leb_le. rewrite zlen_app. change (zlen [sw1; sw2]) with 2. lia. }
  cbn [iso_resp]. rewrite Hxresp. cbv beta iota. cbn [apdu_res apdu_result apdu_result_len apdu_sw
    iso_res iso_resp iso_resplen iso_sw].
  assert (Hev : events (msleep 50 (DropField t)) ++ [EvApdu true enc] = events t').
  { subst t'. destruct t as [rp ev]. cbn [msleep DropField log events].
    rewrite <- !app_assoc. reflexivity. }
  rewrite Hev. change (mkTransport rs (events t')) with t'.
  pose proof (is_success_sw_iff sw) as Hiff.
  destruct (sw =? 0x9000) eqn:E9.
  - apply Z.eqb_eq in E9.
    assert (Hs : is_success_sw sw = true) by (apply Hiff; left; exact E9).
    rewrite Hs. change (PM3_SUCCESS =? PM3_SUCCESS) with true. cbn [andb negb].
    unfold modify_ctx. cbv beta iota. fold (iso_select_app cntr data datalen). fold c'.
    assert (Hd : ztake (zlen d) (memcpy (zeros 250) 0 (d ++ [sw1; sw2])) = d).
    { rewrite memcpy_at_0, <- app_assoc. apply ztake_app_exact. reflexivity. }
    rewrite Hd, memcpy_at_0. reflexivity.
  - destruct ((sw =? 0x9100) || (sw =? 0x9190) || (sw =? 0x91AF) || (sw =? 0x910C)) eqn:E1.
    + assert (Hs : is_success_sw sw = true).
      { apply Hiff. rewrite !orb_true_iff, !Z.eqb_eq in E1. tauto. }
      rewrite Hs. change (PM3_SUCCESS =? PM3_SUCCESS) with true. cbn [andb negb].
      reflexivity.
    + assert (Hs : is_success_sw sw = false).
      { destruct (is_success_sw sw); [|reflexivity].
        destruct Hiff as [Hiff _]. specialize (Hiff eq_refl).
        rewrite !orb_false_iff, !Z.eqb_neq in E1. apply Z.eqb_neq in E9. lia. }
      rewrite Hs. change (PM3_EAPDU_FAIL =? PM3_SUCCESS) with false. cbn [andb].
      unfold modify_ctx. cbv beta iota. fold (iso_select_app cntr data datalen). fold c'.
      rewrite ztake_0, memcpy_at_0. change (zlen (@nil Z)) with 0. rewrite zdrop_0.
      reflexivity.
Qed.

(** X19.  When the transport fails, [DesfireISOSelect] returns the error of
    the transport, and it has cleared the session and set [appSelected] as
    for a successful select. *)
Theorem DesfireISOSelect_transport_failure cntr data datalen out t c enc r rs :
  APDUEncodeS
    (mkAPDU 0x00 ISO7816_SELECT_FILE (ISOSelectControl_code cntr)
       (match out with None => 0x0C | Some _ => 0x00 end) datalen data)
    false APDU_INCLUDE_LE_00 = Some enc ->
  replies t = r :: rs ->
  r_res r <> PM3_SUCCESS ->
  exists t' out',
    DesfireISOSelect cntr data datalen out t c =
    Some (t', set_appSelected (iso_select_app cntr data datalen) (DesfireClearSession c),
          Next (r_res r, out')).
Proof.
  intros Henc Hr Hres.
  unfold DesfireISOSelect, DesfireExchangeISO, bind, send_apdu. cbv zeta.
  rewrite (DESFIRESendApduEx_reply true _ _ 255 t enc r rs Henc Hr).
  cbv zeta. apply Z.eqb_neq in Hres. rewrite Hres. cbn [negb].
  cbv beta iota. unfold ret, local_array, defined_if.
  cbn [apdu_res apdu_result apdu_result_len apdu_sw iso_res iso_resp iso_resplen iso_sw].
  change (fits 250 (memcpy (zeros 250) 0 [])) with true. cbv beta iota.
  rewrite Hres. cbn [andb].
  unfold modify_ctx. cbv beta iota. eexists. eexists. reflexivity.
Qed.

End IsoSelect.

(** ** Select and authenticate: the codes and the context *)

Lemma ends_call {A}
    (f : DesfireContext -> Transport -> option (Transport * DesfireContext * A)) Q t c :
  (forall t' c' a, f c t = Some (t', c', a) -> Q t' c' (Next a)) ->
  ends (call f) Q t c.
Proof.
  intros HQ t' c' o. unfold call.
  destruct (f c t) as [[[t1 c1] a]|] eqn:E; [|discriminate].
  intros [= <- <- <-]. apply HQ. reflexivity.
Qed.

Lemma DesfireAuthErrorToStr_listed code :
  DesfireAuthErrorToStr code <> ""%string <-> auth_code_listed code.
Proof.
  unfold DesfireAuthErrorToStr, auth_code_listed.
  repeat match goal with
  | |- context [code =? ?k] =>
    let E := fresh "E" in
    destruct (code =? k) eqn:E;
      [apply Z.eqb_eq in E; subst code; split; [intros _; lia | intros _; discriminate]
      | apply Z.eqb_neq in E]
  end.
  split; [intros H; exfalso; apply H; reflexivity | intros H; exfalso; lia].
Qed.

Section EntryCodes.
Context `{FL : FrameLimit} `{AE : ApduEncoder} `{I7 : Iso7816Instructions}
  `{SC : SecureChannelCodec} `{CR : DesfireCrypto} `{CC : DesfireContextCrypto}.

Ltac run_any :=
  repeat first
    [ run_step'
    | apply ends_exchange; intros ? ? ? _; cbv beta iota ].

Ltac auth_code :=
  cbn [code_of]; split; [unfold PM3_SUCCESS; lia|];
  intros Hcode; try discriminate Hcode.

Lemma DesfireAuthenticateEV1_codes dctx chan verbose t t' dctx' code :
  DesfireAuthenticateEV1 dctx chan verbose t = Some (t', dctx', code) ->
  0 <= code <= 11 /\ (code = PM3_SUCCESS -> secureChannel dctx' = chan).
Proof.
  body_of @DesfireAuthenticateEV1 (fun (_ : Transport) dctx' code =>
    0 <= code <= 11 /\ (code = PM3_SUCCESS -> secureChannel dctx' = chan)).
  run_any; auth_code; try reflexivity.
  destruct chan; try discriminate; reflexivity.
Qed.

Lemma DesfireAuthenticateEV2_codes dctx chan firstauth verbose t t' dctx' code :
  DesfireAuthenticateEV2 dctx chan firstauth verbose t = Some (t', dctx', code) ->
  0 <= code <= 11 /\ (code = PM3_SUCCESS -> secureChannel dctx' = chan).
Proof.
  body_of @DesfireAuthenticateEV2 (fun (_ : Transport) dctx' code =>
    0 <= code <= 11 /\ (code = PM3_SUCCESS -> secureChannel dctx' = chan)).
  run_any; auth_code; reflexivity.
Qed.

Lemma DesfireAuthenticateISO_codes chan verbose Q t c :
  (forall t' c' code,
     (code = PM3_SUCCESS /\ secureChannel c' = chan \/
      code = 301 \/ code = 302 \/ code = 304 \/ code = 305 \/ code = 306 \/ code = 308) ->
     Q t' c' (Next code)) ->
  ends (DesfireAuthenticateISO chan verbose) Q t c.
Proof.
  intros HQ. unfold DesfireAuthenticateISO.
  unfold DesfireISOGetChallenge, DesfireISOExternalAuth, DesfireISOInternalAuth,
    DesfireExchangeISO.
  run_any; apply HQ; cbn [code_of]; tauto.
Qed.

(** [DesfireSelectAID] under an invariant of the codec that holds once the
    secure channel is set to [DACNone] and that clearing the session and
    setting [appSelected] keep. *)
Lemma DesfireSelectAID_invariant (P : DesfireContext -> Prop) ctx a aid2 t t' ctx' code :
  codec_preserves P ->
  P (set_secureChannel DACNone ctx) ->
  (forall c, P c -> P (DesfireClearSession c)) ->
  (forall c b, P c -> P (set_appSelected b c)) ->
  DesfireSelectAID ctx (Some a) aid2 t = Some (t', ctx', code) ->
  P ctx'.
Proof.
  intros Hcodec H0 Hclr Hsel.
  body_of @DesfireSelectAID (fun (_ : Transport) ctx' (_ : Z) => P ctx').
  cbv zeta. do 3 run_step. apply ends_exchange. intros t1 c1 r Hex. cbv beta iota.
  eapply DesfireExchangeEx_preserves in Hex; [|exact Hcodec|exact H0].
  repeat run_step; auto.
Qed.



(** The end of a run of [DesfireAuthenticate]: a code for the caller. *)
Lemma DesfireAuthenticate_ends chan verbose t c :
  ends (DesfireAuthenticate chan verbose)
    (fun t' c' o => exists code, o = Next code /\
       (code = PM3_SUCCESS \/ DesfireAuthErrorToStr code <> ""%string) /\
       (code = PM3_SUCCESS -> secureChannel c' = chan) /\
       (if cmdset_eqb (cmdSet c) DCCISO && negb (chan_eqb chan DACEV2)
        then code = PM3_SUCCESS \/
             code = 301 \/ code = 302 \/ code = 304 \/ code = 305 \/ code = 306 \/ code = 308
        else if chan_eqb chan DACNone then code = 100 /\ t' = t /\ c' = c
        else 0 <= code <= 11)) t c.
Proof.
  assert (Hlow : forall code, 0 <= code <= 11 ->
            code = PM3_SUCCESS \/ DesfireAuthErrorToStr code <> ""%string).
  { intros code Hcode. destruct (Z.eq_dec code 0) as [-> | Hne]; [left; reflexivity|].
    right. apply DesfireAuthErrorToStr_listed. unfold auth_code_listed. lia. }
  unfold DesfireAuthenticate. do 2 run_step.
  destruct (cmdset_eqb (cmdSet c) DCCISO && negb (chan_eqb chan DACEV2)) eqn:Eiso.
  - apply DesfireAuthenticateISO_codes. intros t' c' code Hcode.
    exists code. split; [reflexivity|].
    split; [|split].
    + destruct Hcode as [[-> _] | Hcode]; [left; reflexivity|].
      right. apply DesfireAuthErrorToStr_listed. unfold auth_code_listed. lia.
    + intros ->. destruct Hcode as [[_ Hchan] | Hcode]; [exact Hchan|].
      unfold PM3_SUCCESS in Hcode. lia.
    + destruct Hcode as [[-> _] | Hcode]; [left; reflexivity | right; exact Hcode].
  - destruct chan; cbn [chan_eqb orb].
    + run_step. exists 100. split; [reflexivity|]. split; [right; discriminate|].
      split; [discriminate | repeat split].
    + apply ends_call. intros t' c' code Hcall.
      apply DesfireAuthenticateEV1_codes in Hcall. destruct Hcall as [Hcode Hchan].
      exists code. split; [reflexivity|]. auto.
    + apply ends_call. intros t' c' code Hcall.
      apply DesfireAuthenticateEV1_codes in Hcall. destruct Hcall as [Hcode Hchan].
      exists code. split; [reflexivity|]. auto.
    + apply ends_call. intros t' c' code Hcall.
      apply DesfireAuthenticateEV2_codes in Hcall. destruct Hcall as [Hcode Hchan].
      exists code. split; [reflexivity|]. auto.
Qed.

(** X21.  The code that [DesfireAuthenticate] returns is [PM3_SUCCESS] or a
    code for which [DesfireAuthErrorToStr] has a message, and after
    [PM3_SUCCESS] the context is on the secure channel asked for.  With the
    ISO command set and a channel other than EV2 the code is 0 or one of
    301, 302, 304, 305, 306, 308 (303 and 307 are never returned);
    otherwise, for the channel [DACNone], it is 100 and nothing was sent or
    changed, and for the other channels it is between 0 and 11. *)
Theorem DesfireAuthenticate_codes chan verbose t c t' c' o :
  DesfireAuthenticate chan verbose t c = Some (t', c', o) ->
  exists code,
    o = Next code /\
    (code = PM3_SUCCESS \/ DesfireAuthErrorToStr code <> ""%string) /\
    (code = PM3_SUCCESS -> secureChannel c' = chan) /\
    (if cmdset_eqb (cmdSet c) DCCISO && negb (chan_eqb chan DACEV2)
     then code = PM3_SUCCESS \/
          code = 301 \/ code = 302 \/ code = 304 \/ code = 305 \/ code = 306 \/ code = 308
     else if chan_eqb chan DACNone then code = 100 /\ t' = t /\ c' = c
     else 0 <= code <= 11).
Proof.
  intros Hrun. exact (DesfireAuthenticate_ends chan verbose t c t' c' o Hrun).
Qed.

Lemma DesfireSelectAIDHex_cleared c aid t t' c' res :
  DesfireSelectAIDHex c aid false 0 t = Some (t', c', res) ->
  res = PM3_SUCCESS -> session_cleared c'.
Proof.
  unfold DesfireSelectAIDHex. cbv zeta. intros Hrun Hres.
  exact (proj1 (DesfireSelectAID_ends _ _ _ _ _ _ _ Hrun Hres)).
Qed.

Lemma session_cleared_cmdSet v c : session_cleared c -> session_cleared (set_cmdSet v c).
Proof. intros (H1 & H2 & H3). repeat split; assumption. Qed.

Lemma DesfireSelectAndAuthenticateEx_ends chan aid noauth verbose t c :
  ends (DesfireSelectAndAuthenticateEx chan aid noauth verbose)
    (fun t' c' o => exists code, o = Next code /\
       (code = PM3_SUCCESS \/ DesfireAuthErrorToStr code <> ""%string) /\
       (code = PM3_SUCCESS ->
        if noauth then session_cleared c' else secureChannel c' = chan /\ chan <> DACNone) /\
       (code = 201 -> noauth = false /\ chan = DACNone)) t c.
Proof.
  unfold DesfireSelectAndAuthenticateEx. apply ends_fn. do 2 run_step.
  apply ends_bind.
  destruct (cmdset_eqb (cmdSet c) DCCISO) eqn:Eiso; run_step.
  all: apply ends_bind; apply ends_call; intros t1 c1 res Hcall; cbv beta iota;
    pose proof (DesfireSelectAIDHex_cleared _ _ _ _ _ _ Hcall) as Hres.
  all: apply ends_bind; unfold return_if;
    destruct (negb (res =? PM3_SUCCESS)) eqn:Eres; run_step;
    [ exists 200; split; [reflexivity|]; split; [right; discriminate|];
      split; discriminate | ].
  all: apply negb_false_iff, Z.eqb_eq in Eres; specialize (Hres Eres).
  all: apply ends_bind; run_step.
  all: destruct noauth; cbn [negb].
  all: try (run_step; exists PM3_SUCCESS; cbn [code_of];
            split; [reflexivity|]; split; [left; reflexivity|];
            split; [|discriminate]; intros _;
            first [exact Hres | apply session_cleared_cmdSet; exact Hres]).
  all: apply ends_bind; eapply ends_weaken; [apply DesfireAuthenticate_ends|];
    intros t3 c3 o [code [-> [Hmsg [Hchan Hcodes]]]]; cbv beta iota.
  all: assert (Hne : code <> 201)
    by (destruct (_ && _) in Hcodes; [unfold PM3_SUCCESS in Hcodes; lia|];
        destruct (chan_eqb chan DACNone); lia).
  all: apply ends_bind; destruct (negb (code =? PM3_SUCCESS)) eqn:Ecode; run_step;
    [ exists code; cbn [code_of]; split; [reflexivity|]; split; [exact Hmsg|];
      split; [intros ->; discriminate Ecode | intros H; contradiction] | ].
  all: apply negb_false_iff, Z.eqb_eq in Ecode; specialize (Hchan Ecode).
  all: do 2 run_step; destruct (DesfireIsAuthenticated c3) eqn:Eauth; run_step;
    cbn [code_of]; unfold DesfireIsAuthenticated in Eauth; rewrite Hchan in Eauth;
    [ exists PM3_SUCCESS; split; [reflexivity|]; split; [left; reflexivity|];
      split; [|discriminate]; intros _; split; [exact Hchan|];
      intros ->; discriminate Eauth
    | exists 201; split; [reflexivity|]; split; [right; discriminate|];
      split; [discriminate|]; intros _; split; [reflexivity|];
      destruct chan; [reflexivity | discriminate Eauth ..] ].
Qed.

(** X22.  The code that [DesfireSelectAndAuthenticateEx] returns is
    [PM3_SUCCESS] or a code for which [DesfireAuthErrorToStr] has a
    message.  After [PM3_SUCCESS] the context is, without authentication,
    the cleared session that the select left, and, with authentication, on
    the secure channel asked for, which is not [DACNone].  The code 201 is
    returned only for an authentication that was asked for with the
    channel [DACNone]. *)
Theorem DesfireSelectAndAuthenticateEx_outcome chan aid noauth verbose t c t' c' o :
  DesfireSelectAndAuthenticateEx chan aid noauth verbose t c = Some (t', c', o) ->
  exists code,
    o = Next code /\
    (code = PM3_SUCCESS \/ DesfireAuthErrorToStr code <> ""%string) /\
    (code = PM3_SUCCESS ->
     if noauth then session_cleared c' else secureChannel c' = chan /\ chan <> DACNone) /\
    (code = 201 -> noauth = false /\ chan = DACNone).
Proof.
  intros Hrun.
  exact (DesfireSelectAndAuthenticateEx_ends chan aid noauth verbose t c t' c' o Hrun).
Qed.

(** X23.  With the ISO command set [DesfireSelectAndAuthenticateEx] selects
    under the command set [DCCNativeISO].  It returns 200 exactly when that
    select does not return [PM3_SUCCESS], and it then returns with the
    context the select left: the command set is not switched back to
    [DCCISO] (for a codec that leaves the command set alone). *)
Theorem DesfireSelectAndAuthenticateEx_iso_select_failure chan aid noauth verbose t c
  t' c' o :
  codec_preserves (fun c => cmdSet c = DCCNativeISO) ->
  cmdSet c = DCCISO ->
  DesfireSelectAndAuthenticateEx chan aid noauth verbose t c = Some (t', c', o) ->
  exists code,
    o = Next code /\
    (code = 200 <->
     exists res, res <> PM3_SUCCESS /\
       DesfireSelectAIDHex (set_cmdSet DCCNativeISO c) aid false 0 t = Some (t', c', res)) /\
    (code = 200 -> cmdSet c' = DCCNativeISO).
Proof.
  intros Hcodec Hiso.
  assert (Hends : ends (DesfireSelectAndAuthenticateEx chan aid noauth verbose)
    (fun t' c' o => exists code, o = Next code /\
       (code = 200 <->
        exists res, res <> PM3_SUCCESS /\
          DesfireSelectAIDHex (set_cmdSet DCCNativeISO c) aid false 0 t = Some (t', c', res)) /\
       (code = 200 -> cmdSet c' = DCCNativeISO)) t c).
  { unfold DesfireSelectAndAuthenticateEx. apply ends_fn. do 2 run_step.
    rewrite Hiso. cbn [cmdset_eqb]. apply ends_bind. run_step.
    apply ends_bind. apply ends_call. intros t1 c1 res Hsel. cbv beta iota.
    assert (Hset : cmdSet c1 = DCCNativeISO).
    { pose proof Hsel as Hsel'. unfold DesfireSelectAIDHex in Hsel'. cbv zeta in Hsel'.
      exact (DesfireSelectAID_invariant (fun c => cmdSet c = DCCNativeISO)
               (set_cmdSet DCCNativeISO c) _ _ _ _ _ _
               Hcodec eq_refl (fun c H => H) (fun c b H => H) Hsel'). }
    apply ends_bind. unfold return_if.
    destruct (negb (res =? PM3_SUCCESS)) eqn:Eres; run_step.
    - apply negb_true_iff, Z.eqb_neq in Eres.
      exists 200. split; [reflexivity|]. split; [|intros _; exact Hset].
      split; [intros _; exists res; split; assumption | reflexivity].
    - apply negb_false_iff, Z.eqb_eq in Eres.
      assert (Hno : forall t2 c2 code, code <> 200 ->
                exists code0, Next code = Next code0 /\
                  (code0 = 200 <->
                   exists res0, res0 <> PM3_SUCCESS /\
                     DesfireSelectAIDHex (set_cmdSet DCCNativeISO c) aid false 0 t
                       = Some (t2, c2, res0)) /\
                  (code0 = 200 -> cmdSet c2 = DCCNativeISO)).
      { intros t2 c2 code Hcode. exists code. split; [reflexivity|].
        split; [|intros H; contradiction].
        split; [intros H; contradiction|].
        intros [res0 [Hne Hrun0]]. rewrite Hsel in Hrun0. injection Hrun0 as _ _ <-.
        contradiction. }
      apply ends_bind. run_step.
      destruct noauth; cbn [negb].
      + run_step. cbn [code_of]. apply Hno. discriminate.
      + apply ends_bind. eapply ends_weaken; [apply DesfireAuthenticate_ends|].
        intros t3 c3 o3 [code [-> [_ [_ Hcodes]]]]. cbv beta iota.
        assert (Hne : code <> 200).
        { destruct (_ && _) in Hcodes; [unfold PM3_SUCCESS in Hcodes; lia|].
          destruct (chan_eqb chan DACNone); lia. }
        apply ends_bind. destruct (negb (code =? PM3_SUCCESS)) eqn:Ecode; run_step.
        * cbn [code_of]. apply Hno, Hne.
        * do 2 run_step. destruct (DesfireIsAuthenticated c3); run_step; cbn [code_of];
            apply Hno; discriminate. }
  intros Hrun. exact (Hends t' c' o Hrun).
Qed.

End EntryCodes.

(** ** Change key and the command set *)

Section ChangeOtherKey.
Context `{FL : FrameLimit} `{AE : ApduEncoder} `{SC : SecureChannelCodec}
  `{CK : Checksums} `{KO : DesfireKeyOps}.

(** X24.  [DesfireChangeKey] for a key other than the key of the session
    does not clear the session: whatever the card answered, every
    invariant of the codec that held of the context before the call holds
    of the context the call returns with. *)
Theorem DesfireChangeKey_other_key_keeps_session (P : DesfireContext -> Prop)
  dctx change_master_key newkeynum newkeytype newkeyver newkey oldkeytype oldkey verbose t
  t' dctx' code :
  codec_preserves (fun c => keyNum c = keyNum dctx) ->
  codec_preserves P ->
  P dctx ->
  newkeynum <> keyNum dctx ->
  DesfireChangeKey dctx change_master_key newkeynum newkeytype newkeyver newkey
    oldkeytype oldkey verbose t = Some (t', dctx', code) ->
  P dctx'.
Proof.
  intros Hkeep Hcodec HP Hother.
  body_of @DesfireChangeKey (fun (_ : Transport) dctx' (_ : Z) => P dctx').
  repeat run_step.
  unfold DesfireChangeKeyCmd, DesfireCommand, DesfireCommandEx.
  repeat run_step.
  apply ends_exchange. intros t1 c1 r Hex. cbv beta iota.
  pose proof (DesfireExchangeEx_preserves _ _ _ _ _ _ _ _ _ _ _ _ _ _ Hkeep eq_refl Hex)
    as Hkey.
  pose proof (DesfireExchangeEx_preserves _ _ _ _ _ _ _ _ _ _ _ _ _ _ Hcodec HP Hex)
    as HP1.
  cbv beta in Hkey.
  repeat run_step; try exact HP1;
    match goal with
    | H : (newkeynum =? keyNum _) = true |- _ =>
      rewrite Hkey in H; apply Z.eqb_eq in H; contradiction
    end.
Qed.

End ChangeOtherKey.

Section IsoCommandSet.
Context `{FL : FrameLimit} `{AE : ApduEncoder} `{SC : SecureChannelCodec}.

(** X25.  With the ISO command set no native command is sent:
    [DesfireCommandEx] returns [PM3_EAPDU_FAIL] with the transport and the
    context untouched, and [DesfireSelectAID] returns [PM3_EAPDU_FAIL] with
    the transport untouched - but with the secure channel of the context
    already set to [DACNone]. *)
Theorem DesfireCommandEx_iso_command_set c cmd data resp checklength splitbysize a aid2 t :
  cmdSet c = DCCISO ->
  DesfireCommandEx cmd data resp checklength splitbysize t c =
    Some (t, c, Next (mkCmdResult PM3_EAPDU_FAIL resp 0)) /\
  DesfireSelectAID c (Some a) aid2 t =
    Some (t, set_secureChannel DACNone c, PM3_EAPDU_FAIL).
Proof.
  intros Hiso. split.
  - unfold DesfireCommandEx, bind, exchange, DesfireExchangeEx. cbv zeta.
    rewrite Hiso. reflexivity.
  - unfold DesfireSelectAID, run_fn, bind, modify_ctx, exchange, DesfireExchangeEx.
    cbv zeta. cbn [cmdSet set_secureChannel]. rewrite Hiso. reflexivity.
Qed.

End IsoCommandSet.

(** ** Transmit chaining of wrapped commands *)

Section IsoNativeChaining.
Context `{FL : FrameLimit} `{AE : ApduEncoder}.

(** X26.  Transmit chaining of a wrapped command.  A payload longer than
    the frame limit, and at most twice as long, goes out in two APDUs when
    the card answers the first with the bare status word 0x91AF: the first
    carries the command as INS and the first [DESFIRE_TX_FRAME_MAX_LEN]
    bytes of the payload (the limit counts payload bytes only), the second
    carries INS 0xAF and the rest.  Both are sent with the caller's
    [activate_field], so with it the field is dropped and activated again
    before the second.  The answer to the second APDU is the answer of the
    exchange. *)
Theorem DesfireExchangeISONative_tx_chaining (activate : bool) cmd data resp enable_chaining
  t enc1 enc2 d sw1 sw2 rs :
  let limit := DESFIRE_TX_FRAME_MAX_LEN in
  0 < limit < 256 ->
  limit < zlen data <= 2 * limit ->
  zlen data < 256 ->
  APDUEncodeS (mkAPDU MFDES_NATIVE_ISO7816_WRAP_CLA cmd 0 0 limit data) false
    APDU_INCLUDE_LE_00 = Some enc1 ->
  APDUEncodeS (mkAPDU MFDES_NATIVE_ISO7816_WRAP_CLA MFDES_ADDITIONAL_FRAME 0 0
                 (zlen data - limit) (zdrop limit data)) false
    APDU_INCLUDE_LE_00 = Some enc2 ->
  replies t =
    mkReply PM3_SUCCESS [0x91; 0xAF] :: mkReply PM3_SUCCESS (d ++ [sw1; sw2]) :: rs ->
  0 <= sw1 < 256 -> 0 <= sw2 < 256 ->
  zlen d + 2 <= EXCHANGE_BUF_SIZE ->
  (sw1 * 256 + sw2 <> 0x91AF \/ (enable_chaining = false /\ d <> [])) ->
  let activated (t : Transport) := if activate then msleep 50 (DropField t) else t in
  let t1 := mkTransport (mkReply PM3_SUCCESS (d ++ [sw1; sw2]) :: rs)
              (events (activated t) ++ [EvApdu activate enc1]) in
  DesfireExchangeISONative activate cmd data resp enable_chaining 0 t =
  Some (mkTransport rs (events (activated t1) ++ [EvApdu activate enc2]),
        if is_success_sw (sw1 * 256 + sw2)
        then mkExchResult PM3_SUCCESS (if sw1 =? 0x91 then sw2 else 0xff)
               (d ++ zdrop (zlen d) resp)
               (if enable_chaining || (sw1 * 256 + sw2 =? 0x9100)
                   || (sw1 * 256 + sw2 =? 0x91AF)
                then zlen d else 0)
        else mkExchResult PM3_EAPDU_FAIL 0xff resp 0).
Proof.
  intros limit Hlimit Hlen Hbyte Henc1 Henc2 Hr Hsw1 Hsw2 Hbuf Hlast activated t1.
  pose proof (zlen_nonneg d) as Hd0.
  assert (Hu8 : forall x, 0 <= x < 256 -> u8 x = x).
  { intros x Hx. unfold u8. change 0xff with (Z.ones 8). rewrite Z.land_ones by lia.
    apply Z.mod_small. change (2 ^ 8) with 256. lia. }
  unfold DesfireExchangeISONative. cbv zeta.
  rewrite Hr. cbn [length].
  (* the first APDU *)
  cbn [DesfireExchangeISONative_tx].
  destruct (zlen data >=? 0) eqn:Ege; [|rewrite Z.geb_leb in Ege; apply Z.leb_gt in Ege; lia].
  rewrite Z.sub_0_r. fold limit.
  destruct (zlen data >? limit) eqn:Egt; [|rewrite Z.gtb_ltb in Egt; apply Z.ltb_ge in Egt; lia].
  change (0 >? 0) with false. cbv iota. cbn [CLA INS P1 P2 Lc].
  rewrite (Hu8 limit) by lia. rewrite zdrop_0.
  unfold DESFIRESendApdu.
  rewrite (DESFIRESendApduEx_answer activate _ _ EXCHANGE_BUF_SIZE t enc1 [] 0x91 0xAF _
             Henc1 Hr)
    by (try (unfold EXCHANGE_BUF_SIZE); try (change (zlen (@nil Z)) with 0); lia).
  cbv beta iota.
  change (is_success_sw (0x91 * 256 + 0xAF)) with true. cbv iota.
  cbn [apdu_res apdu_result apdu_result_len apdu_sw Lc].
  change (negb (PM3_SUCCESS =? PM3_SUCCESS)) with false. cbv iota.
  change (negb (0x91 * 256 + 0xAF =? DESFIRE_GET_ISO_STATUS MFDES_ADDITIONAL_FRAME)
          || (zlen (@nil Z) >? 0)) with false. cbv iota.
  fold (activated t). fold t1.
  (* the second APDU *)
  rewrite Z.add_0_l.
  destruct (zlen data >=? limit) eqn:Ege2;
    [|rewrite Z.geb_leb in Ege2; apply Z.leb_gt in Ege2; lia].
  destruct (zlen data - limit >? limit) eqn:Egt2; [apply Z.gtb_lt in Egt2; lia|].
  destruct (limit >? 0) eqn:Epos; [|rewrite Z.gtb_ltb in Epos; apply Z.ltb_ge in Epos; lia].
  rewrite (Hu8 (zlen data - limit)) by lia.
  rewrite (DESFIRESendApduEx_answer activate _ _ EXCHANGE_BUF_SIZE t1 enc2 d sw1 sw2 rs
             Henc2 eq_refl Hsw1 Hsw2 Hbuf) by (unfold EXCHANGE_BUF_SIZE; lia).
  cbv beta iota. cbn [apdu_res apdu_result apdu_result_len apdu_sw Lc].
  fold (activated t1).
  destruct (is_success_sw (sw1 * 256 + sw2)) eqn:Es.
  - change (negb (PM3_SUCCESS =? PM3_SUCCESS)) with false. cbv iota.
    assert (Hbreak : negb (sw1 * 256 + sw2 =? DESFIRE_GET_ISO_STATUS MFDES_ADDITIONAL_FRAME)
                     || (zlen d >? 0) = true).
    { destruct Hlast as [Hne | [_ Hne]].
      - apply Z.eqb_neq in Hne.
        change (DESFIRE_GET_ISO_STATUS MFDES_ADDITIONAL_FRAME) with 0x91AF. rewrite Hne.
        reflexivity.
      - apply orb_true_iff. right. apply Z.gtb_lt.
        destruct d; [contradiction|]. rewrite zlen_cons. pose proof (zlen_nonneg d). lia. }
    rewrite Hbreak. cbv iota.
    unfold store_frame. change (negb (0 =? 0)) with false. cbv iota.
    rewrite Z.add_0_l, u32_small by (unfold EXCHANGE_BUF_SIZE in Hbuf; lia).
    rewrite memcpy_at_0.
    assert (Hd : ztake (zlen d) (d ++ [sw1; sw2]) = d) by (apply ztake_app_exact; reflexivity).
    rewrite Hd.
    assert (Hcode : iso_respcode (sw1 * 256 + sw2) 0xff = if sw1 =? 0x91 then sw2 else 0xff).
    { destruct (success_sw_bytes sw1 sw2 Hsw1 Hsw2 Es) as [[-> ->] | [-> Hs2]];
        [reflexivity|].
      destruct Hs2 as [-> | [-> | [-> | ->]]]; reflexivity. }
    rewrite Hcode.
    change (DESFIRE_GET_ISO_STATUS MFDES_S_OPERATION_OK) with 0x9100.
    change (DESFIRE_GET_ISO_STATUS MFDES_ADDITIONAL_FRAME) with 0x91AF.
    destruct enable_chaining; cbn [negb orb].
    + destruct Hlast as [Hne | [Hc _]]; [|discriminate].
      cbn [replies length DesfireExchangeISONative_rx].
      change (DESFIRE_GET_ISO_STATUS MFDES_ADDITIONAL_FRAME) with 0x91AF.
      apply Z.eqb_neq in Hne. rewrite Hne. reflexivity.
    + reflexivity.
  - change (negb (PM3_EAPDU_FAIL =? PM3_SUCCESS)) with true. cbv iota. reflexivity.
Qed.

End IsoNativeChaining.

(** ** Select on one answer *)

Section SelectAnswers.
Context `{FL : FrameLimit} `{AE : ApduEncoder} `{SC : SecureChannelCodec}.

(** X27.  [DesfireSelectAID] with one AID on a native answer of one frame
    whose data fit [databuf] and whose decoded bytes fit the 257 bytes of
    [resp].  The field is dropped and activated and the frame [5A || AID]
    (as the secure channel encodes it, on a context already set to
    [DACNone]) is sent.  The select succeeds exactly when the status is
    0x00 and the decoded answer is empty; a success status with a non-empty
    answer gives [PM3_ECARDEXCHANGE], a success status other than 0x00
    (0x90, 0x0C) without data gives [PM3_EAPDU_FAIL], as does every error
    status.  Only a successful select clears the session and sets
    [appSelected]. *)
Theorem DesfireSelectAID_single_answer ctx a t st d crc rs :
  zlen a = 3 ->
  let c0 := set_secureChannel DACNone ctx in
  let c1 := fst (DesfireSecureChannelEncode c0 MFDES_SELECT_APPLICATION a) in
  let enc := snd (DesfireSecureChannelEncode c0 MFDES_SELECT_APPLICATION a) in
  let dec :=
    DesfireSecureChannelDecode c1 (if is_success_status st then d else [])
      (if is_success_status st then st else 0xff) in
  let selected := (st =? MFDES_S_OPERATION_OK) && (zlen (snd dec) =? 0) in
  cmdSet ctx = DCCNative ->
  cmdSet c1 = DCCNative ->
  zlen enc + 1 <= DESFIRE_TX_FRAME_MAX_LEN ->
  zlen enc < 1024 ->
  replies t = card_frame st d crc :: rs ->
  zlen crc = 2 ->
  zlen d <= DATABUF_SIZE ->
  zlen (snd dec) <= 257 ->
  st <> MFDES_ADDITIONAL_FRAME ->
  DesfireSelectAID ctx (Some a) None t =
  Some (mkTransport rs
          (events t ++ [EvDropField; EvSleep 50;
                        EvRaw true (MFDES_SELECT_APPLICATION :: enc)]),
        (if selected
         then set_appSelected
                (negb (zget a 0 =? 0x00) || negb (zget a 1 =? 0x00) || negb (zget a 2 =? 0x00))
                (DesfireClearSession (fst dec))
         else fst dec),
        if selected then PM3_SUCCESS
        else if is_success_status st && negb (zlen (snd dec) =? 0) then PM3_ECARDEXCHANGE
        else PM3_EAPDU_FAIL).
Proof.
  intros Ha c0 c1 enc dec selected Hnat Hnat1 Hfit Hlen Hr Hcrc Hbuf Hdec Hst.
  assert (Hdata : ztake 3 (memcpy (zeros 6) 0 (ztake 3 a)) = a).
  { rewrite (ztake_all 3 a) by lia. rewrite memcpy_at_0.
    apply ztake_app_exact. exact Ha. }
  unfold DesfireSelectAID, run_fn. cbv zeta.
  unfold bind at 1. unfold modify_ctx at 1. cbv beta iota.
  unfold bind at 1. unfold exchange.
  rewrite Hdata. fold c0.
  rewrite (DesfireExchangeEx_single_answer true c0 MFDES_SELECT_APPLICATION a 0 (zeros 257) 0
             t st d crc rs Hnat Hnat1 Hfit Hlen Hr Hcrc Hbuf Hst).
  cbv zeta. fold c1 enc. fold dec. cbv beta iota.
  cbn [ex_res ex_respcode ex_resp ex_resplen].
  unfold bind at 1. unfold local_array, defined_if.
  rewrite (fits_front 257 (snd dec) (zeros 257) Hdec) by (rewrite zlen_zeros; lia).
  cbv beta iota.
  assert (Hev : events (msleep 50 (DropField t)) ++ [EvRaw true (MFDES_SELECT_APPLICATION :: enc)]
                = events t ++ [EvDropField; EvSleep 50;
                               EvRaw true (MFDES_SELECT_APPLICATION :: enc)]).
  { destruct t as [rp ev]. cbn [msleep DropField log events].
    rewrite <- !app_assoc. reflexivity. }
  rewrite Hev. subst selected.
  destruct (is_success_status st) eqn:Es.
  - change (PM3_SUCCESS =? PM3_SUCCESS) with true. cbv iota.
    destruct (zlen (snd dec) =? 0) eqn:E0; cbn [negb andb].
    + destruct (st =? MFDES_S_OPERATION_OK) eqn:Eok; cbn [negb andb]; reflexivity.
    + rewrite andb_false_r. reflexivity.
  - change (PM3_EAPDU_FAIL =? PM3_SUCCESS) with false. cbv iota.
    assert (Eok : (st =? MFDES_S_OPERATION_OK) = false).
    { destruct (st =? MFDES_S_OPERATION_OK) eqn:E; [|reflexivity].
      apply Z.eqb_eq in E. subst st. discriminate Es. }
    rewrite Eok. reflexivity.
Qed.

End SelectAnswers.

(** ** A failed ISO authentication, and the answer to a create command *)

Section IsoAuthenticationFailure.
Context `{FL : FrameLimit} `{AE : ApduEncoder} `{I7 : Iso7816Instructions}
  `{SC : SecureChannelCodec} `{CR : DesfireCrypto} `{CC : DesfireContextCrypto}.

(** X28.  [DesfireAuthenticateISO] does not clear the session.  When a run
    fails the context is the old one, but for what [DesfireClearIV] and the
    cipher [DesfireCryptoEncDec] did to it: every property of the context
    that these two keep still holds - so a secure channel that was open
    before the call is still recorded as open.  When the challenge cannot
    be got (301, 302) the context is untouched. *)
Theorem DesfireAuthenticateISO_failure_keeps_context (P : DesfireContext -> Prop)
  chan verbose t c t' c' o :
  (forall c use src len encode,
     P c -> P (fst (DesfireCryptoEncDec c use src len encode))) ->
  (forall c, P c -> P (DesfireClearIV c)) ->
  P c ->
  DesfireAuthenticateISO chan verbose t c = Some (t', c', o) ->
  exists code,
    o = Next code /\
    (code <> PM3_SUCCESS -> P c') /\
    (code = 301 \/ code = 302 -> c' = c).
Proof.
  intros Hcipher Hiv HP.
  assert (Hends : ends (DesfireAuthenticateISO chan verbose)
            (fun t' c' o => exists code, o = Next code /\
               (code <> PM3_SUCCESS -> P c') /\ (code = 301 \/ code = 302 -> c' = c)) t c).
  { unfold DesfireAuthenticateISO.
    unfold DesfireISOGetChallenge, DesfireISOExternalAuth, DesfireISOInternalAuth,
      DesfireExchangeISO.
    repeat run_step'; cbn [code_of]; eexists; (split; [reflexivity|]); split;
      first
        [ intros Hcode; exfalso; apply Hcode; reflexivity
        | intros [H | H]; discriminate H
        | intros _; reflexivity
        | intros _; repeat first [exact HP | apply Hcipher | apply Hiv] ]. }
  intros Hrun. exact (Hends t' c' o Hrun).
Qed.

End IsoAuthenticationFailure.

Section CreateFileAnswer.
Context `{FL : FrameLimit} `{AE : ApduEncoder} `{SC : SecureChannelCodec}.

(** X29.  A create command carries no answer: when [DesfireCreateFile]
    passes its checks (a known file type; no length check, or one of the
    two lengths of the type) and the card gives one answer, whose data fit
    [databuf] and whose decoded bytes fit [xresp], it returns
    [PM3_SUCCESS] exactly when the status is 0x00 and the decoded answer is
    empty, and [PM3_EAPDU_FAIL] otherwise - also for the status 0x00 with
    data. *)
Theorem DesfireCreateFile_answer c ftype rcmd fdata fdatalen checklen t st d crc rs :
  GetDesfireFileCmdRec ftype = Some rcmd ->
  checklen = false \/ fdatalen = fc_createlen rcmd + 1 \/
    fdatalen = fc_createlen rcmd + 1 + (if fc_mayHaveISOfid rcmd then 2 else 0) ->
  let cmd := fc_cmd rcmd in
  let data := ztake fdatalen fdata in
  let c1 := fst (DesfireSecureChannelEncode c cmd data) in
  let enc := snd (DesfireSecureChannelEncode c cmd data) in
  let dec :=
    DesfireSecureChannelDecode c1 (if is_success_status st then d else [])
      (if is_success_status st then st else 0xff) in
  cmdSet c = DCCNative ->
  cmdSet c1 = DCCNative ->
  zlen enc + 1 <= DESFIRE_TX_FRAME_MAX_LEN ->
  zlen enc < 1024 ->
  replies t = card_frame st d crc :: rs ->
  zlen crc = 2 ->
  zlen d <= DATABUF_SIZE ->
  zlen (snd dec) <= 257 ->
  st <> MFDES_ADDITIONAL_FRAME ->
  DesfireCreateFile ftype fdata fdatalen checklen t c =
  Some (mkTransport rs (events t ++ [EvRaw false (cmd :: enc)]),
        fst dec,
        Next (if (st =? MFDES_S_OPERATION_OK) && (zlen (snd dec) =? 0)
              then PM3_SUCCESS else PM3_EAPDU_FAIL)).
Proof.
  intros Hrec Hcheck cmd data c1 enc dec Hnat Hnat1 Hfit Hlen Hr Hcrc Hbuf Hdec Hst.
  unfold DesfireCreateFile. rewrite Hrec.
  assert (Hpass : checklen && negb (fdatalen =? fc_createlen rcmd + 1) &&
                  negb (fdatalen =? fc_createlen rcmd + 1
                                    + (if fc_mayHaveISOfid rcmd then 2 else 0)) = false).
  { destruct Hcheck as [-> | [-> | ->]].
    - reflexivity.
    - rewrite Z.eqb_refl. cbn [negb]. rewrite andb_false_r. reflexivity.
    - rewrite Z.eqb_refl. cbn [negb]. apply andb_false_r. }
  rewrite Hpass. fold cmd data.
  unfold DesfireCommandTxData, DesfireCommand, bind.
  rewrite (DesfireCommandEx_one_answer c cmd data [] 0 t st d crc rs
             Hnat Hnat1 Hfit Hlen Hr Hcrc Hbuf Hdec Hst).
  cbv zeta. fold c1 enc. fold dec. cbv beta iota.
  change (0 <? 0) with false. cbn [orb].
  destruct ((st =? MFDES_S_OPERATION_OK) && (zlen (snd dec) =? 0)); reflexivity.
Qed.

End CreateFileAnswer.

(** ** Examples *)

(** A side condition on concrete data. *)
Ltac by_computation := vm_compute; try reflexivity; discriminate.

Lemma DesfireAID_roundtrip_witness :
  DesfireAIDByteToUint (DesfireAIDUintToByte 0x12345678) = 0x12345678 mod 0x1000000 /\
  DesfireAIDUintToByte (DesfireAIDByteToUint [0x78; 0x56; 0x34]) = [0x78; 0x56; 0x34].
Proof.
  split.
  - apply (proj1 DesfireAID_roundtrip 0x12345678). lia.
  - apply (proj2 DesfireAID_roundtrip 0x78 0x56 0x34); lia.
Defined.

Lemma DesfireFileAcessMode_roundtrip_witness :
  DesfireDecodeFileAcessMode (DesfireEncodeFileAcessMode 0x1 0x2 0xE 0xF) =
    (Z.land 0x1 0x0f, Z.land 0x2 0x0f, Z.land 0xE 0x0f, Z.land 0xF 0x0f) /\
  (let '(r, w, rw, ch) := DesfireDecodeFileAcessMode [0xEF; 0x12] in
   DesfireEncodeFileAcessMode r w rw ch = [0xEF; 0x12]).
Proof.
  split.
  - apply (proj1 DesfireFileAcessMode_roundtrip).
  - apply (proj2 DesfireFileAcessMode_roundtrip 0xEF 0x12); lia.
Defined.

(** GetVersion (0x60) answered with three bytes and the status 0x00. *)
Lemma DesfireExchangeNative_single_answer_witness :
  @DesfireExchangeNative Mock.frame_limit false 0x60 [] (zeros 8) true 0
    (mkTransport [card_frame 0x00 [0x04; 0x01; 0x01] [0xC1; 0xC2]] []) =
  Some (mkTransport [] [EvRaw false [0x60]],
        mkExchResult PM3_SUCCESS 0x00 [0x04; 0x01; 0x01; 0; 0; 0; 0; 0] 3).
Proof.
  apply (@DesfireExchangeNative_single_answer Mock.frame_limit false 0x60 [] (zeros 8) true
           (mkTransport [card_frame 0x00 [0x04; 0x01; 0x01] [0xC1; 0xC2]] [])
           0x00 [0x04; 0x01; 0x01] [0xC1; 0xC2] []).
  - vm_compute. discriminate.
  - reflexivity.
  - reflexivity.
  - reflexivity.
  - vm_compute. discriminate.
  - left. discriminate.
Defined.

(** Three frames of an answer: 0xAF, 0xAF, 0x00. *)
Lemma DesfireExchangeNative_rx_chaining_witness :
  exists tail',
    @DesfireExchangeNative Mock.frame_limit false 0x60 [] (zeros 8) true 0
      (mkTransport [card_frame 0xAF [0x01; 0x02] [0xC1; 0xC2];
                    card_frame 0xAF [0x03] [0xC3; 0xC4];
                    card_frame 0x00 [0x04; 0x05] [0xC5; 0xC6]] []) =
    Some (mkTransport []
            ([] ++ EvRaw false [0x60] :: repeat (EvRaw false [0xAF]) 2),
          mkExchResult PM3_SUCCESS 0x00
            ([0x01; 0x02] ++ concat (map fst [([0x03], [0xC3; 0xC4])]) ++ [0x04; 0x05] ++ tail')
            (zlen [0x01; 0x02] + zlen (concat (map fst [([0x03], [0xC3; 0xC4])]))
               + zlen [0x04; 0x05])) /\
    zlen ([0x01; 0x02] ++ concat (map fst [([0x03], [0xC3; 0xC4])]) ++ [0x04; 0x05] ++ tail')
      = zlen (zeros 8).
Proof.
  apply (@DesfireExchangeNative_rx_chaining Mock.frame_limit false 0x60 [] (zeros 8)
           (mkTransport [card_frame 0xAF [0x01; 0x02] [0xC1; 0xC2];
                         card_frame 0xAF [0x03] [0xC3; 0xC4];
                         card_frame 0x00 [0x04; 0x05] [0xC5; 0xC6]] [])
           [0x01; 0x02] [0xC1; 0xC2] [([0x03], [0xC3; 0xC4])] 0x00 [0x04; 0x05] [0xC5; 0xC6] []).
  - vm_compute. discriminate.
  - reflexivity.
  - reflexivity.
  - discriminate.
  - reflexivity.
  - vm_compute. discriminate.
  - repeat constructor. vm_compute. discriminate.
  - reflexivity.
  - vm_compute. discriminate.
  - reflexivity.
  - discriminate.
  - vm_compute. discriminate.
  - reflexivity.
Defined.

(** A chain that the card breaks off with the status 0xAE. *)
Lemma DesfireExchangeNative_chain_error_witness :
  exists tail',
    @DesfireExchangeNative Mock.frame_limit false 0x60 [] (zeros 8) true 0
      (mkTransport [card_frame 0xAF [0x01; 0x02] [0xC1; 0xC2];
                    card_frame 0xAE [] [0xC5; 0xC6]] []) =
    Some (mkTransport []
            ([] ++ EvRaw false [0x60] :: repeat (EvRaw false [0xAF]) 1),
          mkExchResult PM3_EAPDU_FAIL 0xAF
            ([0x01; 0x02] ++ concat (map fst (@nil (list Z * list Z))) ++ tail') 0) /\
    zlen ([0x01; 0x02] ++ concat (map fst (@nil (list Z * list Z))) ++ tail')
      = zlen (zeros 8).
Proof.
  apply (@DesfireExchangeNative_chain_error Mock.frame_limit false 0x60 [] (zeros 8)
           (mkTransport [card_frame 0xAF [0x01; 0x02] [0xC1; 0xC2];
                         card_frame 0xAE [] [0xC5; 0xC6]] [])
           [0x01; 0x02] [0xC1; 0xC2] [] 0xAE [] [0xC5; 0xC6] []).
  - vm_compute. discriminate.
  - reflexivity.
  - reflexivity.
  - discriminate.
  - reflexivity.
  - vm_compute. discriminate.
  - constructor.
  - reflexivity.
  - vm_compute. discriminate.
  - reflexivity.
  - vm_compute. discriminate.
  - reflexivity.
Defined.

(** A wrapped answer of one byte with the status word 0x9100. *)
Lemma DESFIRESendApduEx_status_witness :
  let out :=
    snd (@DESFIRESendApduEx Mock.apdu_encoder false (mkAPDU 0x90 0x60 0 0 0 []) 0x100 255
           (mkTransport [MockIso.card_answers [0x04] 0x91 0x00] [])) in
  apdu_sw out = 0x91 * 256 + 0x00 /\
  apdu_result_len out = zlen [0x04] /\
  ztake (apdu_result_len out) (apdu_result out) = [0x04] /\
  (apdu_res out = PM3_SUCCESS <->
     apdu_sw out = 0x9000 \/ apdu_sw out = 0x9100 \/ apdu_sw out = 0x9190 \/
     apdu_sw out = 0x91AF \/ apdu_sw out = 0x910C) /\
  (apdu_res out <> PM3_SUCCESS -> apdu_res out = PM3_EAPDU_FAIL).
Proof.
  destruct (@DESFIRESendApduEx_status Mock.apdu_encoder false (mkAPDU 0x90 0x60 0 0 0 [])
              0x100 255 (mkTransport [MockIso.card_answers [0x04] 0x91 0x00] [])
              [0x90; 0x60; 0; 0; 0; 0] (MockIso.card_answers [0x04] 0x91 0x00) [])
    as [_ Hsw].
  - reflexivity.
  - reflexivity.
  - reflexivity.
  - vm_compute. discriminate.
  - reflexivity.
  - apply (Hsw [0x04] 0x91 0x00); [reflexivity | lia | lia].
Defined.

(** GetVersion, wrapped, answered with three bytes and 0x9100. *)
Lemma DesfireExchangeISONative_single_answer_witness :
  @DesfireExchangeISONative Mock.frame_limit Mock.apdu_encoder false 0x60 [] (zeros 8) true 0
    (mkTransport [MockIso.card_answers [0x04; 0x01; 0x01] 0x91 0x00] []) =
  Some (mkTransport [] [EvApdu false [0x90; 0x60; 0; 0; 0; 0]],
        mkExchResult PM3_SUCCESS 0x00 [0x04; 0x01; 0x01; 0; 0; 0; 0; 0] 3).
Proof.
  apply (@DesfireExchangeISONative_single_answer Mock.apdu_encoder Mock.frame_limit false
           0x60 [] (zeros 8) true
           (mkTransport [MockIso.card_answers [0x04; 0x01; 0x01] 0x91 0x00] [])
           [0x90; 0x60; 0; 0; 0; 0] [0x04; 0x01; 0x01] 0x91 0x00 []).
  - vm_compute. discriminate.
  - reflexivity.
  - reflexivity.
  - reflexivity.
  - lia.
  - lia.
  - vm_compute. discriminate.
  - left. vm_compute. discriminate.
Defined.

(** GetKeySettings (0x45) with no length check, answered with two bytes. *)
Lemma DesfireCommandEx_single_answer_witness :
  exists t' c' r,
    @DesfireCommandEx Mock.frame_limit Mock.apdu_encoder Mock.plain_codec 0x45 [] (zeros 8)
      (-1) 0 (mkTransport [card_frame 0x00 [0x0F; 0x21] [0xC1; 0xC2]] [])
      (Mock.fresh_context 0 T_AES (zeros 16) DCCNative) = Some (t', c', Next r) /\
    cmd_res r = PM3_SUCCESS /\ cmd_resplen r = 2 /\
    ztake 2 (cmd_resp r) = [0x0F; 0x21].
Proof.
  do 3 eexists. split.
  - apply (@DesfireCommandEx_single_answer Mock.frame_limit Mock.apdu_encoder
             Mock.plain_codec (Mock.fresh_context 0 T_AES (zeros 16) DCCNative) 0x45 []
             (zeros 8) (-1) (mkTransport [card_frame 0x00 [0x0F; 0x21] [0xC1; 0xC2]] [])
             0x00 [0x0F; 0x21] [0xC1; 0xC2] []); by_computation.
  - repeat split.
Defined.

(** The settings of a standard data file with the access rights 0x3412. *)
Lemma DesfireFillFileSettings_access_rights_witness :
  let fs := @DesfireFillFileSettings Mock.file_comm_modes
              [0x00; 0x80; 0x12; 0x34; 0x20; 0x00; 0x00; 0x01; 0x21; 0x43] 9 in
  let r := FileSettings.rAccess fs in
  let w := FileSettings.wAccess fs in
  let rw := FileSettings.rwAccess fs in
  let ch := FileSettings.chAccess fs in
  (0 <= r < 16 /\ 0 <= w < 16 /\ 0 <= rw < 16 /\ 0 <= ch < 16) /\
  FileSettings.rawAccessRights fs = ch + 16 * rw + 256 * w + 4096 * r /\
  DesfireEncodeFileAcessMode r w rw ch = [0x12; 0x34].
Proof.
  apply (@DesfireFillFileSettings_access_rights Mock.file_comm_modes
           [0x00; 0x80; 0x12; 0x34; 0x20; 0x00; 0x00; 0x01; 0x21; 0x43] 9).
  - lia.
  - vm_compute. split; [discriminate | reflexivity].
  - vm_compute. split; [discriminate | reflexivity].
Defined.

(** The second and the third application have the AID looked for. *)
Lemma AppListSearchAID_first_match_witness :
  let L := [mkApp 0x112233; mkApp 0x445566; mkApp 0x445566] in
  let r := AppListSearchAID 0x445566 L 3 in
  (r = -1 \/ (0 <= r < 3 /\ appNum (nth (Z.to_nat r) L (mkApp 0)) = 0x445566)) /\
  (forall j, 0 <= j < (if r =? -1 then 3 else r) ->
     appNum (nth (Z.to_nat j) L (mkApp 0)) <> 0x445566).
Proof.
  apply (AppListSearchAID_first_match 0x445566
           [mkApp 0x112233; mkApp 0x445566; mkApp 0x445566] 3).
  vm_compute. split; discriminate.
Defined.

(** Two blocks of four bytes, with two and one byte of data. *)
Lemma DesfireJoinBlockToBytes_concat_witness :
  let blockdata := [2; 0x0A; 0x0B; 0; 1; 0x0C; 0; 0] in
  let joined := concat (map (block_data blockdata 4) (indices 2)) in
  snd (DesfireJoinBlockToBytes blockdata 2 4 (zeros 8)) = zlen joined /\
  ztake (zlen joined) (fst (DesfireJoinBlockToBytes blockdata 2 4 (zeros 8))) = joined.
Proof.
  apply (DesfireJoinBlockToBytes_concat [2; 0x0A; 0x0B; 0; 1; 0x0C; 0; 0] 2 4 (zeros 8)).
  - lia.
  - lia.
  - intros j Hj.
    assert (Hcases : j = 0 \/ j = 1) by lia.
    destruct Hcases as [-> | ->]; vm_compute; split; discriminate.
Defined.

(** Five bytes over two blocks that hold up to three bytes each. *)
Lemma DesfireSplitBytesToBlock_join_witness :
  let split := DesfireSplitBytesToBlock [3; 0; 0; 0; 3; 0; 0; 0] 2 4 [1; 2; 3; 4; 5] 5 in
  let joined := DesfireJoinBlockToBytes (fst split) (snd split) 4 (zeros 8) in
  0 <= snd split <= 2 /\
  0 <= snd joined <= 5 /\
  ztake (snd joined) (fst joined) = ztake (snd joined) [1; 2; 3; 4; 5] /\
  ((forall j, 0 <= j < 2 -> 0 < zget [3; 0; 0; 0; 3; 0; 0; 0] (j * 4)) ->
   snd joined = Z.min 5 (block_lengths (Z.to_nat 2) 0 [3; 0; 0; 0; 3; 0; 0; 0] 4)).
Proof.
  apply (DesfireSplitBytesToBlock_join [3; 0; 0; 0; 3; 0; 0; 0] 2 4 [1; 2; 3; 4; 5] 5
           (zeros 8)).
  - lia.
  - lia.
  - vm_compute. discriminate.
  - vm_compute. split; discriminate.
  - intros j Hj.
    assert (Hcases : j = 0 \/ j = 1) by lia.
    destruct Hcases as [-> | ->]; vm_compute; repeat split; discriminate.
Defined.

(** A file type that does not exist, and a value file with settings of the
    wrong length. *)
Lemma DesfireCreateFile_checks_witness :
  let t := mkTransport [] [] in
  let c := Mock.fresh_context 0 T_AES (zeros 16) DCCNative in
  @DesfireCreateFile Mock.frame_limit Mock.apdu_encoder Mock.plain_codec 0x07 (zeros 7) 7
    true t c = Some (t, c, Next (-100)) /\
  @DesfireCreateFile Mock.frame_limit Mock.apdu_encoder Mock.plain_codec 0x02 (zeros 7) 7
    true t c = Some (t, c, Next (-110)).
Proof.
  split.
  - apply (@DesfireCreateFile_checks Mock.frame_limit Mock.apdu_encoder Mock.plain_codec
             0x07 (zeros 7) 7 true). lia.
  - apply (@DesfireCreateFile_checks Mock.frame_limit Mock.apdu_encoder Mock.plain_codec
             0x02 (zeros 7) 7 true); [lia | reflexivity | lia].
Defined.

(** 0x001E00 = 7680 bytes of free memory. *)
Lemma DesfireGetFreeMem_answer_witness :
  exists t' c',
    @DesfireGetFreeMem Mock.frame_limit Mock.apdu_encoder Mock.plain_codec
      (mkTransport [card_frame 0x00 [0x00; 0x1E; 0x00] [0xC1; 0xC2]] [])
      (Mock.fresh_context 0 T_AES (zeros 16) DCCNative) =
    Some (t', c', Next (PM3_SUCCESS, 7680)).
Proof.
  do 2 eexists.
  apply (@DesfireGetFreeMem_answer Mock.frame_limit Mock.apdu_encoder Mock.plain_codec
           (Mock.fresh_context 0 T_AES (zeros 16) DCCNative)
           (mkTransport [card_frame 0x00 [0x00; 0x1E; 0x00] [0xC1; 0xC2]] [])
           0x00 [0x00; 0x1E; 0x00] [0xC1; 0xC2] []); by_computation.
Defined.

(** GetValue on file 3, answered with the value 0x00000102. *)
Lemma DesfireValueFileOperations_answer_witness :
  exists t' c',
    @DesfireValueFileOperations Mock.frame_limit Mock.apdu_encoder Mock.plain_codec
      0x03 MFDES_GET_VALUE 0
      (mkTransport [card_frame 0x00 [0x02; 0x01; 0x00; 0x00] [0xC1; 0xC2]] [])
      (Mock.fresh_context 0 T_AES (zeros 16) DCCNative) =
    Some (t', c', Next (PM3_SUCCESS, 258)).
Proof.
  do 2 eexists.
  apply (@DesfireValueFileOperations_answer Mock.frame_limit Mock.apdu_encoder
           Mock.plain_codec (Mock.fresh_context 0 T_AES (zeros 16) DCCNative)
           0x03 MFDES_GET_VALUE 0
           (mkTransport [card_frame 0x00 [0x02; 0x01; 0x00; 0x00] [0xC1; 0xC2]] [])
           0x00 [0x02; 0x01; 0x00; 0x00] [0xC1; 0xC2] []); by_computation.
Defined.

(** The ATS parameter (id 0x02) under EV1: CRC32 and the final 0x80. *)
Lemma DesfireSetConfiguration_layout_witness :
  let c := Mock.authenticated_context 0 T_AES (zeros 16) DACEV1 in
  let t := mkTransport [card_frame 0x00 [] [0xC1; 0xC2]] [] in
  @DesfireSetConfiguration Mock.frame_limit Mock.apdu_encoder Mock.plain_codec Mock.checksums
    0x02 [0x06; 0x75] 2 t c =
  (r <- @DesfireCommand Mock.frame_limit Mock.apdu_encoder Mock.plain_codec
          MFDES_CHANGE_CONFIGURATION
          (0x02 :: [0x06; 0x75] ++
             @desfire_crc32 Mock.checksums [MFDES_CHANGE_CONFIGURATION; 0x02; 0x06; 0x75] ++
             [0x80])
          (zeros 257) (-1) ;;
   ret (if (cmd_res r =? 0) && (cmd_resplen r >? 0) then -20 else cmd_res r)) t c.
Proof.
  apply (@DesfireSetConfiguration_layout Mock.frame_limit Mock.apdu_encoder Mock.plain_codec
           Mock.checksums 0x02 [0x06; 0x75] 2
           (mkTransport [card_frame 0x00 [] [0xC1; 0xC2]] [])
           (Mock.authenticated_context 0 T_AES (zeros 16) DACEV1)).
  - exact Mock_checksums_sized.
  - vm_compute. split; discriminate.
  - lia.
Defined.

(** SELECT of the master file: accepted, answered with a 0x91 status word,
    and refused. *)
Lemma DesfireISOSelect_status_word_witness :
  let c := Mock.authenticated_context 0 T_AES (zeros 16) DACEV1 in
  let enc := [0x00; 0xA4; 0x00; 0x00; 0x00; 0x00] in
  (exists t' c',
     @DesfireISOSelect Mock.apdu_encoder MockIso.iso7816 ISSMFDFEF [] 0 (Some (zeros 4, 0))
       (mkTransport [MockIso.card_answers [0x6F] 0x90 0x00] []) c =
     Some (t', c', Next (PM3_SUCCESS, Some ([0x6F; 0; 0; 0], 1))) /\
     session_cleared c' /\ appSelected c' = false) /\
  (exists t',
     @DesfireISOSelect Mock.apdu_encoder MockIso.iso7816 ISSMFDFEF [] 0 (Some (zeros 4, 0))
       (mkTransport [MockIso.card_answers [] 0x91 0x00] []) c =
     Some (t', c, Next (PM3_ESOFT, Some (zeros 4, 0)))) /\
  (exists t' c',
     @DesfireISOSelect Mock.apdu_encoder MockIso.iso7816 ISSMFDFEF [] 0 (Some (zeros 4, 0))
       (mkTransport [MockIso.card_answers [] 0x6A 0x82] []) c =
     Some (t', c', Next (PM3_EAPDU_FAIL, Some (zeros 4, 0))) /\
     session_cleared c').
Proof.
  split; [|split].
  - do 2 eexists. split.
    + apply (@DesfireISOSelect_status_word Mock.apdu_encoder MockIso.iso7816 ISSMFDFEF [] 0
               (zeros 4) 0 (mkTransport [MockIso.card_answers [0x6F] 0x90 0x00] [])
               (Mock.authenticated_context 0 T_AES (zeros 16) DACEV1)
               [0x00; 0xA4; 0x00; 0x00; 0x00; 0x00] [0x6F] 0x90 0x00 []);
        [reflexivity | reflexivity | lia | lia | vm_compute; discriminate].
    + split; [repeat split | reflexivity].
  - eexists.
    apply (@DesfireISOSelect_status_word Mock.apdu_encoder MockIso.iso7816 ISSMFDFEF [] 0
             (zeros 4) 0 (mkTransport [MockIso.card_answers [] 0x91 0x00] [])
             (Mock.authenticated_context 0 T_AES (zeros 16) DACEV1)
             [0x00; 0xA4; 0x00; 0x00; 0x00; 0x00] [] 0x91 0x00 []);
      [reflexivity | reflexivity | lia | lia | vm_compute; discriminate].
  - do 2 eexists. split.
    + apply (@DesfireISOSelect_status_word Mock.apdu_encoder MockIso.iso7816 ISSMFDFEF [] 0
               (zeros 4) 0 (mkTransport [MockIso.card_answers [] 0x6A 0x82] [])
               (Mock.authenticated_context 0 T_AES (zeros 16) DACEV1)
               [0x00; 0xA4; 0x00; 0x00; 0x00; 0x00] [] 0x6A 0x82 []);
        [reflexivity | reflexivity | lia | lia | vm_compute; discriminate].
    + repeat split.
Defined.

(** SELECT of the master file on a reader that times out. *)
Lemma DesfireISOSelect_transport_failure_witness :
  let c := Mock.authenticated_context 0 T_AES (zeros 16) DACEV1 in
  exists t' out',
    @DesfireISOSelect Mock.apdu_encoder MockIso.iso7816 ISSMFDFEF [] 0 None
      (mkTransport [mkReply PM3_ETIMEOUT []] []) c =
    Some (t', set_appSelected (iso_select_app ISSMFDFEF [] 0) (DesfireClearSession c),
          Next (PM3_ETIMEOUT, out')).
Proof.
  apply (@DesfireISOSelect_transport_failure Mock.apdu_encoder MockIso.iso7816 ISSMFDFEF [] 0
           None (mkTransport [mkReply PM3_ETIMEOUT []] [])
           (Mock.authenticated_context 0 T_AES (zeros 16) DACEV1)
           [0x00; 0xA4; 0x00; 0x0C; 0x00; 0x00] (mkReply PM3_ETIMEOUT []) []).
  - reflexivity.
  - reflexivity.
  - discriminate.
Defined.


(** An EV1 authentication that the card refuses (0xAE), and an
    authentication asked for with the channel [DACNone]. *)
Lemma DesfireAuthenticate_codes_witness :
  let c := Mock.fresh_context 1 T_AES (repeat 0x00 16) DCCNative in
  (exists t' c',
     @DesfireAuthenticate Mock.frame_limit Mock.apdu_encoder MockIso.iso7816
       Mock.plain_codec Mock.null_cipher MockIso.context_crypto DACEV1 false
       (mkTransport [Mock.card_says 0xAE []] []) c = Some (t', c', Next 1) /\
     DesfireAuthErrorToStr 1 <> ""%string) /\
  (exists t' c',
     @DesfireAuthenticate Mock.frame_limit Mock.apdu_encoder MockIso.iso7816
       Mock.plain_codec Mock.null_cipher MockIso.context_crypto DACNone false
       (mkTransport [Mock.card_says 0xAE []] []) c = Some (t', c', Next 100) /\
     t' = mkTransport [Mock.card_says 0xAE []] [] /\ c' = c).
Proof.
  intros c. split.
  - do 2 eexists. split; [vm_compute; reflexivity|].
    edestruct (@DesfireAuthenticate_codes Mock.frame_limit Mock.apdu_encoder MockIso.iso7816
                 Mock.plain_codec Mock.null_cipher MockIso.context_crypto DACEV1 false
                 (mkTransport [Mock.card_says 0xAE []] []) c)
      as [code [Ho [Hmsg _]]]; [vm_compute; reflexivity|].
    injection Ho as <-. destruct Hmsg as [Hok | Hmsg]; [discriminate Hok | exact Hmsg].
  - do 2 eexists. split; [vm_compute; reflexivity|].
    edestruct (@DesfireAuthenticate_codes Mock.frame_limit Mock.apdu_encoder MockIso.iso7816
                 Mock.plain_codec Mock.null_cipher MockIso.context_crypto DACNone false
                 (mkTransport [Mock.card_says 0xAE []] []) c)
      as [code [Ho [_ [_ Hcodes]]]]; [vm_compute; reflexivity|].
    cbn in Hcodes. destruct Hcodes as [_ [Ht Hc]]. split; [exact Ht | exact Hc].
Defined.

(** Select without authentication, accepted by the card in the middle of
    an EV1 session. *)
Lemma DesfireSelectAndAuthenticateEx_outcome_witness :
  let c := Mock.authenticated_context 1 T_AES (zeros 16) DACEV1 in
  exists t' c',
    @DesfireSelectAndAuthenticateEx Mock.frame_limit Mock.apdu_encoder MockIso.iso7816
      Mock.plain_codec Mock.null_cipher MockIso.context_crypto DACEV1 0x123456 true false
      (mkTransport [Mock.card_says 0x00 []] []) c = Some (t', c', Next PM3_SUCCESS) /\
    session_cleared c'.
Proof.
  intros c. do 2 eexists. split; [vm_compute; reflexivity|].
  edestruct (@DesfireSelectAndAuthenticateEx_outcome Mock.frame_limit Mock.apdu_encoder
               MockIso.iso7816 Mock.plain_codec Mock.null_cipher MockIso.context_crypto
               DACEV1 0x123456 true false (mkTransport [Mock.card_says 0x00 []] []) c)
    as [code [Ho [_ [Hok _]]]]; [vm_compute; reflexivity|].
  injection Ho as <-. exact (Hok eq_refl).
Defined.

(** Select and authenticate under the ISO command set, on a card that does
    not answer. *)
Lemma DesfireSelectAndAuthenticateEx_iso_select_failure_witness :
  let c := Mock.fresh_context 0 T_AES (zeros 16) DCCISO in
  let t := mkTransport [] [] in
  exists t' c',
    @DesfireSelectAndAuthenticateEx Mock.frame_limit Mock.apdu_encoder MockIso.iso7816
      Mock.plain_codec Mock.null_cipher MockIso.context_crypto DACEV1 0x123456 false false t c
      = Some (t', c', Next 200) /\
    (exists res, res <> PM3_SUCCESS /\
       @DesfireSelectAIDHex Mock.frame_limit Mock.apdu_encoder Mock.plain_codec
         (set_cmdSet DCCNativeISO c) 0x123456 false 0 t = Some (t', c', res)) /\
    cmdSet c' = DCCNativeISO.
Proof.
  intros c t. do 2 eexists. split; [vm_compute; reflexivity|].
  edestruct (@DesfireSelectAndAuthenticateEx_iso_select_failure Mock.frame_limit
               Mock.apdu_encoder MockIso.iso7816 Mock.plain_codec Mock.null_cipher
               MockIso.context_crypto DACEV1 0x123456 false false t c)
    as [code [Ho [Hiff Hset]]].
  - apply Mock_plain_codec_preserves.
  - reflexivity.
  - vm_compute. reflexivity.
  - injection Ho as <-. split; [apply Hiff; reflexivity | apply Hset; reflexivity].
Defined.

(** Key 2 is changed in a session on key 1. *)
Lemma DesfireChangeKey_other_key_keeps_session_witness :
  exists t' dctx',
    @DesfireChangeKey Mock.frame_limit Mock.apdu_encoder Mock.plain_codec Mock.checksums
      Mock.key_ops (Mock.authenticated_context 1 T_AES (repeat 0x00 16) DACEV1)
      false 2 T_AES 0x10 (repeat 0x22 16) T_AES (repeat 0x00 16) false
      (mkTransport [Mock.card_says 0x00 []] []) = Some (t', dctx', PM3_SUCCESS) /\
    (secureChannel dctx' = DACEV1 /\
     sessionKeyEnc dctx' =
       sessionKeyEnc (Mock.authenticated_context 1 T_AES (repeat 0x00 16) DACEV1)).
Proof.
  do 2 eexists. split; [vm_compute; reflexivity|].
  eapply (@DesfireChangeKey_other_key_keeps_session Mock.frame_limit Mock.apdu_encoder
           Mock.plain_codec Mock.checksums Mock.key_ops
           (fun c => secureChannel c = DACEV1 /\
                     sessionKeyEnc c =
                       sessionKeyEnc
                         (Mock.authenticated_context 1 T_AES (repeat 0x00 16) DACEV1))
           (Mock.authenticated_context 1 T_AES (repeat 0x00 16) DACEV1)
           false 2 T_AES 0x10 (repeat 0x22 16) T_AES (repeat 0x00 16) false
           (mkTransport [Mock.card_says 0x00 []] []) _ _ PM3_SUCCESS).
  - apply Mock_plain_codec_preserves.
  - apply Mock_plain_codec_preserves.
  - split; reflexivity.
  - discriminate.
  - vm_compute. reflexivity.
Defined.

(** GetVersion and a select under the ISO command set. *)
Lemma DesfireCommandEx_iso_command_set_witness :
  let c := Mock.authenticated_context 1 T_AES (zeros 16) DACEV1 in
  let c := set_cmdSet DCCISO c in
  let t := mkTransport [Mock.card_says 0x00 []] [] in
  @DesfireCommandEx Mock.frame_limit Mock.apdu_encoder Mock.plain_codec 0x60 [] (zeros 8)
    (-1) 0 t c = Some (t, c, Next (mkCmdResult PM3_EAPDU_FAIL (zeros 8) 0)) /\
  @DesfireSelectAID Mock.frame_limit Mock.apdu_encoder Mock.plain_codec c
    (Some [0x01; 0x02; 0x03]) None t =
  Some (t, set_secureChannel DACNone c, PM3_EAPDU_FAIL).
Proof.
  apply (@DesfireCommandEx_iso_command_set Mock.frame_limit Mock.apdu_encoder
           Mock.plain_codec
           (set_cmdSet DCCISO (Mock.authenticated_context 1 T_AES (zeros 16) DACEV1))
           0x60 [] (zeros 8) (-1) 0 [0x01; 0x02; 0x03] None
           (mkTransport [Mock.card_says 0x00 []] [])).
  reflexivity.
Defined.

(** WriteData (0x3D) with 60 bytes under a frame limit of 56. *)
Lemma DesfireExchangeISONative_tx_chaining_witness :
  exists r,
    @DesfireExchangeISONative Mock.frame_limit Mock.apdu_encoder false 0x3D (repeat 0x11 60)
      (zeros 8) true 0
      (mkTransport [mkReply PM3_SUCCESS [0x91; 0xAF]; MockIso.card_answers [] 0x91 0x00] []) =
    Some (mkTransport []
            [EvApdu false ([0x90; 0x3D; 0; 0; 56] ++ repeat 0x11 56 ++ [0x00]);
             EvApdu false ([0x90; 0xAF; 0; 0; 4] ++ repeat 0x11 4 ++ [0x00])], r) /\
    ex_res r = PM3_SUCCESS /\ ex_respcode r = 0x00.
Proof.
  eexists. split.
  - apply (@DesfireExchangeISONative_tx_chaining Mock.frame_limit Mock.apdu_encoder false 0x3D
             (repeat 0x11 60) (zeros 8) true
             (mkTransport [mkReply PM3_SUCCESS [0x91; 0xAF];
                           MockIso.card_answers [] 0x91 0x00] [])
             ([0x90; 0x3D; 0; 0; 56] ++ repeat 0x11 56 ++ [0x00])
             ([0x90; 0xAF; 0; 0; 4] ++ repeat 0x11 4 ++ [0x00]) [] 0x91 0x00 []).
    + vm_compute. split; reflexivity.
    + vm_compute. split; [reflexivity | discriminate].
    + reflexivity.
    + reflexivity.
    + reflexivity.
    + reflexivity.
    + lia.
    + lia.
    + vm_compute. discriminate.
    + left. vm_compute. discriminate.
  - split; reflexivity.
Defined.

(** A select of application 0x030201 that the card accepts, in the middle
    of an EV1 session. *)
Lemma DesfireSelectAID_single_answer_witness :
  let ctx := Mock.authenticated_context 1 T_AES (zeros 16) DACEV1 in
  exists ctx',
    @DesfireSelectAID Mock.frame_limit Mock.apdu_encoder Mock.plain_codec ctx
      (Some [0x01; 0x02; 0x03]) None (mkTransport [Mock.card_says 0x00 []] []) =
    Some (mkTransport []
            [EvDropField; EvSleep 50; EvRaw true [0x5A; 0x01; 0x02; 0x03]],
          ctx', PM3_SUCCESS) /\
    secureChannel ctx' = DACNone /\ appSelected ctx' = true.
Proof.
  eexists. split.
  - apply (@DesfireSelectAID_single_answer Mock.frame_limit Mock.apdu_encoder Mock.plain_codec
             (Mock.authenticated_context 1 T_AES (zeros 16) DACEV1) [0x01; 0x02; 0x03]
             (mkTransport [Mock.card_says 0x00 []] []) 0x00 [] [0xC1; 0xC2] []);
      by_computation.
  - split; reflexivity.
Defined.

(** An ISO authentication in the middle of an EV1 session, on a card that
    does not answer. *)
Lemma DesfireAuthenticateISO_failure_keeps_context_witness :
  let c := set_cmdSet DCCISO (Mock.authenticated_context 1 T_AES (zeros 16) DACEV1) in
  exists t',
    @DesfireAuthenticateISO Mock.apdu_encoder MockIso.iso7816 MockIso.context_crypto
      DACEV1 false (mkTransport [] []) c = Some (t', c, Next 301) /\
    secureChannel c = DACEV1.
Proof.
  intros c. eexists. split; [vm_compute; reflexivity|].
  edestruct (@DesfireAuthenticateISO_failure_keeps_context Mock.apdu_encoder MockIso.iso7816
               MockIso.context_crypto (fun c => secureChannel c = DACEV1) DACEV1 false
               (mkTransport [] []) c) as [code [Ho [Hkeep _]]].
  - intros c0 use src len encode Hc. exact Hc.
  - intros c0 Hc. exact Hc.
  - reflexivity.
  - vm_compute. reflexivity.
  - injection Ho as <-. apply Hkeep. discriminate.
Defined.

(** A standard data file, created with settings of seven bytes; the card
    answers 0x00. *)
Lemma DesfireCreateFile_answer_witness :
  exists t' c',
    @DesfireCreateFile Mock.frame_limit Mock.apdu_encoder Mock.plain_codec 0x00
      [0x01; 0x00; 0xEE; 0xEE; 0x20; 0x00; 0x00] 7 true
      (mkTransport [Mock.card_says 0x00 []] [])
      (Mock.fresh_context 0 T_AES (zeros 16) DCCNative) = Some (t', c', Next PM3_SUCCESS).
Proof.
  do 2 eexists.
  apply (@DesfireCreateFile_answer Mock.frame_limit Mock.apdu_encoder Mock.plain_codec
           (Mock.fresh_context 0 T_AES (zeros 16) DCCNative) 0x00
           (mkFileCommand 0x00 "Standard data" MFDES_CREATE_STD_DATA_FILE 6 6 true)
           [0x01; 0x00; 0xEE; 0xEE; 0x20; 0x00; 0x00] 7 true
           (mkTransport [Mock.card_says 0x00 []] []) 0x00 [] [0xC1; 0xC2] []).
  - reflexivity.
  - right. left. reflexivity.
  - reflexivity.
  - reflexivity.
  - vm_compute. discriminate.
  - reflexivity.
  - reflexivity.
  - reflexivity.
  - vm_compute. discriminate.
  - vm_compute. discriminate.
  - discriminate.
Defined.

